(* ===== verification/_CoqProject ===== *)
-Q . S2P
Prelude.v
Text.v
Number.v
Float64.v
Exact.v
Order.v
Binary64.v
Types.v
Spawner.v
Scoring.v
Render.v
Session.v
Clock.v
Motion.v
Refinement.v
View.v
Canvas.v
Paint.v
Effects.v
Pointer.v
Input.v
Lifecycle.v
Trees.v
Separation.v
Freeze.v
