(* ===== verification/Prelude.v ===== *)
(** * Padel training simulator: a verification development

    The program verified here is the single React component [PaddleGame] of
    [src/app/page.tsx]: a 60 second reflex game.  Targets are spawned on one
    row of a canvas, the player clicks them, each click is scored by its
    distance to the target's centre, clicks in the net are penalised, and the
    session ends in a summary (score, accuracy, mean reaction time).

    ** The program's parts and the files that model them

    - [Prelude] (this file): notation scope, tactics, the hint database
      [game], decimal printing of integers (the template literal
      [`+${points}`]), and the loop shapes the source uses on arrays: a
      backward index loop that updates in place and splices the dead entries
      ([retainBackward], the sparkle and feedback loops of [draw]), what such
      a loop emits in the iterations that continue ([emitBackward], the
      painting of those loops), and a backward index scan that stops at the
      first match ([scanBackward], the hit test of [handleCanvasClick]).
      Each is proved equal to its list-level reference ([filter]/[map],
      last match of a list).  [allFrom] is a test on every integer of a
      range, for the checks by evaluation; [pairwise] relates every two
      entries of a list.
    - [Text]: the strings of the displays: [padStart], the digit layout of
      [toFixed], and a reader of decimal text to say what a text denotes.
    - [Number]: the interface [Number] of the JavaScript [number] operations
      the component uses ([+ - * / %], [<], [<=], [Math.max], [Math.min],
      [Math.floor], [Math.round], [Math.sqrt], [Math.PI], [toFixed], integer
      literals).  The game is written once against this interface.
    - [Float64]: the instance that is what the browser runs: IEEE 754
      binary64, by Rocq's primitive floats.  Every definition of the game
      evaluates at this instance by [vm_compute].
    - [Exact]: the instance over the real numbers [R], the idealisation under
      which the arithmetic properties of the spec are stated ("accuracy is
      in [0,1]", "a target never leaves the canvas", "the spawn loop cannot
      terminate on a narrow canvas").
    - [Order]: what the game relies on of [<], [<=], [Math.max] and
      [Math.min], as a class of laws ([NumberOrder]: which values are NaN,
      comparisons false on NaN and a total preorder on numbers, maximum and
      minimum as bounds), with its instance over the reals.
    - [Binary64]: the instance of [NumberOrder] at binary64, proved from
      the IEEE 754 specification of the primitive floats ([SpecFloat]): the
      results of [-] and [/] on numbers other than the exceptional cases are
      numbers, the comparisons are a total preorder.
    - [Types]: the data of the component: [GameState], [Difficulty], the
      interfaces [Target], [Feedback], [Sparkle], [GameStats], the mutable
      object [gameRef.current] ([Game]) with one setter per field, and the
      layout constants ([TARGET_SPAWN_Y], [NET_Y], ...).
    - [Spawner]: [addNewTarget], the rejection-sampling [while] loop
      included, and the contract of the spawner in the spec ([spawned]).
    - [Scoring]: [calculatePoints] and [handleCanvasClick] (net penalty, hit
      scan from the most recent target, replacement of the hit target, miss
      with its burst of eight sparkles), and the same as a relation with
      one rule per branch ([clicked]).
    - [Render]: the state changes hidden in [draw]: drift and bounce of moving
      targets, ageing and pruning of sparkles and feedback.
    - [Session]: the component as a whole.  Its React state ([canvasSize],
      [gameState], [difficulty], [gameStats]), the object behind [gameRef]
      and what the running game-loop effect holds in its closure
      ([startTime], its canvas size, whether a frame is requested) are the
      record [App.t]; [updateCanvasSize], [initializeGame],
      [handleMouseMove], the game-loop effect ([gameLoopEffect]) and one
      animation frame ([gameLoop]: its head [beforeDraw] with the hard-mode
      [oscillate], then [draw], then the summary [statsOf]/[averageOf]) are
      functions on it.  What can happen to the component is the type
      [Event]; [handle] sends an event to its handler when the screen on
      display has the element it comes from (the dispatch of lines
      731-737), [handled] is the same as a relation with one rule per
      handler, [run] handles a list of events, and [reachable] is the set
      of states a run from the mounted component ([App.init]) can reach.
      The file proves the invariant [appOk] of the reachable states.
    - [Clock]: the runs whose clock readings are in order ([clockOk],
      [reachableAt]), and what holds then of the times the game records.
    - [Motion]: the two moves of a target in a frame of a hard game
      ([oscillate] in [gameLoop], then [moveTarget] in [draw]), composed,
      and the clamp of the oscillation from the laws of the order.
    - [Refinement]: the session machine of the spec ([Spec.step]: start,
      hit, penalty, finish, leave), the [abstraction] of a state of the
      component to a state of the machine, and the proof that every handler
      takes a step of the machine or none; the bounds of the score.
    - [View]: what the screens display: the screen of each [gameState]
      ([render]), the HUD of [renderGame] ([hudMode], [hudTime],
      [scoreText]) and the summary of [renderEnd] ([endMode],
      [accuracyPercent], [perfectText], [reactionText]), the elements
      with a handler of each screen ([offers]), and the buttons of the menu
      and of the end screen with their captions ([renderMenu],
      [endButtons]).
    - [Canvas]: the calls on the 2D context as data ([Ctx.Op]) and what
      they do to a context ([exec]): drawing state, stack of saved states,
      log of what was painted; an alpha outside the range 0 to 1 is ignored
      ([validAlpha]).  A model of the canvas API, not of code of the
      repository.
    - [Paint]: the painting of [draw]: the list of calls it makes, in
      order ([paint]: court, net grid, targets, sparkles, feedback), and the
      [draw(ctx)] of a frame ([paintFrame]).
    - [Effects]: the values the opacity of a feedback and the life of a
      sparkle take ([level]), as an invariant of the component
      ([effectsOk]), and the alphas a frame assigns with them.
    - [Pointer]: [handleMouseMove] and the equivalence [sameGame] of states
      that differ in the stored pointer position only; handlers, screens
      and painting respect it ([Proper] instances), so pointer moves can be
      erased from a run.
    - [Input]: from the mouse event to the click the handlers see
      ([pointerPosition]), and where the browser shows a point of the
      canvas ([shownAt]).
    - [Lifecycle]: the component on its page: the mount effect
      ([mountEffect]: [updateCanvasSize] once, the listeners for [resize]
      and [fullscreenchange]) and the clean-ups of both effects
      ([mountCleanup], [loopCleanup]), in a model of what React and the
      browser do with them ([pageStep]: mount, unmount, delivery of an
      event through a listener, a pending frame or an element).
    - [Trees]: the handlers that draw random numbers ([addNewTarget],
      [handleCanvasClick], the two spawns of [initializeGame]) once more,
      as interaction trees ([addNewTargetT], [handleCanvasClickT],
      [initializeGameT]): [Math.random()] and [Date.now()] are events
      ([browserE]), the [while] loop is [ITree.iter] without a bound.  A
      tree is run against the oracle ([runTree]); [returns] and [hangs]
      say that the run ends with a value, or never does; [describes]
      relates a function on fuel to the tree it is the bounded account
      of.
    - [Separation]: the margin of the spawn as an invariant of the
      sessions without motion ([apart], [separated], [staticOk]), and the
      draws that put a new target at a free place ([placeDraws]): where
      the hit target was, or beside the target that stays
      ([placeBeside]).
    - [Freeze]: a run of the component over the reals for each screen
      wider than [Spawner.startWidth] and narrower than
      [Separation.roomWidth], followed handler by handler
      ([FreezeSample.session]): the start of a hard session, one frame,
      and a click whose respawn rejects every candidate.

    ** How state and effects are modelled

    - [gameRef.current] is the record [Types.Game]; a handler is a function
      from the state before to the state after.  React state is read from the
      closure of the last render, so a handler receives the values of
      [difficulty] and [canvasSize] as they were when it was created, which is
      what the Section variables [CANVAS_WIDTH], [CANVAS_HEIGHT] and
      [difficulty] of each component file stand for.
    - [Math.random()] is an oracle [Math_random : nat -> num]: its [k]-th
      value is the result of the [k]-th call.  Every function that draws
      takes the number of calls made so far and returns the new count.
    - [Date.now()] is an argument [now] of each handler: a handler runs to
      completion within one reading of the millisecond clock.  [draw] reads
      the clock again, once for the targets and once per sparkle it paints:
      these readings are arguments of [paint] ([now], [Date_now]).
    - [Math.sin] and [Math.cos] are implementation-approximated in
      ECMAScript.  The one value that reaches the state, [Math.sin(time *
      2)] of the oscillation, is an argument of the frame ([sin2t]); the
      painting takes the two functions as parameters.  No theorem depends
      on their values.
    - Painting is output: [paint] returns the calls on the context as a
      list, and [Canvas.execAll] says what they do to a context.  The state
      change of [draw] ([Render.draw]) and its painting ([Paint.paint]) are
      two functions of the same game; [paint_live] relates them.
    - Integers that the program keeps integral (score, points, identifiers,
      counters, millisecond timestamps) are [Z]: binary64 is exact on
      integers below 2^53, which a session of sixty seconds does not leave
      (the score is at most 100 per hit, [score_bounds]).  Everything else
      is a [num] of the [Number] interface.
    - The optional fields of [Target] ([velocity], [direction], [createdAt])
      are written by the only constructor site, so they are total fields; the
      truthiness tests of the source on them are kept ([createdAt ? .. : 0] is
      a test against 0, [velocity && velocity > 0] is [0 < velocity]).

    ** Fuel

    The unbounded loops are the [while (!validPosition)] of [addNewTarget]
    and the two [for] loops of the net grid in [draw], whose counter is a
    number.  Each is a [Fixpoint] on a fuel [nat]; [None] means the fuel
    ran out.  Termination is proved as "enough fuel gives the result": an
    accepted draw at iteration [k] gives a target for every fuel above [k]
    ([addNewTarget_terminates]); over the reals the grid loops return for
    every fuel above the number of lines ([paint_returns]).
    Non-termination is proved as "no fuel gives a result"
    ([easy_spawn_diverges], [narrow_spawn_diverges]; [gridLoop_absorbed]
    for a grid counter at 2^60 in binary64).  For the spawn loop, that
    this is the right reading of fuel is itself proved, in [Trees]: the
    loop written without fuel returns a result exactly when some fuel
    gives it, and returns nothing exactly when no fuel is enough
    ([spawn_tree_refines], [click_tree_refines]; by the loop invariant "no
    fuel is enough from here", and excluded middle to tell the two cases
    apart).  In binary64 the grid loops
    return within 700 rounds on every canvas of up to 8192 pixels a side
    ([paint_returns_binary64]): the columns by one evaluation at width
    8192 and the laws of the order (a loop that returns for a limit
    returns for every smaller one), the rows by evaluation at each
    integral height.  [Render.draw] and [gameLoop]
    are the state changes of a call that returns.

    ** Ranges checked by evaluation

    The theorems that hold of every state at binary64 rest on a check of
    every value of a finite range.  [frame_clock_binary64] and
    [session_ends_binary64]: the session ends at the first reading 60000
    ms after the start of the loop, checked on each of the 120001
    readings from 0 to 120000 ms ([onTime_two_minutes]); a session lasts
    half of that, and beyond the range the theorem still gives the test the
    code makes.  [frame_alphas_binary64]: an effect takes the values 1,
    1 - 0.02, 1 - 0.02 - 0.02, ...; the 50th subtraction gives a value below
    0, so there are fifty of them ([fadesOut_binary64]), each checked to be
    a valid alpha ([alphasValid_binary64]) and, but for the first, to be
    above 0 ([shinesTo_binary64], for [effect_lifetime_binary64]).
    [hud_clock_binary64]: the text of the clock, checked on the readings
    of the first two seconds and within a millisecond of every full
    second, up to 61 seconds ([clockShown_session]); a check of every
    millisecond takes the kernel minutes, and the seconds can only change
    where the quotient by 1000 is near an integer.

    ** What the theorems show

    Four families, told apart by the instance they are stated at.
    - For every [Number] instance, hence for binary64: the exact effect of
      each handler on each branch ([addNewTarget_pushes_one],
      [addNewTarget_size_radius], [click_scores_most_recent],
      [net_click_penalty], [click_miss_burst]); the equivalence of the
      index loops of [draw] with map-filter-map ([draw_reference]) and of
      its painting with the state it leaves ([paint_live]); termination
      of the spawn
      loop relative to the draws ([addNewTarget_terminates]) and the
      agreement of the functions on fuel with the handlers as interaction
      trees ([spawn_tree_refines], [click_tree_refines]); the invariant
      [appOk] of the reachable states, proved by induction on [reachable]
      from one preservation lemma per handler ([handle_ok]): two live
      targets while a game runs ([two_live_targets]), well-formed targets
      with distinct identifiers and consistent counters
      ([reachable_game_ok]), a frame requested exactly in a running game
      ([loop_armed_iff_game]), a summary that agrees with the game on the
      end screen ([summary_agrees]) and is displayed there
      ([end_screen_shown]), the transitions menu -> game -> end ->
      (game | menu) ([screen_transitions]), that the summary names the
      button that started the game ([caption_on_summary]), and that a
      running loop does not see a resize ([frame_ignores_resize]), which
      takes a change of the screen ([fixed_screen_sizes]); that nothing is
      delivered to an unmounted component ([unmount_is_final]) and a
      mounted one is in a reachable state ([mounted_page_ok]); the
      refinement of the session
      machine ([handle_refines_spec]); that the pointer position has no
      effect on the game, the screens or the painting
      ([pointer_noninterference]); and, on a clock that does not go back,
      the order of the recorded times ([times_in_order]).
    - For every instance with the laws of [NumberOrder], hence for
      binary64 on every input: the clamp of the oscillation
      ([hard_frame_clamp]), the test that ends the session
      ([gameLoop_end_test]), and that the painting leaves the context as
      it found it, with the alpha back at 1, and paints texts and
      rectangles upright ([paint_keeps_context]).
    - At [Exact]: the arithmetic.  Spawn separation ([spawn_margin]) and
      the whole contract of the spawner ([spawn_contract]); the
      divergence of the spawn loop of an easy session on a blocked row
      ([easy_spawn_diverges]), its converse ([easy_spawn_possible]) and
      the divergence in every mode on a narrower canvas
      ([narrow_spawn_diverges]), and a first spawn that returns with a
      target off a canvas narrower than the target
      ([first_spawn_off_canvas]); the width a session needs to start
      ([Spawner.startWidth]: 600, and 840 in easy mode): at most that wide,
      the second spawn of [initializeGame] never returns, whatever the
      draws ([narrow_start_hangs]), and above it there are draws with
      which the start returns ([wide_start_returns]); that the targets
      of an easy or intermediate session stay apart by the margin of the
      spawn for as long as they live ([static_targets_apart], by
      induction on [reachable]: nothing moves a target without velocity),
      so that the respawn after a hit can return, as it can in every
      mode on a canvas at least 1060 wide, 1300 in easy mode
      ([respawn_possible]), and that on every narrower screen on which
      it starts a hard session can drift into a state where it cannot:
      there the click on a target does not return, whatever is drawn
      ([hard_session_freezes]);
      the scale of points ([points_range],
      [centre_and_rim]) and the bounds of the score in every reachable
      state ([score_bounds]); the corridor of a moving target
      ([moveTarget_corridor], [hard_frame_corridor]); the lifetime of a
      feedback ([feedback_lifetime]); the clock ([gameLoop_clock],
      [timeLeft_range]); the displays: the score reads back from its text
      ([score_reads_back]), the clock of the HUD ([hud_clock]), the
      accuracy as a percentage ([accuracy_percentage]) and the average
      reaction time as the mean ([summary_average]); the grid of the net
      ([paint_returns]); and the mouse position: a click lands where the
      player sees it exactly when the canvas box has the size of its
      bitmap ([click_lands_where_shown]), is perfect on the centre of a
      target then ([fullscreen_centre_perfect]), and misses its target in
      a window ([windowed_click_misses]).
    - At [Float64]: concrete runs of the component, by evaluation: a
      session from the menu to the end screen ([scenario_end_to_end]),
      and, by evaluation on every input of a finite range, where binary64
      differs from exact arithmetic: the points of a hit
      ([points_rounding]) and the accuracy of the summary
      ([accuracy_binary64]), and where it does not: the clock of the HUD
      around every full second of a session ([hud_clock_binary64]).  Two theorems hold of every state at binary64,
      from the IEEE 754 specification and a check of a finite range: the
      clock of a frame ([frame_clock_binary64]: the remaining time is a
      number, at least 0, and the session ends on time), that every
      session ends ([session_ends_binary64]: from every reachable state of
      a running game the frame sixty seconds after the start is handled
      and shows the end screen), the alphas of a
      frame in every reachable state ([frame_alphas_binary64]) and the
      lifetime of an effect, 49 frames as over the reals
      ([effect_lifetime_binary64]), and the termination of the painting
      on every screen ([paint_returns_binary64]).

    The files hold further theorems of the same families that complete a
    component's account (among them [isHit_disc], [points_monotone],
    [spawn_inside_canvas], [averageOf_mean], [handled_is_offered],
    [feedback_colours], [session_display], [frame_sample]).

    A theorem over the reals that draws random numbers assumes them in
    [[0, 1)], as [Math.random()] promises.

    Each theorem with a hypothesis is applied to a concrete input in a
    lemma named after it ([..._witness]).  The sample inputs are in the
    modules [Sample] (Spawner), [ClickSample] (Scoring), [RenderSample]
    (Render), [Scenario] (Session, used by the later files too),
    [MotionSample], [ViewSample], [PaintSample], [EffectSample],
    [PointerSample], [InputSample], [PageSample] and [FreezeSample]: a
    1920 x 1080 screen, a recorded sequence of random numbers, fuel 10 for
    the spawns, which is ample there (no spawn of the sample runs rejects
    more than one candidate, so they return from fuel 2 on and, by
    [placement_fuel_mono], for every fuel above), and fuel 161 for the
    painting, the least that suffices for the 160 columns of the grid.
    Over the reals a state cannot be computed by evaluation: the states of
    a started session are those of [Separation.started_state], reached with
    the draws of [Trees.farDraws], and the run of [Freeze] is followed by
    the facts each handler leaves for the next.

    ** Not modelled

    - Pixels: what a call on the context does to the bitmap.  [Canvas]
      models the drawing state, the stack of [save] and [restore] and the
      order of the painted calls.
    - The markup of the screens beyond what they compute and their
      buttons: class names, headings, the static texts.
    - The fullscreen request of [initializeGame] (lines 115-119),
      [console.log] and the cursor style: whether the canvas box has the
      size of the bitmap is a parameter of [Input].  React re-renders are
      not steps of their own: [render] is what a render of the current
      state shows.  React itself and the browser's event delivery are not
      code of the repository: [Lifecycle.pageStep] is a model of them, as
      [Canvas] is of the 2D context.
    - [toFixed] on numbers of 10^21 and more (exponent notation), and the
      values of [Math.sin] and [Math.cos].
    - That rounding is monotone in binary64: the bounds that need it (the
      remaining time is at most 60, the corridor of a drifting target, the
      scale of points) are proved over the reals and evaluated at binary64
      on the samples.
    - Of the rules by which the canvas ignores an assignment, the one for
      [globalAlpha] only: it is the one property the source assigns a number
      it computes from the state; line widths and shadow blurs are
      literals. *)

From Stdlib Require Import ZArith String DecimalString.
From stdpp Require Import base option list.

Declare Scope num_scope.
Delimit Scope num_scope with num.

Create HintDb game discriminated.

(** ** Tactics *)

(** [split_if]: case analysis on the scrutinee of the first boolean
    conditional of the goal, the equation kept. *)
Ltac split_if :=
  match goal with
  | |- context [if ?b then _ else _] =>
      lazymatch type of b with
      | bool => let E := fresh "Hguard" in destruct b eqn:E
      end
  end.

(** [some_inv]: turn equations between [Some]s and pairs into equations
    between their components. *)
Ltac some_inv :=
  repeat match goal with
  | H : Some _ = Some _ |- _ => apply (inj Some) in H
  | H : (_, _) = (_, _) |- _ => apply pair_eq in H; destruct H
  | H : Some _ = None |- _ => discriminate H
  | H : None = Some _ |- _ => discriminate H
  end; subst.

(** ** Printing an integer, as a template literal does *)

(** [`${n}`] for an integral number [n]. *)
Definition string_of_Z (z : Z) : string :=
  NilZero.string_of_int (Z.to_int z).

(** ** Checking a range of integers by evaluation *)

(** [P] holds on the [n] integers from [z] on. *)
Fixpoint allFrom (P : Z -> bool) (z : Z) (n : nat) : bool :=
  match n with
  | O => true
  | S n => P z && allFrom P (z + 1) n
  end.

(** ** The two array loops of the source *)

(** A relation holds of every entry and every later entry of a list. *)
Fixpoint pairwise {A : Type} (R : A -> A -> Prop) (l : list A) : Prop :=
  match l with
  | [] => True
  | a :: l => Forall (R a) l /\ pairwise R l
  end.

Section Loops.
Context {A : Type}.

(** [for (let i = l.length - 1; i >= 0; i--) { l[i] = step(l[i]);
    if (dead(l[i])) { l.splice(i, 1); continue; } l[i] = after(l[i]); }]
    started at index [i - 1]: the entry is updated in place, removed when
    dead, and updated once more when it stays. *)
Fixpoint retainBackward (step : A -> A) (dead : A -> bool) (after : A -> A)
    (i : nat) (l : list A) : list A :=
  match i with
  | O => l
  | S j =>
      match l !! j with
      | None => retainBackward step dead after j l
      | Some a =>
          let l1 := <[j := step a]> l in
          if dead (step a)
          then retainBackward step dead after j (delete j l1)
          else retainBackward step dead after j (<[j := after (step a)]> l1)
      end
  end.

(** [for (let i = l.length - 1; i >= 0; i--) { if (p(l[i])) { ...; break; } }]
    started at index [i - 1]: the index and the entry the loop stops at. *)
Fixpoint scanBackward (p : A -> bool) (i : nat) (l : list A)
    : option (nat * A) :=
  match i with
  | O => None
  | S j =>
      match l !! j with
      | Some a => if p a then Some (j, a) else scanBackward p j l
      | None => scanBackward p j l
      end
  end.

(** What the same loop emits when the iterations that get past the
    [splice] emit something: [emit i a] for the updated entry at index [i].
    The loop visits the indices downwards, so the emissions come last entry
    first. *)
Fixpoint emitBackward {E : Type} (step : A -> A) (dead : A -> bool)
    (after : A -> A) (emit : nat -> A -> list E) (i : nat) (l : list A)
    : list E :=
  match i with
  | O => []
  | S j =>
      match l !! j with
      | None => emitBackward step dead after emit j l
      | Some a =>
          let l1 := <[j := step a]> l in
          if dead (step a)
          then emitBackward step dead after emit j (delete j l1)
          else emit j (after (step a))
               ++ emitBackward step dead after emit j
                    (<[j := after (step a)]> l1)
      end
  end.

(** The reference of [emitBackward]: what each entry emits if it lives, in
    the reverse order of the entries. *)
Definition emitted {E : Type} (step : A -> A) (dead : A -> bool)
    (after : A -> A) (emit : nat -> A -> list E) (l : list A) : list E :=
  concat (reverse (imap (fun j a => if dead (step a) then []
                                     else emit j (after (step a))) l)).

(** The reference of [retainBackward]: update everything, keep the living,
    update them once more. *)
Definition retain (step : A -> A) (dead : A -> bool) (after : A -> A)
    (l : list A) : list A :=
  List.map after (List.filter (fun a => negb (dead a)) (List.map step l)).

Lemma retainBackward_prefix step dead after (l1 l2 : list A) :
  retainBackward step dead after (length l1) (l1 ++ l2)
  = retain step dead after l1 ++ l2.
Proof.
  revert l2. induction l1 as [|a l1 IH] using rev_ind; intros l2; [done|].
  rewrite length_app, Nat.add_1_r, <- app_assoc. cbn [retainBackward].
  rewrite lookup_app_r, Nat.sub_diag by done. cbn [app lookup list_lookup].
  assert (Hins : forall b c, <[length l1 := b]> (l1 ++ c :: l2) = l1 ++ b :: l2)
    by (intros; rewrite insert_app_r_alt, Nat.sub_diag by done; done).
  assert (Hdel : delete (length l1) (l1 ++ step a :: l2) = l1 ++ l2)
    by (rewrite delete_middle; done).
  unfold retain.
  rewrite List.map_app, List.filter_app, List.map_app.
  cbn [List.map List.filter].
  rewrite !Hins. destruct (dead (step a)); cbn [negb List.map].
  - rewrite Hdel, IH, app_nil_r. done.
  - rewrite IH, <- app_assoc. done.
Qed.

Lemma retainBackward_retain step dead after (l : list A) :
  retainBackward step dead after (length l) l = retain step dead after l.
Proof.
  rewrite <- (app_nil_r l) at 2.
  rewrite retainBackward_prefix. apply app_nil_r.
Qed.

Lemma retain_length step dead after (l : list A) :
  length (retain step dead after l) <= length l.
Proof.
  unfold retain. rewrite length_map.
  etransitivity; [apply List.filter_length_le|].
  rewrite length_map. done.
Qed.

Lemma retain_Forall (P Q : A -> Prop) step dead after (l : list A) :
  (forall a, P a -> dead (step a) = false -> Q (after (step a))) ->
  Forall P l -> Forall Q (retain step dead after l).
Proof.
  intros HPQ. unfold retain. induction 1 as [|a l Ha _ IH]; [constructor|].
  cbn. destruct (dead (step a)) eqn:Hd; cbn; [done|].
  constructor; auto.
Qed.

Lemma retain_In step dead after (l : list A) (b : A) :
  In b (retain step dead after l) <->
  exists a, In a l /\ b = after (step a) /\ dead (step a) = false.
Proof.
  unfold retain. rewrite in_map_iff. split.
  - intros (c & <- & Hc). apply filter_In in Hc as [Hc Hd].
    apply in_map_iff in Hc as (a & <- & Ha).
    apply negb_true_iff in Hd. eauto.
  - intros (a & Ha & -> & Hd). exists (step a). split; [done|].
    apply filter_In. rewrite Hd. split; [|done].
    apply in_map_iff. eauto.
Qed.

Lemma emitBackward_prefix {E : Type} step dead after
    (emit : nat -> A -> list E) (l1 l2 : list A) :
  emitBackward step dead after emit (length l1) (l1 ++ l2)
  = emitted step dead after emit l1.
Proof.
  revert l2. induction l1 as [|a l1 IH] using rev_ind; intros l2; [done|].
  rewrite length_app, Nat.add_1_r, <- app_assoc. cbn [emitBackward].
  rewrite lookup_app_r, Nat.sub_diag by done. cbn [app lookup list_lookup].
  unfold emitted. rewrite imap_app, reverse_app. cbn [imap reverse concat].
  rewrite Nat.add_0_r, !insert_app_r_alt, Nat.sub_diag by done. cbn [insert list_insert].
  destruct (dead (step a)).
  - by rewrite delete_middle, IH.
  - by rewrite IH.
Qed.

(** The emissions of the backward loop over a whole array. *)
Lemma emitBackward_emitted {E : Type} step dead after
    (emit : nat -> A -> list E) (l : list A) :
  emitBackward step dead after emit (length l) l
  = emitted step dead after emit l.
Proof. rewrite <- (app_nil_r l) at 2. apply emitBackward_prefix. Qed.

(** What the loop emits is made of the emissions of living entries. *)
Lemma emitted_Forall {E : Type} (P : list E -> Prop) step dead after
    (emit : nat -> A -> list E) (l : list A) :
  P [] -> (forall e1 e2, P e1 -> P e2 -> P (e1 ++ e2)) ->
  (forall j a, In a l -> dead (step a) = false ->
               P (emit j (after (step a)))) ->
  P (emitted step dead after emit l).
Proof.
  intros Hnil Happ Hemit. unfold emitted.
  induction l as [|a l IH] using rev_ind; [done|].
  rewrite imap_app, reverse_app. cbn.
  apply Happ; [|apply IH; intros; apply Hemit; rewrite ?in_app_iff; auto].
  destruct (dead (step a)) eqn:Hd; [done|].
  apply Hemit; [|done]. rewrite in_app_iff. cbn. auto.
Qed.

(** When the emission does not depend on the index, the loop emits for the
    entries it retains, last first. *)
Lemma emitted_retain {E : Type} step dead after (emit : A -> list E)
    (l : list A) :
  emitted step dead after (fun _ => emit) l
  = flat_map emit (reverse (retain step dead after l)).
Proof.
  unfold emitted, retain. induction l as [|a l IH] using rev_ind; [done|].
  rewrite imap_app, reverse_app, List.map_app, List.filter_app, List.map_app,
    reverse_app, flat_map_app. cbn. rewrite IH.
  destruct (dead (step a)); cbn; by rewrite ?app_nil_r.
Qed.

(** [scanBackward] finds an entry that satisfies the test, at its index. *)
Lemma scanBackward_Some p i (l : list A) j a :
  scanBackward p i l = Some (j, a) ->
  j < i /\ l !! j = Some a /\ p a = true
  /\ forall k b, j < k < i -> l !! k = Some b -> p b = false.
Proof.
  induction i as [|i IH]; [done|]. cbn [scanBackward].
  destruct (l !! i) as [b|] eqn:Hb.
  - destruct (p b) eqn:Hp.
    + intros [= <- <-]. repeat split; try done; [lia|]. intros; lia.
    + intros (? & ? & ? & Hlast)%IH. repeat split; try done; [lia|].
      intros k c Hk Hc. destruct (decide (k = i)) as [->|]; [congruence|].
      apply (Hlast k); [lia|done].
  - intros (? & ? & ? & Hlast)%IH. repeat split; try done; [lia|].
    intros k c Hk Hc. destruct (decide (k = i)) as [->|]; [congruence|].
    apply (Hlast k); [lia|done].
Qed.

(** [scanBackward] answers [None] only when no entry below [i] passes. *)
Lemma scanBackward_None p i (l : list A) :
  scanBackward p i l = None <->
  forall k b, k < i -> l !! k = Some b -> p b = false.
Proof.
  induction i as [|i IH]; cbn [scanBackward].
  - split; [intros; lia|done].
  - destruct (l !! i) as [b|] eqn:Hb; [destruct (p b) eqn:Hp|].
    + split; [done|]. intros H. rewrite (H i b) in Hp by (done || lia). done.
    + rewrite IH. split; intros H k c Hk Hc.
      * destruct (decide (k = i)) as [->|]; [congruence|]. apply (H k); [lia|done].
      * apply (H k); [lia|done].
    + rewrite IH. split; intros H k c Hk Hc.
      * destruct (decide (k = i)) as [->|]; [congruence|]. apply (H k); [lia|done].
      * apply (H k); [lia|done].
Qed.

(** [scanBackward] from the end stops at the last entry that passes. *)
Lemma scanBackward_last p (l : list A) i a :
  l !! i = Some a -> p a = true ->
  (forall k b, i < k -> l !! k = Some b -> p b = false) ->
  scanBackward p (length l) l = Some (i, a).
Proof.
  intros Hi Hp Hlast. apply lookup_lt_Some in Hi as Hlt.
  destruct (scanBackward p (length l) l) as [[j b]|] eqn:Hscan.
  - apply scanBackward_Some in Hscan as (Hj & Hb & Hpb & Hafter).
    destruct (lt_eq_lt_dec i j) as [[Hlt'| ->]|Hgt].
    + rewrite (Hlast j b) in Hpb by done. done.
    + congruence.
    + rewrite (Hafter i a) in Hp by (done || lia). done.
  - rewrite scanBackward_None in Hscan. rewrite (Hscan i a) in Hp by done. done.
Qed.

End Loops.

(** Removing an entry keeps the keys distinct. *)
Lemma NoDup_fmap_delete {A B : Type} (f : A -> B) (l : list A) (i : nat) :
  NoDup (f <$> l) -> NoDup (f <$> delete i l).
Proof.
  intros Hnd. rewrite list_fmap_delete.
  eapply sublist_NoDup; [exact Hnd | apply sublist_delete].
Qed.

(** A fresh key at the end keeps the keys distinct. *)
Lemma NoDup_fmap_snoc {A B : Type} (f : A -> B) (l : list A) (a : A) :
  NoDup (f <$> l) -> (forall b, b ∈ l -> f b <> f a) ->
  NoDup (f <$> (l ++ [a])).
Proof.
  intros Hnd Hfresh. rewrite fmap_app. apply NoDup_app.
  split; [done|]. split; [|apply NoDup_singleton].
  intros i (b & Hib & Hb)%list_elem_of_fmap Hia%list_elem_of_singleton.
  apply (Hfresh b Hb). congruence.
Qed.

(** An update that keeps the key of every entry keeps the list of keys. *)
Lemma fmap_map_key {A B : Type} (key : A -> B) (f : A -> A) (l : list A) :
  (forall a, key (f a) = key a) -> key <$> List.map f l = key <$> l.
Proof.
  intros Hkey. induction l as [|a l IH]; [done|]. cbn.
  by rewrite Hkey, IH.
Qed.

(** A test that holds of every entry implies the tests it implies. *)
Lemma forallb_impl {A : Type} (P Q : A -> bool) (l : list A) :
  (forall a, P a = true -> Q a = true) ->
  forallb P l = true -> forallb Q l = true.
Proof.
  intros HPQ. induction l as [|a l IH]; [done|]. cbn.
  intros [Ha Hl]%andb_true_iff. by rewrite (HPQ a Ha), IH.
Qed.

(** A boolean test that holds on every integer of a range, checked by
    evaluation on the list of them. *)
Lemma forallb_seqZ (P : Z -> bool) (m n : Z) :
  forallb P (seqZ m n) = true ->
  forall z, (m <= z < m + n)%Z -> P z = true.
Proof.
  intros Hall z Hz. apply Is_true_true_2, forallb_True in Hall.
  by apply Is_true_true_1, (proj1 (Forall_seqZ _ m n) Hall).
Qed.

Lemma allFrom_spec (P : Z -> bool) (z : Z) (n : nat) :
  allFrom P z n = true ->
  forall x, (z <= x < z + Z.of_nat n)%Z -> P x = true.
Proof.
  revert z. induction n as [|n IH]; intros z; cbn [allFrom]; [lia|].
  intros [Hz Hrest]%andb_prop x Hx.
  destruct (decide (x = z)) as [->|Hne]; [done|]. apply (IH _ Hrest). lia.
Qed.

(** [pairwise] under [push], [splice] and a map. *)
Lemma pairwise_snoc {A : Type} (R : A -> A -> Prop) l a :
  pairwise R (l ++ [a]) <-> pairwise R l /\ Forall (fun b => R b a) l.
Proof.
  induction l as [|b l IH]; cbn; [by intuition constructor|].
  rewrite IH, Forall_app, Forall_singleton, Forall_cons. tauto.
Qed.

Lemma pairwise_delete {A : Type} (R : A -> A -> Prop) i l :
  pairwise R l -> pairwise R (delete i l).
Proof.
  revert i. induction l as [|a l IH]; intros [|i]; cbn; try tauto.
  intros [Ha Hl]. split; [by apply Forall_delete | by apply IH].
Qed.

(** The entry taken out was related to every entry that stays. *)
Lemma pairwise_lookup_delete {A : Type} (R : A -> A -> Prop) i l a :
  (forall a b, R a b -> R b a) -> pairwise R l -> l !! i = Some a ->
  Forall (fun b => R b a) (delete i l).
Proof.
  intros Hsym. revert i. induction l as [|b l IH]; intros [|i]; cbn; try done.
  - intros [Hb _] [= ->]. eapply Forall_impl; [exact Hb|]. auto.
  - intros [Hb Hl] Hi. constructor; [|by apply IH].
    eapply Forall_forall in Hb; [exact Hb|]. by eapply list_elem_of_lookup_2.
Qed.

Lemma pairwise_lookup {A : Type} (R : A -> A -> Prop) l i j a b :
  (forall a b, R a b -> R b a) -> pairwise R l -> i <> j ->
  l !! i = Some a -> l !! j = Some b -> R b a.
Proof.
  intros Hsym Hl Hij Hi Hj.
  pose proof (pairwise_lookup_delete R i l a Hsym Hl Hi) as Hall.
  destruct (decide (j < i)) as [Hlt|Hge].
  - apply (Forall_lookup_1 _ _ j b Hall). by rewrite list_lookup_delete_lt.
  - apply (Forall_lookup_1 _ _ (pred j) b Hall).
    rewrite list_lookup_delete_ge by lia. by replace (S (pred j)) with j by lia.
Qed.

#[export] Hint Resolve retain_length NoDup_fmap_delete : game.
