(* ===== verification/Text.v ===== *)
(** * Text: the strings the screens display

    The HUD and the summary screen of [src/app/page.tsx] turn numbers into
    text with [toString], [String.prototype.padStart] and
    [Number.prototype.toFixed].  This file holds the string side of those
    operations as ECMAScript defines them ([padStart] with any filler, the
    digit layout of [toFixed]), a reader of decimal text ([Z_of_string]) to
    state what a displayed text denotes, and the facts the screens share:
    lengths, and that reading a printed integer gives the integer back, padded
    or not. *)

From Stdlib Require Import ZArith String Ascii DecimalString DecimalPos DecimalZ.
From stdpp Require Import base option.
From S2P Require Import Prelude.

Local Open Scope string_scope.

(** [s.repeat(n)] *)
Fixpoint repeatString (n : nat) (s : string) : string :=
  match n with
  | O => ""
  | S n => s ++ repeatString n s
  end.

(** [s.padStart(targetLength, padString)]: the filler is repeated and cut to
    the missing length; a string that is long enough, or an empty filler,
    leaves [s] as it is. *)
Definition padStart (targetLength : nat) (padString s : string) : string :=
  let fillLength := (targetLength - String.length s)%nat in
  match padString with
  | "" => s
  | _ => substring 0 fillLength (repeatString fillLength padString) ++ s
  end.

(** The text of [x.toFixed(fractionDigits)] once the sign of [x] and the
    integer [n] nearest to [|x| * 10^fractionDigits] are known: the digits of
    [n], filled with zeros to [fractionDigits + 1] of them, with the point
    before the last [fractionDigits]. *)
Definition toFixedString (negative : bool) (n : Z) (fractionDigits : nat)
    : string :=
  let m := string_of_Z n in
  let m :=
    match fractionDigits with
    | O => m
    | _ =>
        let m := padStart (S fractionDigits) "0" m in
        let k := (String.length m - fractionDigits)%nat in
        substring 0 k m ++ "." ++ substring k fractionDigits m
    end in
  (if negative then "-" else "") ++ m.

(** The integer a decimal text denotes: an optional [-] and digits, leading
    zeros allowed; [None] on any other text. *)
Definition Z_of_string (s : string) : option Z :=
  Z.of_int <$> NilZero.int_of_string s.

(** The integer of a text of digits alone ([""] is 0). *)
Definition Z_of_digits (s : string) : option Z :=
  Z.of_uint <$> NilEmpty.uint_of_string s.

Section TextFacts.
Implicit Types (s t : string) (n k : nat) (z : Z).

Lemma length_append s t :
  String.length (s ++ t) = (String.length s + String.length t)%nat.
Proof. induction s as [|c s IH]; cbn; [done | by rewrite IH]. Qed.

Lemma substring_all s : substring 0 (String.length s) s = s.
Proof. induction s as [|c s IH]; cbn; [done | by rewrite IH]. Qed.

Lemma repeatString_length n c :
  String.length (repeatString n (String c "")) = n.
Proof. induction n as [|n IH]; cbn; [done | by rewrite IH]. Qed.

(** Padding with one character prepends it the missing number of times. *)
Lemma padStart_char n c s :
  padStart n (String c "") s
  = repeatString (n - String.length s) (String c "") ++ s.
Proof.
  unfold padStart. set (k := (n - String.length s)%nat).
  by rewrite <- (repeatString_length k c) at 1; rewrite substring_all.
Qed.

(** [padStart] reaches the target length and never shortens. *)
Lemma padStart_length n c s :
  String.length (padStart n (String c "") s) = Nat.max n (String.length s).
Proof.
  rewrite padStart_char, length_append, repeatString_length.
  apply Nat.max_case_strong; intros; [| symmetry]; by apply Nat.sub_add
    || (rewrite (proj2 (Nat.sub_0_le _ _)); done).
Qed.

Lemma padStart_long n pad s :
  (n <= String.length s)%nat -> padStart n pad s = s.
Proof.
  intros Hn. unfold padStart. rewrite (proj2 (Nat.sub_0_le _ _) Hn).
  by destruct pad.
Qed.

(** The printed form of a natural number is its digits, and they read back
    as the number. *)
Lemma Z_of_digits_string_of_Z z :
  (0 <= z)%Z -> Z_of_digits (string_of_Z z) = Some z.
Proof.
  intros Hz. unfold Z_of_digits, string_of_Z. destruct z as [|p|p]; [done| |done].
  cbn -[Pos.to_uint]. pose proof (DecimalPos.Unsigned.to_uint_nonnil p) as Hp.
  replace (NilZero.string_of_uint (Pos.to_uint p))
    with (NilEmpty.string_of_uint (Pos.to_uint p)) by by destruct (Pos.to_uint p).
  rewrite NilEmpty.usu. cbn. unfold Z.of_uint. by rewrite DecimalPos.Unsigned.of_to.
Qed.

Lemma Z_of_digits_zeros k s :
  Z_of_digits (repeatString k "0" ++ s) = Z_of_digits s.
Proof.
  induction k as [|k IH]; [done|]. rewrite <- IH. unfold Z_of_digits. cbn.
  by destruct (NilEmpty.uint_of_string _).
Qed.

(** A non-empty text of digits is a decimal text. *)
Lemma Z_of_string_digits s z :
  s <> "" -> Z_of_digits s = Some z -> Z_of_string s = Some z.
Proof.
  unfold Z_of_digits, Z_of_string. destruct s as [|c s]; [done|]. intros _.
  unfold NilZero.int_of_string, NilZero.uint_of_string.
  destruct (Ascii.eqb_spec c "-") as [->|_]; [by cbn; destruct (NilEmpty.uint_of_string s)|].
  by destruct (NilEmpty.uint_of_string _).
Qed.

Lemma string_of_Z_nonempty z : string_of_Z z <> "".
Proof.
  unfold string_of_Z. destruct z as [|p|p]; [done| |done]. cbn -[Pos.to_uint].
  pose proof (DecimalPos.Unsigned.to_uint_nonnil p). by destruct (Pos.to_uint p).
Qed.

(** Reading what is printed gives the integer back. *)
Lemma Z_of_string_of_Z z : Z_of_string (string_of_Z z) = Some z.
Proof.
  unfold Z_of_string, string_of_Z. rewrite NilZero.isi.
  - cbn. by rewrite DecimalZ.of_to.
  - destruct z as [|p|p]; try done; intros [= Hp].
    by apply DecimalPos.Unsigned.to_uint_nonnil in Hp.
  - destruct z as [|p|p]; try done; intros [= Hp].
    by apply DecimalPos.Unsigned.to_uint_nonnil in Hp.
Qed.

(** ... and so does reading what is printed and padded with zeros, for a
    number that is not negative. *)
Lemma Z_of_string_padStart n z :
  (0 <= z)%Z -> Z_of_string (padStart n "0" (string_of_Z z)) = Some z.
Proof.
  intros Hz. apply Z_of_string_digits.
  - rewrite padStart_char. pose proof (string_of_Z_nonempty z).
    by destruct (repeatString _ _), (string_of_Z z).
  - by rewrite padStart_char, Z_of_digits_zeros, Z_of_digits_string_of_Z.
Qed.

(** [string_of_Z] prints different integers differently. *)
#[export] Instance string_of_Z_inj : Inj (=) (=) string_of_Z.
Proof.
  intros z1 z2 Hz. apply (inj Some).
  by rewrite <- (Z_of_string_of_Z z1), <- (Z_of_string_of_Z z2), Hz.
Qed.

End TextFacts.
