(* ===== verification/Number.v ===== *)
(** * Number: the JavaScript [number] operations the component uses

    [src/app/page.tsx] computes with JavaScript numbers.  The game is written
    against the interface [Number] below, which has exactly the operations the
    source applies to them (arithmetic, comparisons, the [Math] functions,
    [%] and [toFixed] of the displays), so that one text of the model can be read at
    IEEE 754 binary64 ([Float64]) and at the real numbers ([Exact]).

    The interface has no laws: what holds for every instance is what follows
    from the shape of the program alone.  The laws of the comparisons and of
    [Math.max] and [Math.min] are a class of their own ([Order.NumberOrder]),
    with an instance over the reals and one at binary64; the other arithmetic
    laws are the business of the instance a theorem is stated at. *)

From Stdlib Require Import ZArith String.
From stdpp Require Import base.
From S2P Require Import Prelude.

Class Number (num : Type) := {
  (** an integer literal, or an integral value (a counter, a time difference)
      used in a floating-point expression *)
  of_Z : Z -> num;
  add : num -> num -> num;
  sub : num -> num -> num;
  mul : num -> num -> num;
  div : num -> num -> num;
  (** [a % b], the remainder with the sign of [a] *)
  rem : num -> num -> num;
  (** [a < b] and [a <= b]; [a > b] is [ltb b a] *)
  ltb : num -> num -> bool;
  leb : num -> num -> bool;
  Math_max : num -> num -> num;
  Math_min : num -> num -> num;
  (** [Math.floor], whose result the program uses as an integer *)
  Math_floor : num -> Z;
  (** [Math.round], the nearest integer, the larger one on a tie *)
  Math_round : num -> Z;
  Math_sqrt : num -> num;
  Math_PI : num;
  (** [x.toFixed(fractionDigits)] *)
  toFixed : num -> nat -> string;
}.

Notation "# z" := (of_Z z%Z) (at level 5, z at level 4, format "# z") : num_scope.
Infix "+" := add : num_scope.
Infix "-" := sub : num_scope.
Infix "*" := mul : num_scope.
Infix "/" := div : num_scope.
Infix "%" := rem (at level 40, left associativity) : num_scope.
Infix "<?" := ltb (at level 70) : num_scope.
Infix "<=?" := leb (at level 70) : num_scope.
Notation "a >? b" := (ltb b a) (at level 70, only parsing) : num_scope.

Section Derived.
Context {num : Type} `{!Number num}.
Local Open Scope num_scope.

(** A decimal literal [n / d] (0.95 is [dec 95 100]).  The quotient of two
    integers that binary64 represents exactly is correctly rounded, which is
    how the literal is read, and it is the exact fraction over the reals. *)
Definition dec (n : Z) (d : Z) : num := #n / #d.

(** [x ** 2] *)
Definition sq (x : num) : num := x * x.

(** [Math.random() > 0.5 ? a : b] on a drawn number [r] *)
Definition coin {A : Type} (r : num) (a b : A) : A :=
  if r >? dec 5 10 then a else b.

End Derived.
