(* ===== verification/Float64.v ===== *)
(** * Float64: JavaScript numbers as they are, IEEE 754 binary64

    The instance of [Number] over Rocq's primitive floats.  The arithmetic
    operations and [Math.sqrt] are the correctly rounded IEEE operations, the
    comparisons are false on NaN, [Math.max] and [Math.min] propagate NaN and
    order [-0 < +0], as ECMAScript specifies them.

    [%] is the exact remainder of the truncated division, [Math.round] and
    [toFixed] round the exact value of the float, ties upwards, all three
    computed on the integer mantissa and exponent of the number.

    [Math.floor] returns the integer below a finite number.  On NaN and on
    the infinities, where JavaScript keeps the value, it returns 0: the
    program applies it to [accuracy * 100] only, which is finite whenever the
    radius is one of the two radii of the game. *)

From Stdlib Require Import ZArith String Floats.
From stdpp Require Import base.
From S2P Require Import Prelude Text Number.

Module Float64.

(** The number an integer literal denotes: the integer, rounded to nearest
    even when it needs more than 53 bits. *)
Definition of_Z (z : Z) : float :=
  SF2Prim (binary_normalize prec emax z 0 false).

Definition floor (f : float) : Z :=
  match Prim2SF f with
  | S754_finite s m e => Z.shiftl (if s then Z.neg m else Z.pos m) e
  | _ => 0%Z
  end.

(** The integer [m] with the sign bit [s]. *)
Definition signed (s : bool) (m : positive) : Z :=
  if s then Z.neg m else Z.pos m.

(** The integer below [n * 2^e + 1/2], computed on integers. *)
Definition nearest (n e : Z) : Z :=
  if (0 <=? e)%Z then Z.shiftl n e
  else ((2 * n + 2 ^ (- e)) / 2 ^ (1 - e))%Z.

(** [Math.round]: the integer nearest to a finite number, the larger one
    when two are equally near.  As [floor], 0 on NaN and the infinities. *)
Definition round (f : float) : Z :=
  match Prim2SF f with
  | S754_finite s m e => nearest (signed s m) e
  | _ => 0%Z
  end.

(** [x % y]: NaN when [x] is not finite or [y] is zero, [x] when [y] is
    infinite or [x] is zero, and otherwise the remainder of the truncated
    division, which is exact and has the sign of [x] (also when it is zero). *)
Definition rem (x y : float) : float :=
  match Prim2SF x, Prim2SF y with
  | S754_nan, _ | _, S754_nan | S754_infinity _, _ | _, S754_zero _ => nan
  | _, S754_infinity _ | S754_zero _, _ => x
  | S754_finite sx mx ex, S754_finite _ my ey =>
      let e := Z.min ex ey in
      let r := Z.rem (Z.shiftl (signed sx mx) (ex - e))
                     (Z.shiftl (Z.pos my) (ey - e)) in
      if (r =? 0)%Z then (if sx then neg_zero else zero)
      else SF2Prim (binary_normalize prec emax r e false)
  end.

(** [x.toFixed(digits)]: the sign and the integer nearest to
    [|x| * 10^digits], laid out by [toFixedString].  (Above 10^21 JavaScript
    switches to the exponent notation of [toString]; the model prints all the
    digits there.) *)
Definition toFixed (f : float) (digits : nat) : string :=
  match Prim2SF f with
  | S754_zero _ => toFixedString false 0 digits
  | S754_finite s m e =>
      toFixedString s (nearest (Z.pos m * 10 ^ Z.of_nat digits) e) digits
  | S754_infinity s => if s then "-Infinity" else "Infinity"
  | S754_nan => "NaN"
  end.

Definition is_neg_zero (f : float) : bool :=
  match Prim2SF f with
  | S754_zero true => true
  | _ => false
  end.

Definition max (a b : float) : float :=
  if (is_nan a || is_nan b)%bool then nan
  else if PrimFloat.ltb a b then b
  else if PrimFloat.ltb b a then a
  else if is_neg_zero a then b else a.

Definition min (a b : float) : float :=
  if (is_nan a || is_nan b)%bool then nan
  else if PrimFloat.ltb a b then a
  else if PrimFloat.ltb b a then b
  else if is_neg_zero a then a else b.

(** [Math.PI] *)
Definition PI : float := 0x1.921fb54442d18p+1%float.

End Float64.

#[export] Instance Number_float : Number float := {|
  of_Z := Float64.of_Z;
  add := PrimFloat.add;
  sub := PrimFloat.sub;
  mul := PrimFloat.mul;
  div := PrimFloat.div;
  rem := Float64.rem;
  ltb := PrimFloat.ltb;
  leb := PrimFloat.leb;
  Math_max := Float64.max;
  Math_min := Float64.min;
  Math_floor := Float64.floor;
  Math_round := Float64.round;
  Math_sqrt := PrimFloat.sqrt;
  Math_PI := Float64.PI;
  toFixed := Float64.toFixed;
|}.

Section Literals.
Local Open Scope float_scope.

(** The decimal literals of the source, written as quotients in the model,
    are the floats the JavaScript parser reads. *)
Lemma dec_literals :
  dec 95 100 = 0x1.e666666666666p-1
  /\ dec 2 100 = 0x1.47ae147ae147bp-6
  /\ dec 15 100 = 0x1.3333333333333p-3
  /\ dec 4 10 = 0x1.999999999999ap-2
  /\ dec 65 100 = 0x1.4cccccccccccdp-1
  /\ dec 5 10 = 0.5
  /\ dec 15 10 = 1.5.
Proof. vm_compute. repeat split. Qed.

Lemma of_Z_small :
  of_Z 0 = 0 /\ of_Z 1 = 1 /\ of_Z (-1) = -1 /\ of_Z 130 = 130
  /\ of_Z 190 = 190 /\ of_Z 80 = 80 /\ of_Z 100 = 100 /\ of_Z 1000 = 1000.
Proof. vm_compute. repeat split. Qed.

Lemma max_neg_zero : Float64.max (-0) 0 = 0 /\ Float64.max 0 (-0) = 0.
Proof. vm_compute. split; reflexivity. Qed.

Lemma floor_examples :
  Float64.floor 0.5 = 0%Z /\ Float64.floor (-0.5) = (-1)%Z
  /\ Float64.floor 94.75 = 94%Z /\ Float64.floor 95 = 95%Z
  /\ Float64.floor 0 = 0%Z.
Proof. vm_compute. repeat split. Qed.

(** [Math.round] rounds a tie up, also below zero, and is not
    [Math.floor(x + 0.5)] computed in binary64: the largest number below one
    half rounds to 0. *)
Lemma round_examples :
  Float64.round 12.5 = 13%Z /\ Float64.round (-12.5) = (-12)%Z
  /\ Float64.round 0x1.fffffffffffffp-2 = 0%Z
  /\ Float64.floor (0x1.fffffffffffffp-2 + 0.5) = 1%Z
  /\ Float64.round 100 = 100%Z /\ Float64.round 0 = 0%Z.
Proof. vm_compute. repeat split. Qed.

Lemma rem_examples :
  Float64.rem 45.5 60 = 45.5 /\ Float64.rem 60 60 = 0
  /\ Float64.rem 125.25 60 = 5.25 /\ Float64.rem (-1) 60 = -1
  /\ Float64.rem 1e22 60 = 40 /\ Float64.rem 0x1p-1074 60 = 0x1p-1074
  /\ Float64.rem 0x1.6345785d8a001p+56 0x1.d333333333333p+2
     = 0x1.a222a930b7ef3p+2
  /\ Float64.rem (-7.25) 0x1.999999999999ap-4 = -0x1.999999999996p-5
  /\ Float64.rem (-120) 60 = -0 /\ Float64.rem 5.5 (-2) = 1.5
  /\ is_nan (Float64.rem 1 0) = true.
Proof. vm_compute. repeat split. Qed.

(** [toFixed] rounds the number the float is, not the decimal literal it
    was written as: [1.005] is below 1.005. *)
Lemma toFixed_examples :
  Float64.toFixed 1.5 2 = "1.50"%string
  /\ Float64.toFixed 0 2 = "0.00"%string
  /\ Float64.toFixed (dec 5 1000) 2 = "0.01"%string
  /\ Float64.toFixed (dec 1005 1000) 2 = "1.00"%string
  /\ Float64.toFixed (dec 12345678 10000) 2 = "1234.57"%string
  /\ Float64.toFixed (dec (-1) 1000) 2 = "-0.00"%string
  /\ Float64.toFixed 2.5 0 = "3"%string.
Proof. vm_compute. repeat split. Qed.

End Literals.
