(* ===== verification/Exact.v ===== *)
(** * Exact: numbers as real numbers

    The instance of [Number] over [R]: the operations are the field
    operations, the comparisons decide the order, [Math.floor] is the integer
    part, [Math.sqrt] the real square root, [%] the remainder of the division
    rounded towards zero, [Math.round] and [toFixed] the nearest integer and
    the nearest decimal, ties upwards.  This is the reading of the
    program under which the spec's arithmetic statements are made; what
    binary64 rounding changes is looked at in [Float64], on concrete runs.

    The file also holds the bridge between the boolean tests of the model and
    the order of [R] (the tactics [to_R] and [real]),
    and the few facts on floor and square root the components share. *)

From Stdlib Require Import ZArith Reals Lra Zfloor.
From stdpp Require Import base tactics decidable.
From S2P Require Import Prelude Text Number.

#[export] Instance Rlt_decision (a b : R) : Decision (a < b)%R := Rlt_dec a b.
#[export] Instance Rle_decision (a b : R) : Decision (a <= b)%R := Rle_dec a b.

(** The integer part of a real number: rounding towards zero. *)
Definition Ztrunc (x : R) : Z :=
  if decide (0 <= x)%R then Zfloor x else (- Zfloor (- x))%Z.

#[export] Instance Number_R : Number R := {|
  of_Z := IZR;
  add := Rplus;
  sub := Rminus;
  mul := Rmult;
  div := Rdiv;
  rem := fun a b => (a - b * IZR (Ztrunc (a / b)))%R;
  ltb := fun a b => bool_decide (a < b)%R;
  leb := fun a b => bool_decide (a <= b)%R;
  Math_max := Rmax;
  Math_min := Rmin;
  Math_floor := Zfloor;
  Math_round := fun a => Zfloor (a + 1 / 2)%R;
  Math_sqrt := sqrt;
  Math_PI := PI;
  toFixed := fun a digits =>
    toFixedString (bool_decide (a < 0)%R)
      (Zfloor (Rabs a * 10 ^ digits + 1 / 2)%R) digits;
|}.

Section Bridge.
Local Open Scope R_scope.
Implicit Types a b : R.

Lemma ltb_true a b : ltb a b = true <-> a < b.
Proof. apply bool_decide_eq_true. Qed.

Lemma ltb_false a b : ltb a b = false <-> b <= a.
Proof. cbn. rewrite bool_decide_eq_false. lra. Qed.

Lemma leb_true a b : leb a b = true <-> a <= b.
Proof. apply bool_decide_eq_true. Qed.

Lemma leb_false a b : leb a b = false <-> b < a.
Proof. cbn. rewrite bool_decide_eq_false. lra. Qed.

Lemma dec_R n d : dec n d = IZR n / IZR d.
Proof. reflexivity. Qed.

Lemma sq_R a : sq a = a * a.
Proof. reflexivity. Qed.

(** [Math.sqrt(d ** 2)] is the absolute value. *)
Lemma sqrt_sq a : sqrt (a * a) = Rabs a.
Proof. exact (sqrt_Rsqr_abs a). Qed.

(** A distance is not negative. *)
Lemma sqrt_nonneg a : 0 <= sqrt a.
Proof. apply sqrt_pos. Qed.

(** The Euclidean distance is within [r] exactly when the point is in the
    disc. *)
Lemma sqrt_le_iff a r : 0 <= a -> 0 <= r -> sqrt a <= r <-> a <= r * r.
Proof.
  intros Ha Hr. rewrite <- (sqrt_square r) at 1 by done. split.
  - apply sqrt_le_0; [done | nra].
  - apply sqrt_le_1; [done | nra].
Qed.

(** A quotient of a part by the whole is in [[0, 1)]. *)
Lemma ratio_range_lt a b : 0 <= a < b -> 0 <= a / b < 1.
Proof.
  intros Ha. assert (Hq : a = a / b * b) by (field; lra).
  set (q := a / b) in *. clearbody q. subst a. split; nra.
Qed.

Lemma Zfloor_range (lo hi : Z) a :
  IZR lo <= a -> a < IZR hi + 1 -> (lo <= Zfloor a <= hi)%Z.
Proof.
  intros Hlo Hhi. pose proof (Zfloor_bound a) as [H1 H2]. split.
  - apply Zfloor_lub. done.
  - apply Z.lt_succ_r, lt_IZR. rewrite succ_IZR. lra.
Qed.

(** The floor of a quotient of integers is their Euclidean quotient. *)
Lemma Zfloor_quotient (n d : Z) :
  (0 < d)%Z -> Zfloor (IZR n / IZR d) = (n / d)%Z.
Proof.
  intros Hd. apply Zfloor_eq.
  pose proof (Z.div_mod n d ltac:(lia)) as Hn.
  pose proof (Z.mod_pos_bound n d Hd) as [Hlo Hhi].
  apply IZR_lt in Hd as Hd'. apply IZR_le in Hlo. apply IZR_lt in Hhi.
  apply (f_equal IZR) in Hn. rewrite plus_IZR, mult_IZR in Hn.
  assert (Hq : IZR n = IZR n / IZR d * IZR d) by (field; lra).
  set (q := IZR n / IZR d) in *. clearbody q. split; nra.
Qed.

(** [Math.round] of a quotient of integers, on integers. *)
Lemma round_quotient (n d : Z) :
  (0 < d)%Z -> Math_round (IZR n / IZR d) = ((2 * n + d) / (2 * d))%Z.
Proof.
  intros Hd. rewrite <- Zfloor_quotient by lia. cbn. f_equal.
  apply IZR_lt in Hd. rewrite plus_IZR, !mult_IZR. field. lra.
Qed.

Lemma Ztrunc_nonneg a : 0 <= a -> Ztrunc a = Zfloor a.
Proof. intros Ha. unfold Ztrunc. by destruct (decide _). Qed.

(** [a % b] is [a] itself below [b], and 0 at [b]. *)
Lemma rem_small a b : 0 <= a < b -> rem a b = a.
Proof.
  intros Ha. cbn. pose proof (ratio_range_lt a b Ha) as Hq.
  rewrite Ztrunc_nonneg, (Zfloor_eq 0) by lra. lra.
Qed.

Lemma rem_self b : 0 < b -> rem b b = 0.
Proof.
  intros Hb. cbn. replace (b / b) with (IZR 1) by (field; lra).
  rewrite Ztrunc_nonneg, ZfloorZ by lra. lra.
Qed.

End Bridge.

(** [real]: move the boolean tests of the hypotheses and of the goal to the
    order of [R], unfold the interface, and finish by linear (then
    non-linear) real arithmetic. *)
Ltac to_R :=
  repeat match goal with
  | H : ltb _ _ = true |- _ => apply ltb_true in H
  | H : ltb _ _ = false |- _ => apply ltb_false in H
  | H : leb _ _ = true |- _ => apply leb_true in H
  | H : leb _ _ = false |- _ => apply leb_false in H
  | H : bool_decide _ = true |- _ => apply bool_decide_eq_true in H
  | H : bool_decide _ = false |- _ => apply bool_decide_eq_false in H
  | |- ltb _ _ = true => apply ltb_true
  | |- ltb _ _ = false => apply ltb_false
  | |- leb _ _ = true => apply leb_true
  | |- leb _ _ = false => apply leb_false
  end;
  cbv [of_Z add sub mul div Math_max Math_min Math_sqrt Math_PI
       Number_R dec sq] in *.

Ltac real := to_R; first [lra | nra].
