(* ===== verification/Order.v ===== *)
(** * Order: what the game relies on of the comparisons

    [src/app/page.tsx] compares numbers with [<], [<=] and [>] and bounds
    them with [Math.max] and [Math.min]: the clamp of the oscillation (line
    539), the remaining time (line 532) and the test that ends the session
    (line 546), the pruning of the effects (lines 414 and 472).  What these
    lines need of the numbers is the class [NumberOrder]: which values are
    numbers and which are NaN, that comparisons are false on NaN and a total
    preorder on numbers, and that [Math.max] and [Math.min] return one of
    their arguments, a bound of both, and NaN when one of them is NaN.

    The lemmas of this file follow from the laws alone.  The instance over
    the reals is here; the instance at binary64, proved from the IEEE 754
    specification of the primitive floats, is in [Binary64].  The theorems
    of the game that are proved from the laws (in [Motion], [Clock] and
    [Paint]) hold of binary64 for every input, not only on the runs that
    are evaluated. *)

From Stdlib Require Import ZArith Reals Lra.
From stdpp Require Import base option.
From S2P Require Import Prelude Number Exact.

Local Open Scope num_scope.

Class NumberOrder (num : Type) `{!Number num} := {
  (** [Number.isNaN] *)
  isNaN : num -> bool;
  (** an integer literal is a number, and 0 is at most 1 *)
  of_Z_number z : isNaN (#z) = false;
  leb_0_1 : (#0 <=? #1) = true;
  (** comparisons with NaN are false *)
  leb_number a b : (a <=? b) = true -> isNaN a = false /\ isNaN b = false;
  ltb_number a b : (a <? b) = true -> isNaN a = false /\ isNaN b = false;
  (** on numbers [<=] is a total preorder and [<] its strict part *)
  leb_reflexive a : isNaN a = false -> (a <=? a) = true;
  leb_transitive a b c :
    (a <=? b) = true -> (b <=? c) = true -> (a <=? c) = true;
  leb_total a b :
    isNaN a = false -> isNaN b = false ->
    (a <=? b) = true \/ (b <=? a) = true;
  ltb_negb_leb a b :
    isNaN a = false -> isNaN b = false -> (a <? b) = negb (b <=? a);
  (** [Math.max] and [Math.min] *)
  Math_max_NaN a b : isNaN (Math_max a b) = isNaN a || isNaN b;
  Math_max_choice a b : Math_max a b = a \/ Math_max a b = b;
  Math_max_upper a b :
    isNaN a = false -> isNaN b = false ->
    (a <=? Math_max a b) = true /\ (b <=? Math_max a b) = true;
  Math_min_NaN a b : isNaN (Math_min a b) = isNaN a || isNaN b;
  Math_min_choice a b : Math_min a b = a \/ Math_min a b = b;
  Math_min_lower a b :
    isNaN a = false -> isNaN b = false ->
    (Math_min a b <=? a) = true /\ (Math_min a b <=? b) = true;
}.

(** [clamp lo hi x] is [Math.max(lo, Math.min(hi, x))]. *)
Definition clamp {num : Type} `{!Number num} (lo hi x : num) : num :=
  Math_max lo (Math_min hi x).

(** ** The reals *)

#[export, refine] Instance Number_R_order : NumberOrder R := {|
  isNaN := fun _ => false;
|}.
Proof.
  all: intros; rewrite ?leb_true, ?ltb_true in *; try done; try lra.
  - cbn. lra.
  - cbn. destruct (bool_decide_reflect (a < b)%R),
      (bool_decide_reflect (b <= a)%R); try done; lra.
  - cbn. unfold Rmax. destruct (Rle_dec a b); auto.
  - cbn. unfold Rmax. destruct (Rle_dec a b); lra.
  - cbn. unfold Rmin. destruct (Rle_dec a b); auto.
  - cbn. unfold Rmin. destruct (Rle_dec a b); lra.
Qed.

(** ** What follows from the laws *)

Section OrderFacts.
Context {num : Type} `{!Number num} `{!NumberOrder num}.
Implicit Types a b c lo hi x : num.

Lemma ltb_leb a b : (a <? b) = true -> (a <=? b) = true.
Proof.
  intros Hlt. destruct (ltb_number a b Hlt) as [Ha Hb].
  rewrite (ltb_negb_leb a b Ha Hb) in Hlt.
  destruct (leb_total a b Ha Hb) as [Hab|Hba]; [done|]. by rewrite Hba in Hlt.
Qed.

Lemma ltb_irreflexive a : (a <? a) = false.
Proof.
  destruct (isNaN a) eqn:Ha.
  - destruct (a <? a) eqn:Hlt; [|done].
    apply ltb_number in Hlt as [? _]. congruence.
  - by rewrite ltb_negb_leb, leb_reflexive.
Qed.

Lemma ltb_leb_transitive a b c :
  (a <? b) = true -> (b <=? c) = true -> (a <? c) = true.
Proof.
  intros Hab Hbc. destruct (ltb_number a b Hab) as [Ha Hb].
  destruct (leb_number b c Hbc) as [_ Hc].
  rewrite ltb_negb_leb in Hab |- * by done.
  destruct (c <=? a) eqn:Hca; [|done].
  by rewrite (leb_transitive b c a Hbc Hca) in Hab.
Qed.

(** A comparison that holds tells that both sides are numbers. *)
Lemma ltb_NaN_r a b : isNaN b = true -> (a <? b) = false.
Proof.
  intros Hb. destruct (a <? b) eqn:Hlt; [|done].
  apply ltb_number in Hlt as [_ ?]. congruence.
Qed.

Lemma leb_NaN_l a b : isNaN a = true -> (a <=? b) = false.
Proof.
  intros Ha. destruct (a <=? b) eqn:Hle; [|done].
  apply leb_number in Hle as [? _]. congruence.
Qed.

(** On numbers, not [<=] is [>]. *)
Lemma leb_false_ltb a b :
  isNaN a = false -> isNaN b = false -> (a <=? b) = false -> (b <? a) = true.
Proof. intros Ha Hb Hle. by rewrite ltb_negb_leb, Hle. Qed.

(** [Math.max(a, d) > a] is [d > a], NaN included. *)
Lemma Math_max_gtb a d :
  isNaN a = false -> (a <? Math_max a d) = (a <? d).
Proof.
  intros Ha. destruct (isNaN d) eqn:Hd.
  - rewrite !ltb_NaN_r; [done.. |]. by rewrite Math_max_NaN, Hd, orb_true_r.
  - destruct (Math_max_choice a d) as [Hmax|Hmax]; rewrite Hmax; [|done].
    destruct (Math_max_upper a d Ha Hd) as [_ Hle]. rewrite Hmax in Hle.
    by rewrite ltb_irreflexive, ltb_negb_leb, Hle.
Qed.

(** The clamp of a number to an interval that is not empty is in the
    interval; the clamp of NaN is NaN. *)
Lemma clamp_range lo hi x :
  isNaN x = false -> (lo <=? hi) = true ->
  (lo <=? clamp lo hi x) = true /\ (clamp lo hi x <=? hi) = true.
Proof.
  intros Hx Hle. destruct (leb_number lo hi Hle) as [Hlo Hhi]. unfold clamp.
  assert (Hmin : isNaN (Math_min hi x) = false)
    by by rewrite Math_min_NaN, Hhi, Hx.
  split; [by apply Math_max_upper|].
  destruct (Math_max_choice lo (Math_min hi x)) as [-> | ->]; [done|].
  by apply Math_min_lower.
Qed.

Lemma clamp_NaN lo hi x : isNaN x = true -> isNaN (clamp lo hi x) = true.
Proof.
  intros Hx. unfold clamp.
  by rewrite Math_max_NaN, Math_min_NaN, Hx, !orb_true_r.
Qed.

End OrderFacts.
