(* ===== verification/Binary64.v ===== *)
(** * Binary64: the order of JavaScript numbers, for every number

    [Float64] evaluates the game on given inputs.  This file proves what
    holds of binary64 on all inputs, from the IEEE 754 specification of
    Rocq's primitive floats ([Prim2SF] and the specification of each
    operation in [FloatAxioms], over [SpecFloat]):

    - rounding never makes a NaN, so integer literals are numbers
      ([of_Z_float]), and so are a difference with a finite left operand
      and a quotient by a finite divisor that is not zero ([sub_float],
      [div_float]): [60 - elapsed / 1000] of [gameLoop] is a number at every
      clock reading;
    - the comparisons are false on NaN and, on numbers, the total preorder
      of a lexicographic key (sign and class, exponent, mantissa):
      [SFcompare_lex3];
    - [Math.max] and [Math.min] of [Float64] return one of their arguments,
      a bound of both, and NaN exactly when an argument is NaN.

    Together these are the instance [Number_float_order] of
    [Order.NumberOrder]. *)

From Stdlib Require Import ZArith Floats Bool Lia.
From stdpp Require Import base option.
From S2P Require Import Prelude Text Number Float64 Order.

Local Open Scope Z_scope.

(** A spec float that is not NaN. *)
Definition SFnumber (x : spec_float) : Prop := x <> S754_nan.

(** Zero or finite: neither NaN nor an infinity. *)
Definition SFfinite (x : spec_float) : Prop :=
  match x with S754_zero _ | S754_finite _ _ _ => True | _ => False end.

(** A key that orders spec floats as [SFcompare] does: class and sign, then
    exponent, then mantissa, the last two negated below zero. *)
Definition SFkey (x : spec_float) : Z * Z * Z :=
  match x with
  | S754_nan | S754_zero _ => (0, 0, 0)
  | S754_infinity true => (-2, 0, 0)
  | S754_infinity false => (2, 0, 0)
  | S754_finite true m e => (-1, - e, Z.neg m)
  | S754_finite false m e => (1, e, Z.pos m)
  end.

(** The lexicographic comparison of triples. *)
Definition lex3 (a b : Z * Z * Z) : comparison :=
  match a.1.1 ?= b.1.1 with
  | Eq => match a.1.2 ?= b.1.2 with Eq => a.2 ?= b.2 | c => c end
  | c => c
  end.

(** ** NaN *)

Lemma is_nan_spec f : is_nan f = true <-> Prim2SF f = S754_nan.
Proof.
  unfold is_nan. rewrite FloatAxioms.eqb_spec. unfold SFeqb. split.
  - intros H. unfold Prim2SF, is_nan.
    destruct (f =? f)%float eqn:E; [|done].
    rewrite FloatAxioms.eqb_spec in E. unfold SFeqb in E. by rewrite E in H.
  - by intros ->.
Qed.

Lemma is_nan_false f : is_nan f = false <-> SFnumber (Prim2SF f).
Proof. unfold SFnumber. rewrite <- is_nan_spec. by destruct (is_nan f). Qed.

(** There is one NaN. *)
Lemma is_nan_eq f : is_nan f = true -> f = nan.
Proof. intros Hf%is_nan_spec. apply Prim2SF_inj. by rewrite Hf. Qed.

(** ** Rounding never makes a NaN *)

Section Rounding.
Implicit Types (mrs : shr_record) (m e : Z) (l : location).

Lemma iter_pos_invariant {A} (P : A -> Prop) (f : A -> A) :
  (forall x, P x -> P (f x)) -> forall n x, P x -> P (iter_pos f n x).
Proof. intros Hf. induction n as [n IH|n IH|]; cbn; auto. Qed.

Lemma shr_1_nonneg mrs : 0 <= shr_m mrs -> 0 <= shr_m (shr_1 mrs).
Proof. destruct mrs as [[|[p|p|]|p] r s]; cbn; lia. Qed.

Lemma shr_nonneg mrs e n : 0 <= shr_m mrs -> 0 <= shr_m (shr mrs e n).1.
Proof.
  intros Hm. unfold shr. destruct n; cbn; try done.
  by apply (iter_pos_invariant (fun mrs => 0 <= shr_m mrs)), Hm;
    apply shr_1_nonneg.
Qed.

Lemma shr_fexp_nonneg m e l :
  0 <= m -> 0 <= shr_m (shr_fexp prec emax m e l).1.
Proof. intros Hm. unfold shr_fexp. apply shr_nonneg. by destruct l as [|[]]. Qed.

Lemma round_nearest_even_nonneg m l : 0 <= m -> 0 <= round_nearest_even m l.
Proof.
  intros Hm. destruct l as [|[]]; cbn; try done; try lia.
  destruct (Z.even m); lia.
Qed.

Lemma binary_round_aux_number s m e l :
  0 <= m -> SFnumber (binary_round_aux prec emax s m e l).
Proof.
  intros Hm. unfold binary_round_aux.
  pose proof (shr_fexp_nonneg m e l Hm) as H1.
  destruct (shr_fexp prec emax m e l) as [mrs' e'].
  pose proof (shr_fexp_nonneg _ e' loc_Exact
                (round_nearest_even_nonneg _ (loc_of_shr_record mrs') H1))
    as H2.
  destruct (shr_fexp prec emax _ e' loc_Exact) as [mrs'' e''].
  cbn in H2. destruct (shr_m mrs''); [done | by destruct (_ <=? _) | lia].
Qed.

Lemma binary_round_number s (m : positive) e :
  SFnumber (binary_round prec emax s m e).
Proof.
  unfold binary_round. destruct (shl_align _ _ _) as [mz ez].
  by apply binary_round_aux_number.
Qed.

Lemma binary_normalize_number m e s :
  SFnumber (binary_normalize prec emax m e s).
Proof. destruct m; cbn; [done | apply binary_round_number..]. Qed.

End Rounding.

(** The float of a spec float that is not NaN is not NaN, valid or not. *)
Lemma SF2Prim_number x : SFnumber x -> is_nan (SF2Prim x) = false.
Proof.
  intros Hx. apply is_nan_false. destruct x as [[]|[]| |s m e]; try done.
  cbn [SF2Prim].
  assert (H : SFnumber
                (Prim2SF (Z.ldexp (of_uint63 (Uint63.of_Z (Z.pos m))) e))).
  { rewrite Z_ldexp_spec, of_uint63_spec. unfold SFldexp.
    pose proof (binary_normalize_number
                  (Uint63.to_Z (Uint63.of_Z (Z.pos m))) 0 false) as Hn.
    destruct (binary_normalize _ _ _ _ _); try done.
    apply binary_round_number. }
  destruct s; [|done]. rewrite opp_spec. by destruct (Prim2SF _).
Qed.

(** ** Arithmetic that never makes a NaN *)

Lemma SFsub_number x y :
  SFfinite x -> SFnumber y -> SFnumber (SFsub prec emax x y).
Proof.
  destruct x as [[]|[]| |s m e], y as [[]|[]| |s' m' e']; try done;
    intros _ _; cbn; apply binary_normalize_number.
Qed.

Lemma SFdiv_number x y s m e :
  SFnumber x -> y = S754_finite s m e -> SFnumber (SFdiv prec emax x y).
Proof.
  intros Hx ->. destruct x as [[]|[]| |sx mx ex]; try done.
  unfold SFdiv, SFdiv_core_binary.
  set (m' := match _ with
             | Z.pos _ => Z.shiftl (Z.pos mx) _ | 0 => Z.pos mx | Z.neg _ => 0
             end).
  assert (Hm' : 0 <= m').
  { subst m'. destruct (_ - _ - _); try done. by apply Z.shiftl_nonneg. }
  pose proof (Z.div_pos m' (Z.pos m) Hm' ltac:(done)) as Hq.
  unfold Z.div in Hq. destruct (Z.div_eucl m' (Z.pos m)) as [q r].
  by apply binary_round_aux_number.
Qed.

(** An integer literal is a number, whatever the integer. *)
Lemma of_Z_float z : is_nan (Float64.of_Z z) = false.
Proof. apply SF2Prim_number, binary_normalize_number. Qed.

(** [x - y] is a number when [x] is finite and [y] is a number. *)
Lemma sub_float x y :
  SFfinite (Prim2SF x) -> is_nan y = false -> is_nan (x - y)%float = false.
Proof. rewrite !is_nan_false, sub_spec. apply SFsub_number. Qed.

(** [x / y] is a number when [x] is one and [y] is finite and not zero. *)
Lemma div_float x y s m e :
  is_nan x = false -> Prim2SF y = S754_finite s m e ->
  is_nan (x / y)%float = false.
Proof.
  rewrite !is_nan_false, div_spec. intros Hx Hy. by eapply SFdiv_number.
Qed.

(** ** The comparison is a total preorder on numbers *)

Lemma SFcompare_lex3 x y :
  SFnumber x -> SFnumber y ->
  SFcompare x y = Some (lex3 (SFkey x) (SFkey y)).
Proof.
  destruct x as [[]|[]| |[] m e], y as [[]|[]| |[] m' e']; try done;
    intros _ _; unfold lex3; cbn [SFcompare SFkey fst snd Z.compare].
  rewrite Z.compare_opp. rewrite (Z.compare_antisym e e').
  by destruct (e ?= e').
Qed.

Lemma lex3_refl a : lex3 a a = Eq.
Proof. unfold lex3. by rewrite !Z.compare_refl. Qed.

Lemma lex3_antisym a b : lex3 b a = CompOpp (lex3 a b).
Proof.
  unfold lex3. rewrite (Z.compare_antisym a.1.1), (Z.compare_antisym a.1.2),
    (Z.compare_antisym a.2).
  by destruct (a.1.1 ?= b.1.1), (a.1.2 ?= b.1.2).
Qed.

Lemma lex3_trans a b c : lex3 a b <> Gt -> lex3 b c <> Gt -> lex3 a c <> Gt.
Proof.
  unfold lex3.
  destruct (Z.compare_spec a.1.1 b.1.1), (Z.compare_spec b.1.1 c.1.1),
    (Z.compare_spec a.1.1 c.1.1); try done; try lia;
  destruct (Z.compare_spec a.1.2 b.1.2), (Z.compare_spec b.1.2 c.1.2),
    (Z.compare_spec a.1.2 c.1.2); try done; try lia;
  destruct (Z.compare_spec a.2 b.2), (Z.compare_spec b.2 c.2),
    (Z.compare_spec a.2 c.2); try done; lia.
Qed.

(** The comparisons of floats, by the keys. *)
Lemma leb_lex3 (a b : float) :
  (a <=? b)%float = true
  <-> is_nan a = false /\ is_nan b = false
      /\ lex3 (SFkey (Prim2SF a)) (SFkey (Prim2SF b)) <> Gt.
Proof.
  rewrite leb_spec, !is_nan_false. unfold SFleb. split.
  - intros H. assert (SFnumber (Prim2SF a) /\ SFnumber (Prim2SF b))
      as [Ha Hb] by (by destruct (Prim2SF a), (Prim2SF b)).
    rewrite (SFcompare_lex3 _ _ Ha Hb) in H. by destruct (lex3 _ _).
  - intros (Ha & Hb & H). rewrite (SFcompare_lex3 _ _ Ha Hb).
    by destruct (lex3 _ _).
Qed.

Lemma ltb_lex3 (a b : float) :
  (a <? b)%float = true
  <-> is_nan a = false /\ is_nan b = false
      /\ lex3 (SFkey (Prim2SF a)) (SFkey (Prim2SF b)) = Lt.
Proof.
  rewrite ltb_spec, !is_nan_false. unfold SFltb. split.
  - intros H. assert (SFnumber (Prim2SF a) /\ SFnumber (Prim2SF b))
      as [Ha Hb] by (by destruct (Prim2SF a), (Prim2SF b)).
    rewrite (SFcompare_lex3 _ _ Ha Hb) in H. by destruct (lex3 _ _).
  - intros (Ha & Hb & H). by rewrite (SFcompare_lex3 _ _ Ha Hb), H.
Qed.

(** On numbers [<] is the negation of [>=]. *)
Lemma ltb_negb_leb_float (a b : float) :
  is_nan a = false -> is_nan b = false ->
  (a <? b)%float = negb (b <=? a)%float.
Proof.
  intros Ha Hb. pose proof (ltb_lex3 a b) as Hlt.
  pose proof (leb_lex3 b a) as Hle. rewrite lex3_antisym in Hle.
  destruct (a <? b)%float, (b <=? a)%float; try done.
  - destruct (proj1 Hlt eq_refl) as (_ & _ & Hk).
    destruct (proj1 Hle eq_refl) as (_ & _ & Hk'). by rewrite Hk in Hk'.
  - destruct (lex3 _ _) eqn:Hk; [| by intuition |];
      (assert (false = true) by (by apply Hle); done).
Qed.

(** ** [Math.max] and [Math.min] *)

(** The four cases of [Float64.max] and [Float64.min]. *)
Lemma max_min_cases (a b : float) :
  (is_nan a || is_nan b = true
   /\ Float64.max a b = nan /\ Float64.min a b = nan)
  \/ (is_nan a = false /\ is_nan b = false
      /\ (a <=? b)%float = true
      /\ (Float64.max a b = b /\ Float64.min a b = a
          \/ (b <=? a)%float = true
             /\ Float64.max a b = a /\ Float64.min a b = b))
  \/ (is_nan a = false /\ is_nan b = false
      /\ (b <=? a)%float = true
      /\ Float64.max a b = a /\ Float64.min a b = b).
Proof.
  unfold Float64.max, Float64.min. destruct (is_nan a) eqn:Ha; [by left|].
  destruct (is_nan b) eqn:Hb; [by left|]. right. cbn [orb].
  rewrite (ltb_negb_leb_float a b), (ltb_negb_leb_float b a) by done.
  destruct (b <=? a)%float eqn:Hba, (a <=? b)%float eqn:Hab; cbn [negb].
  - left. repeat split; try done. destruct (Float64.is_neg_zero a); auto.
  - by right.
  - left. repeat split; try done. by left.
  - pose proof (proj1 (ltb_lex3 a b)) as H1.
    rewrite (ltb_negb_leb_float a b), Hba in H1 by done.
    destruct (H1 eq_refl) as (_ & _ & Hk).
    assert ((a <=? b)%float = true); [|congruence].
    apply leb_lex3. by rewrite Hk.
Qed.

Section MaxMin.
Implicit Types a b c : float.
Local Open Scope float_scope.

(** A comparison that holds compares numbers. *)
Lemma leb_float_number a b :
  (a <=? b) = true -> is_nan a = false /\ is_nan b = false.
Proof. by intros (? & ? & _)%leb_lex3. Qed.

Lemma ltb_float_number a b :
  (a <? b) = true -> is_nan a = false /\ is_nan b = false.
Proof. by intros (? & ? & _)%ltb_lex3. Qed.

Lemma leb_float_refl a : is_nan a = false -> (a <=? a) = true.
Proof. intros Ha. apply leb_lex3. by rewrite lex3_refl. Qed.

Lemma leb_float_trans a b c :
  (a <=? b) = true -> (b <=? c) = true -> (a <=? c) = true.
Proof.
  intros (Ha & Hb & Hab)%leb_lex3 (_ & Hc & Hbc)%leb_lex3.
  apply leb_lex3. eauto using lex3_trans.
Qed.

Lemma leb_float_total a b :
  is_nan a = false -> is_nan b = false ->
  (a <=? b) = true \/ (b <=? a) = true.
Proof.
  intros Ha Hb.
  destruct (lex3 (SFkey (Prim2SF a)) (SFkey (Prim2SF b))) eqn:Hk;
    [left | left | right]; apply leb_lex3; repeat split; try done;
    [by rewrite Hk.. | by rewrite lex3_antisym, Hk].
Qed.

Lemma max_float_NaN a b :
  is_nan (Float64.max a b) = is_nan a || is_nan b.
Proof.
  destruct (max_min_cases a b)
    as [(Hn & -> & _)|[(Ha & Hb & _ & [[-> _]|(_ & -> & _)])
                      |(Ha & Hb & _ & -> & _)]];
    rewrite ?Hn, ?Ha, ?Hb; done.
Qed.

Lemma max_float_choice a b :
  Float64.max a b = a \/ Float64.max a b = b.
Proof.
  destruct (max_min_cases a b)
    as [(Hn & -> & _)|[(Ha & Hb & _ & [[-> _]|(_ & -> & _)])
                      |(Ha & Hb & _ & -> & _)]]; auto.
  apply orb_prop in Hn as [->%is_nan_eq | ->%is_nan_eq]; auto.
Qed.

Lemma max_float_upper a b :
  is_nan a = false -> is_nan b = false ->
  (a <=? Float64.max a b) = true /\ (b <=? Float64.max a b) = true.
Proof.
  intros Ha Hb. destruct (max_min_cases a b)
    as [(Hn & _)|[(_ & _ & Hab & [[-> _]|(Hba & -> & _)])
                 |(_ & _ & Hba & -> & _)]];
    rewrite ?Ha, ?Hb in *; try done; auto using leb_float_refl.
Qed.

Lemma min_float_NaN a b :
  is_nan (Float64.min a b) = is_nan a || is_nan b.
Proof.
  destruct (max_min_cases a b)
    as [(Hn & _ & ->)|[(Ha & Hb & _ & [[_ ->]|(_ & _ & ->)])
                      |(Ha & Hb & _ & _ & ->)]];
    rewrite ?Hn, ?Ha, ?Hb; done.
Qed.

Lemma min_float_choice a b :
  Float64.min a b = a \/ Float64.min a b = b.
Proof.
  destruct (max_min_cases a b)
    as [(Hn & _ & ->)|[(Ha & Hb & _ & [[_ ->]|(_ & _ & ->)])
                      |(Ha & Hb & _ & _ & ->)]]; auto.
  apply orb_prop in Hn as [->%is_nan_eq | ->%is_nan_eq]; auto.
Qed.

Lemma min_float_lower a b :
  is_nan a = false -> is_nan b = false ->
  (Float64.min a b <=? a) = true /\ (Float64.min a b <=? b) = true.
Proof.
  intros Ha Hb. destruct (max_min_cases a b)
    as [(Hn & _)|[(_ & _ & Hab & [[_ ->]|(Hba & _ & ->)])
                 |(_ & _ & Hba & _ & ->)]];
    rewrite ?Ha, ?Hb in *; try done; auto using leb_float_refl.
Qed.

End MaxMin.

(** ** The instance *)

#[export] Instance Number_float_order : NumberOrder float := {|
  isNaN := is_nan;
  of_Z_number := of_Z_float;
  leb_0_1 := eq_refl;
  leb_number := leb_float_number;
  ltb_number := ltb_float_number;
  leb_reflexive := leb_float_refl;
  leb_transitive := leb_float_trans;
  leb_total := leb_float_total;
  ltb_negb_leb := ltb_negb_leb_float;
  Math_max_NaN := max_float_NaN;
  Math_max_choice := max_float_choice;
  Math_max_upper := max_float_upper;
  Math_min_NaN := min_float_NaN;
  Math_min_choice := min_float_choice;
  Math_min_lower := min_float_lower;
|}.
