(* ===== verification/Types.v ===== *)
(** * Types: the data of the component

    The type aliases and interfaces of [src/app/page.tsx] (lines 6-45), the
    mutable object [gameRef.current] (lines 58-69) and the layout constants
    derived from the canvas size (lines 71-77).

    Each interface is a record in a module of its name; a field that the
    program assigns has a setter [set_<field>].  Arrays are lists, [push]
    appends at the end. *)

From Stdlib Require Import ZArith String.
From stdpp Require Import base decidable list.
From S2P Require Import Prelude Number.

(** [type GameState = 'menu' | 'game' | 'end'] *)
Inductive GameState := menu | game | end'.

(** [type Difficulty = 'easy' | 'intermediate' | 'hard'] *)
Inductive Difficulty := easy | intermediate | hard.

(** [size: 'small' | 'large'] *)
Inductive Size := small | large.

#[export] Instance GameState_eq_dec : EqDecision GameState.
Proof. solve_decision. Defined.
#[export] Instance Difficulty_eq_dec : EqDecision Difficulty.
Proof. solve_decision. Defined.
#[export] Instance Size_eq_dec : EqDecision Size.
Proof. solve_decision. Defined.

(** [interface Target] *)
Module Target.
Record t {num : Type} := mk {
  id : Z;
  x : num;
  y : num;
  radius : num;
  size : Size;
  velocity : num;
  direction : num;
  createdAt : Z;
}.
Arguments t : clear implicits.

Definition set_x {num} (v : num) (a : t num) : t num :=
  mk num (id a) v (y a) (radius a) (size a) (velocity a) (direction a)
     (createdAt a).

Definition set_direction {num} (v : num) (a : t num) : t num :=
  mk num (id a) (x a) (y a) (radius a) (size a) (velocity a) v (createdAt a).
End Target.

(** [interface Feedback] *)
Module Feedback.
Record t {num : Type} := mk {
  x : num;
  y : num;
  text : string;
  points : Z;
  opacity : num;
  isMiss : bool;
}.
Arguments t : clear implicits.

Definition set_opacity {num} (v : num) (a : t num) : t num :=
  mk num (x a) (y a) (text a) (points a) v (isMiss a).
End Feedback.

(** [interface Sparkle] *)
Module Sparkle.
Record t {num : Type} := mk {
  x : num;
  y : num;
  life : num;
  angle : num;
  speed : num;
  rotation : num;
}.
Arguments t : clear implicits.

Definition set_life {num} (v : num) (a : t num) : t num :=
  mk num (x a) (y a) v (angle a) (speed a) (rotation a).

Definition set_rotation {num} (v : num) (a : t num) : t num :=
  mk num (x a) (y a) (life a) (angle a) (speed a) v.
End Sparkle.

(** [interface GameStats] *)
Module GameStats.
Record t {num : Type} := mk {
  finalScore : Z;
  perfectHits : Z;
  totalHits : Z;
  reactionTimes : list Z;
  averageReactionTime : num;
  mode : Difficulty;
}.
Arguments t : clear implicits.
End GameStats.

(** The object behind [gameRef]. *)
Module Game.
Record t {num : Type} := mk {
  score : Z;
  timeLeft : num;
  targets : list (Target.t num);
  feedback : list (Feedback.t num);
  sparkles : list (Sparkle.t num);
  nextTargetId : Z;
  perfectHits : Z;
  totalHits : Z;
  mousePos : num * num;
  reactionTimes : list Z;
}.
Arguments t : clear implicits.

Section Setters.
Context {num : Type}.
Implicit Type g : t num.

Definition set_score (v : Z) g : t num :=
  mk num v (timeLeft g) (targets g) (feedback g) (sparkles g)
     (nextTargetId g) (perfectHits g) (totalHits g) (mousePos g)
     (reactionTimes g).

Definition set_timeLeft (v : num) g : t num :=
  mk num (score g) v (targets g) (feedback g) (sparkles g)
     (nextTargetId g) (perfectHits g) (totalHits g) (mousePos g)
     (reactionTimes g).

Definition set_targets (v : list (Target.t num)) g : t num :=
  mk num (score g) (timeLeft g) v (feedback g) (sparkles g)
     (nextTargetId g) (perfectHits g) (totalHits g) (mousePos g)
     (reactionTimes g).

Definition set_feedback (v : list (Feedback.t num)) g : t num :=
  mk num (score g) (timeLeft g) (targets g) v (sparkles g)
     (nextTargetId g) (perfectHits g) (totalHits g) (mousePos g)
     (reactionTimes g).

Definition set_sparkles (v : list (Sparkle.t num)) g : t num :=
  mk num (score g) (timeLeft g) (targets g) (feedback g) v
     (nextTargetId g) (perfectHits g) (totalHits g) (mousePos g)
     (reactionTimes g).

Definition set_nextTargetId (v : Z) g : t num :=
  mk num (score g) (timeLeft g) (targets g) (feedback g) (sparkles g)
     v (perfectHits g) (totalHits g) (mousePos g) (reactionTimes g).

Definition set_perfectHits (v : Z) g : t num :=
  mk num (score g) (timeLeft g) (targets g) (feedback g) (sparkles g)
     (nextTargetId g) v (totalHits g) (mousePos g) (reactionTimes g).

Definition set_totalHits (v : Z) g : t num :=
  mk num (score g) (timeLeft g) (targets g) (feedback g) (sparkles g)
     (nextTargetId g) (perfectHits g) v (mousePos g) (reactionTimes g).

Definition set_mousePos (v : num * num) g : t num :=
  mk num (score g) (timeLeft g) (targets g) (feedback g) (sparkles g)
     (nextTargetId g) (perfectHits g) (totalHits g) v (reactionTimes g).

Definition set_reactionTimes (v : list Z) g : t num :=
  mk num (score g) (timeLeft g) (targets g) (feedback g) (sparkles g)
     (nextTargetId g) (perfectHits g) (totalHits g) (mousePos g) v.

End Setters.

(** The object [gameRef] starts with, and [initializeGame] puts back. *)
Definition init {num : Type} `{!Number num} : t num :=
  mk num 0 (#60)%num [] [] [] 0 0 0 ((#0)%num, (#0)%num) [].
End Game.

(** ** Layout constants, from the height of the canvas *)

Section Layout.
Context {num : Type} `{!Number num}.
Variable CANVAS_HEIGHT : num.
Local Open Scope num_scope.

Definition TARGET_AREA_TOP : num := #40.
Definition TARGET_AREA_BOTTOM : num := CANVAS_HEIGHT * dec 4 10.
Definition TARGET_SPAWN_Y : num := CANVAS_HEIGHT * dec 4 10.
Definition NET_Y : num := CANVAS_HEIGHT * dec 65 100.
Definition NET_HEIGHT : num := CANVAS_HEIGHT - NET_Y.

End Layout.

(** The radius of each size class ([size === 'large' ? 190 : 130]). *)
Definition radius_of {num : Type} `{!Number num} (s : Size) : num :=
  match s with large => (#190)%num | small => (#130)%num end.
