(* ===== verification/Spawner.v ===== *)
(** * Spawner: [addNewTarget]

    [addNewTarget] of [src/app/page.tsx] (lines 129-165): it samples a size
    and a horizontal position until the new target keeps a margin of 80 to
    every live target, then draws a velocity and a direction and pushes the
    target.

    [Math_random k] is the value of the [k]-th call of [Math.random()]; the
    functions take the count of calls made so far and return the new count.
    The [while] loop is [placement], on fuel.

    Over the reals the file proves that a call that returns meets the
    contract of the spawner in the spec ([spawned], [spawn_contract]), and
    when the loop can end and when it cannot: against a target that blocks the row, and at the start of a
    session on a canvas no wider than [startWidth], where the first target
    blocks the second spawn. *)

From Stdlib Require Import ZArith Floats Reals Lra.
From stdpp Require Import base option list.
From S2P Require Import Prelude Number Float64 Exact Types.

Section Spawner.
Context {num : Type} `{!Number num}.
Variable Math_random : nat -> num.
Variables CANVAS_WIDTH CANVAS_HEIGHT : num.
Variable difficulty : Difficulty.
Local Open Scope num_scope.

Abbreviation Target := (Target.t num).
Abbreviation Game := (Game.t num).

(** The body of the [while] loop before its [for]: the size, the radius and
    the position of one candidate, and the count of draws after it. *)
Definition candidate (currentDifficulty : Difficulty) (k : nat)
    : Size * num * num * nat :=
  let '(size, k) :=
    match currentDifficulty with
    | easy => (large, k)
    | _ => (coin (Math_random k) large small, S k)
    end in
  let radius := radius_of size in
  let x := Math_random k * (CANVAS_WIDTH - radius * #2) + radius in
  (size, radius, x, S k).

(** The test of the [for] loop on one live target. *)
Definition tooClose (x radius : num) (target : Target) : bool :=
  let distance := Math_sqrt (sq (x - Target.x target)) in
  distance <? radius + Target.radius target + #80.

(** The [for] loop: [validPosition] after it. *)
Fixpoint validPosition (x radius : num) (targets : list Target) : bool :=
  match targets with
  | [] => true
  | target :: rest =>
      if tooClose x radius target then false
      else validPosition x radius rest
  end.

(** The [while (!validPosition)] loop. *)
Fixpoint placement (fuel : nat) (currentDifficulty : Difficulty)
    (targets : list Target) (k : nat) : option (Size * num * num * nat) :=
  match fuel with
  | O => None
  | S fuel =>
      let '(size, radius, x, k) := candidate currentDifficulty k in
      if validPosition x radius targets then Some (size, radius, x, k)
      else placement fuel currentDifficulty targets k
  end.

(** [const velocity = currentDifficulty === 'hard' ? Math.random() * 1.5 + 0.5 : 0] *)
Definition drawVelocity (currentDifficulty : Difficulty) (k : nat)
    : num * nat :=
  match currentDifficulty with
  | hard => (Math_random k * dec 15 10 + dec 5 10, S k)
  | _ => (#0, k)
  end.

Definition addNewTarget (fuel : nat) (diff : option Difficulty) (now : Z)
    (g : Game) (k : nat) : option (Game * nat) :=
  let currentDifficulty := default difficulty diff in
  match placement fuel currentDifficulty (Game.targets g) k with
  | None => None
  | Some (size, radius, x, k) =>
      let '(velocity, k) := drawVelocity currentDifficulty k in
      let direction := coin (Math_random k) #1 #(-1) in
      let target :=
        Target.mk num (Game.nextTargetId g) x (TARGET_SPAWN_Y CANVAS_HEIGHT)
          radius size velocity direction now in
      Some (Game.set_targets (Game.targets g ++ [target])
              (Game.set_nextTargetId (Game.nextTargetId g + 1) g),
            S k)
  end.

End Spawner.

(** Calls of [Math.random()] in one round of the [while] loop. *)
Definition drawsPerTry (d : Difficulty) : nat :=
  match d with easy => 1 | _ => 2 end.

(** A large target [u] in the way, over the reals: wherever a large
    candidate falls on a canvas of this width, it is closer than
    [190 + 190 + 80] to [u]. *)
Definition blocksRow (CANVAS_WIDTH : R) (u : Target.t R) : Prop :=
  (Target.radius u = 190
   /\ Rabs (190 - Target.x u) < 460
   /\ Rabs (CANVAS_WIDTH - 190 - Target.x u) <= 460)%R.

(** A target [u] in the way of every candidate of radius [radius]: the
    two ends of the sampling range are closer than [radius + u.radius + 80]
    to [u]. *)
Definition blocksSize (CANVAS_WIDTH radius : R) (u : Target.t R) : Prop :=
  (Rabs (radius - Target.x u) < radius + Target.radius u + 80
   /\ Rabs (CANVAS_WIDTH - radius - Target.x u)
      <= radius + Target.radius u + 80)%R.

(** The width a session needs to start: room for two targets of the
    smallest size of the mode, [radius * 2] for the sampling range and
    [radius + radius + 80] between the centres. *)
Definition startWidth (d : Difficulty) : R :=
  match d with easy => 840 | _ => 600 end.

(** The contract of the spawner (spec 4.1), over the reals: what a target
    returned for difficulty [d], against the live [targets], promises.  The
    range is that of [Math.random()]: the right end is not reached. *)
Record spawned (CANVAS_WIDTH CANVAS_HEIGHT : R) (d : Difficulty)
    (id now : Z) (targets : list (Target.t R)) (target : Target.t R)
    : Prop := {
  spawned_id : Target.id target = id;
  spawned_createdAt : Target.createdAt target = now;
  spawned_size : d = easy -> Target.size target = large;
  spawned_radius : Target.radius target = radius_of (Target.size target);
  spawned_row : Target.y target = TARGET_SPAWN_Y CANVAS_HEIGHT;
  spawned_range :
    (Target.radius target * 2 < CANVAS_WIDTH ->
     Target.radius target <= Target.x target
     < CANVAS_WIDTH - Target.radius target)%R;
  spawned_margin :
    Forall (fun u => (Target.radius target + Target.radius u + 80
                      <= Rabs (Target.x target - Target.x u))%R) targets;
  spawned_velocity :
    (if decide (d = hard) then 1 / 2 <= Target.velocity target < 2
     else Target.velocity target = 0)%R;
  spawned_direction :
    (Target.direction target = 1 \/ Target.direction target = -1)%R
}.

(** ** Sample inputs, for the concrete instances of the theorems *)

Module Sample.
Section Binary64.
Local Open Scope float_scope.

(** A finite record of [Math.random()] results, 0.625 ever after. *)
Definition random (k : nat) : float :=
  nth k [0.25; 0.5; 0.75; 0.125; 0.875; 0.375; 0.0625; 0.9375] 0.625.

(** The empty game on a 1920 x 1080 canvas, and the states after one and two
    calls of [addNewTarget] at clock reading 1000. *)
Definition spawn (d : Difficulty) (g : Game.t float) (k : nat)
    : option (Game.t float * nat) :=
  addNewTarget random 1920 1080 d 10 None 1000 g k.

Definition g1 : Game.t float :=
  Eval vm_compute in default Game.init (fst <$> spawn easy Game.init 0).
Definition g2 : Game.t float :=
  Eval vm_compute in default Game.init (fst <$> spawn easy g1 2).
Definition h1 : Game.t float :=
  Eval vm_compute in default Game.init (fst <$> spawn hard Game.init 0).

End Binary64.

Section Real.
Local Open Scope R_scope.

(** Over the reals: a large target in the middle of a row of width 1280,
    one at the left end of a row of width 1920, and a moving one in the
    middle of a row of width 1000; [Math.random()] always 1/2. *)
Definition half (k : nat) : R := 1 / 2.
Definition middle : Target.t R := Target.mk R 0 640 432 190 large 0 1 0.
Definition left : Target.t R := Target.mk R 0 190 432 190 large 0 1 0.
Definition blocked : Game.t R :=
  Game.set_nextTargetId 1 (Game.set_targets [middle] Game.init).
Definition centre : Target.t R := Target.mk R 0 500 432 190 large 1 1 0.
Definition narrow : Game.t R :=
  Game.set_nextTargetId 1 (Game.set_targets [centre] Game.init).
Definition open : Game.t R :=
  Game.set_nextTargetId 1 (Game.set_targets [left] Game.init).

End Real.
End Sample.

(** ** What holds for every number system *)

Section SpawnerFacts.
Context {num : Type} `{!Number num}.
Variable Math_random : nat -> num.
Variables CANVAS_WIDTH CANVAS_HEIGHT : num.
Variable difficulty : Difficulty.

Abbreviation Target := (Target.t num).
Abbreviation Game := (Game.t num).
Abbreviation candidate' := (candidate Math_random CANVAS_WIDTH).
Abbreviation placement' := (placement Math_random CANVAS_WIDTH).

(** The [for] loop with its [break] is a universal test over the live
    targets. *)
Lemma validPosition_Forall (x radius : num) (targets : list Target) :
  validPosition x radius targets = true <->
  Forall (fun target => tooClose x radius target = false) targets.
Proof.
  induction targets as [|u targets IH]; cbn [validPosition].
  - split; [constructor | done].
  - rewrite Forall_cons. destruct (tooClose x radius u); [|tauto].
    split; [done | intros [[=] _]].
Qed.

Lemma candidate_shape d k size radius x k' :
  candidate' d k = (size, radius, x, k') ->
  radius = radius_of size /\ k' = k + drawsPerTry d
  /\ (d = easy -> size = large)
  /\ x = (Math_random (pred k') * (CANVAS_WIDTH - radius * #2) + radius)%num.
Proof.
  unfold candidate. destruct d; intros [= <- <- <- <-]; cbn;
    repeat split; try done; try lia; f_equal; f_equal; lia.
Qed.

(** What the loop returns is one of its candidates, the first that no live
    target rejects. *)
Lemma placement_Some fuel d targets k size radius x k' :
  placement' fuel d targets k = Some (size, radius, x, k') ->
  exists j, j < fuel
    /\ candidate' d (k + j * drawsPerTry d) = (size, radius, x, k')
    /\ validPosition x radius targets = true
    /\ forall i, i < j ->
         let '(_, r, y, _) := candidate' d (k + i * drawsPerTry d) in
         validPosition y r targets = false.
Proof.
  revert k. induction fuel as [|fuel IH]; intros k; [done|].
  cbn [placement].
  destruct (candidate' d k) as [[[s r] y] k1] eqn:Hc.
  destruct (validPosition y r targets) eqn:Hv.
  - intros [= <- <- <- <-]. exists 0. rewrite Nat.add_0_r.
    repeat split; try done; [lia|]. intros; lia.
  - intros (j & Hj & Hcj & Hvj & Hrej)%IH.
    apply candidate_shape in Hc as Hk1. destruct Hk1 as (_ & -> & _).
    exists (S j). replace (k + S j * drawsPerTry d)
      with (k + drawsPerTry d + j * drawsPerTry d) by lia.
    repeat split; try done; [lia|]. intros [|i] Hi.
    + rewrite Nat.add_0_r, Hc. done.
    + replace (k + S i * drawsPerTry d)
        with (k + drawsPerTry d + i * drawsPerTry d) by lia.
      apply Hrej. lia.
Qed.

(** Termination, given an accepted candidate: when the rounds before round
    [j] are rejected and round [j] is accepted, any fuel above [j] returns
    round [j]'s candidate. *)
Lemma placement_first_valid d targets k j fuel :
  (forall i, i < j ->
     let '(_, r, y, _) := candidate' d (k + i * drawsPerTry d) in
     validPosition y r targets = false) ->
  (let '(_, r, y, _) := candidate' d (k + j * drawsPerTry d) in
   validPosition y r targets = true) ->
  j < fuel ->
  placement' fuel d targets k
  = Some (candidate' d (k + j * drawsPerTry d)).
Proof.
  revert k fuel. induction j as [|j IH]; intros k [|fuel] Hrej Hok Hfuel;
    try lia; cbn [placement].
  - rewrite Nat.add_0_r in *.
    destruct (candidate' d k) as [[[s r] y] k1]. rewrite Hok. done.
  - specialize (Hrej 0 ltac:(lia)) as Hrej0. rewrite Nat.add_0_r in Hrej0.
    destruct (candidate' d k) as [[[s r] y] k1] eqn:Hc. rewrite Hrej0.
    apply candidate_shape in Hc as (_ & -> & _).
    replace (k + S j * drawsPerTry d)
      with (k + drawsPerTry d + j * drawsPerTry d) in * by lia.
    apply IH; [|done|lia]. intros i Hi. specialize (Hrej (S i) ltac:(lia)).
    replace (k + S i * drawsPerTry d)
      with (k + drawsPerTry d + i * drawsPerTry d) in Hrej by lia. done.
Qed.

(** More fuel does not change a result. *)
Lemma placement_fuel_mono fuel fuel' d targets k res :
  placement' fuel d targets k = Some res -> fuel <= fuel' ->
  placement' fuel' d targets k = Some res.
Proof.
  destruct res as [[[s r] x] k']. intros (j & Hj & Hc & Hv & Hrej)%placement_Some Hle.
  rewrite <- Hc. apply placement_first_valid; [done | by rewrite Hc | lia].
Qed.

(** When every candidate is rejected, no fuel is enough: the loop of the
    source does not terminate. *)
Lemma placement_all_rejected d targets :
  (forall k, let '(_, r, y, _) := candidate' d k in
             validPosition y r targets = false) ->
  forall fuel k, placement' fuel d targets k = None.
Proof.
  intros Hrej fuel. induction fuel as [|fuel IH]; intros k; [done|].
  cbn [placement]. specialize (Hrej k).
  destruct (candidate' d k) as [[[s r] y] k1]. rewrite Hrej. apply IH.
Qed.

(** A first candidate that no live target rejects is pushed at once. *)
Lemma addNewTarget_accepts fuel diff now (g : Game) k size radius x k1
    velocity k2 :
  candidate' (default difficulty diff) k = (size, radius, x, k1) ->
  validPosition x radius (Game.targets g) = true ->
  drawVelocity Math_random (default difficulty diff) k1 = (velocity, k2) ->
  addNewTarget Math_random CANVAS_WIDTH CANVAS_HEIGHT difficulty
    (S fuel) diff now g k
  = Some (Game.set_targets
            (Game.targets g ++
               [Target.mk num (Game.nextTargetId g) x
                  (TARGET_SPAWN_Y CANVAS_HEIGHT) radius size velocity
                  (coin (Math_random k2) (#1)%num (#(-1))%num) now])
            (Game.set_nextTargetId (Game.nextTargetId g + 1) g),
          S k2).
Proof.
  intros Hc Hv Hd. unfold addNewTarget. cbn [placement].
  by rewrite Hc, Hv, Hd.
Qed.

(** The shape of a spawned target and of the state after the push, shared
    by the properties below. *)
Lemma addNewTarget_inv fuel diff now (g g' : Game) k k' :
  addNewTarget Math_random CANVAS_WIDTH CANVAS_HEIGHT difficulty
    fuel diff now g k = Some (g', k') ->
  exists size radius x velocity k1 k2,
    placement' fuel (default difficulty diff) (Game.targets g) k
      = Some (size, radius, x, k1)
    /\ drawVelocity Math_random (default difficulty diff) k1 = (velocity, k2)
    /\ k' = S k2
    /\ g' = Game.set_targets
              (Game.targets g ++
                 [Target.mk num (Game.nextTargetId g) x
                    (TARGET_SPAWN_Y CANVAS_HEIGHT) radius size velocity
                    (coin (Math_random k2) (#1)%num (#(-1))%num) now])
              (Game.set_nextTargetId (Game.nextTargetId g + 1) g).
Proof.
  unfold addNewTarget.
  destruct (placement' _ _ _ _) as [[[[size radius] x] k1]|]; [|done].
  destruct (drawVelocity _ _ _) as [velocity k2] eqn:Hv. intros [= <- <-].
  by exists size, radius, x, velocity, k1, k2.
Qed.

(** [addNewTarget] appends exactly one target, whose identifier is the
    counter's value before the call, and advances the counter by one; the
    new target sits on the spawn row and carries the clock reading; score,
    effects, counters and reaction times are untouched. *)
Theorem addNewTarget_pushes_one fuel diff now (g g' : Game) k k' :
  addNewTarget Math_random CANVAS_WIDTH CANVAS_HEIGHT difficulty
    fuel diff now g k = Some (g', k') ->
  exists target,
    Game.targets g' = Game.targets g ++ [target]
    /\ Target.id target = Game.nextTargetId g
    /\ Game.nextTargetId g' = (Game.nextTargetId g + 1)%Z
    /\ Target.y target = TARGET_SPAWN_Y CANVAS_HEIGHT
    /\ Target.createdAt target = now
    /\ Game.score g' = Game.score g
    /\ Game.feedback g' = Game.feedback g
    /\ Game.sparkles g' = Game.sparkles g
    /\ Game.totalHits g' = Game.totalHits g
    /\ Game.perfectHits g' = Game.perfectHits g
    /\ Game.reactionTimes g' = Game.reactionTimes g.
Proof.
  intros (size & radius & x & v & k1 & k2 & _ & _ & _ & ->)
    %addNewTarget_inv.
  eexists. repeat split.
Qed.

(** The target [addNewTarget] pushes passed the overlap test against every
    target that was live. *)
Lemma addNewTarget_valid fuel diff now (g g' : Game) k k' :
  addNewTarget Math_random CANVAS_WIDTH CANVAS_HEIGHT difficulty
    fuel diff now g k = Some (g', k') ->
  exists target,
    Game.targets g' = Game.targets g ++ [target]
    /\ Forall (fun u => tooClose (Target.x target) (Target.radius target) u
                        = false)
         (Game.targets g).
Proof.
  intros (size & radius & x & v & k1 & k2 & Hp & _ & _ & ->)
    %addNewTarget_inv.
  apply placement_Some in Hp as (_ & _ & _ & Hv%validPosition_Forall & _).
  eexists. split; [reflexivity | exact Hv].
Qed.

(** The radius is fixed by the size class (190 for large, 130 for
    small), easy sessions spawn large targets only, and the direction is
    1 or -1. *)
Theorem addNewTarget_size_radius fuel diff now (g g' : Game) k k' :
  addNewTarget Math_random CANVAS_WIDTH CANVAS_HEIGHT difficulty
    fuel diff now g k = Some (g', k') ->
  exists target,
    Game.targets g' = Game.targets g ++ [target]
    /\ Target.radius target = radius_of (Target.size target)
    /\ (default difficulty diff = easy -> Target.size target = large)
    /\ (Target.direction target = (#1)%num
        \/ Target.direction target = (#(-1))%num).
Proof.
  intros (size & radius & x & v & k1 & k2 & Hp & _ & _ & ->)
    %addNewTarget_inv.
  apply placement_Some in Hp as (j & _ & Hc%candidate_shape & _).
  destruct Hc as (-> & _ & Heasy & _).
  eexists. repeat split; [done|]. cbn. unfold coin. split_if; auto.
Qed.

(** Only hard sessions move targets: in every other difficulty the
    spawned target has velocity 0, and no random number is drawn for it. *)
Theorem addNewTarget_velocity fuel diff now (g g' : Game) k k' :
  addNewTarget Math_random CANVAS_WIDTH CANVAS_HEIGHT difficulty
    fuel diff now g k = Some (g', k') ->
  default difficulty diff <> hard ->
  exists target,
    Game.targets g' = Game.targets g ++ [target]
    /\ Target.velocity target = (#0)%num.
Proof.
  intros (size & radius & x & v & k1 & k2 & _ & Hv & _ & ->)
    %addNewTarget_inv Hd.
  eexists. split; [reflexivity|]. cbn.
  destruct (default difficulty diff); cbn in Hv; congruence.
Qed.

(** Termination of the sampling loop, relative to the random numbers:
    if the first [j] candidates are rejected and the next one is accepted,
    [addNewTarget] returns for every fuel above [j]. *)
Theorem addNewTarget_terminates diff now (g : Game) k j fuel :
  (forall i, i < j ->
     let '(_, r, y, _) :=
       candidate' (default difficulty diff)
         (k + i * drawsPerTry (default difficulty diff)) in
     validPosition y r (Game.targets g) = false) ->
  (let '(_, r, y, _) :=
     candidate' (default difficulty diff)
       (k + j * drawsPerTry (default difficulty diff)) in
   validPosition y r (Game.targets g) = true) ->
  j < fuel ->
  is_Some (addNewTarget Math_random CANVAS_WIDTH CANVAS_HEIGHT difficulty
             fuel diff now g k).
Proof.
  intros Hrej Hok Hfuel. unfold addNewTarget.
  rewrite (placement_first_valid _ _ _ j) by done.
  destruct (candidate' _ _) as [[[s r] y] k1].
  destruct (drawVelocity _ _ _). done.
Qed.

End SpawnerFacts.

(** ** Placement over the real numbers *)

Section SpawnerExact.
Variable Math_random : nat -> R.
Hypothesis random_range : forall k, (0 <= Math_random k < 1)%R.
Variables CANVAS_WIDTH CANVAS_HEIGHT : R.
Variable difficulty : Difficulty.
Local Open Scope R_scope.

(** The overlap test compares the distance of the centres on the row. *)
Lemma tooClose_R x radius (u : Target.t R) :
  tooClose x radius u = true <->
  Rabs (x - Target.x u) < radius + Target.radius u + 80.
Proof.
  unfold tooClose. rewrite ltb_true. cbn. unfold sq. cbn.
  rewrite sqrt_sq. done.
Qed.

Lemma tooClose_R_false x radius (u : Target.t R) :
  tooClose x radius u = false <->
  radius + Target.radius u + 80 <= Rabs (x - Target.x u).
Proof.
  rewrite <- not_true_iff_false, tooClose_R. lra.
Qed.

Lemma radius_of_R s : radius_of s = 190 \/ radius_of s = 130.
Proof. destruct s; cbn; auto. Qed.

(** A candidate lies between the two positions the extreme draws give. *)
Lemma candidate_between d k size radius x k' :
  candidate Math_random CANVAS_WIDTH d k = (size, radius, x, k') ->
  exists rho, 0 <= rho < 1
    /\ x = (1 - rho) * radius + rho * (CANVAS_WIDTH - radius).
Proof.
  intros (_ & _ & _ & ->)%candidate_shape.
  exists (Math_random (pred k')). split; [apply random_range|]. cbn. lra.
Qed.

(** Spawn-time separation, in numbers: when [addNewTarget] returns, the
    centre of the new target is at distance at least
    [radius + u.radius + 80] from the centre of every target [u] that was
    live, measured along the row as the source does. *)
Theorem spawn_margin fuel diff now (g g' : Game.t R) k k' :
  addNewTarget Math_random CANVAS_WIDTH CANVAS_HEIGHT difficulty
    fuel diff now g k = Some (g', k') ->
  exists target,
    Game.targets g' = Game.targets g ++ [target]
    /\ forall u, In u (Game.targets g) ->
         Target.radius target + Target.radius u + 80
         <= Rabs (Target.x target - Target.x u).
Proof.
  intros (target & Ht & Hall)%addNewTarget_valid.
  exists target. split; [done|]. intros u Hu.
  apply tooClose_R_false. rewrite Forall_forall in Hall.
  apply Hall, list_elem_of_In, Hu.
Qed.

(** On a canvas at least as wide as a large target, the spawned target
    lies within the canvas: [radius <= x <= CANVAS_WIDTH - radius]. *)
Theorem spawn_inside_canvas fuel diff now (g g' : Game.t R) k k' :
  addNewTarget Math_random CANVAS_WIDTH CANVAS_HEIGHT difficulty
    fuel diff now g k = Some (g', k') ->
  380 <= CANVAS_WIDTH ->
  exists target,
    Game.targets g' = Game.targets g ++ [target]
    /\ Target.radius target <= Target.x target
       <= CANVAS_WIDTH - Target.radius target.
Proof.
  intros (size & radius & x & v & k1 & k2 & Hp & _ & _ & ->)
    %addNewTarget_inv HW.
  apply placement_Some in Hp as (j & _ & Hc & _).
  apply candidate_shape in Hc as Hr. destruct Hr as (-> & _).
  apply candidate_between in Hc as (rho & Hrho & ->).
  eexists. split; [reflexivity|]. cbn.
  destruct (radius_of_R size) as [-> | ->]; nra.
Qed.

(** C22. The loop does not test the width of the canvas.  On a canvas
    narrower than a small target, the first spawn of a session (no live
    target) returns at its first candidate for every fuel but 0, and the
    target does not fit the canvas: its disc passes the right edge. *)
Theorem first_spawn_off_canvas fuel diff now (g : Game.t R) k :
  Game.targets g = [] -> CANVAS_WIDTH < 260 ->
  exists g' k' target,
    addNewTarget Math_random CANVAS_WIDTH CANVAS_HEIGHT difficulty
      (S fuel) diff now g k = Some (g', k')
    /\ Game.targets g' = [target]
    /\ CANVAS_WIDTH < Target.x target + Target.radius target.
Proof.
  intros Hempty HW. unfold addNewTarget. rewrite Hempty. cbn [placement].
  destruct (candidate _ _ _ _) as [[[size radius] x] k1] eqn:Hc.
  cbn [validPosition]. destruct (drawVelocity _ _ _) as [velocity k2].
  apply candidate_shape in Hc as Hr. destruct Hr as (-> & _).
  apply candidate_between in Hc as (rho & Hrho & ->).
  eexists _, _, _. split; [reflexivity|]. split; [reflexivity|]. cbn.
  destruct (radius_of_R size) as [-> | ->]; nra.
Qed.

(** The velocity of a spawned target: in a hard session it is in
    [[0.5, 2)], in the others it is 0; it is never negative. *)
Theorem spawn_velocity_range fuel diff now (g g' : Game.t R) k k' :
  addNewTarget Math_random CANVAS_WIDTH CANVAS_HEIGHT difficulty
    fuel diff now g k = Some (g', k') ->
  exists target,
    Game.targets g' = Game.targets g ++ [target]
    /\ (default difficulty diff = hard ->
        1 / 2 <= Target.velocity target < 2)
    /\ (default difficulty diff <> hard -> Target.velocity target = 0)
    /\ 0 <= Target.velocity target < 2.
Proof.
  intros (size & radius & x & v & k1 & k2 & _ & Hv & _ & ->)
    %addNewTarget_inv.
  eexists. split; [reflexivity|]. cbn [Target.velocity].
  destruct (default difficulty diff); injection Hv as <- _;
    pose proof (random_range k1); cbn; repeat split; try done; lra.
Qed.

(** C5. The spawner meets its contract.  When [addNewTarget] returns, the
    game is the game before with one target pushed and the identifier
    counter advanced, and the target is as the contract of the spawner
    asks: the next identifier and the clock reading, a size the difficulty
    allows with the radius of its class, on the spawn row, inside the
    canvas when the canvas is wider than the target, at least the margin
    from every target that was live, with a velocity in [[0.5, 2)] in a
    hard session and 0 in the others, and a direction 1 or -1. *)
Theorem spawn_contract fuel diff now (g g' : Game.t R) k k' :
  addNewTarget Math_random CANVAS_WIDTH CANVAS_HEIGHT difficulty
    fuel diff now g k = Some (g', k') ->
  exists target,
    g' = Game.set_targets (Game.targets g ++ [target])
           (Game.set_nextTargetId (Game.nextTargetId g + 1) g)
    /\ spawned CANVAS_WIDTH CANVAS_HEIGHT (default difficulty diff)
         (Game.nextTargetId g) now (Game.targets g) target.
Proof.
  intros (size & radius & x & v & k1 & k2 & Hp & Hv & _ & ->)
    %addNewTarget_inv.
  apply placement_Some in Hp as (j & _ & Hc & Hvalid & _).
  apply candidate_shape in Hc as Hr. destruct Hr as (-> & _ & Heasy & _).
  apply candidate_between in Hc as (rho & Hrho & ->).
  eexists. split; [reflexivity|]. split; cbn; try done.
  - intros HW. nra.
  - apply validPosition_Forall in Hvalid.
    eapply Forall_impl; [exact Hvalid|]. intros u Hu.
    by apply tooClose_R_false.
  - pose proof (random_range k1).
    destruct (default difficulty diff); injection Hv as <- _;
      case_decide; try done; cbn; lra.
  - unfold coin. split_if; auto.
Qed.

Lemma blocked_candidate (u : Target.t R) targets k :
  blocksRow CANVAS_WIDTH u -> In u targets ->
  let '(_, r, y, _) := candidate Math_random CANVAS_WIDTH easy k in
  validPosition y r targets = false.
Proof.
  intros (Hr & Hl & Hrt) Hu.
  destruct (candidate _ _ _ _) as [[[s r] y] k1] eqn:Hc.
  apply candidate_shape in Hc as Hs. destruct Hs as (-> & _ & Hs & _).
  rewrite (Hs eq_refl) in *. clear Hs.
  apply candidate_between in Hc as (rho & Hrho & ->).
  apply not_true_iff_false. rewrite validPosition_Forall, Forall_forall.
  intros Hall. specialize (Hall u (proj2 (list_elem_of_In _ _) Hu)).
  apply tooClose_R_false in Hall. rewrite Hr in Hall. cbn in Hall.
  revert Hl Hrt Hall. unfold Rabs. repeat destruct (Rcase_abs _); nra.
Qed.

(** C7. The sampling loop of an easy session cannot end while a large live
    target blocks the row: no fuel makes [addNewTarget] return.  The source
    has no retry bound, so the call does not return. *)
Theorem easy_spawn_diverges (u : Target.t R) now (g : Game.t R) :
  blocksRow CANVAS_WIDTH u -> In u (Game.targets g) ->
  forall fuel k,
    addNewTarget Math_random CANVAS_WIDTH CANVAS_HEIGHT difficulty
      fuel (Some easy) now g k = None.
Proof.
  intros Hu Hin fuel k. unfold addNewTarget. cbn [default].
  rewrite placement_all_rejected; [done|].
  intros k0. by apply (blocked_candidate u).
Qed.

(** A candidate of a blocked size is rejected. *)
Lemma blocked_size (u : Target.t R) targets d k :
  blocksSize CANVAS_WIDTH 190 u -> blocksSize CANVAS_WIDTH 130 u ->
  In u targets ->
  let '(_, r, y, _) := candidate Math_random CANVAS_WIDTH d k in
  validPosition y r targets = false.
Proof.
  intros [Hl1 Hr1] [Hl2 Hr2] Hu.
  destruct (candidate _ _ _ _) as [[[s r] y] k1] eqn:Hc.
  apply candidate_shape in Hc as Hs. destruct Hs as (-> & _).
  apply candidate_between in Hc as (rho & Hrho & ->).
  apply not_true_iff_false. rewrite validPosition_Forall, Forall_forall.
  intros Hall. specialize (Hall u (proj2 (list_elem_of_In _ _) Hu)).
  apply tooClose_R_false in Hall. revert Hl1 Hr1 Hl2 Hr2 Hall.
  destruct s; cbn; unfold Rabs; repeat destruct (Rcase_abs _); nra.
Qed.

(** On a narrow canvas the loop hangs in every mode.  While a live
    target is in the way of the candidates of both sizes, no candidate is
    accepted whatever the difficulty: no fuel makes [addNewTarget]
    return. *)
Theorem narrow_spawn_diverges (u : Target.t R) now (g : Game.t R) :
  blocksSize CANVAS_WIDTH 190 u -> blocksSize CANVAS_WIDTH 130 u ->
  In u (Game.targets g) ->
  forall fuel diff k,
    addNewTarget Math_random CANVAS_WIDTH CANVAS_HEIGHT difficulty
      fuel diff now g k = None.
Proof.
  intros H190 H130 Hin fuel diff k. unfold addNewTarget.
  rewrite placement_all_rejected; [done|].
  intros k0. by apply (blocked_size u).
Qed.

(** On a canvas wider than a large target, the spawned target is on the
    spawn row at a place of the sampling range, short of its right end. *)
Lemma spawn_in_range fuel diff now (g g' : Game.t R) k k' :
  addNewTarget Math_random CANVAS_WIDTH CANVAS_HEIGHT difficulty
    fuel diff now g k = Some (g', k') ->
  380 < CANVAS_WIDTH ->
  exists target,
    Game.targets g' = Game.targets g ++ [target]
    /\ Target.y target = TARGET_SPAWN_Y CANVAS_HEIGHT
    /\ Target.radius target <= Target.x target
       < CANVAS_WIDTH - Target.radius target.
Proof.
  intros (size & radius & x & v & k1 & k2 & Hp & _ & _ & ->)
    %addNewTarget_inv HW.
  apply placement_Some in Hp as (j & _ & Hc & _).
  apply candidate_shape in Hc as Hr. destruct Hr as (-> & _).
  apply candidate_between in Hc as (rho & Hrho & ->).
  eexists. split; [reflexivity|]. split; [reflexivity|]. cbn.
  destruct (radius_of_R size) as [-> | ->]; nra.
Qed.

(** On a canvas at most 600 wide, a target at the place of any candidate
    is in the way of the candidates of both sizes. *)
Lemma narrow_candidate_blocks d k size radius x k' (u : Target.t R) :
  0 <= CANVAS_WIDTH <= 600 ->
  candidate Math_random CANVAS_WIDTH d k = (size, radius, x, k') ->
  Target.x u = x -> Target.radius u = radius ->
  blocksSize CANVAS_WIDTH 190 u /\ blocksSize CANVAS_WIDTH 130 u.
Proof.
  intros HW Hc Hx Hr. apply candidate_shape in Hc as Hs.
  destruct Hs as (-> & _). apply candidate_between in Hc as (rho & Hrho & ->).
  unfold blocksSize. rewrite Hx, Hr.
  assert (0 <= rho * CANVAS_WIDTH <= CANVAS_WIDTH) by nra.
  assert (rho * CANVAS_WIDTH <= 600 * rho) by nra.
  assert (0 <= (1 - rho) * (600 - CANVAS_WIDTH)) by nra.
  destruct (radius_of_R size) as [-> | ->];
    unfold Rabs; repeat destruct (Rcase_abs _); lra.
Qed.

(** On a canvas at most 840 wide, a target at the place of a candidate of
    an easy session blocks the row. *)
Lemma easy_candidate_blocks k size radius x k' (u : Target.t R) :
  0 <= CANVAS_WIDTH <= 840 ->
  candidate Math_random CANVAS_WIDTH easy k = (size, radius, x, k') ->
  Target.x u = x -> Target.radius u = radius ->
  blocksRow CANVAS_WIDTH u.
Proof.
  intros HW Hc Hx Hr. apply candidate_shape in Hc as Hs.
  destruct Hs as (-> & _ & Hs & _). rewrite (Hs eq_refl) in *.
  apply candidate_between in Hc as (rho & Hrho & ->).
  unfold blocksRow. rewrite Hx, Hr. cbn.
  assert (0 <= rho * CANVAS_WIDTH <= CANVAS_WIDTH) by nra.
  assert (rho * CANVAS_WIDTH <= 840 * rho) by nra.
  assert (0 <= (1 - rho) * (840 - CANVAS_WIDTH)) by nra.
  unfold Rabs; repeat destruct (Rcase_abs _); lra.
Qed.

(** On a canvas no wider than [startWidth] the first target of a session
    blocks the second spawn, whatever the draws. *)
Lemma second_spawn_blocked fuel d now k (g1 : Game.t R) k1 :
  0 <= CANVAS_WIDTH <= startWidth d ->
  addNewTarget Math_random CANVAS_WIDTH CANVAS_HEIGHT difficulty
    fuel (Some d) now Game.init k = Some (g1, k1) ->
  forall fuel' now' k',
    addNewTarget Math_random CANVAS_WIDTH CANVAS_HEIGHT difficulty
      fuel' (Some d) now' g1 k' = None.
Proof.
  intros HW
    (size & radius & x & velocity & k2 & k3 & Hp & _ & _ & ->)%addNewTarget_inv
    fuel' now' k'.
  apply placement_Some in Hp as (j & _ & Hc & _). cbn [default] in Hc.
  unfold addNewTarget. rewrite placement_all_rejected; [done|]. intros k0.
  cbn [default]. match goal with |- context [_ ++ [?u]] => set (first := u) end.
  destruct (decide (d = easy)) as [-> | Hd].
  - apply (blocked_candidate first);
      [by apply (easy_candidate_blocks _ _ _ _ _ _ HW Hc) | by left].
  - assert (0 <= CANVAS_WIDTH <= 600) as HW' by (by destruct d).
    destruct (narrow_candidate_blocks _ _ _ _ _ _ first HW' Hc
                eq_refl eq_refl) as [H190 H130].
    apply (blocked_size first); [done..|by left].
Qed.

End SpawnerExact.

(** ** When the loop of an easy session can end *)

Section SpawnerLive.
Variables CANVAS_WIDTH CANVAS_HEIGHT : R.
Variable difficulty : Difficulty.
Local Open Scope R_scope.

(** A draw whose candidate is far enough from the one live target is
    accepted at once. *)
Lemma easy_spawn_accepts (r : R) (u : Target.t R) now (g : Game.t R) k :
  Game.targets g = [u] -> Target.radius u = 190 ->
  460 <= Rabs (r * (CANVAS_WIDTH - 190 * 2) + 190 - Target.x u) ->
  is_Some (addNewTarget (fun _ => r) CANVAS_WIDTH CANVAS_HEIGHT difficulty
             1 (Some easy) now g k).
Proof.
  intros Hg Hr Hfar. unfold addNewTarget.
  change (default difficulty (Some easy)) with easy.
  cbn [placement candidate validPosition]. rewrite Hg.
  cbn [validPosition]. rewrite (proj2 (tooClose_R_false _ _ _)).
  - cbn [drawVelocity]. eauto.
  - rewrite Hr. cbn. lra.
Qed.

(** The blocked row is the only obstacle.  In an easy session with one
    large live target inside the row, if the target does not block the row
    then some value of [Math.random()] is accepted at the first round of
    the loop: together with the divergence theorem, the loop can end
    exactly when the row is not blocked, which is always the case on a
    canvas at least 1300 wide. *)
Theorem easy_spawn_possible (u : Target.t R) now (g : Game.t R) k :
  Game.targets g = [u] -> Target.radius u = 190 ->
  190 <= Target.x u <= CANVAS_WIDTH - 190 ->
  ~ blocksRow CANVAS_WIDTH u \/ 1300 <= CANVAS_WIDTH ->
  exists r, 0 <= r < 1
    /\ is_Some (addNewTarget (fun _ => r) CANVAS_WIDTH CANVAS_HEIGHT
                  difficulty 1 (Some easy) now g k).
Proof.
  intros Hg Hr Hx Hfree.
  destruct (Rle_dec 650 (Target.x u)) as [Hright|Hleft].
  { exists 0. split; [lra|]. apply (easy_spawn_accepts _ u); try done.
    rewrite Rabs_left1; lra. }
  assert (Hroom : Target.x u + 460 < CANVAS_WIDTH - 190).
  { destruct Hfree as [Hnb|HW]; [|lra]. apply Rnot_le_lt. intros Hle.
    apply Hnb. unfold blocksRow. rewrite Rabs_left1, Rabs_pos_eq; lra. }
  exists ((Target.x u + 270) / (CANVAS_WIDTH - 380)). split.
  - apply ratio_range_lt; lra.
  - apply (easy_spawn_accepts _ u); try done.
    replace (_ * _ + 190 - _) with 460 by (field; lra).
    rewrite Rabs_pos_eq; lra.
Qed.

End SpawnerLive.

(** ** The theorems at the sample inputs *)

Section SpawnerWitnesses.

Lemma sample_run_easy :
  Sample.spawn easy Sample.g1 2 = Some (Sample.g2, 4).
Proof. vm_compute. reflexivity. Qed.

Lemma sample_run_hard :
  Sample.spawn hard Game.init 0 = Some (Sample.h1, 4).
Proof. vm_compute. reflexivity. Qed.

Lemma half_range k : (0 <= Sample.half k < 1)%R.
Proof. unfold Sample.half. lra. Qed.

Lemma sample_run_open :
  exists g',
    addNewTarget Sample.half 1920%R 1080%R easy 1 None 5 Sample.open 0
    = Some (g', 2).
Proof.
  unfold addNewTarget. cbn [default placement candidate Game.targets
    Sample.open Game.set_targets Game.set_nextTargetId validPosition].
  rewrite (proj2 (tooClose_R_false _ _ _)).
  - cbn [drawVelocity]. eexists. reflexivity.
  - cbn. unfold Sample.half. rewrite Rabs_pos_eq; lra.
Qed.

Lemma easy_spawn_possible_witness :
  exists r, (0 <= r < 1)%R
    /\ is_Some (addNewTarget (fun _ => r) 1920%R 1080%R easy 1 (Some easy)
                  5 Sample.open 0).
Proof.
  apply (easy_spawn_possible 1920 1080 easy Sample.left 5 Sample.open 0);
    [reflexivity | reflexivity | cbn; lra | right; lra].
Defined.

Lemma spawn_velocity_range_witness :
  exists g' target,
    Game.targets g' = Game.targets Sample.open ++ [target]
    /\ Target.velocity target = 0%R
    /\ (0 <= Target.velocity target < 2)%R.
Proof.
  destruct sample_run_open as (g' & Hrun).
  destruct (spawn_velocity_range Sample.half half_range 1920 1080 easy 1
              None 5 Sample.open g' 0 2 Hrun)
    as (target & Ht & _ & Hrest & Hv).
  exists g', target. split; [exact Ht|]. split; [|exact Hv].
  apply Hrest. discriminate.
Defined.

Lemma addNewTarget_pushes_one_witness :
  exists target,
    Game.targets Sample.g2 = Game.targets Sample.g1 ++ [target]
    /\ Target.id target = Game.nextTargetId Sample.g1
    /\ Game.nextTargetId Sample.g2 = (Game.nextTargetId Sample.g1 + 1)%Z
    /\ Target.y target = TARGET_SPAWN_Y 1080%float
    /\ Target.createdAt target = 1000%Z
    /\ Game.score Sample.g2 = Game.score Sample.g1
    /\ Game.feedback Sample.g2 = Game.feedback Sample.g1
    /\ Game.sparkles Sample.g2 = Game.sparkles Sample.g1
    /\ Game.totalHits Sample.g2 = Game.totalHits Sample.g1
    /\ Game.perfectHits Sample.g2 = Game.perfectHits Sample.g1
    /\ Game.reactionTimes Sample.g2 = Game.reactionTimes Sample.g1.
Proof.
  exact (addNewTarget_pushes_one Sample.random 1920%float 1080%float easy
           10 None 1000 Sample.g1 Sample.g2 2 4 sample_run_easy).
Defined.

Lemma addNewTarget_size_radius_witness :
  exists target,
    Game.targets Sample.g2 = Game.targets Sample.g1 ++ [target]
    /\ Target.radius target = radius_of (Target.size target)
    /\ (easy = easy -> Target.size target = large)
    /\ (Target.direction target = of_Z 1
        \/ Target.direction target = of_Z (-1)).
Proof.
  exact (addNewTarget_size_radius Sample.random 1920%float 1080%float easy
           10 None 1000 Sample.g1 Sample.g2 2 4 sample_run_easy).
Defined.

Lemma addNewTarget_velocity_witness :
  exists target,
    Game.targets Sample.g2 = Game.targets Sample.g1 ++ [target]
    /\ Target.velocity target = of_Z 0.
Proof.
  apply (addNewTarget_velocity Sample.random 1920%float 1080%float easy
           10 None 1000 Sample.g1 Sample.g2 2 4 sample_run_easy).
  discriminate.
Defined.

(** From the first draw on, two candidates fall on or next to the live
    target of [Sample.g1]; the third is accepted. *)
Lemma addNewTarget_terminates_witness :
  is_Some (addNewTarget Sample.random 1920%float 1080%float easy
             10 None 1000 Sample.g1 0).
Proof.
  apply (addNewTarget_terminates Sample.random 1920%float 1080%float easy
           None 1000 Sample.g1 0 2 10).
  - intros [|[|i]] Hi; [vm_compute; reflexivity .. | lia].
  - vm_compute. reflexivity.
  - lia.
Defined.

Lemma spawn_margin_witness :
  exists g' target,
    Game.targets g' = Game.targets Sample.open ++ [target]
    /\ forall u, In u (Game.targets Sample.open) ->
         (Target.radius target + Target.radius u + 80
          <= Rabs (Target.x target - Target.x u))%R.
Proof.
  destruct sample_run_open as [g' Hrun]. exists g'.
  exact (spawn_margin Sample.half 1920%R 1080%R easy 1 None 5
           Sample.open g' 0 2 Hrun).
Defined.

Lemma spawn_contract_witness :
  exists g' target,
    g' = Game.set_targets (Game.targets Sample.open ++ [target])
           (Game.set_nextTargetId (Game.nextTargetId Sample.open + 1)
              Sample.open)
    /\ spawned 1920 1080 easy 1 5 [Sample.left] target.
Proof.
  destruct sample_run_open as [g' Hrun]. exists g'.
  exact (spawn_contract Sample.half half_range 1920%R 1080%R easy 1 None 5
           Sample.open g' 0 2 Hrun).
Defined.

Lemma spawn_inside_canvas_witness :
  exists g' target,
    Game.targets g' = Game.targets Sample.open ++ [target]
    /\ (Target.radius target <= Target.x target
        <= 1920 - Target.radius target)%R.
Proof.
  destruct sample_run_open as [g' Hrun]. exists g'.
  apply (spawn_inside_canvas Sample.half half_range 1920%R 1080%R easy 1
           None 5 Sample.open g' 0 2 Hrun).
  lra.
Defined.

Lemma first_spawn_off_canvas_witness :
  exists g' k' target,
    addNewTarget Sample.half 200%R 1080%R easy 1 None 5 Game.init 0
    = Some (g', k')
    /\ Game.targets g' = [target]
    /\ (200 < Target.x target + Target.radius target)%R.
Proof.
  apply (first_spawn_off_canvas Sample.half half_range 200%R 1080%R easy 0
           None 5 Game.init 0); [reflexivity | lra].
Defined.

(** On a canvas 1280 wide, with a large target at 640, the second spawn of
    an easy session does not return. *)
Lemma easy_spawn_diverges_witness :
  addNewTarget Sample.half 1280%R 1080%R easy 1000 (Some easy) 5
    Sample.blocked 0 = None.
Proof.
  apply (easy_spawn_diverges Sample.half half_range 1280%R 1080%R easy
           Sample.middle 5 Sample.blocked).
  - unfold blocksRow, Sample.middle. cbn.
    rewrite Rabs_left, Rabs_pos_eq; lra.
  - left. reflexivity.
Defined.

(** On a canvas 1000 wide, with a large target at 500, no spawn of a hard
    session returns. *)
Lemma narrow_spawn_diverges_witness :
  addNewTarget Sample.half 1000%R 1080%R hard 1000 None 5 Sample.narrow 0
  = None.
Proof.
  apply (narrow_spawn_diverges Sample.half half_range 1000%R 1080%R hard
           Sample.centre 5 Sample.narrow).
  - unfold blocksSize. cbn. rewrite Rabs_left, Rabs_pos_eq; lra.
  - unfold blocksSize. cbn. rewrite Rabs_left, Rabs_pos_eq; lra.
  - left. reflexivity.
Defined.

End SpawnerWitnesses.
