(* ===== verification/Scoring.v ===== *)
(** * Scoring: [calculatePoints] and [handleCanvasClick]

    [src/app/page.tsx], lines 168-264.  A click is resolved in this order:
    ignored outside a running game; in the net, a penalty of 10 floored at 0
    and a MISS, no target looked at; otherwise the live targets are scanned
    from the most recently pushed one and the first that contains the click
    is scored, removed and replaced by a fresh spawn; when none contains it,
    a silent MISS and a burst of eight sparkles.

    The click position is an argument (the subtraction of the canvas offset,
    lines 190-192, is input plumbing); [now] is the clock reading of the
    handler; [gameState], [difficulty] and the canvas size are the values the
    handler's closure holds.

    [clicked] is [handleCanvasClick] as a relation, one rule per branch
    ([handleCanvasClick_clicked]): the lemmas of the later files about a
    click are proved by cases on it. *)

From Stdlib Require Import ZArith String Floats Reals Lra Zfloor.
From stdpp Require Import base option list.
From S2P Require Import Prelude Number Float64 Exact Types Spawner.

Section Scoring.
Context {num : Type} `{!Number num}.
Variable Math_random : nat -> num.
Variables CANVAS_WIDTH CANVAS_HEIGHT : num.
Variable difficulty : Difficulty.
Variable gameState : GameState.
Local Open Scope num_scope.

Abbreviation Target := (Target.t num).
Abbreviation Sparkle := (Sparkle.t num).
Abbreviation Game := (Game.t num).

Definition calculatePoints (distance radius : num) : Z * string :=
  let accuracy := #1 - distance / radius in
  if accuracy >? dec 95 100 then (100%Z, "PERFECT"%string)
  else
    let points := Math_floor (accuracy * #100) in
    (points, String.append "+" (string_of_Z points)).

(** [Math.sqrt((clickX - target.x) ** 2 + (clickY - target.y) ** 2)] *)
Definition distanceTo (clickX clickY : num) (target : Target) : num :=
  Math_sqrt (sq (clickX - Target.x target) + sq (clickY - Target.y target)).

(** [distance <= target.radius] *)
Definition isHit (clickX clickY : num) (target : Target) : bool :=
  distanceTo clickX clickY target <=? Target.radius target.

(** The net branch: a visible MISS and the penalty. *)
Definition netPenalty (clickX clickY : num) (g : Game) : Game :=
  let g :=
    Game.set_feedback
      (Game.feedback g ++ [Feedback.mk num clickX clickY "MISS" 0 #1 false])
      g in
  Game.set_score (Z.max 0 (Game.score g - 10)) g.

(** [target.createdAt ? Date.now() - target.createdAt : 0] *)
Definition reactionTimeOf (now : Z) (target : Target) : Z :=
  if (Target.createdAt target =? 0)%Z then 0%Z
  else (now - Target.createdAt target)%Z.

(** The body of the scan's [if]: the hit target at index [i] is scored,
    spliced out, and a new target is spawned. *)
Definition scoreHit (fuel : nat) (i : nat) (target : Target)
    (clickX clickY : num) (now : Z) (g : Game) (k : nat)
    : option (Game * nat) :=
  let distance := distanceTo clickX clickY target in
  let '(points, feedback) := calculatePoints distance (Target.radius target) in
  let reactionTime := reactionTimeOf now target in
  let g := Game.set_reactionTimes (Game.reactionTimes g ++ [reactionTime]) g in
  let g := Game.set_score (Game.score g + points) g in
  let g := Game.set_totalHits (Game.totalHits g + 1) g in
  let g :=
    if String.eqb feedback "PERFECT"
    then Game.set_perfectHits (Game.perfectHits g + 1) g else g in
  let g :=
    Game.set_feedback
      (Game.feedback g ++
         [Feedback.mk num (Target.x target) (Target.y target) feedback
            points #1 false])
      g in
  let g := Game.set_targets (delete i (Game.targets g)) g in
  addNewTarget Math_random CANVAS_WIDTH CANVAS_HEIGHT difficulty
    fuel None now g k.

(** [for (let i = 0; i < 8; i++) sparkles.push({...})], with [n] rounds to
    go from index [i]. *)
Fixpoint sparkleBurst (n : nat) (i : Z) (clickX clickY : num)
    (sparkles : list Sparkle) (k : nat) : list Sparkle * nat :=
  match n with
  | O => (sparkles, k)
  | S n =>
      let sparkle :=
        Sparkle.mk num clickX clickY #1 (#i / #8 * Math_PI * #2)
          (#2 + Math_random k * #2) (Math_random (S k) * Math_PI * #2) in
      sparkleBurst n (i + 1) clickX clickY (sparkles ++ [sparkle]) (S (S k))
  end.

(** The sparkle a burst pushes in its round [j]. *)
Definition burstSparkle (i0 : Z) (clickX clickY : num) (k : nat) (j : nat)
    : Sparkle.t num :=
  Sparkle.mk num clickX clickY (#1)%num
    (#(i0 + Z.of_nat j) / #8 * Math_PI * #2)%num
    (#2 + Math_random (k + 2 * j) * #2)%num
    (Math_random (S (k + 2 * j)) * Math_PI * #2)%num.

(** The miss branch: a MISS flagged [isMiss] and the burst. *)
Definition missEffects (clickX clickY : num) (g : Game) (k : nat)
    : Game * nat :=
  let g :=
    Game.set_feedback
      (Game.feedback g ++ [Feedback.mk num clickX clickY "MISS" 0 #1 true])
      g in
  let '(sparkles, k) :=
    sparkleBurst 8 0 clickX clickY (Game.sparkles g) k in
  (Game.set_sparkles sparkles g, k).

Definition handleCanvasClick (fuel : nat) (clickX clickY : num) (now : Z)
    (g : Game) (k : nat) : option (Game * nat) :=
  match gameState with
  | game =>
      if clickY >? NET_Y CANVAS_HEIGHT
      then Some (netPenalty clickX clickY g, k)
      else
        match scanBackward (isHit clickX clickY)
                (length (Game.targets g)) (Game.targets g) with
        | Some (i, target) =>
            scoreHit fuel i target clickX clickY now g k
        | None => Some (missEffects clickX clickY g k)
        end
  | _ => Some (g, k)
  end.

(** The outcomes of a click, one rule per branch of [handleCanvasClick]:
    what it computes, as a relation between the game and the count of
    random draws before and after, with the scan and the burst replaced by
    what they find and push. *)
Inductive clicked (fuel : nat) (clickX clickY : num) (now : Z) (g : Game)
    (k : nat) : Game -> nat -> Prop :=
| clicked_ignored :
    gameState <> game -> clicked fuel clickX clickY now g k g k
| clicked_net :
    gameState = game -> (clickY >? NET_Y CANVAS_HEIGHT) = true ->
    clicked fuel clickX clickY now g k (netPenalty clickX clickY g) k
| clicked_hit i target g' k' :
    gameState = game -> (clickY >? NET_Y CANVAS_HEIGHT) = false ->
    Game.targets g !! i = Some target ->
    isHit clickX clickY target = true ->
    (forall j u, i < j -> Game.targets g !! j = Some u ->
                 isHit clickX clickY u = false) ->
    scoreHit fuel i target clickX clickY now g k = Some (g', k') ->
    clicked fuel clickX clickY now g k g' k'
| clicked_miss :
    gameState = game -> (clickY >? NET_Y CANVAS_HEIGHT) = false ->
    Forall (fun u => isHit clickX clickY u = false) (Game.targets g) ->
    clicked fuel clickX clickY now g k
      (Game.set_sparkles
         (Game.sparkles g
          ++ List.map (burstSparkle 0 clickX clickY k) (seq 0 8))
         (Game.set_feedback
            (Game.feedback g
             ++ [Feedback.mk num clickX clickY "MISS" 0 #1 true]) g))
      (k + 16).

End Scoring.

(** The angles of a burst: [(i / 8) * Math.PI * 2] for [i] from [i0]. *)
Definition burstAngles {num : Type} `{!Number num} (n : nat) (i0 : Z)
    : list num :=
  List.map (fun j => (#(i0 + Z.of_nat j) / #8 * Math_PI * #2)%num) (seq 0 n).

(** ** Sample inputs, for the concrete instances of the theorems *)

Module ClickSample.
Section Binary64.
Local Open Scope float_scope.

(** Clicks on the two-target state [Sample.g2] of an easy session on a
    1920 x 1080 canvas (targets at 575 and 1345 on the row 432, the net line
    at 702), at clock reading 2500, after four random draws. *)
Definition click (gs : GameState) (clickX clickY : float)
    : option (Game.t float * nat) :=
  handleCanvasClick Sample.random 1920 1080 easy gs 10 clickX clickY 2500
    Sample.g2 4.

Definition afterHit : Game.t float :=
  Eval vm_compute in default Game.init (fst <$> click game 575 432).
Definition afterNet : Game.t float :=
  Eval vm_compute in default Game.init (fst <$> click game 575 900).
Definition afterMiss : Game.t float :=
  Eval vm_compute in default Game.init (fst <$> click game 960 100).

End Binary64.
End ClickSample.

(** The points of a hit at an integral distance, in integer arithmetic:
    100 within a twentieth of the radius, else the Euclidean quotient
    [(radius - distance) * 100 / radius]. *)
Definition pointsZ (distance radius : Z) : Z :=
  if (20 * distance <? radius)%Z then 100%Z
  else ((radius - distance) * 100 / radius)%Z.

(** The distances at which the accuracy is 0.2 or 0.1. *)
Definition roundsDown (distance radius : Z) : bool :=
  ((5 * distance =? 4 * radius) || (10 * distance =? 9 * radius))%Z.

(** The binary64 points at an integral distance are the integer points,
    one less where the accuracy is 0.2 or 0.1. *)
Definition roundingOk (radius distance : Z) : bool :=
  let binary64 :=
    fst (calculatePoints (Float64.of_Z distance) (Float64.of_Z radius)) in
  (binary64 =? pointsZ distance radius
                - if roundsDown distance radius then 1 else 0)%Z.

(** The state is consistent in its counters: one reaction time per hit, and
    no more perfect hits than hits. *)
Definition countersOk {num : Type} (g : Game.t num) : Prop :=
  Z.of_nat (length (Game.reactionTimes g)) = Game.totalHits g
  /\ (0 <= Game.perfectHits g <= Game.totalHits g)%Z.

(** ** What holds for every number system *)

Section ScoringFacts.
Context {num : Type} `{!Number num}.
Variable Math_random : nat -> num.
Variables CANVAS_WIDTH CANVAS_HEIGHT : num.
Variable difficulty : Difficulty.

Abbreviation Game' := (Game.t num).
Abbreviation click :=
  (handleCanvasClick Math_random CANVAS_WIDTH CANVAS_HEIGHT difficulty).

Lemma sparkleBurst_spec n i0 clickX clickY sparkles k :
  sparkleBurst Math_random n i0 clickX clickY sparkles k
  = (sparkles ++ List.map (burstSparkle Math_random i0 clickX clickY k) (seq 0 n),
     k + 2 * n).
Proof.
  revert i0 sparkles k. induction n as [|n IH]; intros i0 sparkles k.
  - cbn. rewrite app_nil_r. f_equal. lia.
  - cbn [sparkleBurst]. rewrite IH, <- app_assoc. cbn [seq List.map app].
    rewrite <- seq_shift, List.map_map. f_equal; [|lia]. f_equal.
    unfold burstSparkle. f_equal.
    + rewrite Z.add_0_r, Nat.add_0_r. done.
    + apply map_ext. intros j.
      replace (i0 + 1 + Z.of_nat j)%Z with (i0 + Z.of_nat (S j))%Z by lia.
      replace (S (S k) + 2 * j) with (k + 2 * S j) by lia. done.
Qed.

(** What the scored branch does, for the target the scan stopped at. *)
Lemma scoreHit_inv fuel i target clickX clickY now (g g' : Game') k k' :
  scoreHit Math_random CANVAS_WIDTH CANVAS_HEIGHT difficulty
    fuel i target clickX clickY now g k = Some (g', k') ->
  let res := calculatePoints (distanceTo clickX clickY target)
               (Target.radius target) in
  exists fresh,
    Game.targets g' = delete i (Game.targets g) ++ [fresh]
    /\ Target.id fresh = Game.nextTargetId g
    /\ Game.nextTargetId g' = (Game.nextTargetId g + 1)%Z
    /\ Game.score g' = (Game.score g + fst res)%Z
    /\ Game.totalHits g' = (Game.totalHits g + 1)%Z
    /\ Game.perfectHits g'
       = (Game.perfectHits g
          + if String.eqb (snd res) "PERFECT" then 1 else 0)%Z
    /\ Game.reactionTimes g'
       = Game.reactionTimes g ++ [reactionTimeOf now target]
    /\ Game.feedback g'
       = Game.feedback g ++
           [Feedback.mk num (Target.x target) (Target.y target) (snd res)
              (fst res) (#1)%num false]
    /\ Game.sparkles g' = Game.sparkles g.
Proof.
  unfold scoreHit.
  destruct (calculatePoints _ _) as [points label]. cbn [fst snd].
  intros (size & radius & x & v & k1 & k2 & _ & _ & _ & ->)%addNewTarget_inv.
  eexists. destruct (String.eqb label "PERFECT"); cbn;
    rewrite ?Z.add_0_r; repeat split.
Qed.

(** [handleCanvasClick] returns exactly the outcomes of [clicked]. *)
Lemma handleCanvasClick_clicked gs fuel clickX clickY now (g g' : Game')
    k k' :
  handleCanvasClick Math_random CANVAS_WIDTH CANVAS_HEIGHT difficulty gs
    fuel clickX clickY now g k = Some (g', k')
  <-> clicked Math_random CANVAS_WIDTH CANVAS_HEIGHT difficulty gs
        fuel clickX clickY now g k g' k'.
Proof.
  unfold handleCanvasClick. split.
  - destruct gs; try (intros [= <- <-]; by constructor).
    destruct (_ >? _)%num eqn:Hnet; [intros [= <- <-]; by constructor|].
    destruct (scanBackward _ _ _) as [[i target]|] eqn:Hscan.
    + apply scanBackward_Some in Hscan as (_ & Hlook & Hhit & Hlast).
      intros Hscore. eapply clicked_hit; eauto.
      intros j u Hj Hu. eapply Hlast; [|done].
      apply lookup_lt_Some in Hu. lia.
    + unfold missEffects. rewrite sparkleBurst_spec. intros [= <- <-].
      apply clicked_miss; try done. apply Forall_forall.
      intros u [j Hu]%list_elem_of_lookup.
      eapply (proj1 (scanBackward_None _ _ _) Hscan); [|done].
      by apply lookup_lt_Some in Hu.
  - intros [Hgs | -> -> | i target g1 k1 -> -> Hlook Hhit Hlast Hscore
            | -> -> Hnone].
    + by destruct gs.
    + done.
    + by rewrite (scanBackward_last _ _ i target).
    + rewrite (proj2 (scanBackward_None _ _ _)).
      * unfold missEffects. by rewrite sparkleBurst_spec.
      * intros j u _ Hu. rewrite Forall_forall in Hnone.
        apply Hnone, list_elem_of_lookup. eauto.
Qed.

(** A click outside a running game changes nothing and draws nothing. *)
Theorem click_ignored_unless_game gs fuel clickX clickY now (g : Game') k :
  gs <> game ->
  handleCanvasClick Math_random CANVAS_WIDTH CANVAS_HEIGHT difficulty gs
    fuel clickX clickY now g k = Some (g, k).
Proof. intros Hgs. unfold handleCanvasClick. by destruct gs. Qed.

(** C9. A click below the net line always returns, costs 10 points floored
    at 0, pushes one visible MISS at the click, and looks at no target: the
    targets, the sparkles, the hit counters and the reaction times are
    unchanged, whatever lies under the click. *)
Theorem net_click_penalty fuel clickX clickY now (g : Game') k :
  (clickY >? NET_Y CANVAS_HEIGHT)%num = true ->
  exists g',
    handleCanvasClick Math_random CANVAS_WIDTH CANVAS_HEIGHT difficulty game
      fuel clickX clickY now g k = Some (g', k)
    /\ Game.score g' = Z.max 0 (Game.score g - 10)
    /\ (0 <= Game.score g')%Z
    /\ Game.feedback g'
       = Game.feedback g ++
           [Feedback.mk num clickX clickY "MISS" 0 (#1)%num false]
    /\ Game.targets g' = Game.targets g
    /\ Game.sparkles g' = Game.sparkles g
    /\ Game.totalHits g' = Game.totalHits g
    /\ Game.perfectHits g' = Game.perfectHits g
    /\ Game.reactionTimes g' = Game.reactionTimes g
    /\ Game.nextTargetId g' = Game.nextTargetId g.
Proof.
  intros Hnet. exists (netPenalty clickX clickY g).
  unfold handleCanvasClick. rewrite Hnet. cbn. repeat split. lia.
Qed.

(** C1. Hit resolution.  Outside the net, when [target] is the last target
    of the array (the most recently pushed) that contains the click, a
    returning click scores that target: the points and the label are those of
    [calculatePoints] at the click's distance, the hit counter goes up by
    one, the perfect counter by one exactly for PERFECT, the reaction time
    is appended, a feedback is pushed at the target's centre, and the target
    is replaced by a fresh one at the end of the array. *)
Theorem click_scores_most_recent fuel clickX clickY now (g g' : Game') k k'
    i target :
  (clickY >? NET_Y CANVAS_HEIGHT)%num = false ->
  Game.targets g !! i = Some target ->
  isHit clickX clickY target = true ->
  (forall j u, i < j -> Game.targets g !! j = Some u ->
               isHit clickX clickY u = false) ->
  handleCanvasClick Math_random CANVAS_WIDTH CANVAS_HEIGHT difficulty game
    fuel clickX clickY now g k = Some (g', k') ->
  let res := calculatePoints (distanceTo clickX clickY target)
               (Target.radius target) in
  exists fresh,
    Game.targets g' = delete i (Game.targets g) ++ [fresh]
    /\ Target.id fresh = Game.nextTargetId g
    /\ Game.nextTargetId g' = (Game.nextTargetId g + 1)%Z
    /\ Game.score g' = (Game.score g + fst res)%Z
    /\ Game.totalHits g' = (Game.totalHits g + 1)%Z
    /\ Game.perfectHits g'
       = (Game.perfectHits g
          + if String.eqb (snd res) "PERFECT" then 1 else 0)%Z
    /\ Game.reactionTimes g'
       = Game.reactionTimes g ++ [reactionTimeOf now target]
    /\ Game.feedback g'
       = Game.feedback g ++
           [Feedback.mk num (Target.x target) (Target.y target) (snd res)
              (fst res) (#1)%num false]
    /\ Game.sparkles g' = Game.sparkles g.
Proof.
  intros Hnet Hi Hhit Hlast. unfold handleCanvasClick. rewrite Hnet.
  rewrite (scanBackward_last _ _ i target) by done.
  apply scoreHit_inv.
Qed.

(** A miss.  Outside the net, when no live target contains the click,
    the click always returns, draws sixteen random numbers, pushes one MISS
    flagged [isMiss] and exactly eight sparkles at the click, whose angles
    are [(i / 8) * Math.PI * 2] for [i = 0..7] in this order; score, targets
    and counters are unchanged. *)
Theorem click_miss_burst fuel clickX clickY now (g : Game') k :
  (clickY >? NET_Y CANVAS_HEIGHT)%num = false ->
  Forall (fun u => isHit clickX clickY u = false) (Game.targets g) ->
  exists g',
    handleCanvasClick Math_random CANVAS_WIDTH CANVAS_HEIGHT difficulty game
      fuel clickX clickY now g k = Some (g', k + 16)
    /\ Game.sparkles g'
       = Game.sparkles g ++
           List.map (burstSparkle Math_random 0 clickX clickY k) (seq 0 8)
    /\ List.map Sparkle.angle
         (List.map (burstSparkle Math_random 0 clickX clickY k) (seq 0 8))
       = burstAngles 8 0
    /\ Game.feedback g'
       = Game.feedback g ++
           [Feedback.mk num clickX clickY "MISS" 0 (#1)%num true]
    /\ Game.targets g' = Game.targets g
    /\ Game.score g' = Game.score g
    /\ Game.totalHits g' = Game.totalHits g
    /\ Game.perfectHits g' = Game.perfectHits g
    /\ Game.reactionTimes g' = Game.reactionTimes g.
Proof.
  intros Hnet Hnone. unfold handleCanvasClick. rewrite Hnet.
  rewrite (proj2 (scanBackward_None _ _ _)).
  - unfold missEffects. rewrite sparkleBurst_spec. eexists.
    split; [reflexivity|]. cbn. repeat split.
  - intros j u _ Hu. rewrite Forall_forall in Hnone.
    apply Hnone, list_elem_of_lookup. eauto.
Qed.

(** The number of live targets is the same after a click as before it, on
    every branch: a hit removes one target and spawns one. *)
Lemma click_target_count gs fuel clickX clickY now (g g' : Game')
    k k' :
  handleCanvasClick Math_random CANVAS_WIDTH CANVAS_HEIGHT difficulty gs
    fuel clickX clickY now g k = Some (g', k') ->
  length (Game.targets g') = length (Game.targets g).
Proof.
  intros [| |i target g1 k1 _ _ Hlook _ _ (fresh & -> & _)%scoreHit_inv|]
    %handleCanvasClick_clicked; try done.
  apply lookup_lt_Some in Hlook as Hi.
  rewrite length_app, length_delete by eauto. cbn. lia.
Qed.

(** Only the PERFECT branch of [calculatePoints] returns the label
    "PERFECT", and it is worth 100. *)
Lemma calculatePoints_label (distance radius : num) :
  String.eqb (snd (calculatePoints distance radius)) "PERFECT" = true ->
  fst (calculatePoints distance radius) = 100%Z.
Proof. unfold calculatePoints. by split_if. Qed.

(** What a click in a running game does to the score and the counters:
    the penalty, a hit, or nothing. *)
Lemma click_cases fuel clickX clickY now (g g' : Game') k k' :
  handleCanvasClick Math_random CANVAS_WIDTH CANVAS_HEIGHT difficulty game
    fuel clickX clickY now g k = Some (g', k') ->
  (Game.score g' = Z.max 0 (Game.score g - 10)
   /\ Game.totalHits g' = Game.totalHits g
   /\ Game.perfectHits g' = Game.perfectHits g)
  \/ (exists points (perfectHit : bool),
        (perfectHit = true -> points = 100%Z)
        /\ Game.score g' = (Game.score g + points)%Z
        /\ Game.totalHits g' = (Game.totalHits g + 1)%Z
        /\ Game.perfectHits g'
           = (Game.perfectHits g + if perfectHit then 1 else 0)%Z)
  \/ (Game.score g' = Game.score g
      /\ Game.totalHits g' = Game.totalHits g
      /\ Game.perfectHits g' = Game.perfectHits g).
Proof.
  intros [|
          |i target g1 k1 _ _ _ _ _
             (fresh & _ & _ & _ & Hs & Ht & Hp & _)%scoreHit_inv|]
    %handleCanvasClick_clicked; [done | by left | | by do 2 right].
  right. left. eexists _, _. split; [apply calculatePoints_label|]. done.
Qed.

(** Counter consistency is kept by every click. *)
Lemma click_counters gs fuel clickX clickY now (g g' : Game') k k' :
  countersOk g ->
  handleCanvasClick Math_random CANVAS_WIDTH CANVAS_HEIGHT difficulty gs
    fuel clickX clickY now g k = Some (g', k') ->
  countersOk g'.
Proof.
  intros [Hlen Hperf]. unfold countersOk.
  intros [| |i target g1 k1 _ _ _ _ _
               (fresh & _ & _ & _ & _ & -> & -> & -> & _)%scoreHit_inv|]
    %handleCanvasClick_clicked; try done.
  rewrite length_app. cbn. destruct (String.eqb _ _); lia.
Qed.

End ScoringFacts.

(** ** Scoring over the real numbers *)

Section ScoringExact.
Local Open Scope R_scope.
Implicit Types d r : R.

(** The quotient [distance / radius] of a hit is in [0, 1]. *)
Lemma ratio_range d r : 0 < r -> 0 <= d <= r -> 0 <= d / r <= 1.
Proof.
  intros Hr Hd. assert (Hq : d = d / r * r) by (field; lra).
  set (q := d / r) in *. clearbody q. subst d. split; nra.
Qed.

Lemma ratio_lt d r c : 0 < r -> d / r < c <-> d < c * r.
Proof.
  intros Hr. assert (Hq : d = d / r * r) by (field; lra).
  set (q := d / r) in *. clearbody q. subst d. split; intros; nra.
Qed.

Lemma ratio_mono d1 d2 r : 0 < r -> d1 <= d2 -> d1 / r <= d2 / r.
Proof.
  intros Hr Hd. pose proof (Rinv_0_lt_compat r Hr) as Hi.
  unfold Rdiv. nra.
Qed.

(** PERFECT is awarded exactly within a twentieth of the radius. *)
Lemma calculatePoints_perfect d r :
  0 < r -> 20 * d < r -> calculatePoints d r = (100%Z, "PERFECT"%string).
Proof.
  intros Hr Hd. unfold calculatePoints.
  rewrite (proj2 (ltb_true _ _)); [done|]. to_R.
  assert (d / r < 1 / 20) by (apply ratio_lt; lra). lra.
Qed.

Lemma calculatePoints_graded d r :
  0 < r -> r <= 20 * d ->
  calculatePoints d r
  = (Zfloor ((1 - d / r) * 100),
     String.append "+" (string_of_Z (Zfloor ((1 - d / r) * 100)))).
Proof.
  intros Hr Hd. unfold calculatePoints.
  rewrite (proj2 (ltb_false _ _)); [done|]. to_R.
  assert (~ d / r < 1 / 20) by (rewrite ratio_lt by done; lra). lra.
Qed.

(** The two cases of [calculatePoints], by the distance. *)
Lemma calculatePoints_cases d r :
  0 < r ->
  (20 * d < r /\ calculatePoints d r = (100%Z, "PERFECT"%string))
  \/ (r <= 20 * d
      /\ fst (calculatePoints d r) = Zfloor ((1 - d / r) * 100)).
Proof.
  intros Hr. destruct (Rlt_le_dec (20 * d) r) as [Hd|Hd].
  - left. split; [done|]. by apply calculatePoints_perfect.
  - right. split; [done|]. by rewrite calculatePoints_graded.
Qed.

(** Outside the perfect zone the graded points are between 0 and 95. *)
Lemma graded_range d r :
  0 < r -> 0 <= d <= r -> r <= 20 * d ->
  (0 <= Zfloor ((1 - d / r) * 100) <= 95)%Z.
Proof.
  intros Hr Hd Hfar. pose proof (ratio_range d r Hr Hd).
  assert (1 / 20 <= d / r) by (apply Rnot_lt_le; rewrite ratio_lt; lra).
  apply Zfloor_range; lra.
Qed.

Lemma calculatePoints_bounds d r :
  0 < r -> 0 <= d <= r -> (0 <= fst (calculatePoints d r) <= 100)%Z.
Proof.
  intros Hr Hd. destruct (calculatePoints_cases d r Hr) as [[_ ->]|[Hfar ->]].
  - cbn. lia.
  - pose proof (graded_range d r Hr Hd Hfar). lia.
Qed.

(** The distance of a click that [isHit] accepts. *)
Lemma hit_distance clickX clickY (target : Target.t R) :
  isHit clickX clickY target = true ->
  0 <= distanceTo clickX clickY target <= Target.radius target.
Proof.
  unfold isHit. intros Hhit. split; [apply sqrt_nonneg|]. by to_R.
Qed.

(** C11. The points of a hit are an integer between 0 and 95, or exactly
    100: no hit is worth 96 to 99, and none is negative. *)
Theorem points_range d r :
  0 < r -> 0 <= d <= r ->
  let points := fst (calculatePoints d r) in
  (0 <= points <= 95)%Z \/ points = 100%Z.
Proof.
  intros Hr Hd. destruct (calculatePoints_cases d r Hr) as [[_ ->]|[Hfar ->]].
  - by right.
  - left. by apply graded_range.
Qed.

(** Scoring is monotone: of two hits on a target, the one nearer to the
    centre earns at least as many points. *)
Theorem points_monotone d1 d2 r :
  0 < r -> 0 <= d1 <= d2 -> d2 <= r ->
  (fst (calculatePoints d2 r) <= fst (calculatePoints d1 r))%Z.
Proof.
  intros Hr Hd1 Hd2. pose proof (ratio_mono d1 d2 r Hr (proj2 Hd1)).
  destruct (calculatePoints_cases d1 r Hr) as [[_ ->]|[Hfar1 ->]];
    destruct (calculatePoints_cases d2 r Hr) as [[Hn2 ->]|[Hfar2 ->]];
    cbn [fst]; try lia.
  - pose proof (graded_range d2 r Hr ltac:(lra) Hfar2). lia.
  - lra.
  - apply Zfloor_le. lra.
Qed.

(** [isHit] is containment in the closed disc of the target: the click
    is accepted exactly when its squared Euclidean distance to the centre
    is at most the squared radius. *)
Theorem isHit_disc clickX clickY (target : Target.t R) :
  0 <= Target.radius target ->
  isHit clickX clickY target = true <->
  (clickX - Target.x target) * (clickX - Target.x target)
  + (clickY - Target.y target) * (clickY - Target.y target)
  <= Target.radius target * Target.radius target.
Proof.
  intros Hr. unfold isHit, distanceTo. rewrite leb_true. to_R.
  apply sqrt_le_iff; [|done].
  apply Rplus_le_le_0_compat; apply Rle_0_sqr.
Qed.

(** A click exactly on the centre of a target is PERFECT and worth 100;
    a click exactly on its rim is worth 0 and labelled "+0". *)
Theorem centre_and_rim r :
  0 < r ->
  calculatePoints 0 r = (100%Z, "PERFECT"%string)
  /\ calculatePoints r r = (0%Z, "+0"%string).
Proof.
  intros Hr. split.
  - apply calculatePoints_perfect; lra.
  - rewrite calculatePoints_graded by lra.
    replace ((1 - r / r) * 100) with (IZR 0) by (field; lra).
    rewrite ZfloorZ. done.
Qed.

(** The sparkles of a burst, for random numbers in [[0, 1)]: each
    starts with life 1 at the click, with a speed in [[2, 4)] and a
    rotation in [[0, 2 pi)]. *)
Theorem burst_sparkle_ranges (Math_random : nat -> R) n i0 clickX clickY
    sparkles k :
  (forall j, 0 <= Math_random j < 1) ->
  Forall (fun sparkle =>
            Sparkle.x sparkle = clickX /\ Sparkle.y sparkle = clickY
            /\ Sparkle.life sparkle = 1
            /\ 2 <= Sparkle.speed sparkle < 4
            /\ 0 <= Sparkle.rotation sparkle < 2 * PI)
    (drop (length sparkles)
       (fst (sparkleBurst Math_random n i0 clickX clickY sparkles k))).
Proof.
  intros Hrange. rewrite sparkleBurst_spec. cbn [fst].
  rewrite drop_app_length, List.Forall_map. apply Forall_forall. intros j _.
  pose proof (Hrange (k + 2 * j)%nat). pose proof (Hrange (S (k + 2 * j))).
  pose proof PI_RGT_0. cbn -[Nat.mul]. repeat split; try lra; nra.
Qed.

(** Over the reals the points at an integral distance are the integer
    points. *)
Lemma calculatePoints_integer (distance radius : Z) :
  (0 <= distance <= radius)%Z -> (0 < radius)%Z ->
  fst (calculatePoints (IZR distance) (IZR radius))
  = pointsZ distance radius.
Proof.
  intros Hd Hr. apply IZR_lt in Hr as Hr'. unfold pointsZ.
  destruct (calculatePoints_cases (IZR distance) (IZR radius) Hr')
    as [[Hnear ->]|[Hfar ->]].
  - rewrite <- mult_IZR in Hnear. apply lt_IZR in Hnear.
    by rewrite (proj2 (Z.ltb_lt _ _) Hnear).
  - rewrite <- mult_IZR in Hfar. apply le_IZR in Hfar.
    rewrite (proj2 (Z.ltb_ge _ _) Hfar), <- Zfloor_quotient by done.
    f_equal. rewrite mult_IZR, minus_IZR. field. lra.
Qed.

Lemma roundingOk_all (radius : Z) :
  radius = 190%Z \/ radius = 130%Z ->
  forallb (roundingOk radius)
    (List.map Z.of_nat (seq 0 (S (Z.to_nat radius)))) = true.
Proof. intros [-> | ->]; vm_compute; reflexivity. Qed.

(** C39. Rounding changes a score, at two accuracies.  For both radii of
    the game and every integral distance of a hit, the points the program
    computes in binary64 are the points of exact arithmetic, except at
    accuracy 0.2 and 0.1 (distances 152 and 171 of 190, 104 and 117 of
    130), where [1 - distance / radius] rounds below its value and the
    program awards one point less. *)
Theorem points_rounding (radius distance : Z) :
  radius = 190%Z \/ radius = 130%Z -> (0 <= distance <= radius)%Z ->
  fst (calculatePoints (Float64.of_Z distance) (Float64.of_Z radius))
  = (fst (calculatePoints (IZR distance) (IZR radius))
     - if roundsDown distance radius then 1 else 0)%Z.
Proof.
  intros Hr Hd. rewrite calculatePoints_integer by lia.
  apply Z.eqb_eq. change (roundingOk radius distance = true).
  pose proof (roundingOk_all radius Hr) as Hall.
  rewrite forallb_forall in Hall. apply Hall, in_map_iff.
  exists (Z.to_nat distance). split; [lia|]. apply in_seq. lia.
Qed.

End ScoringExact.

(** ** The theorems at the sample inputs *)

Section ScoringWitnesses.

Lemma sample_hit_run :
  handleCanvasClick Sample.random 1920%float 1080%float easy game 10
    575%float 432%float 2500 Sample.g2 4
  = Some (ClickSample.afterHit, 7).
Proof. vm_compute. reflexivity. Qed.

Lemma click_ignored_unless_game_witness :
  ClickSample.click menu 575 432 = Some (Sample.g2, 4).
Proof.
  apply (click_ignored_unless_game Sample.random 1920%float 1080%float easy
           menu 10 575%float 432%float 2500 Sample.g2 4).
  discriminate.
Defined.

Lemma net_click_penalty_witness :
  exists g',
    ClickSample.click game 575 900 = Some (g', 4)
    /\ Game.score g' = Z.max 0 (Game.score Sample.g2 - 10)
    /\ (0 <= Game.score g')%Z
    /\ Game.feedback g'
       = Game.feedback Sample.g2 ++
           [Feedback.mk float 575%float 900%float "MISS" 0 (of_Z 1) false]
    /\ Game.targets g' = Game.targets Sample.g2
    /\ Game.sparkles g' = Game.sparkles Sample.g2
    /\ Game.totalHits g' = Game.totalHits Sample.g2
    /\ Game.perfectHits g' = Game.perfectHits Sample.g2
    /\ Game.reactionTimes g' = Game.reactionTimes Sample.g2
    /\ Game.nextTargetId g' = Game.nextTargetId Sample.g2.
Proof.
  apply (net_click_penalty Sample.random 1920%float 1080%float easy 10
           575%float 900%float 2500 Sample.g2 4).
  vm_compute. reflexivity.
Defined.

Lemma sample_above_net : (432%float >? NET_Y 1080%float)%num = false.
Proof. vm_compute. reflexivity. Qed.

Lemma sample_first_target :
  exists target,
    Game.targets Sample.g2 !! 0 = Some target
    /\ isHit 575%float 432%float target = true
    /\ forall j u, 0 < j -> Game.targets Sample.g2 !! j = Some u ->
                   isHit 575%float 432%float u = false.
Proof.
  eexists. split; [reflexivity|]. split; [vm_compute; reflexivity|].
  intros [|[|j]] u Hj Hu; [lia | | done].
  injection Hu as <-. vm_compute. reflexivity.
Qed.

Lemma click_scores_most_recent_witness :
  exists target fresh,
    Game.targets ClickSample.afterHit
    = delete 0 (Game.targets Sample.g2) ++ [fresh]
    /\ Game.score ClickSample.afterHit
       = (Game.score Sample.g2
          + fst (calculatePoints (distanceTo 575%float 432%float target)
                   (Target.radius target)))%Z.
Proof.
  destruct sample_first_target as (target & Hlook & Hhit & Hlast).
  exists target.
  destruct (click_scores_most_recent Sample.random 1920%float 1080%float
              easy 10 575%float 432%float 2500 Sample.g2
              ClickSample.afterHit 4 7 0 target sample_above_net Hlook Hhit Hlast
              sample_hit_run)
    as (fresh & Ht & _ & _ & Hs & _).
  exists fresh. split; assumption.
Defined.

Lemma click_miss_burst_witness :
  exists g',
    ClickSample.click game 960 100 = Some (g', 4 + 16)
    /\ List.map Sparkle.angle
         (drop (length (Game.sparkles Sample.g2)) (Game.sparkles g'))
       = burstAngles 8 0.
Proof.
  destruct (click_miss_burst Sample.random 1920%float 1080%float easy 10
              960%float 100%float 2500 Sample.g2 4)
    as (g' & Hrun & Hs & Ha & _).
  - vm_compute. reflexivity.
  - repeat constructor.
  - exists g'. split; [exact Hrun|]. rewrite Hs, drop_app_length. exact Ha.
Defined.

Lemma points_range_witness :
  let points := fst (calculatePoints 19%R 190%R) in
  (0 <= points <= 95)%Z \/ points = 100%Z.
Proof. apply (points_range 19 190); lra. Defined.

Lemma points_monotone_witness :
  (fst (calculatePoints 38%R 190%R) <= fst (calculatePoints 19%R 190%R))%Z.
Proof. apply (points_monotone 19 38 190); lra. Defined.

Lemma isHit_disc_witness :
  isHit 600%R 500%R Sample.middle = true <->
  ((600 - 640) * (600 - 640) + (500 - 432) * (500 - 432) <= 190 * 190)%R.
Proof. apply (isHit_disc 600 500 Sample.middle). cbn. lra. Defined.

Lemma burst_sparkle_ranges_witness :
  Forall (fun sparkle =>
            Sparkle.x sparkle = 960%R /\ Sparkle.y sparkle = 100%R
            /\ Sparkle.life sparkle = 1%R
            /\ (2 <= Sparkle.speed sparkle < 4)%R
            /\ (0 <= Sparkle.rotation sparkle < 2 * PI)%R)
    (drop (length (@nil (Sparkle.t R)))
       (fst (sparkleBurst Sample.half 8 0 960%R 100%R [] 0))).
Proof.
  apply (burst_sparkle_ranges Sample.half 8 0 960 100 [] 0).
  intros j. unfold Sample.half. lra.
Defined.

Lemma points_rounding_witness :
  fst (calculatePoints (Float64.of_Z 171) (Float64.of_Z 190))
  = (fst (calculatePoints (IZR 171) (IZR 190)) - 1)%Z.
Proof. apply (points_rounding 190 171); [by left | lia]. Defined.

Lemma centre_and_rim_witness :
  calculatePoints 0%R 190%R = (100%Z, "PERFECT"%string)
  /\ calculatePoints 190%R 190%R = (0%Z, "+0"%string).
Proof. apply (centre_and_rim 190). lra. Defined.

End ScoringWitnesses.
