(* ===== verification/Render.v ===== *)
(** * Render: the state changes inside [draw]

    [draw] of [src/app/page.tsx] (lines 280-513) paints the frame, and while
    it does so it advances the simulation: moving targets drift and turn at
    the walls (lines 335-344), sparkles age, are pruned and spin (lines
    410-425), feedback fades and is pruned (lines 468-475).  These updates
    are modelled here; the canvas calls between them only read the state.

    The two effect loops run backwards over the array and splice in place;
    they are instances of [Prelude.retainBackward] and are proved equal to
    the list-level reference [Prelude.retain]. *)

From Stdlib Require Import ZArith String Floats Reals Lra.
From stdpp Require Import base option list.
From S2P Require Import Prelude Number Float64 Exact Types.

Section Render.
Context {num : Type} `{!Number num}.
Variable CANVAS_WIDTH : num.
Local Open Scope num_scope.

Abbreviation Target := (Target.t num).
Abbreviation Sparkle := (Sparkle.t num).
Abbreviation Feedback := (Feedback.t num).
Abbreviation Game := (Game.t num).

(** The update of one target at the head of the drawing loop. *)
Definition moveTarget (target : Target) : Target :=
  if Target.velocity target >? #0 then
    let target :=
      Target.set_x
        (Target.x target + Target.direction target * Target.velocity target)
        target in
    if Target.x target - Target.radius target <? #0
    then Target.set_direction #1 target
    else if Target.x target + Target.radius target >? CANVAS_WIDTH
    then Target.set_direction #(-1) target
    else target
  else target.

(** [sparkle.life -= 0.02] *)
Definition ageSparkle (sparkle : Sparkle) : Sparkle :=
  Sparkle.set_life (Sparkle.life sparkle - dec 2 100) sparkle.

(** [sparkle.life <= 0] *)
Definition deadSparkle (sparkle : Sparkle) : bool :=
  Sparkle.life sparkle <=? #0.

(** [sparkle.rotation! += 0.15] *)
Definition spinSparkle (sparkle : Sparkle) : Sparkle :=
  Sparkle.set_rotation (Sparkle.rotation sparkle + dec 15 100) sparkle.

(** [fb.opacity -= 0.02] *)
Definition fadeFeedback (fb : Feedback) : Feedback :=
  Feedback.set_opacity (Feedback.opacity fb - dec 2 100) fb.

(** [fb.opacity <= 0] *)
Definition deadFeedback (fb : Feedback) : bool :=
  Feedback.opacity fb <=? #0.

(** The sparkle loop and the feedback loop. *)
Definition drawSparkles (sparkles : list Sparkle) : list Sparkle :=
  retainBackward ageSparkle deadSparkle spinSparkle (length sparkles)
    sparkles.

Definition drawFeedback (feedback : list Feedback) : list Feedback :=
  retainBackward fadeFeedback deadFeedback (fun fb => fb) (length feedback)
    feedback.

(** [draw], as a state change. *)
Definition draw (g : Game) : Game :=
  let g := Game.set_targets (List.map moveTarget (Game.targets g)) g in
  let g := Game.set_sparkles (drawSparkles (Game.sparkles g)) g in
  Game.set_feedback (drawFeedback (Game.feedback g)) g.

(** What [draw] puts on screen for a feedback that stays: nothing for a MISS
    flagged [isMiss], else the text at [fb.y - fb.opacity * 40]. *)
Definition feedbackText (fb : Feedback) : option (string * num * num) :=
  if (String.eqb (Feedback.text fb) "MISS" && Feedback.isMiss fb)%bool
  then None
  else Some (Feedback.text fb, Feedback.x fb,
             Feedback.y fb - Feedback.opacity fb * #40).

End Render.

(** A moving target is in its corridor when it overhangs an edge of the
    canvas by at most one step and, where it overhangs, heads back in. *)
Definition inCorridor (CANVAS_WIDTH : R) (target : Target.t R) : Prop :=
  ((Target.direction target = 1 \/ Target.direction target = -1)
   /\ 0 <= Target.velocity target
   /\ Target.radius target - Target.velocity target <= Target.x target
      <= CANVAS_WIDTH - Target.radius target + Target.velocity target
   /\ (Target.x target < Target.radius target -> Target.direction target = 1)
   /\ (CANVAS_WIDTH - Target.radius target < Target.x target ->
       Target.direction target = -1))%R.

(** A feedback as it is pushed (opacity 1), faded [n] times over the
    reals. *)
Definition fadedBy (n : nat) (fb : Feedback.t R) : Feedback.t R :=
  Feedback.set_opacity (1 - INR n * (2 / 100))%R fb.

(** ** Sample inputs, for the concrete instances of the theorems *)

Module RenderSample.
Section Real.
Local Open Scope R_scope.

(** A small target of a hard session one step from the right wall of a
    canvas 1920 wide, heading right at 3 per frame. *)
Definition atWall : Target.t R := Target.mk R 0 1790 432 130 small 3 1 0.

(** The feedback of a hit worth 50, as [handleCanvasClick] pushes it. *)
Definition plus50 : Feedback.t R := Feedback.mk R 575 432 "+50" 50 1 false.

End Real.
End RenderSample.

(** ** What holds for every number system *)

Section RenderFacts.
Context {num : Type} `{!Number num}.
Variable CANVAS_WIDTH : num.

(** [moveTarget] writes [x] and [direction] only. *)
Lemma moveTarget_frame (target : Target.t num) :
  let target' := moveTarget CANVAS_WIDTH target in
  Target.id target' = Target.id target
  /\ Target.y target' = Target.y target
  /\ Target.radius target' = Target.radius target
  /\ Target.size target' = Target.size target
  /\ Target.velocity target' = Target.velocity target
  /\ Target.createdAt target' = Target.createdAt target.
Proof. unfold moveTarget. repeat split_if; cbn; repeat split. Qed.

(** C12. The two effect loops of [draw], which walk the array backwards,
    update in place and splice, compute the same arrays as the reference:
    age every entry, keep those still alive, in order (and spin the
    sparkles kept).  Targets keep their number, the score and the counters
    are not written. *)
Theorem draw_reference (g : Game.t num) :
  Game.sparkles (draw CANVAS_WIDTH g)
  = List.map spinSparkle
      (List.filter (fun s => negb (deadSparkle s))
         (List.map ageSparkle (Game.sparkles g)))
  /\ Game.feedback (draw CANVAS_WIDTH g)
     = List.filter (fun fb => negb (deadFeedback fb))
         (List.map fadeFeedback (Game.feedback g))
  /\ Game.targets (draw CANVAS_WIDTH g)
     = List.map (moveTarget CANVAS_WIDTH) (Game.targets g)
  /\ Game.score (draw CANVAS_WIDTH g) = Game.score g
  /\ Game.totalHits (draw CANVAS_WIDTH g) = Game.totalHits g
  /\ Game.perfectHits (draw CANVAS_WIDTH g) = Game.perfectHits g
  /\ Game.reactionTimes (draw CANVAS_WIDTH g) = Game.reactionTimes g
  /\ Game.nextTargetId (draw CANVAS_WIDTH g) = Game.nextTargetId g.
Proof.
  unfold draw, drawSparkles, drawFeedback. cbn.
  rewrite !retainBackward_retain. unfold retain.
  rewrite List.map_id. repeat split.
Qed.

End RenderFacts.

(** ** Motion and fading over the real numbers *)

Section RenderExact.
Variable CANVAS_WIDTH : R.
Local Open Scope R_scope.

(** In its corridor a target heads right from at most the right wall, or
    left from at least the left wall. *)
Lemma corridor_heading (target : Target.t R) :
  inCorridor CANVAS_WIDTH target ->
  (Target.direction target = 1
   /\ Target.x target <= CANVAS_WIDTH - Target.radius target)
  \/ (Target.direction target = -1
      /\ Target.radius target <= Target.x target).
Proof.
  intros ([Hd|Hd] & _ & _ & Hleft & Hright); [left | right];
    (split; [done|]); apply Rnot_lt_le; intros Hlt.
  - apply Hright in Hlt. lra.
  - apply Hleft in Hlt. lra.
Qed.

(** One step keeps a target in its corridor. *)
Lemma moveTarget_inCorridor (target : Target.t R) :
  2 * Target.radius target <= CANVAS_WIDTH ->
  inCorridor CANVAS_WIDTH target ->
  inCorridor CANVAS_WIDTH (moveTarget CANVAS_WIDTH target).
Proof.
  intros HW Hin. pose proof (corridor_heading target Hin) as Hhead.
  unfold moveTarget. split_if; [|exact Hin].
  destruct Hin as (_ & Hv & Hx & _). unfold inCorridor.
  repeat split_if; to_R; cbn in *;
    destruct Hhead as [[Hd Hb]|[Hd Hb]]; rewrite Hd in *;
    repeat split; auto; intros; lra.
Qed.

(** A moving target stays in its corridor for ever: on a canvas at
    least as wide as the target, after any number of frames it overhangs an
    edge by at most one step of its velocity, and where it overhangs it is
    heading back in.  Its radius, size class and velocity never change. *)
Theorem moveTarget_corridor (target : Target.t R) (n : nat) :
  2 * Target.radius target <= CANVAS_WIDTH ->
  inCorridor CANVAS_WIDTH target ->
  let target' := Nat.iter n (moveTarget CANVAS_WIDTH) target in
  inCorridor CANVAS_WIDTH target'
  /\ Target.radius target' = Target.radius target
  /\ Target.velocity target' = Target.velocity target
  /\ Target.size target' = Target.size target.
Proof.
  intros HW Hin. induction n as [|n (IH & Hr & Hv & Hs)]; [done|].
  cbn zeta. rewrite Nat.iter_succ.
  destruct (moveTarget_frame CANVAS_WIDTH (Nat.iter n (moveTarget CANVAS_WIDTH) target))
    as (_ & _ & Hr' & Hs' & Hv' & _).
  rewrite Hr', Hs', Hv'. split; [|done].
  apply moveTarget_inCorridor; [by rewrite Hr | done].
Qed.

(** One frame on a one-entry feedback list. *)
Lemma drawFeedback_one (fb : Feedback.t R) :
  drawFeedback [fb]
  = if bool_decide (Feedback.opacity fb - 2 / 100 <= 0) then []
    else [fadeFeedback fb].
Proof.
  unfold drawFeedback. cbn. unfold deadFeedback. cbn.
  by destruct (bool_decide _).
Qed.

(** A feedback is shown for exactly 49 frames: pushed with opacity 1,
    it is in the list, faded by 0.02 per frame, after each of the first 49
    calls of [draw], and the 50th call removes it. *)
Theorem feedback_lifetime (fb : Feedback.t R) (n : nat) :
  Feedback.opacity fb = 1 ->
  Nat.iter n drawFeedback [fb]
  = if (n <? 50)%nat then [fadedBy n fb] else [].
Proof.
  intros Hop. induction n as [|n IH].
  - change (Nat.iter 0 drawFeedback [fb]) with [fb].
    change (0 <? 50)%nat with true. unfold fadedBy. cbn [INR].
    replace (1 - 0 * (2 / 100)) with (Feedback.opacity fb) by lra.
    by destruct fb.
  - rewrite Nat.iter_succ, IH.
    destruct (Nat.ltb_spec n 50) as [Hn|Hn]; cycle 1.
    { destruct (Nat.ltb_spec (S n) 50); [lia | done]. }
    rewrite drawFeedback_one.
    change (Feedback.opacity (fadedBy n fb)) with (1 - INR n * (2 / 100)).
    change (fadeFeedback (fadedBy n fb))
      with (Feedback.set_opacity (1 - INR n * (2 / 100) - 2 / 100) fb).
    assert (H50 : INR 50 = 50) by (rewrite INR_IZR_INZ; reflexivity).
    apply lt_INR in Hn as Hn'. rewrite H50 in Hn'.
    destruct (Nat.ltb_spec (S n) 50) as [HS|HS].
    + apply lt_INR in HS. rewrite S_INR, H50 in HS.
      rewrite bool_decide_eq_false_2 by lra.
      unfold fadedBy. rewrite S_INR. do 2 f_equal. lra.
    + assert (n = 49)%nat as -> by lia.
      rewrite bool_decide_eq_true_2; [done|].
      rewrite INR_IZR_INZ. change (Z.of_nat 49) with 49%Z. lra.
Qed.

End RenderExact.

(** ** Fading in binary64 *)

Section RenderBinary64.
Local Open Scope float_scope.

(** The count of frames is the same in the arithmetic of the program:
    in binary64, fifty subtractions of 0.02 from 1 end below zero, so a
    feedback and a sparkle are still in their lists after 49 calls of
    [draw] and gone after the 50th. *)
Theorem effects_lifetime_binary64 :
  let fb := Feedback.mk float 575 432 "+50" 50 1 false in
  let sparkle := Sparkle.mk float 960 100 1 0 2 0 in
  length (Nat.iter 49 drawFeedback [fb]) = 1%nat
  /\ Nat.iter 50 drawFeedback [fb] = []
  /\ length (Nat.iter 49 drawSparkles [sparkle]) = 1%nat
  /\ Nat.iter 50 drawSparkles [sparkle] = [].
Proof. vm_compute. repeat split. Qed.

End RenderBinary64.

(** ** The theorems at the sample inputs *)

Section RenderWitnesses.
Local Open Scope R_scope.

Lemma sample_in_corridor : inCorridor 1920 RenderSample.atWall.
Proof. unfold inCorridor. cbn. repeat split; auto; intros; lra. Qed.

Lemma moveTarget_corridor_witness :
  let target' := Nat.iter 100 (moveTarget 1920) RenderSample.atWall in
  inCorridor 1920 target'
  /\ Target.radius target' = 130
  /\ Target.velocity target' = 3
  /\ Target.size target' = small.
Proof.
  apply (moveTarget_corridor 1920 RenderSample.atWall 100).
  - cbn. lra.
  - exact sample_in_corridor.
Defined.

Lemma feedback_lifetime_witness :
  Nat.iter 49 drawFeedback [RenderSample.plus50]
  = [fadedBy 49 RenderSample.plus50]
  /\ Nat.iter 50 drawFeedback [RenderSample.plus50] = [].
Proof.
  split.
  - exact (feedback_lifetime RenderSample.plus50 49 eq_refl).
  - exact (feedback_lifetime RenderSample.plus50 50 eq_refl).
Defined.

End RenderWitnesses.
