(* ===== verification/Session.v ===== *)
(** * Session: the component's state and its handlers

    The React state of [PaddleGame] ([canvasSize], [gameState],
    [difficulty], [gameStats]), the object behind [gameRef], and what the
    running game-loop effect holds in its closure, as the record [App.t];
    the handlers [updateCanvasSize] (lines 81-87), [initializeGame] (lines
    101-126), [handleMouseMove] (lines 267-277), the game-loop effect and
    [gameLoop] (lines 518-576), the buttons of the menu and of the end
    screen, and the dispatch of the three screens (lines 731-737), which
    decides which handler can fire in which state.  [handleCanvasClick] is
    [Scoring.handleCanvasClick] with the closure of the current render.

    [handle] is the executable form of the transitions; [handled] is the
    same as a relation with one rule per handler ([handle_handled]), and
    the proofs about handlers are by cases on its rules.  The file ends
    with the invariant of the reachable states and its consequences.  What
    depends on the clock is in [Clock], the motion of a hard game in
    [Motion], the session machine of the spec and the bounds of the score
    in [Refinement].

    The effect of lines 518-576 runs after the render that follows a change
    of [gameState] or [difficulty]; React flushes it before it handles the
    next event, so starting a session and starting its effect are one
    transition here, with two clock readings.  [gameLoop] and the [draw] it
    calls are created by the effect: they keep the canvas size of that
    render ([App.loopCanvasWidth]), while the click handler is re-created by every
    render and reads the current size. *)

From Stdlib Require Import ZArith String Floats Reals Lra.
From stdpp Require Import base option list.
From S2P Require Import Prelude Number Float64 Exact Types Spawner Scoring Render.

Module App.
Record t {num : Type} := mk {
  canvasSize : num * num;
  gameState : GameState;
  difficulty : Difficulty;
  gameStats : option (GameStats.t num);
  gameRef : Game.t num;
  (** [const startTime = Date.now()] of the running effect *)
  startTime : Z;
  (** [CANVAS_WIDTH] and [CANVAS_HEIGHT] as the running effect's [gameLoop]
      and [draw] see them *)
  loopCanvasWidth : num;
  loopCanvasHeight : num;
  (** a frame is requested ([animationRef.current] is live) *)
  animationRef : bool;
  (** calls of [Math.random()] made so far *)
  randomCalls : nat;
}.
Arguments t : clear implicits.

Section Setters.
Context {num : Type}.
Implicit Type a : t num.

Definition set_canvasSize (v : num * num) a : t num :=
  mk num v (gameState a) (difficulty a) (gameStats a) (gameRef a)
     (startTime a) (loopCanvasWidth a) (loopCanvasHeight a)
     (animationRef a) (randomCalls a).

Definition set_gameState (v : GameState) a : t num :=
  mk num (canvasSize a) v (difficulty a) (gameStats a) (gameRef a)
     (startTime a) (loopCanvasWidth a) (loopCanvasHeight a)
     (animationRef a) (randomCalls a).

Definition set_difficulty (v : Difficulty) a : t num :=
  mk num (canvasSize a) (gameState a) v (gameStats a) (gameRef a)
     (startTime a) (loopCanvasWidth a) (loopCanvasHeight a)
     (animationRef a) (randomCalls a).

Definition set_gameStats (v : option (GameStats.t num)) a : t num :=
  mk num (canvasSize a) (gameState a) (difficulty a) v (gameRef a)
     (startTime a) (loopCanvasWidth a) (loopCanvasHeight a)
     (animationRef a) (randomCalls a).

Definition set_gameRef (v : Game.t num) a : t num :=
  mk num (canvasSize a) (gameState a) (difficulty a) (gameStats a) v
     (startTime a) (loopCanvasWidth a) (loopCanvasHeight a)
     (animationRef a) (randomCalls a).

Definition set_randomCalls (v : nat) a : t num :=
  mk num (canvasSize a) (gameState a) (difficulty a) (gameStats a)
     (gameRef a) (startTime a) (loopCanvasWidth a) (loopCanvasHeight a)
     (animationRef a) v.

(** The effect starts: it reads the clock, keeps the canvas size of its
    render, and requests the first frame. *)
Definition startLoop (now : Z) a : t num :=
  mk num (canvasSize a) (gameState a) (difficulty a) (gameStats a)
     (gameRef a) now (fst (canvasSize a)) (snd (canvasSize a)) true
     (randomCalls a).

(** No frame is requested any more. *)
Definition stopLoop a : t num :=
  mk num (canvasSize a) (gameState a) (difficulty a) (gameStats a)
     (gameRef a) (startTime a) (loopCanvasWidth a) (loopCanvasHeight a) false
     (randomCalls a).

End Setters.

(** The component as it mounts. *)
Definition init {num : Type} `{!Number num} : t num :=
  mk num ((#0)%num, (#0)%num) menu easy None Game.init 0 (#0)%num (#0)%num
    false 0.
End App.

Section Session.
Context {num : Type} `{!Number num}.
Variable Math_random : nat -> num.
Local Open Scope num_scope.

Abbreviation App := (App.t num).
Abbreviation Game := (Game.t num).
Abbreviation Target := (Target.t num).

Definition CANVAS_WIDTH (a : App) : num := fst (App.canvasSize a).
Definition CANVAS_HEIGHT (a : App) : num := snd (App.canvasSize a).

(** [setCanvasSize({ width: window.screen.width, height: window.screen.height })] *)
Definition updateCanvasSize (width height : num) (a : App) : App :=
  App.set_canvasSize (width, height) a.

(** [addNewTarget] on the state of the component. *)
Definition spawnTarget (fuel : nat) (diff : option Difficulty) (now : Z)
    (a : App) : option App :=
  '(g, k) ← addNewTarget Math_random (CANVAS_WIDTH a) (CANVAS_HEIGHT a)
              (App.difficulty a) fuel diff now (App.gameRef a)
              (App.randomCalls a);
  Some (App.set_randomCalls k (App.set_gameRef g a)).

(** [initializeGame]: the object behind [gameRef] is replaced, two targets
    are spawned with the selected difficulty passed along, and the state
    setters are called.  The closure's [difficulty] is the one of the render
    the button belongs to; it is written last here, as React applies
    [setDifficulty] after the handler. *)
Definition initializeGame (fuel : nat) (selectedDifficulty : Difficulty)
    (now : Z) (a : App) : option App :=
  let a := App.set_gameRef Game.init a in
  a ← spawnTarget fuel (Some selectedDifficulty) now a;
  a ← spawnTarget fuel (Some selectedDifficulty) now a;
  Some (App.set_gameState game (App.set_difficulty selectedDifficulty a)).

(** The game-loop effect, run after a render in which [gameState] or
    [difficulty] changed: the clean-up of the previous run cancels its
    frame, and the loop starts only in a running game. *)
Definition gameLoopEffect (now : Z) (a : App) : App :=
  match App.gameState a with
  | game => App.startLoop now a
  | _ => App.stopLoop a
  end.

(** [handleCanvasClick] with the closure of the current render. *)
Definition canvasClick (fuel : nat) (clickX clickY : num) (now : Z)
    (a : App) : option App :=
  '(g, k) ← handleCanvasClick Math_random (CANVAS_WIDTH a) (CANVAS_HEIGHT a)
              (App.difficulty a) (App.gameState a) fuel clickX clickY now
              (App.gameRef a) (App.randomCalls a);
  Some (App.set_randomCalls k (App.set_gameRef g a)).

(** [handleMouseMove] *)
Definition handleMouseMove (x y : num) (a : App) : App :=
  App.set_gameRef (Game.set_mousePos (x, y) (App.gameRef a)) a.

(** The oscillation of hard mode on one target:
    [target.x += Math.sin(time * 2) * 2], then the clamp. *)
Definition oscillate (width sin2t : num) (target : Target) : Target :=
  let target := Target.set_x (Target.x target + sin2t * #2) target in
  Target.set_x
    (Math_max (Target.radius target)
       (Math_min (width - Target.radius target) (Target.x target)))
    target.

(** [reactionTimes.reduce((a, b) => a + b, 0)] *)
Definition sumTimes (reactionTimes : list Z) : Z :=
  fold_left Z.add reactionTimes 0%Z.

(** [avgReactionTime] *)
Definition averageOf (reactionTimes : list Z) : num :=
  if (0 <? length reactionTimes)%nat
  then #(sumTimes reactionTimes) / #(Z.of_nat (length reactionTimes))
  else #0.

(** The [GameStats] of the end of a session. *)
Definition statsOf (difficulty : Difficulty) (g : Game) : GameStats.t num :=
  GameStats.mk num (Game.score g) (Game.perfectHits g) (Game.totalHits g)
    (Game.reactionTimes g) (averageOf (Game.reactionTimes g)) difficulty.

(** The head of [gameLoop]: the remaining time and, in hard mode, the
    oscillation of every target.  Its result is the game [draw] is called
    on. *)
Definition beforeDraw (now : Z) (sin2t : num) (a : App) : Game :=
  let elapsed := #(now - App.startTime a) / #1000 in
  let g := Game.set_timeLeft (Math_max #0 (#60 - elapsed)) (App.gameRef a) in
  match App.difficulty a with
  | hard =>
      Game.set_targets
        (List.map (oscillate (App.loopCanvasWidth a) sin2t) (Game.targets g)) g
  | _ => g
  end.

(** One animation frame: [gameLoop]. *)
Definition gameLoop (now : Z) (sin2t : num) (a : App) : App :=
  let g := draw (App.loopCanvasWidth a) (beforeDraw now sin2t a) in
  let a := App.set_gameRef g a in
  if Game.timeLeft g >? #0 then a
  else
    gameLoopEffect now
      (App.set_gameState end'
         (App.set_gameStats (Some (statsOf (App.difficulty a) g)) a)).

(** ** Events *)

(** What can happen to the component: a resize, a click on one of the three
    difficulty buttons, on "Play again" or on "Menu", a click or a move on
    the canvas, an animation frame. *)
Inductive Event :=
| Resize (width height : num)
| SelectDifficulty (d : Difficulty) (now effectNow : Z)
| PlayAgain (now effectNow : Z)
| BackToMenu
| Click (clickX clickY : num) (now : Z)
| MouseMove (x y : num)
| Frame (now : Z) (sin2t : num).

(** The handler of an event, where the screen on display has the element
    the event comes from; [None] when it has not (the end screen has its
    buttons only when [renderEnd] finds the statistics), or when the handler
    does not return within the fuel. *)
Definition handle (fuel : nat) (e : Event) (a : App) : option App :=
  match e, App.gameState a with
  | Resize width height, _ => Some (updateCanvasSize width height a)
  | SelectDifficulty d now effectNow, menu =>
      gameLoopEffect effectNow <$> initializeGame fuel d now a
  | PlayAgain now effectNow, end' =>
      stats ← App.gameStats a;
      gameLoopEffect effectNow
        <$> initializeGame fuel (GameStats.mode stats) now a
  | BackToMenu, end' =>
      _ ← App.gameStats a;
      Some (gameLoopEffect 0 (App.set_gameState menu a))
  | Click clickX clickY now, game => canvasClick fuel clickX clickY now a
  | MouseMove x y, game => Some (handleMouseMove x y a)
  | Frame now sin2t, _ =>
      if App.animationRef a then Some (gameLoop now sin2t a) else None
  | _, _ => None
  end.

(** A run of the component: the events handled in order. *)
Fixpoint run (fuel : nat) (es : list Event) (a : App) : option App :=
  match es with
  | [] => Some a
  | e :: es => a ← handle fuel e a; run fuel es a
  end.

End Session.

(** The states the component can be in: those a run from the mounted
    component reaches. *)
Inductive reachable {num : Type} `{!Number num} (Math_random : nat -> num)
    : App.t num -> Prop :=
| reachable_init : reachable Math_random App.init
| reachable_step fuel e a a' :
    reachable Math_random a ->
    handle Math_random fuel e a = Some a' ->
    reachable Math_random a'.

(** The transitions of the component, one rule per handler: what [handle]
    computes, as a relation. *)
Inductive handled {num : Type} `{!Number num} (Math_random : nat -> num)
    (fuel : nat) : @Event num -> App.t num -> App.t num -> Prop :=
| handled_resize width height a :
    handled Math_random fuel (Resize width height) a
      (updateCanvasSize width height a)
| handled_select d now effectNow a a1 :
    App.gameState a = menu ->
    initializeGame Math_random fuel d now a = Some a1 ->
    handled Math_random fuel (SelectDifficulty d now effectNow) a
      (gameLoopEffect effectNow a1)
| handled_again stats now effectNow a a1 :
    App.gameState a = end' ->
    App.gameStats a = Some stats ->
    initializeGame Math_random fuel (GameStats.mode stats) now a = Some a1 ->
    handled Math_random fuel (PlayAgain now effectNow) a
      (gameLoopEffect effectNow a1)
| handled_menu a :
    App.gameState a = end' ->
    is_Some (App.gameStats a) ->
    handled Math_random fuel BackToMenu a
      (gameLoopEffect 0 (App.set_gameState menu a))
| handled_click clickX clickY now a a' :
    App.gameState a = game ->
    canvasClick Math_random fuel clickX clickY now a = Some a' ->
    handled Math_random fuel (Click clickX clickY now) a a'
| handled_move x y a :
    App.gameState a = game ->
    handled Math_random fuel (MouseMove x y) a (handleMouseMove x y a)
| handled_frame now sin2t a :
    App.animationRef a = true ->
    handled Math_random fuel (Frame now sin2t) a (gameLoop now sin2t a).

(** ** The invariant of the component *)

Section Invariant.
Context {num : Type} `{!Number num}.

(** A live target of a session of difficulty [d], in a game whose next
    identifier is [next]. *)
Definition targetOk (d : Difficulty) (next : Z) (target : Target.t num)
    : Prop :=
  Target.radius target = radius_of (Target.size target)
  /\ (0 <= Target.id target < next)%Z
  /\ (Target.direction target = (#1)%num
      \/ Target.direction target = (#(-1))%num)
  /\ (d = easy -> Target.size target = large)
  /\ (d <> hard -> Target.velocity target = (#0)%num).

(** The object behind [gameRef] in a session of difficulty [d]. *)
Definition gameOk (d : Difficulty) (g : Game.t num) : Prop :=
  countersOk g
  /\ (0 <= Game.nextTargetId g)%Z
  /\ Forall (targetOk d (Game.nextTargetId g)) (Game.targets g)
  /\ NoDup (Target.id <$> Game.targets g).

(** The summary agrees with the game it was taken from. *)
Definition statsOk (a : App.t num) : Prop :=
  exists stats,
    App.gameStats a = Some stats
    /\ GameStats.finalScore stats = Game.score (App.gameRef a)
    /\ GameStats.totalHits stats = Game.totalHits (App.gameRef a)
    /\ GameStats.perfectHits stats = Game.perfectHits (App.gameRef a)
    /\ GameStats.reactionTimes stats = Game.reactionTimes (App.gameRef a)
    /\ GameStats.mode stats = App.difficulty a
    /\ GameStats.averageReactionTime stats
       = averageOf (GameStats.reactionTimes stats)
    /\ Z.of_nat (length (GameStats.reactionTimes stats))
       = GameStats.totalHits stats.

Definition appOk (a : App.t num) : Prop :=
  gameOk (App.difficulty a) (App.gameRef a)
  /\ (App.gameState a = game ->
      length (Game.targets (App.gameRef a)) = 2)
  /\ (App.animationRef a = true <-> App.gameState a = game)
  /\ (App.gameState a = end' -> statsOk a).

(** An update of a target that neither renames it nor changes its class
    or speed, and leaves its direction 1 or -1. *)
Definition keepsTarget (f : Target.t num -> Target.t num) : Prop :=
  forall target,
    Target.id (f target) = Target.id target
    /\ Target.radius (f target) = Target.radius target
    /\ Target.size (f target) = Target.size target
    /\ Target.velocity (f target) = Target.velocity target
    /\ (Target.direction (f target) = Target.direction target
        \/ Target.direction (f target) = (#1)%num
        \/ Target.direction (f target) = (#(-1))%num).

End Invariant.

(** ** A sample session, for the concrete instances of the theorems *)

Module Scenario.
Section Binary64.
Local Open Scope float_scope.

(** An easy session on a 1920 x 1080 screen with the recorded random
    numbers of [Sample.random]: the game starts at clock reading 1000 and
    its loop at 1010; a click on the centre of the first target (575, 432),
    a frame, a click below the net line (702), and the frame at which the
    sixty seconds are over. *)
Definition opening : list (@Event float) :=
  [Resize 1920 1080; SelectDifficulty easy 1000 1010].

Definition play : list (@Event float) :=
  [Click 575 432 2500; Frame 2516 0.5; Click 575 900 3000].

Definition events : list (@Event float) :=
  opening ++ play ++ [Frame 61010 0.5].

Definition started : App.t float :=
  Eval vm_compute in default App.init (run Sample.random 10 opening App.init).

Definition played : App.t float :=
  Eval vm_compute in default App.init (run Sample.random 10 play started).

Definition final : App.t float :=
  Eval vm_compute in default App.init (run Sample.random 10 events App.init).

End Binary64.

Section Real.
Local Open Scope R_scope.

(** Over the reals: a running hard session whose loop started at clock
    reading 1010, and a target of it past the right wall. *)
Definition running : App.t R :=
  App.mk R (1920, 1080) game hard None Game.init 1010 1920 1080 true 0.

Definition past : Target.t R := Target.mk R 0 1900 432 130 small 2 1 1000.

End Real.
End Scenario.

(** ** Every handler keeps the invariant *)

(** [frame_cases]: the cases of a frame, by the difficulty (the oscillation
    of hard mode) and by the test that ends the session. *)
Ltac frame_cases :=
  unfold gameLoop, beforeDraw, gameLoopEffect;
  destruct (App.difficulty _); cbn; split_if; cbn.

Section InvariantFacts.
Context {num : Type} `{!Number num}.
Variable Math_random : nat -> num.
Implicit Types (g : Game.t num) (a : App.t num) (d : Difficulty).

Lemma targetOk_mono d next next' (target : Target.t num) :
  (next <= next')%Z -> targetOk d next target -> targetOk d next' target.
Proof. unfold targetOk. intuition lia. Qed.

(** Identifiers below [next] are all different from [next]. *)
Lemma fresh_id_NoDup d next (targets : list (Target.t num))
    (target : Target.t num) :
  Forall (targetOk d next) targets ->
  NoDup (Target.id <$> targets) ->
  Target.id target = next ->
  NoDup (Target.id <$> (targets ++ [target])).
Proof.
  intros Hall Hnd Hid. apply NoDup_fmap_snoc; [done|]. intros u Hu.
  rewrite Forall_forall in Hall. apply Hall in Hu as (_ & ? & _). lia.
Qed.

(** The spawned target is a target of the session. *)
Lemma addNewTarget_ok W H0 d0 fuel diff now g g' k k' :
  gameOk (default d0 diff) g ->
  addNewTarget Math_random W H0 d0 fuel diff now g k = Some (g', k') ->
  gameOk (default d0 diff) g'
  /\ length (Game.targets g') = S (length (Game.targets g)).
Proof.
  intros (Hc & Hnext & Hall & Hnd) Hrun.
  apply addNewTarget_inv in Hrun
    as (size & radius & x & v & k1 & k2 & Hp & Hv & _ & ->).
  apply placement_Some in Hp as (j & _ & Hcand%candidate_shape & _).
  destruct Hcand as (-> & _ & Heasy & _).
  split; [|cbn; rewrite length_app; cbn; lia].
  split; [exact Hc|]. split; [cbn; lia|]. split.
  - cbn. apply Forall_app. split.
    + eapply Forall_impl; [exact Hall|]. intros u. apply targetOk_mono. lia.
    + constructor; [|constructor]. repeat split; cbn; try lia; try done.
      * unfold coin. split_if; auto.
      * intros Hd. destruct (default d0 diff); cbn in Hv; congruence.
  - cbn. by eapply fresh_id_NoDup.
Qed.

Lemma moveTarget_keeps W : keepsTarget (moveTarget W).
Proof.
  intros target. unfold moveTarget. repeat split_if; cbn; auto 10.
Qed.

Lemma oscillate_keeps W sin2t : keepsTarget (oscillate W sin2t).
Proof. intros target. cbn. auto 10. Qed.

Lemma map_keeps_ok d g f :
  keepsTarget f -> gameOk d g ->
  gameOk d (Game.set_targets (List.map f (Game.targets g)) g).
Proof.
  intros Hf (Hc & Hnext & Hall & Hnd).
  split; [exact Hc|]. split; [exact Hnext|]. split.
  - cbn. apply Forall_forall. intros u (t & <- & Ht)%list_elem_of_In%in_map_iff.
    rewrite Forall_forall in Hall.
    apply list_elem_of_In, Hall in Ht as (Hr & Hid & Hdir & Hs & Hv).
    destruct (Hf t) as (Hi' & Hr' & Hs' & Hv' & Hd).
    assert (Target.direction (f t) = (#1)%num
            \/ Target.direction (f t) = (#(-1))%num)
      by (destruct Hd as [-> | [-> | ->]]; auto).
    unfold targetOk. rewrite Hi', Hr', Hs', Hv'. repeat split; auto; lia.
  - cbn. rewrite fmap_map_key; [done|]. intros t. apply Hf.
Qed.

Lemma draw_ok W d g :
  gameOk d g ->
  gameOk d (draw W g)
  /\ length (Game.targets (draw W g)) = length (Game.targets g).
Proof.
  intros Hok. apply (map_keeps_ok d g _ (moveTarget_keeps W)) in Hok.
  split; [|cbn; apply length_map].
  destruct Hok as (Hc & Hrest). split; [exact Hc | exact Hrest].
Qed.

Lemma scoreHit_ok W H0 d fuel i target clickX clickY now g g' k k' :
  gameOk d g -> i < length (Game.targets g) ->
  scoreHit Math_random W H0 d fuel i target clickX clickY now g k
  = Some (g', k') ->
  gameOk d g' /\ length (Game.targets g') = length (Game.targets g).
Proof.
  intros ((Hlen & Hperf) & Hnext & Hall & Hnd) Hi. unfold scoreHit.
  destruct (calculatePoints _ _) as [points label].
  intros [Hok Hcount]%(addNewTarget_ok W H0 d fuel None).
  - split; [done|]. rewrite Hcount.
    destruct (String.eqb label "PERFECT"); cbn;
      (rewrite length_delete by (by apply lookup_lt_is_Some)); lia.
  - destruct (String.eqb label "PERFECT"); cbn; repeat split; cbn;
      rewrite ?length_app; cbn; auto using Forall_delete with game; lia.
Qed.

Lemma click_ok W H0 d gs fuel clickX clickY now g g' k k' :
  gameOk d g ->
  handleCanvasClick Math_random W H0 d gs fuel clickX clickY now g k
  = Some (g', k') ->
  gameOk d g' /\ length (Game.targets g') = length (Game.targets g).
Proof.
  intros Hok [| |i target g1 k1 _ _ Hi%lookup_lt_Some _ _ Hscore|]
    %handleCanvasClick_clicked; try done.
  by eapply scoreHit_ok.
Qed.

Lemma gameOk_init d : gameOk d (Game.init (num := num)).
Proof. repeat split; cbn; try lia; constructor. Qed.

Lemma gameOk_set_timeLeft d v g :
  gameOk d g -> gameOk d (Game.set_timeLeft v g).
Proof. intros Hok. exact Hok. Qed.

(** What [spawnTarget] changes is the game and the count of draws. *)
Lemma spawnTarget_inv fuel diff now a a' :
  spawnTarget Math_random fuel diff now a = Some a' ->
  exists g' k',
    addNewTarget Math_random (CANVAS_WIDTH a) (CANVAS_HEIGHT a)
      (App.difficulty a) fuel diff now (App.gameRef a) (App.randomCalls a)
    = Some (g', k')
    /\ a' = App.set_randomCalls k' (App.set_gameRef g' a).
Proof.
  unfold spawnTarget. intros ([g' k'] & Hrun & [= <-])%bind_Some. eauto.
Qed.

(** [initializeGame] is two spawns on a fresh game object, with the
    selected difficulty passed along. *)
Lemma initializeGame_inv fuel d now a a' :
  initializeGame Math_random fuel d now a = Some a' ->
  exists g1 k1 g2 k2,
    addNewTarget Math_random (CANVAS_WIDTH a) (CANVAS_HEIGHT a)
      (App.difficulty a) fuel (Some d) now Game.init (App.randomCalls a)
    = Some (g1, k1)
    /\ addNewTarget Math_random (CANVAS_WIDTH a) (CANVAS_HEIGHT a)
         (App.difficulty a) fuel (Some d) now g1 k1
       = Some (g2, k2)
    /\ a' = App.set_gameState game
              (App.set_difficulty d
                 (App.set_randomCalls k2 (App.set_gameRef g2 a))).
Proof.
  unfold initializeGame.
  intros (a1 & H1 & (a2 & H2 & [= <-])%bind_Some)%bind_Some.
  apply spawnTarget_inv in H1 as (g1 & k1 & H1 & ->).
  apply spawnTarget_inv in H2 as (g2 & k2 & H2 & ->).
  by exists g1, k1, g2, k2.
Qed.

(** The game-loop effect writes neither to the game nor to the
    difficulty. *)
Lemma gameLoopEffect_gameRef now (a : App.t num) :
  App.gameRef (gameLoopEffect now a) = App.gameRef a.
Proof. unfold gameLoopEffect. by destruct (App.gameState a). Qed.

Lemma gameLoopEffect_difficulty now (a : App.t num) :
  App.difficulty (gameLoopEffect now a) = App.difficulty a.
Proof. unfold gameLoopEffect. by destruct (App.gameState a). Qed.

(** The converse: a spawn that returns is what [spawnTarget] stores, and
    two of them in a row are a start. *)
Lemma spawnTarget_eq fuel diff now a g k :
  addNewTarget Math_random (CANVAS_WIDTH a) (CANVAS_HEIGHT a)
    (App.difficulty a) fuel diff now (App.gameRef a) (App.randomCalls a)
  = Some (g, k) ->
  spawnTarget Math_random fuel diff now a
  = Some (App.set_randomCalls k (App.set_gameRef g a)).
Proof. unfold spawnTarget. by intros ->. Qed.

Lemma initializeGame_spawns fuel d now a g1 k1 g2 k2 :
  addNewTarget Math_random (CANVAS_WIDTH a) (CANVAS_HEIGHT a)
    (App.difficulty a) fuel (Some d) now Game.init (App.randomCalls a)
  = Some (g1, k1) ->
  addNewTarget Math_random (CANVAS_WIDTH a) (CANVAS_HEIGHT a)
    (App.difficulty a) fuel (Some d) now g1 k1 = Some (g2, k2) ->
  initializeGame Math_random fuel d now a
  = Some (App.set_gameState game
            (App.set_difficulty d
               (App.set_randomCalls k2 (App.set_gameRef g2 a)))).
Proof.
  intros H1 H2. unfold initializeGame.
  erewrite spawnTarget_eq by exact H1. cbn [mbind option_bind].
  by erewrite spawnTarget_eq by exact H2.
Qed.

(** [initializeGame] starts a game of two targets in the selected
    difficulty, from a fresh game object. *)
Lemma initializeGame_ok fuel d now a a' :
  initializeGame Math_random fuel d now a = Some a' ->
  gameOk d (App.gameRef a')
  /\ length (Game.targets (App.gameRef a')) = 2
  /\ App.gameState a' = game
  /\ App.difficulty a' = d
  /\ App.animationRef a' = App.animationRef a
  /\ App.canvasSize a' = App.canvasSize a.
Proof.
  intros (g1 & k1 & g2 & k2 & H1 & H2 & ->)%initializeGame_inv.
  apply addNewTarget_ok in H1 as [Hok1 Hlen1]; [|apply gameOk_init].
  apply addNewTarget_ok in H2 as [Hok2 Hlen2]; [|exact Hok1].
  cbn in *. rewrite Hlen2, Hlen1. repeat split; try done; apply Hok2.
Qed.

(** A fresh game has no score and no hits. *)
Lemma initializeGame_fresh fuel d now a a' :
  initializeGame Math_random fuel d now a = Some a' ->
  Game.score (App.gameRef a') = 0%Z
  /\ Game.totalHits (App.gameRef a') = 0%Z
  /\ Game.perfectHits (App.gameRef a') = 0%Z.
Proof.
  intros (g1 & k1 & g2 & k2 & H1 & H2 & ->)%initializeGame_inv.
  apply addNewTarget_inv in H1 as (? & ? & ? & ? & ? & ? & _ & _ & _ & ->).
  apply addNewTarget_inv in H2 as (? & ? & ? & ? & ? & ? & _ & _ & _ & ->).
  done.
Qed.

(** A frame writes neither the score nor the counters. *)
Lemma gameLoop_counters now sin2t a :
  let g' := App.gameRef (gameLoop now sin2t a) in
  Game.score g' = Game.score (App.gameRef a)
  /\ Game.totalHits g' = Game.totalHits (App.gameRef a)
  /\ Game.perfectHits g' = Game.perfectHits (App.gameRef a)
  /\ Game.reactionTimes g' = Game.reactionTimes (App.gameRef a)
  /\ length (Game.targets g') = length (Game.targets (App.gameRef a)).
Proof. frame_cases; by rewrite ?length_map. Qed.

(** The targets after a frame. *)
Lemma gameLoop_targets now sin2t a :
  Game.targets (App.gameRef (gameLoop now sin2t a))
  = List.map (moveTarget (App.loopCanvasWidth a))
      (match App.difficulty a with
       | hard =>
           List.map (oscillate (App.loopCanvasWidth a) sin2t)
             (Game.targets (App.gameRef a))
       | _ => Game.targets (App.gameRef a)
       end).
Proof. by frame_cases. Qed.

Lemma gameLoop_difficulty now sin2t a :
  App.difficulty (gameLoop now sin2t a) = App.difficulty a.
Proof.
  unfold gameLoop. split_if; [done|]. by rewrite gameLoopEffect_difficulty.
Qed.

(** What a frame does to the clock and to the screen. *)
Lemma gameLoop_timeLeft now sin2t a :
  let left :=
    (Math_max #0 (#60 - #(now - App.startTime a) / #1000))%num in
  Game.timeLeft (App.gameRef (gameLoop now sin2t a)) = left
  /\ App.gameState (gameLoop now sin2t a)
     = (if (left >? #0)%num then App.gameState a else end')
  /\ App.animationRef (gameLoop now sin2t a)
     = (if (left >? #0)%num then App.animationRef a else false).
Proof. by frame_cases. Qed.

(** A frame keeps the invariant, and ends the session with a summary that
    agrees with the game. *)
Lemma gameLoop_ok now sin2t a :
  appOk a -> App.gameState a = game -> appOk (gameLoop now sin2t a).
Proof.
  intros (Hok & Hcount & Hanim & _) Hgame. unfold gameLoop, beforeDraw.
  set (g0 := Game.set_timeLeft _ _).
  set (g1 := match App.difficulty a with hard => _ | _ => g0 end).
  assert (Hok1 : gameOk (App.difficulty a) g1
                  /\ length (Game.targets g1)
                     = length (Game.targets (App.gameRef a))).
  { subst g1. destruct (App.difficulty a) eqn:Hd;
      try (split; [exact Hok | done]).
    split; [by apply map_keeps_ok, Hok; apply oscillate_keeps|].
    cbn. apply length_map. }
  destruct Hok1 as [Hok1 Hlen1].
  destruct (draw_ok (App.loopCanvasWidth a) _ g1 Hok1) as [Hok2 Hlen2].
  rewrite Hlen1 in Hlen2. set (g2 := draw _ g1) in *. clearbody g2 g1 g0.
  split_if; unfold appOk; cbn; rewrite ?Hgame.
  - repeat split; try done; try (apply Hok2); try tauto.
    intros _. rewrite Hlen2. auto.
  - repeat split; try done; try (apply Hok2).
    intros _. eexists. repeat split. apply Hok2.
Qed.

(** Starting the loop on a freshly initialised game gives a good state. *)
Lemma start_ok fuel d now effectNow a a1 :
  initializeGame Math_random fuel d now a = Some a1 ->
  appOk (gameLoopEffect effectNow a1).
Proof.
  intros (Hok & Hlen & Hgs & Hd & _)%initializeGame_ok.
  unfold gameLoopEffect. rewrite Hgs. unfold appOk. cbn.
  rewrite Hgs, Hd. repeat split; try done; apply Hok.
Qed.

Lemma canvasClick_ok fuel clickX clickY now a a' :
  appOk a -> App.gameState a = game ->
  canvasClick Math_random fuel clickX clickY now a = Some a' ->
  appOk a'.
Proof.
  intros (Hok & Hcount & Hanim & _) Hgame.
  unfold canvasClick. intros ([g' k'] & Hrun & [= <-])%bind_Some.
  apply click_ok in Hrun as [Hok' Hlen]; [|exact Hok].
  unfold appOk. cbn. rewrite Hlen, Hgame.
  repeat split; try done; try apply Hok'; auto.
  intros _. by apply Hanim.
Qed.

(** [handle] computes the transitions of [handled], and only those. *)
Lemma handle_handled fuel e a a' :
  handle Math_random fuel e a = Some a' <-> handled Math_random fuel e a a'.
Proof.
  split.
  - unfold handle. destruct e, (App.gameState a) eqn:Hgs; try done.
    all: try (intros [= <-]; by constructor).
    all: try (intros (a1 & Hinit & ->)%fmap_Some; by constructor).
    all: try (destruct (App.animationRef a) eqn:Hpending;
              [by intros [= <-]; constructor | done]).
    + intros (stats & Hstats & (a1 & Hinit & ->)%fmap_Some)%bind_Some.
      by econstructor.
    + by constructor.
  - intros [|? ? ? ? ? Hgs Hinit|? ? ? ? ? Hgs Hstats Hinit
            |? Hgs [stats Hstats]|? ? ? ? ? Hgs Hclick|? ? ? Hgs
            |? ? ? Hpending];
      unfold handle; rewrite ?Hgs, ?Hstats; cbn [mbind option_bind];
      rewrite ?Hinit, ?Hpending; done.
Qed.

(** Every handler keeps the invariant. *)
Lemma handle_ok fuel e a a' :
  appOk a -> handle Math_random fuel e a = Some a' -> appOk a'.
Proof.
  intros Hok Hstep%handle_handled. pose proof Hok as (Hg & _ & Hanim & _).
  destruct Hstep; eauto using start_ok, canvasClick_ok.
  - unfold appOk. cbn. repeat split; try done; apply Hg.
  - apply gameLoop_ok; [done | by apply Hanim].
Qed.

(** The invariant holds in every state the component reaches. *)
Lemma reachable_ok a : reachable Math_random a -> appOk a.
Proof.
  induction 1 as [|fuel e a a' _ IH Hstep].
  - unfold appOk. cbn. repeat split; try done; try lia; try constructor.
  - by eapply handle_ok.
Qed.

(** The end of a run from a reachable state is reachable. *)
Lemma run_reachable fuel es a a' :
  reachable Math_random a -> run Math_random fuel es a = Some a' ->
  reachable Math_random a'.
Proof.
  revert a. induction es as [|e es IH]; intros a Ha; cbn.
  - by intros [= <-].
  - intros (a1 & Hstep & Hrun)%bind_Some.
    apply (IH a1); [|done]. by eapply reachable_step.
Qed.

(** A run of two lists of events is the run of the second from the end of
    the first. *)
Lemma run_app fuel es1 es2 a a' :
  run Math_random fuel es1 a = Some a' ->
  run Math_random fuel (es1 ++ es2) a = run Math_random fuel es2 a'.
Proof.
  revert a. induction es1 as [|e es1 IH]; intros a; cbn.
  - by intros [= <-].
  - intros (a1 & -> & Hrun)%bind_Some. cbn. by apply IH.
Qed.

(** C2. While a game runs there are exactly two live targets, in every
    state the component reaches: before and after every frame and every
    click. *)
Theorem two_live_targets a :
  reachable Math_random a -> App.gameState a = game ->
  length (Game.targets (App.gameRef a)) = 2.
Proof. intros (_ & Hcount & _)%reachable_ok. exact Hcount. Qed.

(** C38. In every reachable state the live targets are well formed for the
    session's difficulty (radius 190 for large and 130 for small, large only
    in easy sessions, velocity 0 outside hard sessions, direction 1 or -1),
    their identifiers are distinct and below the counter, there is one
    reaction time per hit, and the perfect hits do not exceed the hits. *)
Theorem reachable_game_ok a :
  reachable Math_random a -> gameOk (App.difficulty a) (App.gameRef a).
Proof. intros (Hok & _)%reachable_ok. exact Hok. Qed.

(** A frame is requested exactly while the game runs: the loop is
    never armed in the menu or on the end screen. *)
Theorem loop_armed_iff_game a :
  reachable Math_random a ->
  App.animationRef a = true <-> App.gameState a = game.
Proof. intros (_ & _ & Hanim & _)%reachable_ok. exact Hanim. Qed.

(** On the end screen there is a summary, and it agrees with the game:
    final score, hits, perfect hits, mode and reaction times are those of
    the game object, and there are as many reaction times as hits. *)
Theorem summary_agrees a :
  reachable Math_random a -> App.gameState a = end' -> statsOk a.
Proof. intros (_ & _ & _ & Hend)%reachable_ok. exact Hend. Qed.

(** C37. The screens follow menu -> game -> end -> (game | menu): a handler
    leaves [gameState] as it is, or a difficulty button starts a game from
    the menu, or a frame ends a running game, or "Play again" restarts from
    the end screen, or "Menu" returns to the menu from it. *)
Theorem screen_transitions fuel e a a' :
  reachable Math_random a ->
  handle Math_random fuel e a = Some a' ->
  App.gameState a' = App.gameState a
  \/ (App.gameState a = menu /\ App.gameState a' = game
      /\ exists d now effectNow, e = SelectDifficulty d now effectNow)
  \/ (App.gameState a = game /\ App.gameState a' = end'
      /\ exists now sin2t, e = Frame now sin2t)
  \/ (App.gameState a = end' /\ App.gameState a' = game
      /\ exists now effectNow, e = PlayAgain now effectNow)
  \/ (App.gameState a = end' /\ App.gameState a' = menu /\ e = BackToMenu).
Proof.
  intros (_ & _ & Hanim & _)%reachable_ok Hstep%handle_handled.
  destruct Hstep as [|d now eff a a1 Hgs (_ & _ & Hg & _)%initializeGame_ok
                     |stats now eff a a1 Hgs _ (_ & _ & Hg & _)%initializeGame_ok
                     |a Hgs _|x y now a a' Hgs Hclick|x y a Hgs
                     |now sin2t a Hpending]; try by left.
  - right. left. unfold gameLoopEffect. rewrite Hg. cbn. eauto 10.
  - do 3 right. left. unfold gameLoopEffect. rewrite Hg. cbn. eauto 10.
  - do 4 right. done.
  - apply bind_Some in Hclick as ([g k] & _ & [= <-]). by left.
  - apply Hanim in Hpending. unfold gameLoop, beforeDraw.
    split_if; cbn; eauto 10.
Qed.


End InvariantFacts.

(** ** A session in binary64 *)

Section SessionBinary64.
Local Open Scope float_scope.

Lemma started_run :
  run Sample.random 10 Scenario.opening App.init = Some Scenario.started.
Proof. vm_compute. reflexivity. Qed.

Lemma played_run :
  run Sample.random 10 Scenario.play Scenario.started
  = Some Scenario.played.
Proof. vm_compute. reflexivity. Qed.

Lemma final_run :
  run Sample.random 10 Scenario.events App.init = Some Scenario.final.
Proof. vm_compute. reflexivity. Qed.


End SessionBinary64.

(** ** The theorems at the sample session *)

Section SessionWitnesses.

Lemma started_reachable : reachable Sample.random Scenario.started.
Proof.
  apply (run_reachable _ 10 Scenario.opening App.init);
    [constructor | exact started_run].
Qed.

Lemma played_reachable : reachable Sample.random Scenario.played.
Proof.
  apply (run_reachable _ 10 Scenario.play Scenario.started);
    [exact started_reachable | exact played_run].
Qed.

Lemma final_reachable : reachable Sample.random Scenario.final.
Proof.
  apply (run_reachable _ 10 Scenario.events App.init);
    [constructor | exact final_run].
Qed.

Lemma last_frame :
  handle Sample.random 10 (Frame 61010 0.5%float) Scenario.played
  = Some Scenario.final.
Proof. vm_compute. reflexivity. Qed.

Lemma resized_reachable :
  reachable Sample.half (updateCanvasSize 1920%R 1080%R App.init).
Proof.
  apply (reachable_step _ 0 (Resize 1920%R 1080%R) App.init);
    [constructor | reflexivity].
Qed.

Lemma two_live_targets_witness :
  length (Game.targets (App.gameRef Scenario.played)) = 2.
Proof.
  apply (two_live_targets Sample.random Scenario.played played_reachable).
  reflexivity.
Defined.

Lemma reachable_game_ok_witness : gameOk easy (App.gameRef Scenario.played).
Proof.
  exact (reachable_game_ok Sample.random Scenario.played played_reachable).
Defined.

Lemma loop_armed_iff_game_witness :
  App.animationRef Scenario.final = true
  <-> App.gameState Scenario.final = game.
Proof.
  exact (loop_armed_iff_game Sample.random Scenario.final final_reachable).
Defined.

Lemma summary_agrees_witness : statsOk Scenario.final.
Proof.
  apply (summary_agrees Sample.random Scenario.final final_reachable).
  reflexivity.
Defined.

Lemma screen_transitions_witness :
  App.gameState Scenario.played = game
  /\ App.gameState Scenario.final = end'.
Proof.
  destruct (screen_transitions Sample.random 10 (Frame 61010 0.5%float)
              Scenario.played Scenario.final played_reachable last_frame)
    as [Hsame|[(Hm & _)|[(Hg & He & _)|[(He & _)|(He & _)]]]];
    try discriminate.
  split; assumption.
Defined.

End SessionWitnesses.
