(* ===== verification/Clock.v ===== *)
(** * Clock: the component on a clock that does not go back

    [Date.now()] is read by [initializeGame] (through [addNewTarget]), by
    the game-loop effect, by [handleCanvasClick] and by every frame of
    [gameLoop] ([src/app/page.tsx], lines 163, 218, 527, 530).  In the
    model each reading is an argument of the event.  This file restricts
    the runs to those whose readings are in order ([reachableAt]) and
    proves what then holds of the times the game records: creation times,
    reaction times and their mean, the start of the loop, the remaining
    time, and the moment the session ends.

    The last two are also proved at binary64, on every state and every
    reading ([frame_clock_binary64]): the remaining time is a number and
    not negative by the laws of [Order] and the facts of [Binary64], and
    the session ends on time by a check of every reading of two minutes
    ([onTime_two_minutes]); with the invariant of the reachable states,
    every session ends ([session_ends_binary64]). *)

From Stdlib Require Import ZArith String Floats Reals Lra.
From stdpp Require Import base option list.
From S2P Require Import Prelude Number Float64 Exact Order Binary64 Types.
From S2P Require Import Spawner Scoring Render Session.

(** ** Runs on a clock that does not go back

    [clockOk t e]: the clock readings of the event [e] are in order and not
    before [t]; [clockAfter t e] is the last of them. *)

Definition clockOk {num : Type} (t : Z) (e : @Event num) : Prop :=
  match e with
  | SelectDifficulty _ now effectNow | PlayAgain now effectNow =>
      (t <= now <= effectNow)%Z
  | Click _ _ now | Frame now _ => (t <= now)%Z
  | _ => True
  end.

Definition clockAfter {num : Type} (t : Z) (e : @Event num) : Z :=
  match e with
  | SelectDifficulty _ _ effectNow | PlayAgain _ effectNow => effectNow
  | Click _ _ now | Frame now _ => now
  | _ => t
  end.

(** The same for a list of events handled in order. *)
Fixpoint clocksOk {num : Type} (t : Z) (es : list (@Event num)) : Prop :=
  match es with
  | [] => True
  | e :: es => clockOk t e /\ clocksOk (clockAfter t e) es
  end.

(** The states reached at clock reading [t], the page loaded at a reading
    that is not negative. *)
Inductive reachableAt {num : Type} `{!Number num} (Math_random : nat -> num)
    : Z -> App.t num -> Prop :=
| reachableAt_init t : (0 <= t)%Z -> reachableAt Math_random t App.init
| reachableAt_step t fuel e a a' :
    reachableAt Math_random t a ->
    clockOk t e ->
    handle Math_random fuel e a = Some a' ->
    reachableAt Math_random (clockAfter t e) a'.

(** At clock reading [t]: no target was created later, no reaction time
    is negative, and a running loop started no later. *)
Definition timesOk {num : Type} (t : Z) (a : App.t num) : Prop :=
  (0 <= t)%Z
  /\ Forall (fun target => Target.createdAt target <= t)%Z
       (Game.targets (App.gameRef a))
  /\ Forall (fun r => 0 <= r)%Z (Game.reactionTimes (App.gameRef a))
  /\ (App.gameState a = game -> (App.startTime a <= t)%Z).

(** [60 - elapsed] of [gameLoop], [ms] milliseconds after the start of the
    loop, and at clock reading [now]. *)
Definition remainingAfter {num : Type} `{!Number num} (ms : Z) : num :=
  (#60 - #ms / #1000)%num.

Definition remaining {num : Type} `{!Number num} (now : Z) (a : App.t num)
    : num :=
  remainingAfter (now - App.startTime a).

(** In binary64, [60 - elapsed] is at most zero at [ms] milliseconds exactly
    when [ms] is 60000 or more. *)
Definition onTime (ms : Z) : bool :=
  Bool.eqb (remainingAfter ms <=? 0)%float (60000 <=? ms)%Z.

(** Over the reals: the remaining time is between 0 and 60 seconds. *)
Definition timeLeftOk (a : App.t R) : Prop :=
  (0 <= Game.timeLeft (App.gameRef a) <= 60)%R.

(** ** Times, for every number system *)

Section ClockFacts.
Context {num : Type} `{!Number num}.
Variable Math_random : nat -> num.
Implicit Types (g : Game.t num) (a : App.t num) (d : Difficulty).

Lemma spawn_times W H0 d0 fuel diff now t g g' k k' :
  (t <= now)%Z ->
  Forall (fun target => Target.createdAt target <= t)%Z (Game.targets g) ->
  addNewTarget Math_random W H0 d0 fuel diff now g k = Some (g', k') ->
  Forall (fun target => Target.createdAt target <= now)%Z (Game.targets g')
  /\ Game.reactionTimes g' = Game.reactionTimes g
  /\ Game.timeLeft g' = Game.timeLeft g.
Proof.
  intros Ht Hc (? & ? & ? & ? & ? & ? & _ & _ & _ & ->)%addNewTarget_inv.
  cbn. split; [|done]. apply Forall_app. split.
  - eapply Forall_impl; [exact Hc|]. cbn. intros; lia.
  - repeat constructor. cbn. lia.
Qed.

Lemma reactionTimeOf_nonneg t now (target : Target.t num) :
  (Target.createdAt target <= t)%Z -> (t <= now)%Z ->
  (0 <= reactionTimeOf now target)%Z.
Proof.
  unfold reactionTimeOf. destruct (Z.eqb_spec (Target.createdAt target) 0); lia.
Qed.

(** A click at a reading not before [t] keeps the times in order. *)
Lemma click_times W H0 d gs fuel clickX clickY now t g g' k k' :
  (t <= now)%Z ->
  Forall (fun target => Target.createdAt target <= t)%Z (Game.targets g) ->
  Forall (fun r => 0 <= r)%Z (Game.reactionTimes g) ->
  handleCanvasClick Math_random W H0 d gs fuel clickX clickY now g k
  = Some (g', k') ->
  Forall (fun target => Target.createdAt target <= now)%Z (Game.targets g')
  /\ Forall (fun r => 0 <= r)%Z (Game.reactionTimes g')
  /\ Game.timeLeft g' = Game.timeLeft g.
Proof.
  intros Ht Hc Hr.
  assert (Hc' : Forall (fun target => Target.createdAt target <= now)%Z
                  (Game.targets g))
    by (eapply Forall_impl; [exact Hc|]; cbn; intros; lia).
  intros [| |i target g1 k1 _ _ Hlook _ _ Hscore|]
    %handleCanvasClick_clicked; try done.
  rewrite Forall_forall in Hc.
  apply list_elem_of_lookup_2, Hc, (reactionTimeOf_nonneg _ now) in Hlook;
    [|done].
  revert Hscore. unfold scoreHit.
  destruct (calculatePoints _ _) as [points label].
  intros (Hc2 & -> & ->)%(spawn_times _ _ _ _ _ _ now).
  - destruct (String.eqb label "PERFECT"); cbn;
      (split; [done|]); (split; [|done]); apply Forall_app;
      by repeat constructor.
  - lia.
  - destruct (String.eqb label "PERFECT"); cbn; by apply Forall_delete.
Qed.

(** A frame keeps the creation times. *)
Lemma gameLoop_createdAt now sin2t t a :
  Forall (fun target => Target.createdAt target <= t)%Z
    (Game.targets (App.gameRef a)) ->
  Forall (fun target => Target.createdAt target <= t)%Z
    (Game.targets (App.gameRef (gameLoop now sin2t a))).
Proof.
  intros Hc. rewrite gameLoop_targets.
  assert (Hm : forall W (l : list (Target.t num)),
             Forall (fun target => Target.createdAt target <= t)%Z l ->
             Forall (fun target => Target.createdAt target <= t)%Z
               (List.map (moveTarget W) l)).
  { intros W l Hl. rewrite List.Forall_map. eapply Forall_impl; [exact Hl|].
    intros target. cbn.
    by destruct (moveTarget_frame W target) as (_ & _ & _ & _ & _ & ->). }
  destruct (App.difficulty a); apply Hm; try done.
  rewrite List.Forall_map. exact Hc.
Qed.

Lemma gameLoop_startTime now sin2t a :
  App.startTime (gameLoop now sin2t a) = App.startTime a.
Proof. by frame_cases. Qed.

(** A game started at [now], its loop at [effectNow]. *)
Lemma start_times fuel d now effectNow a a1 :
  (0 <= now <= effectNow)%Z ->
  initializeGame Math_random fuel d now a = Some a1 ->
  timesOk effectNow (gameLoopEffect effectNow a1)
  /\ Game.timeLeft (App.gameRef (gameLoopEffect effectNow a1)) = (#60)%num.
Proof.
  intros Hnow Hinit.
  pose proof Hinit as (_ & _ & Hgs & _)%initializeGame_ok.
  apply initializeGame_inv in Hinit as (g1 & k1 & g2 & k2 & H1 & H2 & ->).
  apply (spawn_times _ _ _ _ _ _ now) in H1 as (Hc1 & Hr1 & Ht1);
    [|lia|constructor].
  apply (spawn_times _ _ _ _ _ _ now) in H2 as (Hc2 & Hr2 & Ht2);
    [|lia|exact Hc1].
  unfold timesOk, gameLoopEffect. cbn in *.
  rewrite Hr2, Hr1, Ht2, Ht1. repeat split; try done; try lia.
  eapply Forall_impl; [exact Hc2|]. cbn. intros; lia.
Qed.

(** Every handler keeps the times in order. *)
Lemma handle_times fuel e t a a' :
  appOk a -> timesOk t a -> clockOk t e ->
  handle Math_random fuel e a = Some a' ->
  timesOk (clockAfter t e) a'.
Proof.
  intros (_ & _ & Hanim & _) (Ht & Hc & Hr & Hs) Hclock Hstep%handle_handled.
  destruct Hstep as [|? ? effectNow ? ? _ Hinit|? ? effectNow ? ? _ _ Hinit
                     |? Hgs _|? ? ? ? ? Hgs Hclick|? ? ? Hgs
                     |now sin2t a Hgs];
    cbn [clockOk clockAfter] in Hclock |- *.
  1, 4, 6: by repeat split; try done; cbn; rewrite ?Hgs.
  1, 2: by apply (start_times _ _ _ effectNow) in Hinit as [Hok _]; [|lia].
  - apply bind_Some in Hclick as ([g k] & Hrun & [= <-]).
    apply (click_times _ _ _ _ _ _ _ _ t) in Hrun as (Hc' & Hr' & _);
      try done.
    repeat split; try done; try lia. cbn. intros _. specialize (Hs Hgs). lia.
  - apply Hanim in Hgs.
    destruct (gameLoop_counters now sin2t a) as (_ & _ & _ & Hrt & _).
    repeat split; [lia | | by rewrite Hrt |].
    + apply gameLoop_createdAt. eapply Forall_impl; [exact Hc|].
      cbn. intros; lia.
    + rewrite gameLoop_startTime. intros _. specialize (Hs Hgs). lia.
Qed.

Lemma reachableAt_reachable t a :
  reachableAt Math_random t a -> reachable Math_random a.
Proof. induction 1; [constructor | by eapply reachable_step]. Qed.

Lemma reachableAt_times t a : reachableAt Math_random t a -> timesOk t a.
Proof.
  induction 1 as [t Ht|t fuel e a a' Ha IH Hclock Hstep].
  - repeat split; try done; constructor.
  - eapply handle_times; eauto using reachable_ok, reachableAt_reachable.
Qed.

(** The end of a run on a clock that does not go back. *)
Lemma run_reachableAt fuel es t a a' :
  reachableAt Math_random t a -> clocksOk t es ->
  run Math_random fuel es a = Some a' ->
  reachableAt Math_random (fold_left clockAfter es t) a'.
Proof.
  revert t a. induction es as [|e es IH]; intros t a Ha; cbn.
  - by intros _ [= <-].
  - intros [He Hes] (a1 & Hstep & Hrun)%bind_Some.
    apply (IH _ a1); [|done..]. by eapply reachableAt_step.
Qed.

(** C27. On a clock that does not go back, in every state the component
    reaches no live target was created after the current reading, no
    recorded reaction time is negative, and the running loop did not start
    later than now. *)
Theorem times_in_order t a :
  reachableAt Math_random t a ->
  (0 <= t)%Z
  /\ Forall (fun target => Target.createdAt target <= t)%Z
       (Game.targets (App.gameRef a))
  /\ Forall (fun r => 0 <= r)%Z (Game.reactionTimes (App.gameRef a))
  /\ (App.gameState a = game -> (App.startTime a <= t)%Z).
Proof. apply reachableAt_times. Qed.

End ClockFacts.

(** ** The end of the session, from the laws of the order *)

Section ClockOrder.
Context {num : Type} `{!Number num} `{!NumberOrder num}.
Local Open Scope num_scope.
Implicit Types a : App.t num.

(** The time left is a number exactly when [60 - elapsed] is, and the
    frame of a running game ends the session exactly when [60 - elapsed] is
    not above zero, a NaN included. *)
Lemma gameLoop_end_test now sin2t a :
  let a' := gameLoop now sin2t a in
  Game.timeLeft (App.gameRef a') = Math_max #0 (remaining now a)
  /\ isNaN (Game.timeLeft (App.gameRef a')) = isNaN (remaining now a)
  /\ (App.gameState a = game ->
      App.gameState a' = end' <-> (#0 <? remaining now a) = false).
Proof.
  destruct (gameLoop_timeLeft now sin2t a) as (Hleft & Hgs & _).
  cbn zeta in *.
  change (#60 - #(now - App.startTime a) / #1000) with (remaining now a)
    in Hleft, Hgs.
  rewrite Math_max_gtb in Hgs by apply of_Z_number.
  rewrite Hleft, Math_max_NaN, of_Z_number.
  repeat split; try done; rewrite Hgs; destruct (#0 <? remaining now a);
    congruence.
Qed.

End ClockOrder.

(** ** The clock in binary64 *)

Section ClockBinary64.
Local Open Scope float_scope.
Implicit Types a : App.t float.

(** In binary64 [60 - elapsed] is a number at every clock reading. *)
Lemma remaining_number now a : isNaN (remaining now a) = false.
Proof.
  unfold remaining, remainingAfter. apply sub_float; [by vm_compute|].
  eapply div_float; [apply of_Z_float | by vm_compute].
Qed.

(** The rounding of the division by 1000 does not move the end of the
    session: checked on every millisecond of the first two minutes. *)
Lemma onTime_two_minutes : allFrom onTime 0 (Z.to_nat 120001) = true.
Proof. vm_cast_no_check (eq_refl true). Qed.

Lemma remainingAfter_on_time ms :
  (0 <= ms <= 120000)%Z ->
  (remainingAfter ms <=? 0) = true <-> (60000 <= ms)%Z.
Proof.
  intros Hms.
  pose proof (allFrom_spec onTime 0 (Z.to_nat 120001) onTime_two_minutes ms
                ltac:(lia)) as Hrow.
  apply Bool.eqb_prop in Hrow. rewrite Hrow. apply Z.leb_le.
Qed.

(** What a frame of a running game leaves of the clock, in binary64. *)
Lemma frame_clock now sin2t a :
  App.gameState a = game ->
  let a' := gameLoop now sin2t a in
  is_nan (Game.timeLeft (App.gameRef a')) = false
  /\ (0 <=? Game.timeLeft (App.gameRef a')) = true
  /\ (App.gameState a' = end' <-> (remaining now a <=? 0) = true).
Proof.
  intros Hgame a'. subst a'.
  destruct (gameLoop_end_test now sin2t a) as (Hleft & HNaN & Hend).
  pose proof (remaining_number now a) as Hd. cbn zeta in *.
  rewrite Hend by done. split; [by rewrite <- Hd|].
  rewrite (ltb_negb_leb _ _ (of_Z_number 0) Hd).
  change (remaining now a <=? #0)%num with (remaining now a <=? 0).
  split; [|by destruct (remaining now a <=? 0)].
  rewrite Hleft.
  by destruct (Math_max_upper (#0)%num (remaining now a)
                 (of_Z_number 0) Hd).
Qed.

(** Within two minutes of the start of the loop, the frame that ends the
    session is the first from 60000 milliseconds on. *)
Lemma frame_on_time now sin2t a :
  App.gameState a = game -> (0 <= now - App.startTime a <= 120000)%Z ->
  App.gameState (gameLoop now sin2t a) = end'
  <-> (App.startTime a + 60000 <= now)%Z.
Proof.
  intros Hgame Hms.
  destruct (frame_clock now sin2t a Hgame) as (_ & _ & ->).
  unfold remaining. rewrite remainingAfter_on_time by done. lia.
Qed.

(** C18. The clock of a frame in binary64, at every clock reading.  Whatever
    the two readings of the clock, a frame of a running game leaves a time
    left that is a number and not negative, and it ends the session exactly
    when [60 - elapsed], computed in binary64, is at most zero; within two
    minutes of the start of the loop that is exactly from 60000
    milliseconds on. *)
Theorem frame_clock_binary64 now sin2t a :
  App.gameState a = game ->
  let a' := gameLoop now sin2t a in
  is_nan (Game.timeLeft (App.gameRef a')) = false
  /\ (0 <=? Game.timeLeft (App.gameRef a')) = true
  /\ (App.gameState a' = end' <-> (remaining now a <=? 0) = true)
  /\ ((0 <= now - App.startTime a <= 120000)%Z ->
      App.gameState a' = end' <-> (App.startTime a + 60000 <= now)%Z).
Proof.
  intros Hgame a'. subst a'.
  destruct (frame_clock now sin2t a Hgame) as (Hnum & Hpos & Hend).
  split; [done|]. split; [done|]. split; [done|].
  intros Hms. by apply frame_on_time.
Qed.

(** C19. Every session ends, in binary64.  In every state of a running game
    that the component reaches, the frame is pending, and the frame at any
    reading from 60 seconds to two minutes after the start of the loop is
    handled and ends the session: [60 - elapsed] is at most zero as
    computed, the end screen is on display with its statistics, and no
    further frame is requested. *)
Theorem session_ends_binary64 Math_random fuel now sin2t a :
  reachable Math_random a -> App.gameState a = game ->
  (60000 <= now - App.startTime a <= 120000)%Z ->
  exists a',
    handle Math_random fuel (Frame now sin2t) a = Some a'
    /\ a' = gameLoop now sin2t a
    /\ (remaining now a <=? 0) = true
    /\ App.gameState a' = end'
    /\ App.animationRef a' = false
    /\ is_Some (App.gameStats a').
Proof.
  intros Ha Hgame Hms. exists (gameLoop now sin2t a).
  pose proof (reachable_ok _ _ Ha) as (_ & _ & Harmed & _).
  assert (Hstep : handle Math_random fuel (Frame now sin2t) a
                  = Some (gameLoop now sin2t a)).
  { cbn. destruct (App.gameState a); by rewrite (proj2 Harmed Hgame). }
  assert (Hend : App.gameState (gameLoop now sin2t a) = end')
    by (apply frame_on_time; [done | lia | lia]).
  pose proof (reachable_ok _ _ (reachable_step _ _ _ _ _ Ha Hstep))
    as (_ & _ & Harmed' & Hstats).
  repeat split; try done.
  - by apply (frame_clock now sin2t a Hgame).
  - apply not_true_is_false. intros Hanim%Harmed'. congruence.
  - destruct (Hstats Hend) as (stats & -> & _). by eexists.
Qed.

End ClockBinary64.

(** ** The clock over the real numbers *)

Section ClockExact.
Variable Math_random : nat -> R.
Local Open Scope R_scope.
Implicit Types (a : App.t R) (g : Game.t R).

(** The running total of [reduce] is the sum of the list. *)
Lemma sumTimes_foldr (l : list Z) : sumTimes l = foldr Z.add 0%Z l.
Proof.
  unfold sumTimes.
  enough (forall z, fold_left Z.add l z = (z + foldr Z.add 0 l)%Z) as ->
    by lia.
  induction l as [|t l IH]; intros z; cbn; [lia|]. rewrite IH. lia.
Qed.

Lemma sum_bounds (lo hi : Z) (l : list Z) :
  Forall (fun t => lo <= t <= hi)%Z l ->
  (lo * Z.of_nat (length l) <= foldr Z.add 0 l
   <= hi * Z.of_nat (length l))%Z.
Proof. induction 1; cbn [foldr length]; lia. Qed.

(** The clock in milliseconds against the remaining time in seconds. *)
Lemma clock_over (now start : Z) :
  (start + 60000 <= now)%Z <-> 60 - IZR (now - start) / 1000 <= 0.
Proof.
  rewrite minus_IZR. split; intros Hc.
  - apply IZR_le in Hc. rewrite plus_IZR in Hc. lra.
  - apply le_IZR. rewrite plus_IZR. lra.
Qed.

(** A frame on a clock that has not gone back since the loop started
    leaves between 0 and 60 seconds. *)
Lemma gameLoop_timeLeftOk now sin2t a :
  (App.startTime a <= now)%Z -> timeLeftOk (gameLoop now sin2t a).
Proof.
  intros Hnow%Z.le_0_sub%IZR_le. unfold timeLeftOk.
  destruct (gameLoop_timeLeft now sin2t a) as (-> & _).
  to_R. unfold Rmax. destruct (Rle_dec _ _); lra.
Qed.

(** C10. The session ends exactly when sixty seconds have passed on the
    clock of the loop: a frame of a running game sets the remaining time to
    [max 0 (60 - elapsed)], shows the end screen and stops the loop when
    [startTime + 60000 <= now], and otherwise leaves the game running with
    time left; when the clock has not gone back since the loop started, the
    remaining time is at most 60. *)
Theorem gameLoop_clock now sin2t a :
  App.gameState a = game ->
  let a' := gameLoop now sin2t a in
  Game.timeLeft (App.gameRef a')
  = Rmax 0 (60 - IZR (now - App.startTime a) / 1000)
  /\ 0 <= Game.timeLeft (App.gameRef a')
  /\ ((App.startTime a <= now)%Z -> timeLeftOk a')
  /\ (App.gameState a' = end' /\ App.animationRef a' = false
      <-> (App.startTime a + 60000 <= now)%Z)
  /\ (App.gameState a' = game /\ 0 < Game.timeLeft (App.gameRef a')
      <-> (now < App.startTime a + 60000)%Z).
Proof.
  intros Hgs a'. subst a'.
  pose proof (gameLoop_timeLeftOk now sin2t a) as Hrange.
  destruct (gameLoop_timeLeft now sin2t a) as (-> & -> & ->).
  rewrite Hgs, Z.lt_nge, !clock_over.
  split; [done|]. split; [apply Rmax_l|]. split; [done|]. clear Hrange.
  destruct (_ >? _)%num eqn:Hleft; to_R; unfold Rmax in *;
    destruct (Rle_dec _ _); split; (split; [intros [? ?] | intros ?]);
    try done; try lra; try (split; [done | lra]).
Qed.

(** The mean of the reaction times. *)
Lemma averageOf_facts (reactionTimes : list Z) (lo hi : Z) :
  Forall (fun t => lo <= t <= hi)%Z reactionTimes ->
  averageOf reactionTimes * INR (length reactionTimes)
  = IZR (foldr Z.add 0%Z reactionTimes)
  /\ (reactionTimes = [] -> averageOf reactionTimes = 0)
  /\ (reactionTimes <> [] ->
      IZR lo <= averageOf reactionTimes <= IZR hi).
Proof.
  intros [Hlo Hhi]%sum_bounds. unfold averageOf.
  rewrite sumTimes_foldr, INR_IZR_INZ.
  destruct reactionTimes as [|t l]; [cbn; split; [lra | done]|].
  change (0 <? length (t :: l))%nat with true. cbv iota.
  set (n := Z.of_nat (length (t :: l))) in *.
  assert (Hn : 0 < IZR n) by (apply IZR_lt; subst n; cbn; lia).
  apply IZR_le in Hlo, Hhi. rewrite mult_IZR in Hlo, Hhi. to_R.
  set (total := IZR (foldr Z.add 0%Z (t :: l))) in *. clearbody total n.
  assert (Hq : total = total / IZR n * IZR n) by (field; lra).
  set (q := total / IZR n) in *. clearbody q. subst total.
  split; [done|]. split; [done|]. intros _. split; nra.
Qed.

(** Every list of times has bounds. *)
Lemma times_bounded (reactionTimes : list Z) :
  exists lo hi, Forall (fun t => lo <= t <= hi)%Z reactionTimes.
Proof.
  induction reactionTimes as [|t l (lo & hi & IH)]; [by exists 0%Z, 0%Z|].
  exists (Z.min t lo), (Z.max t hi). constructor; [lia|].
  eapply Forall_impl; [exact IH|]. cbn. intros; lia.
Qed.

(** The average reaction time is the arithmetic mean of the recorded
    times, 0 when there is none, and lies between the least and the
    greatest of them. *)
Theorem averageOf_mean (reactionTimes : list Z) (lo hi : Z) :
  Forall (fun t => lo <= t <= hi)%Z reactionTimes ->
  averageOf reactionTimes * INR (length reactionTimes)
  = IZR (foldr Z.add 0%Z reactionTimes)
  /\ (reactionTimes = [] -> averageOf reactionTimes = 0)
  /\ (reactionTimes <> [] ->
      IZR lo <= averageOf reactionTimes <= IZR hi).
Proof. apply averageOf_facts. Qed.

(** The mean of times that are not negative is not negative. *)
Lemma averageOf_nonneg (reactionTimes : list Z) :
  Forall (fun r => 0 <= r)%Z reactionTimes -> 0 <= averageOf reactionTimes.
Proof.
  intros Hr. destruct reactionTimes as [|r l]; [cbn; lra|].
  assert (Hhi : exists hi, Forall (fun t => 0 <= t <= hi)%Z (r :: l)).
  { induction Hr as [|x xs Hx _ [hi IH]]; [by exists 0%Z|].
    exists (Z.max x hi). constructor; [lia|].
    eapply Forall_impl; [exact IH|]. cbn. intros; lia. }
  destruct Hhi as [hi Hhi].
  by apply averageOf_facts in Hhi as (_ & _ & [? _]).
Qed.

(** Every handler keeps the remaining time in range. *)
Lemma handle_timeLeft fuel e t a a' :
  appOk a -> timesOk t a -> clockOk t e -> timeLeftOk a ->
  handle Math_random fuel e a = Some a' -> timeLeftOk a'.
Proof.
  intros (_ & _ & Hanim & _) (Ht & Hc & Hr & Hs) Hclock Hleft
    Hstep%handle_handled.
  unfold timeLeftOk in *.
  destruct Hstep as [|? ? effectNow ? ? _ Hinit|? ? effectNow ? ? _ _ Hinit
                     |? Hgs _|? ? ? ? ? Hgs Hclick|? ? ? Hgs
                     |now sin2t a Hgs];
    cbn [clockOk] in Hclock; try exact Hleft.
  1, 2: by apply (start_times _ _ _ _ effectNow) in Hinit as [_ ->];
    [cbn; lra | lia].
  - apply bind_Some in Hclick as ([g k] & Hrun & [= <-]).
    apply (click_times _ _ _ _ _ _ _ _ _ t) in Hrun as (_ & _ & Hsame);
      try done.
    cbn. by rewrite Hsame.
  - apply Hanim in Hgs.
    destruct (gameLoop_timeLeft now sin2t a) as (-> & _).
    specialize (Hs Hgs).
    assert (0 <= IZR (now - App.startTime a)) by (apply IZR_le; lia).
    to_R. unfold Rmax. destruct (Rle_dec _ _); lra.
Qed.

Lemma reachableAt_timeLeft t a :
  reachableAt Math_random t a -> timeLeftOk a.
Proof.
  induction 1 as [t Ht|t fuel e a a' Ha IH Hclock Hstep].
  - unfold timeLeftOk. cbn. lra.
  - eapply handle_timeLeft;
      eauto using reachableAt_times, reachable_ok, reachableAt_reachable.
Qed.

(** C28. On a clock that does not go back, the remaining time is between 0
    and 60 seconds in every state the component reaches, and the average of
    the recorded reaction times is not negative. *)
Theorem timeLeft_range t a :
  reachableAt Math_random t a ->
  0 <= Game.timeLeft (App.gameRef a) <= 60
  /\ 0 <= averageOf (Game.reactionTimes (App.gameRef a)).
Proof.
  intros Ha. split; [by apply (reachableAt_timeLeft t)|].
  apply averageOf_nonneg. by apply reachableAt_times in Ha as (_ & _ & ? & _).
Qed.

End ClockExact.

(** ** The theorems at the sample session *)

Section ClockWitnesses.

Lemma final_reachableAt : reachableAt Sample.random 61010 Scenario.final.
Proof.
  apply (run_reachableAt Sample.random 10 Scenario.events 0 App.init).
  - by constructor.
  - cbn. lia.
  - exact final_run.
Qed.

Lemma resized_reachableAt :
  reachableAt Sample.half 0 (updateCanvasSize 1920%R 1080%R App.init).
Proof.
  apply (reachableAt_step _ 0 0 (Resize 1920%R 1080%R) App.init);
    [by constructor | exact I | reflexivity].
Qed.

Lemma times_in_order_witness :
  (0 <= 61010)%Z
  /\ Forall (fun target => Target.createdAt target <= 61010)%Z
       (Game.targets (App.gameRef Scenario.final))
  /\ Forall (fun r => 0 <= r)%Z
       (Game.reactionTimes (App.gameRef Scenario.final))
  /\ (App.gameState Scenario.final = game ->
      (App.startTime Scenario.final <= 61010)%Z).
Proof.
  exact (times_in_order Sample.random 61010 Scenario.final
           final_reachableAt).
Defined.

Lemma timeLeft_range_witness :
  (0 <= Game.timeLeft
          (App.gameRef (updateCanvasSize 1920%R 1080%R App.init)) <= 60)%R
  /\ (0 <= averageOf
             (Game.reactionTimes
                (App.gameRef (updateCanvasSize 1920%R 1080%R App.init))))%R.
Proof. exact (timeLeft_range Sample.half 0 _ resized_reachableAt). Defined.

Lemma gameLoop_clock_witness :
  let a' := gameLoop 61010 0%R Scenario.running in
  Game.timeLeft (App.gameRef a')
  = Rmax 0 (60 - IZR (61010 - 1010) / 1000)
  /\ (0 <= Game.timeLeft (App.gameRef a'))%R
  /\ ((1010 <= 61010)%Z -> timeLeftOk a')
  /\ (App.gameState a' = end' /\ App.animationRef a' = false
      <-> (1010 + 60000 <= 61010)%Z)
  /\ (App.gameState a' = game /\ (0 < Game.timeLeft (App.gameRef a'))%R
      <-> (61010 < 1010 + 60000)%Z).
Proof. exact (gameLoop_clock 61010 0%R Scenario.running eq_refl). Defined.

Lemma frame_clock_binary64_witness :
  let a' := gameLoop 61010 0.5%float Scenario.played in
  is_nan (Game.timeLeft (App.gameRef a')) = false
  /\ (0 <=? Game.timeLeft (App.gameRef a'))%float = true
  /\ (App.gameState a' = end'
      <-> (remaining 61010 Scenario.played <=? 0)%float = true)
  /\ ((0 <= 61010 - App.startTime Scenario.played <= 120000)%Z ->
      App.gameState a' = end'
      <-> (App.startTime Scenario.played + 60000 <= 61010)%Z).
Proof.
  exact (frame_clock_binary64 61010 0.5%float Scenario.played eq_refl).
Defined.

Lemma averageOf_mean_witness :
  (averageOf [1500; 900]%Z * INR 2 = IZR (1500 + (900 + 0)))%R
  /\ ([1500; 900]%Z = [] -> averageOf [1500; 900]%Z = 0%R)
  /\ ([1500; 900]%Z <> [] ->
      (IZR 900 <= averageOf [1500; 900]%Z <= IZR 1500)%R).
Proof.
  apply (averageOf_mean [1500; 900]%Z 900 1500).
  repeat constructor; lia.
Defined.

End ClockWitnesses.

Lemma session_ends_binary64_witness :
  exists a',
    handle Sample.random 10 (Frame 61010 0.5%float) Scenario.played = Some a'
    /\ a' = gameLoop 61010 0.5%float Scenario.played
    /\ (remaining 61010 Scenario.played <=? 0)%float = true
    /\ App.gameState a' = end'
    /\ App.animationRef a' = false
    /\ is_Some (App.gameStats a').
Proof.
  apply (session_ends_binary64 Sample.random 10 61010 0.5%float
           Scenario.played); [|reflexivity | vm_compute; split; discriminate].
  apply (run_reachable _ 10 (Scenario.opening ++ Scenario.play) App.init);
    [constructor | vm_compute; reflexivity].
Defined.
