(* ===== verification/Motion.v ===== *)
(** * Motion: the targets of a hard game

    In a hard game a target is moved twice per frame: [gameLoop] adds the
    oscillation and clamps the position to the canvas (lines 534-541 of
    [src/app/page.tsx]), then [draw] adds the drift and turns the target
    at the walls (lines 337-344).

    The clamp is [Order.clamp]: from the laws of the order alone, so in
    binary64 too, it leaves every target whose position is a number between
    [radius] and [width - radius] ([hard_frame_clamp]).  Over the reals the
    file composes [Session.oscillate] with [Render.moveTarget] and shows
    that the clamp puts every target back into the corridor that the drift
    keeps ([hard_frame_corridor]). *)

From Stdlib Require Import ZArith Floats Reals Lra.
From stdpp Require Import base option list.
From S2P Require Import Prelude Number Float64 Exact Order Binary64 Types.
From S2P Require Import Spawner Render Session.

Section Clamp.
Context {num : Type} `{!Number num} `{!NumberOrder num}.
Local Open Scope num_scope.

(** A target the clamp of the oscillation can place on a canvas of width
    [CANVAS_WIDTH]: the oscillated position is a number and the canvas is as
    wide as the target. *)
Definition clampable (CANVAS_WIDTH sin2t : num) (target : Target.t num)
    : Prop :=
  isNaN (Target.x target + sin2t * #2) = false
  /\ (Target.radius target <=? CANVAS_WIDTH - Target.radius target) = true.

(** The disc of the target is on the canvas. *)
Definition onCanvas (CANVAS_WIDTH : num) (target : Target.t num) : Prop :=
  (Target.radius target <=? Target.x target) = true
  /\ (Target.x target <=? CANVAS_WIDTH - Target.radius target) = true.

End Clamp.

Module MotionSample.

(** In binary64: a hard game on 1920 x 1080 with the first target of
    [Sample.h1], its loop started at clock reading 1010. *)
Definition running : App.t float :=
  App.mk float (1920, 1080)%float game hard None Sample.h1 1010 1920%float
    1080%float true 4.

End MotionSample.

(** A target that the hard frame can handle on a canvas of width
    [CANVAS_WIDTH]: the canvas is as wide as the target, its velocity is not
    negative and its direction is 1 or -1. *)
Definition fits (CANVAS_WIDTH : R) (target : Target.t R) : Prop :=
  (2 * Target.radius target <= CANVAS_WIDTH
   /\ 0 <= Target.velocity target
   /\ (Target.direction target = 1 \/ Target.direction target = -1))%R.

(** ** From the laws of the order *)

Section ClampFacts.
Context {num : Type} `{!Number num} `{!NumberOrder num}.
Local Open Scope num_scope.
Implicit Types (a : App.t num) (target : Target.t num).

(** The position after the oscillation is the clamp of the oscillated
    position. *)
Lemma oscillate_clamp W sin2t target :
  Target.x (oscillate W sin2t target)
  = clamp (Target.radius target) (W - Target.radius target)
      (Target.x target + sin2t * #2).
Proof. reflexivity. Qed.

Lemma oscillate_onCanvas W sin2t target :
  clampable W sin2t target -> onCanvas W (oscillate W sin2t target).
Proof.
  intros [Hx HW]. unfold onCanvas. rewrite oscillate_clamp.
  by apply clamp_range.
Qed.

(** C20. The clamp of hard mode holds in binary64.  In every number system
    with the laws of [NumberOrder], the head of a frame of a hard game
    leaves every target with its disc on the loop's canvas
    ([radius <= x <= width - radius]), whatever its position before,
    provided the oscillated position is a number and the canvas is as wide
    as the target. *)
Theorem hard_frame_clamp now sin2t a :
  App.difficulty a = hard ->
  Forall (clampable (App.loopCanvasWidth a) sin2t)
    (Game.targets (App.gameRef a)) ->
  Forall (onCanvas (App.loopCanvasWidth a))
    (Game.targets (beforeDraw now sin2t a)).
Proof.
  intros Hd Hall. unfold beforeDraw. rewrite Hd. cbn.
  rewrite List.Forall_map.
  eapply Forall_impl; [exact Hall|]. intros target. apply oscillate_onCanvas.
Qed.

(** A position that is not a number stays so: the clamp does not repair
    it. *)
Lemma oscillate_NaN W sin2t target :
  isNaN (Target.x target + sin2t * #2) = true ->
  isNaN (Target.x (oscillate W sin2t target)) = true.
Proof. intros Hx. rewrite oscillate_clamp. by apply clamp_NaN. Qed.

End ClampFacts.

(** ** Over the reals *)

Section MotionExact.
Local Open Scope R_scope.
Implicit Types (a : App.t R) (target : Target.t R).

Lemma oscillate_clamped W sin2t target :
  2 * Target.radius target <= W ->
  Target.radius target <= Target.x (oscillate W sin2t target)
  <= W - Target.radius target.
Proof.
  intros HW. cbn. unfold Rmax, Rmin. repeat destruct (Rle_dec _ _); lra.
Qed.

(** One target through the oscillation and the drift of a hard frame. *)
Lemma hard_frame_step W sin2t target :
  2 * Target.radius target <= W ->
  0 <= Target.velocity target ->
  Target.direction target = 1 \/ Target.direction target = -1 ->
  inCorridor W (moveTarget W (oscillate W sin2t target)).
Proof.
  intros HW Hv Hd. pose proof (oscillate_clamped W sin2t target HW) as Hx.
  apply moveTarget_inCorridor; [exact HW|]. unfold inCorridor.
  change (Target.radius (oscillate W sin2t target))
    with (Target.radius target) in *.
  change (Target.velocity (oscillate W sin2t target))
    with (Target.velocity target).
  repeat split; try done; try lra; intros; lra.
Qed.

(** In a hard game every frame puts every target back on the canvas:
    whatever the positions before the frame, after [gameLoop] every target
    is in its corridor of the loop's canvas width (it overhangs an edge by
    at most one step of its velocity, heading back in), provided every
    target [fits]: the canvas is as wide as the target, its velocity is not
    negative and its direction is 1 or -1. *)
Theorem hard_frame_corridor now sin2t a :
  App.difficulty a = hard ->
  Forall (fits (App.loopCanvasWidth a)) (Game.targets (App.gameRef a)) ->
  Forall (inCorridor (App.loopCanvasWidth a))
    (Game.targets (App.gameRef (gameLoop now sin2t a))).
Proof.
  intros Hd Hall. rewrite gameLoop_targets, Hd, !List.Forall_map.
  eapply Forall_impl; [exact Hall|].
  intros target (HW & Hv & Hdir). by apply hard_frame_step.
Qed.

End MotionExact.

(** ** The theorem at a sample input *)

Section MotionWitnesses.

Lemma hard_frame_clamp_witness :
  Forall (onCanvas 1920%float)
    (Game.targets (beforeDraw 2000 0.5%float MotionSample.running)).
Proof.
  apply (hard_frame_clamp 2000 0.5%float MotionSample.running eq_refl).
  by repeat constructor.
Defined.

Lemma hard_frame_corridor_witness :
  Forall (inCorridor 1920%R)
    (Game.targets
       (App.gameRef
          (gameLoop 2000 0.5%R
             (App.set_gameRef
                (Game.set_targets [Scenario.past] Game.init)
                Scenario.running)))).
Proof.
  apply (hard_frame_corridor 2000 0.5%R
           (App.set_gameRef (Game.set_targets [Scenario.past] Game.init)
              Scenario.running) eq_refl).
  unfold fits. repeat constructor; cbn; auto; lra.
Defined.

End MotionWitnesses.
