(* ===== verification/Refinement.v ===== *)
(** * Refinement: the component implements the session machine

    The spec describes the session as a machine Menu -> Active -> Ended
    with a score and two hit counters.  [Spec] is that machine,
    [abstraction] maps a state of the component to a state of it, and
    [handle_refines_spec] shows that every handler of
    [src/app/page.tsx], from every reachable state, takes a step of the
    machine or none.  The bounds of the score that the machine leaves open
    (the points of a hit) are proved over the real numbers. *)

From Stdlib Require Import ZArith String Floats Reals Lra.
From stdpp Require Import base option list relations.
From S2P Require Import Prelude Number Float64 Exact Types Spawner Scoring Render Session.

(** ** The session as a state machine

    What the session promises to the view, without the geometry: the
    screen, the score, the two hit counters and the number of live
    targets, and the steps that change them. *)

Module Spec.
Record t := mk {
  phase : GameState;
  score : Z;
  hits : Z;
  perfect : Z;
  live : nat;
}.

Inductive step (s : t) : t -> Prop :=
| start : phase s <> game -> step s (mk game 0 0 0 2)
| hit points (perfectHit : bool) :
    phase s = game -> (perfectHit = true -> points = 100%Z) ->
    step s (mk game (score s + points) (hits s + 1)
              (perfect s + if perfectHit then 1 else 0) (live s))
| penalty :
    phase s = game ->
    step s (mk game (Z.max 0 (score s - 10)) (hits s) (perfect s) (live s))
| finish :
    phase s = game ->
    step s (mk end' (score s) (hits s) (perfect s) (live s))
| leave :
    phase s = end' ->
    step s (mk menu (score s) (hits s) (perfect s) (live s)).
End Spec.

(** The abstract state of a state of the component. *)
Definition abstraction {num : Type} (a : App.t num) : Spec.t :=
  Spec.mk (App.gameState a) (Game.score (App.gameRef a))
    (Game.totalHits (App.gameRef a)) (Game.perfectHits (App.gameRef a))
    (length (Game.targets (App.gameRef a))).

(** The score is not negative, and no hit is worth more than 100. *)
Definition scoreOk {num : Type} (g : Game.t num) : Prop :=
  (0 <= Game.score g <= 100 * Game.totalHits g)%Z.

(** ** Every handler takes a step of the machine *)

Section RefinementFacts.
Context {num : Type} `{!Number num}.
Variable Math_random : nat -> num.
Implicit Types (g : Game.t num) (a : App.t num) (d : Difficulty).

(** A started game, in the abstract. *)
Lemma start_abstract fuel d now effectNow a a1 :
  initializeGame Math_random fuel d now a = Some a1 ->
  abstraction (gameLoopEffect effectNow a1) = Spec.mk game 0 0 0 2.
Proof.
  intros Hinit.
  pose proof Hinit as (Hs & Ht & Hp)%initializeGame_fresh.
  apply initializeGame_ok in Hinit as (_ & Hlen & Hgs & _).
  unfold abstraction, gameLoopEffect. rewrite Hgs. cbn.
  by rewrite Hgs, Hs, Ht, Hp, Hlen.
Qed.

(** A click, in the abstract. *)
Lemma click_abstract fuel clickX clickY now a a' :
  App.gameState a = game ->
  canvasClick Math_random fuel clickX clickY now a = Some a' ->
  abstraction a' = abstraction a
  \/ Spec.step (abstraction a) (abstraction a').
Proof.
  intros Hgs. unfold canvasClick. rewrite Hgs.
  intros ([g k] & Hrun & [= <-])%bind_Some.
  pose proof (click_target_count _ _ _ _ _ _ _ _ _ _ _ _ _ Hrun) as Hlen.
  unfold abstraction. cbn. rewrite Hlen, Hgs.
  apply click_cases in Hrun
    as [(-> & -> & ->)|[(points & pf & Hpf & -> & -> & ->)|(-> & -> & ->)]].
  - right. by apply (Spec.penalty (Spec.mk game _ _ _ _)).
  - right. by apply (Spec.hit (Spec.mk game _ _ _ _)).
  - by left.
Qed.

(** One handler: a step of the machine, or none. *)
Lemma handle_step_spec fuel e a a' :
  reachable Math_random a ->
  handle Math_random fuel e a = Some a' ->
  abstraction a' = abstraction a
  \/ Spec.step (abstraction a) (abstraction a').
Proof.
  intros (_ & _ & Hanim & _)%reachable_ok Hstep%handle_handled.
  destruct Hstep as [|? ? effectNow ? ? Hgs Hinit|? ? effectNow ? ? Hgs _ Hinit
                     |? Hgs _|? ? ? ? ? Hgs Hclick|? ? ? Hgs|now sin2t a Hgs];
    try by left.
  1, 2: rewrite (start_abstract _ _ _ effectNow _ _ Hinit); right;
    apply Spec.start; cbn; congruence.
  - right. unfold abstraction. rewrite Hgs.
    by apply (Spec.leave (Spec.mk end' _ _ _ _)).
  - by eapply click_abstract.
  - apply Hanim in Hgs.
    destruct (gameLoop_counters now sin2t a) as (Hs & Ht & Hp & _ & Hlen).
    destruct (gameLoop_timeLeft now sin2t a) as (_ & Hst & _).
    unfold abstraction. rewrite Hs, Ht, Hp, Hlen, Hst, Hgs.
    split_if; [by left | right; by apply (Spec.finish (Spec.mk game _ _ _ _))].
Qed.

(** C3. The component implements the session machine of the spec.  Every
    handler, from every reachable state, either leaves the abstract state
    (screen, score, hits, perfect hits, number of live targets) as it is
    or takes one step of the machine: a start with score 0 and two
    targets, a hit, the net penalty, the end of the session, or the return
    to the menu.  Hence every run of the component from a reachable state
    is a run of the machine between the abstractions of its ends. *)
Theorem handle_refines_spec fuel es a a' :
  reachable Math_random a ->
  run Math_random fuel es a = Some a' ->
  rtc Spec.step (abstraction a) (abstraction a')
  /\ forall e, es = [e] ->
       abstraction a' = abstraction a
       \/ Spec.step (abstraction a) (abstraction a').
Proof.
  intros Ha Hrun. split.
  - revert a Ha Hrun. induction es as [|e es IH]; intros a Ha; cbn.
    + by intros [= <-].
    + intros (a1 & Hstep & Hrun)%bind_Some.
      assert (Ha1 : reachable Math_random a1) by by eapply reachable_step.
      destruct (handle_step_spec _ _ _ _ Ha Hstep) as [<-|Hs]; [by apply IH|].
      eapply rtc_l; [exact Hs | by apply IH].
  - intros e ->. cbn in Hrun. apply bind_Some in Hrun as (a1 & Hstep & [= <-]).
    by eapply handle_step_spec.
Qed.

End RefinementFacts.

(** ** The score over the real numbers *)

Section ScoreExact.
Variable Math_random : nat -> R.
Local Open Scope R_scope.
Implicit Types (a : App.t R) (g : Game.t R) (target : Target.t R).

Lemma radius_pos d next target :
  targetOk d next target -> 0 < Target.radius target.
Proof. intros (-> & _). destruct (Target.size target); cbn; lra. Qed.

(** A click keeps the score within its bounds. *)
Lemma click_score W H0 d gs fuel clickX clickY now g g' k k' :
  gameOk d g -> scoreOk g ->
  handleCanvasClick Math_random W H0 d gs fuel clickX clickY now g k
  = Some (g', k') ->
  scoreOk g'.
Proof.
  intros (_ & _ & Hall & _) Hs. unfold scoreOk in *.
  intros [| |i target g1 k1 _ _ Hlook Hhit _
               (fresh & _ & _ & _ & -> & -> & _)%scoreHit_inv|]
    %handleCanvasClick_clicked; [done | cbn; lia | | done].
  rewrite Forall_forall in Hall.
  apply list_elem_of_lookup_2, Hall, radius_pos in Hlook.
  pose proof (calculatePoints_bounds _ _ Hlook (hit_distance _ _ _ Hhit)).
  lia.
Qed.

Lemma handle_score fuel e a a' :
  appOk a -> scoreOk (App.gameRef a) ->
  handle Math_random fuel e a = Some a' -> scoreOk (App.gameRef a').
Proof.
  intros (Hg & _) Hs Hstep%handle_handled.
  destruct Hstep as [|? ? ? ? a1 _ (Hsc & Hth & _)%initializeGame_fresh
                     |? ? ? ? a1 _ _ (Hsc & Hth & _)%initializeGame_fresh
                     |? _ _|? ? ? ? ? _ Hclick|? ? ? _|now sin2t a _];
    try exact Hs.
  1, 2: unfold scoreOk, gameLoopEffect; destruct (App.gameState a1); cbn; lia.
  - apply bind_Some in Hclick as ([g k] & Hrun & [= <-]).
    exact (click_score _ _ _ _ _ _ _ _ _ _ _ _ Hg Hs Hrun).
  - destruct (gameLoop_counters now sin2t a) as (Hsc & Hth & _).
    unfold scoreOk. by rewrite Hsc, Hth.
Qed.

Lemma reachable_score a : reachable Math_random a -> scoreOk (App.gameRef a).
Proof.
  induction 1 as [|fuel e a a' Ha IH Hstep]; [cbv; done|].
  eapply handle_score; eauto using reachable_ok.
Qed.

(** C25. The score is never negative and never exceeds 100 points per
    hit, in every state the component reaches: [scoreOk] is an invariant of
    the component. *)
Theorem score_bounds a :
  reachable Math_random a ->
  scoreOk (App.gameRef a)
  /\ (0 <= Game.score (App.gameRef a)
      <= 100 * Game.totalHits (App.gameRef a))%Z.
Proof. intros Ha%reachable_score. by split. Qed.

End ScoreExact.

(** ** The theorems at the sample session *)

Section RefinementWitnesses.

Lemma last_frame_run :
  run Sample.random 10 [Frame 61010 0.5%float] Scenario.played
  = Some Scenario.final.
Proof. vm_compute. reflexivity. Qed.

Lemma handle_refines_spec_witness :
  rtc Spec.step (abstraction (@App.init float _))
    (abstraction Scenario.final)
  /\ Spec.step (abstraction Scenario.played) (abstraction Scenario.final).
Proof.
  split.
  - exact (proj1 (handle_refines_spec Sample.random 10 Scenario.events
                    App.init Scenario.final (reachable_init _) final_run)).
  - destruct (proj2 (handle_refines_spec Sample.random 10
                       [Frame 61010 0.5%float] Scenario.played
                       Scenario.final played_reachable last_frame_run)
                _ eq_refl)
      as [Hsame|Hstep]; [discriminate Hsame | exact Hstep].
Defined.

Lemma score_bounds_witness :
  let a := updateCanvasSize 1920%R 1080%R App.init in
  scoreOk (App.gameRef a)
  /\ (0 <= Game.score (App.gameRef a)
      <= 100 * Game.totalHits (App.gameRef a))%Z.
Proof. exact (score_bounds Sample.half _ resized_reachable). Defined.

End RefinementWitnesses.
