(* ===== verification/View.v ===== *)
(** * View: what the screens display

    The render of [PaddleGame] (lines 731-737 of [src/app/page.tsx]) shows
    one of three screens.  This file models what each screen computes from
    the state: the HUD of [renderGame] (mode label, [mm:ss] clock and
    five-digit score, lines 636-659, over the canvas with its size
    attributes), the summary of [renderEnd] (mode, score, accuracy in
    percent, perfect hits, mean reaction time in seconds, lines 676-709; no
    markup at all without statistics, line 665), which elements with a
    handler each screen has ([offers]), and the buttons of the menu (lines
    591-609) and of the end screen (lines 711-726) with their captions and
    the event their [onClick] is ([renderMenu], [endButtons]).  Class names,
    headings and the other static texts are left out.

    The theorems: the handlers that can run are those of the screen on
    display, and those of its buttons are what it offers apart from the
    canvas; the summary names the button that started the game; the end
    screen is never empty; the displayed score reads back
    as the score; over the reals, the clock of a session is [00:00] to
    [01:00], the accuracy is a percentage and the average reaction time
    is the mean of the recorded times; in binary64, the clock shows the
    whole seconds left around every full second of a session, and the
    accuracy
    shown is the exact percentage for every session of up to 39 hits and
    one less at 23 perfect hits of 40. *)

From Stdlib Require Import ZArith String Floats Reals Lra Zfloor.
From stdpp Require Import base option list list_numbers.
From S2P Require Import Prelude Text Number Float64 Exact Types Spawner.
From S2P Require Import Scoring Render Session Clock Refinement.

Local Open Scope string_scope.

(** The HUD over the canvas. *)
Module Hud.
Record t {num : Type} := mk {
  (** the [width] and [height] attributes of the canvas *)
  canvasWidth : num;
  canvasHeight : num;
  mode : string;
  time : string;
  score : string;
}.
Arguments t : clear implicits.
End Hud.

(** The texts of the end screen. *)
Module Summary.
Record t := mk {
  mode : string;
  score : string;
  accuracy : string;
  perfect : string;
  reaction : string;
}.
End Summary.

Inductive Screen {num : Type} :=
| MenuScreen
| GameScreen (hud : Hud.t num)
| EndScreen (summary : Summary.t)
(** [renderEnd] returned [null] *)
| Blank.
Arguments Screen : clear implicits.

(** A button: its caption, and the event its [onClick] is at the clock
    readings of the handler and of the effect that follows it. *)
Module Button.
Record t {num : Type} := mk {
  caption : string;
  onClick : Z -> Z -> @Event num;
}.
Arguments t : clear implicits.
Arguments mk {num} caption onClick.
End Button.

Section View.
Context {num : Type} `{!Number num}.
Local Open Scope num_scope.

Abbreviation App := (App.t num).
Abbreviation GameStats := (GameStats.t num).

(** [difficulty === 'easy' ? 'EASY' : difficulty === 'intermediate' ? 'INTER' : 'HARD'] *)
Definition hudMode (difficulty : Difficulty) : string :=
  match difficulty with
  | easy => "EASY"
  | intermediate => "INTER"
  | hard => "HARD"
  end.

(** [.toString().padStart(2, '0')] *)
Definition twoDigits (z : Z) : string := padStart 2 "0" (string_of_Z z).

(** The clock: minutes and seconds of [timeLeft], two digits each. *)
Definition hudTime (timeLeft : num) : string :=
  twoDigits (Math_floor (timeLeft / #60)) ++ ":"
  ++ twoDigits (Math_floor (timeLeft % #60)).

(** [score.toString().padStart(5, '0')], on the HUD and on the end screen *)
Definition scoreText (score : Z) : string := padStart 5 "0" (string_of_Z score).

(** [renderGame]: the canvas and the HUD. *)
Definition renderGame (a : App) : Hud.t num :=
  Hud.mk num (CANVAS_WIDTH a) (CANVAS_HEIGHT a)
    (hudMode (App.difficulty a))
    (hudTime (Game.timeLeft (App.gameRef a)))
    (scoreText (Game.score (App.gameRef a))).

(** [gameStats.mode === 'easy' ? 'Easy' : ... ? 'Intermediate' : 'Hard'] *)
Definition endMode (mode : Difficulty) : string :=
  match mode with
  | easy => "Easy"
  | intermediate => "Intermediate"
  | hard => "Hard"
  end.

(** The share of perfect hits, in percent, rounded; 0 without hits. *)
Definition accuracyPercent (stats : GameStats) : Z :=
  if (0 <? GameStats.totalHits stats)%Z
  then Math_round (#(GameStats.perfectHits stats)
                   / #(GameStats.totalHits stats) * #100)
  else 0%Z.

(** [{gameStats.perfectHits} / {gameStats.totalHits} Perfect Hits] *)
Definition perfectText (stats : GameStats) : string :=
  string_of_Z (GameStats.perfectHits stats) ++ " / "
  ++ string_of_Z (GameStats.totalHits stats) ++ " Perfect Hits".

(** [(gameStats.averageReactionTime / 1000).toFixed(2)], and the unit *)
Definition reactionText (stats : GameStats) : string :=
  toFixed (GameStats.averageReactionTime stats / #1000) 2 ++ "s".

(** [renderEnd]: nothing without statistics. *)
Definition renderEnd (gameStats : option GameStats) : option Summary.t :=
  stats ← gameStats;
  Some (Summary.mk (endMode (GameStats.mode stats))
          (scoreText (GameStats.finalScore stats))
          (string_of_Z (accuracyPercent stats) ++ "%")
          (perfectText stats) (reactionText stats)).

(** The render of the component: the screen of [gameState]. *)
Definition render (a : App) : Screen num :=
  match App.gameState a with
  | menu => MenuScreen
  | game => GameScreen (renderGame a)
  | end' =>
      match renderEnd (App.gameStats a) with
      | Some summary => EndScreen summary
      | None => Blank
      end
  end.

(** The elements with a handler on a screen: the three difficulty buttons
    of the menu, the canvas of the game, the two buttons of the summary. *)
Definition offers (screen : Screen num) (e : @Event num) : bool :=
  match screen, e with
  | MenuScreen, SelectDifficulty _ _ _ => true
  | GameScreen _, (Click _ _ _ | MouseMove _ _) => true
  | EndScreen _, (PlayAgain _ _ | BackToMenu) => true
  | _, _ => false
  end.

(** The events that come from the browser and not from an element. *)
Definition fromBrowser (e : @Event num) : bool :=
  match e with
  | Resize _ _ | Frame _ _ => true
  | _ => false
  end.

(** The buttons of [renderMenu]:
    [<button onClick={() => initializeGame('easy')}>Easy</button>] and the
    two after it. *)
Definition renderMenu : list (Button.t num) :=
  [Button.mk "Easy" (SelectDifficulty easy);
   Button.mk "Intermediate" (SelectDifficulty intermediate);
   Button.mk "Hard" (SelectDifficulty hard)].

(** The buttons under the summary of [renderEnd]:
    [initializeGame(gameStats.mode)] and [setGameState('menu')]. *)
Definition endButtons : list (Button.t num) :=
  [Button.mk "Play Again" PlayAgain;
   Button.mk "Menu" (fun _ _ => BackToMenu)].

(** The buttons of a screen. *)
Definition buttons (screen : Screen num) : list (Button.t num) :=
  match screen with
  | MenuScreen => renderMenu
  | EndScreen _ => endButtons
  | _ => []
  end.

(** The events of a game in progress: those of the canvas and of the
    browser, none of a button. *)
Definition inGame (e : @Event num) : bool :=
  match e with
  | Click _ _ _ | MouseMove _ _ | Frame _ _ | Resize _ _ => true
  | _ => false
  end.

End View.

(** The percentage of [perfect] out of [total], rounded to the nearest
    integer, halves up: what [accuracyPercent] is in exact arithmetic. *)
Definition percentOf (perfect total : Z) : Z :=
  if (0 <? total)%Z then ((200 * perfect + total) / (2 * total))%Z else 0%Z.

(** The clock the HUD is to show [ms] milliseconds after the loop
    started: the whole seconds that are left of the minute. *)
Definition clockText (ms : Z) : string :=
  if (ms <=? 0)%Z then "01:00"
  else "00:" ++ twoDigits (Z.max 0 (60000 - ms) / 1000).

(** The readings at which the clock is checked in binary64: the first two
    seconds, and the last and the first two milliseconds of every
    second. *)
Definition clockReading (ms : Z) : bool :=
  ((ms <=? 2000) || (ms mod 1000 <=? 1) || (999 <=? ms mod 1000))%Z.

(** In binary64 the HUD shows that clock after the frame at such a
    reading. *)
Definition clockShown (ms : Z) : bool :=
  if clockReading ms
  then String.eqb
         (hudTime (num := float) (Math_max (#0)%num (remainingAfter ms)))
         (clockText ms)
  else true.

(** [accuracyPercent] in binary64 on the counters alone. *)
Definition percent64 (perfect total : Z) : Z :=
  accuracyPercent (GameStats.mk float 0 perfect total [] 0%float easy).

(** The one session of at most 40 hits whose accuracy binary64 rounds
    down: 23 perfect hits of 40 are 57.5 percent, and
    [23 / 40 * 100] is 57.49999999999999 in binary64. *)
Definition roundsDown64 (perfect total : Z) : bool :=
  ((perfect =? 23) && (total =? 40))%Z.

(** [percent64] is [percentOf], less one where it rounds down, for every
    [perfect <= total]. *)
Definition percentOk (total : Z) : bool :=
  forallb
    (fun perfect =>
       (percent64 perfect total
        =? percentOf perfect total
           - (if roundsDown64 perfect total then 1 else 0))%Z)
    (seqZ 0 (total + 1)).

Module ViewSample.

(** Over the reals: the end screen of an easy session of 40 hits, 23 of
    them perfect, each half a second after its target appeared. *)
Definition game : Game.t R :=
  Game.mk R 3140 0%R [] [] [] 42 23 40 (0, 0)%R (replicate 40 500%Z).

Definition ended : App.t R :=
  App.mk R (1920, 1080)%R end' easy (Some (statsOf easy game)) game
    1010 1920%R 1080%R false 84.

(** In binary64: the first button of the menu. *)
Definition easyButton : Button.t float :=
  Button.mk "Easy" (SelectDifficulty easy).

End ViewSample.

(** ** What holds for every number system *)

Section ViewFacts.
Context {num : Type} `{!Number num}.
Variable Math_random : nat -> num.
Implicit Types (a : App.t num) (e : @Event num).

Lemma twoDigits_length z :
  (0 <= z < 100)%Z -> String.length (twoDigits z) = 2%nat.
Proof.
  intros Hz. apply Nat.eqb_eq.
  by apply (forallb_seqZ (fun z => String.length (twoDigits z) =? 2)%nat 0 100).
Qed.

(** A score below 100000 takes five characters; a larger one is not cut. *)
Lemma scoreText_length score :
  (5 <= String.length (scoreText score))%nat.
Proof. unfold scoreText. rewrite padStart_length. lia. Qed.

(** Only the screen on display can be acted on: when a handler runs,
    its event comes from the browser (a resize, an animation frame) or from
    an element of the screen that the render shows in that state; and on
    the end screen the Menu button, on the game screen the pointer hint,
    always return. *)
Theorem handled_is_offered fuel e a a' :
  handle Math_random fuel e a = Some a' ->
  (fromBrowser e = true \/ offers (render a) e = true)
  /\ (offers (render a) BackToMenu = true ->
      is_Some (handle Math_random fuel BackToMenu a))
  /\ (forall x y, offers (render a) (MouseMove x y) = true ->
      is_Some (handle Math_random fuel (MouseMove x y) a)).
Proof.
  unfold handle, render, renderEnd.
  destruct (App.gameState a), (App.gameStats a); cbn; intros He;
    (split; [destruct e; cbn in *; by auto | split; intros; by eauto]).
Qed.

(** The [onClick] of every button of a screen is an event the screen
    offers, and every event a screen offers that is not of the canvas is the
    [onClick] of one of its buttons. *)
Lemma buttons_offered (screen : Screen num) e :
  inGame e = false ->
  offers screen e = true
  <-> exists b now effectNow,
        b ∈ buttons screen /\ e = Button.onClick b now effectNow.
Proof.
  intros He. split.
  - destruct screen, e; try done; intros _; cbn.
    + exists (Button.mk (endMode d) (SelectDifficulty d)), now, effectNow.
      split; [destruct d; repeat constructor | done].
    + exists (Button.mk "Play Again" PlayAgain), now, effectNow.
      split; [repeat constructor | done].
    + exists (Button.mk "Menu" (fun _ _ => BackToMenu)), 0%Z, 0%Z.
      split; [repeat constructor | done].
  - intros (b & now & effectNow & Hb & ->).
    destruct screen; cbn in Hb; try by apply elem_of_nil in Hb.
    all: repeat (apply elem_of_cons in Hb as [->|Hb]; [done|]).
    all: by apply elem_of_nil in Hb.
Qed.

(** An event of a game in progress keeps the difficulty and does not lead
    to the menu. *)
Lemma handle_inGame fuel e a a' :
  inGame e = true -> handle Math_random fuel e a = Some a' ->
  App.difficulty a' = App.difficulty a
  /\ (App.gameState a <> menu -> App.gameState a' <> menu).
Proof.
  intros He Hstep%handle_handled.
  destruct Hstep as [| | | |? ? ? ? ? _ Hclick| |]; try done.
  - apply bind_Some in Hclick as ([g k] & _ & [= <-]). by cbn.
  - unfold gameLoop. by destruct (_ >? _)%num; cbn.
Qed.

Lemma run_inGame fuel es a a' :
  forallb inGame es = true -> run Math_random fuel es a = Some a' ->
  App.difficulty a' = App.difficulty a
  /\ (App.gameState a <> menu -> App.gameState a' <> menu).
Proof.
  revert a. induction es as [|e es IH]; intros a; cbn.
  - by intros _ [= <-].
  - intros [He Hes]%andb_prop (a1 & Hstep & Hrun)%bind_Some.
    destruct (handle_inGame _ _ _ _ He Hstep) as [Hd Hs].
    destruct (IH _ Hes Hrun) as [Hd' Hs']. rewrite Hd', Hd. auto.
Qed.

(** The summary names the button that was pressed.  After a button of
    the menu is pressed and the game is played (clicks, moves, frames and
    resizes, in any number and order), the screen is the game with the HUD
    in the mode of the difficulty the button passes to [initializeGame], or
    it is the summary and its mode is the caption of the button. *)
Theorem caption_on_summary fuel b now effectNow es a a1 a2 :
  reachable Math_random a ->
  b ∈ renderMenu ->
  handle Math_random fuel (Button.onClick b now effectNow) a = Some a1 ->
  forallb inGame es = true ->
  run Math_random fuel es a1 = Some a2 ->
  match render a2 with
  | GameScreen hud =>
      exists d, Button.onClick b = SelectDifficulty d
                /\ Hud.mode hud = hudMode d
  | EndScreen summary => Summary.mode summary = Button.caption b
  | _ => False
  end.
Proof.
  intros Ha Hb Hpress Hes Hrun.
  assert (Hd : exists d, b = Button.mk (endMode d) (SelectDifficulty d)).
  { repeat (apply elem_of_cons in Hb as [->|Hb]);
      [by exists easy | by exists intermediate | by exists hard
      | by apply elem_of_nil in Hb]. }
  destruct Hd as [d ->]. cbn [Button.onClick] in Hpress.
  assert (Ha2 : reachable Math_random a2)
    by exact (run_reachable _ fuel es a1 a2
                (reachable_step _ _ _ _ _ Ha Hpress) Hrun).
  destruct (run_inGame _ _ _ _ Hes Hrun) as [Hd Hs].
  apply handle_handled in Hpress.
  inversion Hpress as [|? ? ? ? a0 _ Hinit| | | | |]; subst.
  apply initializeGame_ok in Hinit as (_ & _ & Hgame & Hmode & _).
  unfold gameLoopEffect in Hd, Hs. rewrite Hgame in Hd, Hs. cbn in Hd, Hs.
  rewrite Hmode in Hd. rewrite Hgame in Hs.
  apply reachable_ok in Ha2 as (_ & _ & _ & Hend). unfold render.
  destruct (App.gameState a2); [by destruct Hs| |].
  - exists d. by rewrite <- Hd.
  - destruct (Hend eq_refl) as (stats & -> & _ & _ & _ & _ & Hm & _).
    cbn. by rewrite Hm, Hd.
Qed.

(** C35. The end screen is never empty.  In every reachable state the render
    shows a screen, and on the end screen it shows the summary of the game
    that ended: its mode, its score, its perfect hits out of its hits. *)
Theorem end_screen_shown a :
  reachable Math_random a ->
  render a <> Blank
  /\ (App.gameState a = end' ->
      exists summary,
        render a = EndScreen summary
        /\ Summary.mode summary = endMode (App.difficulty a)
        /\ Summary.score summary = scoreText (Game.score (App.gameRef a))
        /\ Summary.perfect summary
           = (string_of_Z (Game.perfectHits (App.gameRef a)) ++ " / "
              ++ string_of_Z (Game.totalHits (App.gameRef a))
              ++ " Perfect Hits")).
Proof.
  intros (_ & _ & _ & Hend)%reachable_ok. unfold render.
  destruct (App.gameState a); try done.
  destruct (Hend eq_refl) as (stats & -> & Hs & Ht & Hp & _ & Hm & _).
  split; [done|]. intros _. eexists. split; [done|]. cbn.
  unfold perfectText. by rewrite Hm, Hs, Ht, Hp.
Qed.

(** A session without a hit: the average of no reaction time is the
    number 0 in every number system (no division takes place), so the
    summary does not show [NaN]. *)
Lemma no_hit_average a :
  reachable Math_random a -> App.gameState a = end' ->
  Game.totalHits (App.gameRef a) = 0%Z ->
  exists stats,
    App.gameStats a = Some stats
    /\ GameStats.averageReactionTime stats = (#0)%num.
Proof.
  intros (_ & _ & _ & Hend)%reachable_ok Hgs Hhits.
  destruct (Hend Hgs) as (stats & Hstats & _ & Ht & _ & _ & _ & Ha & Hn).
  exists stats. split; [done|]. rewrite Ha.
  destruct (GameStats.reactionTimes stats); [done|]. cbn in Hn. lia.
Qed.

End ViewFacts.

(** ** Over the reals: the clock, the score and the accuracy *)

Section ViewExact.
Variable Math_random : nat -> R.
Implicit Types (a : App.t R) (stats : GameStats.t R).
Local Open Scope R_scope.

(** The clock of a remaining time between 0 and 60 seconds: no minutes and
    the whole seconds below 60, one minute and no seconds at 60. *)
Lemma hudTime_exact (timeLeft : R) :
  0 <= timeLeft <= 60 ->
  hudTime timeLeft
  = (if bool_decide (timeLeft < 60)
     then "00:" ++ twoDigits (Zfloor timeLeft) else "01:00")%string
  /\ (0 <= Zfloor timeLeft <= 60)%Z
  /\ (timeLeft < 60 -> (Zfloor timeLeft <= 59)%Z).
Proof.
  intros Ht. unfold hudTime. split; [|split].
  2: apply Zfloor_range; lra.
  2: intros ?; apply (Zfloor_range 0 59); lra.
  case_bool_decide as Hlt.
  - rewrite rem_small by (cbn; lra). cbn [Math_floor Number_R div of_Z].
    by rewrite (Zfloor_eq 0) by (cbn; lra).
  - replace timeLeft with (IZR 60) by lra. rewrite rem_self by (cbn; lra).
    cbn [Math_floor Number_R div of_Z]. replace (60 / 60) with (IZR 1) by lra.
    by rewrite !ZfloorZ.
Qed.

Lemma percentOf_range perfect total :
  (0 <= perfect <= total)%Z -> (0 <= percentOf perfect total <= 100)%Z.
Proof.
  intros Hp. unfold percentOf. destruct (Z.ltb_spec 0 total); [|lia]. split.
  - apply Z.div_pos; lia.
  - apply Z.lt_succ_r, Z.div_lt_upper_bound; lia.
Qed.

(** The rounded share of perfect hits is the rounded quotient of the
    counters. *)
Lemma accuracyPercent_exact stats :
  accuracyPercent stats
  = percentOf (GameStats.perfectHits stats) (GameStats.totalHits stats).
Proof.
  unfold accuracyPercent, percentOf.
  destruct (Z.ltb_spec 0 (GameStats.totalHits stats)) as [Ht|]; [|done].
  replace (_ * #100)%num
    with (IZR (100 * GameStats.perfectHits stats)
          / IZR (GameStats.totalHits stats)).
  - rewrite round_quotient by done. f_equal. lia.
  - apply IZR_lt in Ht. cbn. rewrite mult_IZR. field. lra.
Qed.

(** C17. The score on display reads back as the score.  In every reachable
    state the five-digit text of the HUD is a decimal text of at least five
    characters that denotes the score of the game, and so does the score of
    the summary on the end screen. *)
Theorem score_reads_back a :
  reachable Math_random a ->
  Z_of_string (Hud.score (renderGame a)) = Some (Game.score (App.gameRef a))
  /\ (5 <= String.length (Hud.score (renderGame a)))%nat
  /\ (forall summary,
        render a = EndScreen summary ->
        Z_of_string (Summary.score summary)
        = Some (Game.score (App.gameRef a))).
Proof.
  intros Ha. pose proof (reachable_score _ _ Ha) as [Hs _].
  apply reachable_ok in Ha as (_ & _ & _ & Hend).
  split; [exact (Z_of_string_padStart 5 _ Hs)|].
  split; [apply scoreText_length|].
  unfold render. destruct (App.gameState a); try done.
  destruct (Hend eq_refl) as (stats & -> & Hfinal & _).
  intros summary [= <-]. cbn [Summary.score]. rewrite Hfinal.
  exact (Z_of_string_padStart 5 _ Hs).
Qed.

(** The clock of the HUD.  On a clock that does not go back, in every
    reachable state the HUD shows five characters: [00:ss] with [ss] the
    whole seconds left, below 60, and [01:00] when the full minute is
    left. *)
Theorem hud_clock t a :
  reachableAt Math_random t a ->
  let timeLeft := Game.timeLeft (App.gameRef a) in
  Hud.time (renderGame a)
  = (if bool_decide (timeLeft < 60)
     then "00:" ++ twoDigits (Zfloor timeLeft) else "01:00")%string
  /\ String.length (Hud.time (renderGame a)) = 5%nat
  /\ (0 <= Zfloor timeLeft <= 60)%Z.
Proof.
  intros Hleft%reachableAt_timeLeft timeLeft. subst timeLeft.
  destruct (hudTime_exact _ Hleft) as (Htime & Hrange & Hlt).
  change (Hud.time (renderGame a))
    with (hudTime (Game.timeLeft (App.gameRef a))).
  rewrite Htime. split; [done|]. split; [|done].
  case_bool_decide; [|done]. cbn [String.length append].
  rewrite twoDigits_length; [done|]. specialize (Hlt ltac:(done)). lia.
Qed.

(** The accuracy of the summary is a percentage.  On the end screen of
    a state that satisfies the invariant of the component (every reachable
    state does), the accuracy shown is the share of perfect hits of the
    game in percent, rounded to the nearest integer with halves up, and it
    is between 0 and 100. *)
Theorem accuracy_percentage a :
  appOk a -> App.gameState a = end' ->
  exists stats,
    App.gameStats a = Some stats
    /\ accuracyPercent stats
       = percentOf (Game.perfectHits (App.gameRef a))
           (Game.totalHits (App.gameRef a))
    /\ (0 <= accuracyPercent stats <= 100)%Z.
Proof.
  intros ((Hc & _) & _ & _ & Hend) Hgs.
  destruct (Hend Hgs) as (stats & Hstats & _ & Ht & Hp & _).
  exists stats. rewrite accuracyPercent_exact, Ht, Hp.
  split; [done|]. split; [done|]. apply percentOf_range, Hc.
Qed.

(** C26. The average reaction time of the summary is the mean.  On the end
    screen of a state that satisfies the invariant of the component (every
    reachable state does), the summary is shown, its reaction text is
    that of the statistics, and their average reaction time is the
    arithmetic mean of the reaction times of the game's hits: multiplied
    by the number of hits it is their sum, it is 0 when there was no hit,
    and otherwise it lies between any bounds of the times. *)
Theorem summary_average a :
  appOk a -> App.gameState a = end' ->
  exists stats summary,
    App.gameStats a = Some stats /\ render a = EndScreen summary
    /\ Summary.reaction summary = reactionText stats
    /\ let average := GameStats.averageReactionTime stats in
       let times := Game.reactionTimes (App.gameRef a) in
       average * IZR (Game.totalHits (App.gameRef a))
       = IZR (foldr Z.add 0%Z times)
       /\ (Game.totalHits (App.gameRef a) = 0%Z -> average = 0)
       /\ forall lo hi,
            Forall (fun t => lo <= t <= hi)%Z times ->
            Game.totalHits (App.gameRef a) <> 0%Z ->
            IZR lo <= average <= IZR hi.
Proof.
  intros (_ & _ & _ & Hend) Hgs.
  destruct (Hend Hgs) as (stats & Hstats & _ & Ht & _ & Hr & _ & Ha & Hn).
  eexists stats, _. split; [done|]. unfold render.
  rewrite Hgs, Hstats. split; [reflexivity|]. split; [reflexivity|].
  cbn zeta. set (times := Game.reactionTimes (App.gameRef a)) in *.
  replace (Game.totalHits (App.gameRef a)) with (Z.of_nat (length times))
    by congruence.
  rewrite Ha, Hr, <- INR_IZR_INZ.
  destruct (times_bounded times) as (l & h & Hb).
  apply averageOf_facts in Hb as (Hsum & Hempty & _).
  split; [done|]. split.
  - intros Hnil. apply Hempty, length_zero_iff_nil. lia.
  - intros lo hi (_ & _ & Hmean)%averageOf_facts Hhits.
    apply Hmean. by intros ->.
Qed.

End ViewExact.

(** ** In binary64: what the browser shows *)

Section ViewBinary64.
Local Open Scope float_scope.

(** C36. The accuracy the browser shows.  For every session of at most 40
    hits the percentage computed in binary64 is the exact rounded
    percentage, except for 23 perfect hits of 40, which show as 57% where
    57.5 rounds to 58. *)
Theorem accuracy_binary64 perfect total :
  (0 <= perfect <= total)%Z -> (total <= 40)%Z ->
  percent64 perfect total
  = (percentOf perfect total
     - (if roundsDown64 perfect total then 1 else 0))%Z.
Proof.
  intros Hp Ht. apply Z.eqb_eq.
  assert (Hall : forallb percentOk (seqZ 0 41) = true)
    by (vm_compute; reflexivity).
  pose proof (forallb_seqZ _ _ _ Hall total ltac:(lia)) as Hrow.
  apply (forallb_seqZ _ _ _ Hrow perfect). lia.
Qed.

(** The division by 1000, the subtraction from 60, the division by 60
    and the remainder do not move a second of the clock: checked during
    the first two seconds and around every full second of a session and
    of the second after it. *)
Lemma clockShown_session : allFrom clockShown 0 (Z.to_nat 61001) = true.
Proof. vm_cast_no_check (eq_refl true). Qed.

(** The clock the browser shows.  After a frame at a reading within 61
    seconds of the start of the loop, in the first two seconds or within
    a millisecond of a full second, the HUD shows the whole seconds that
    are left: [01:00] at the start, [00:59] from the first millisecond on,
    [00:00] in the last second and after it. *)
Theorem hud_clock_binary64 now sin2t (a : App.t float) :
  (0 <= now - App.startTime a <= 61000)%Z ->
  clockReading (now - App.startTime a) = true ->
  Hud.time (renderGame (gameLoop now sin2t a))
  = clockText (now - App.startTime a).
Proof.
  intros Hms Hreading. apply String.eqb_eq.
  change (Hud.time (renderGame (gameLoop now sin2t a)))
    with (hudTime (Game.timeLeft (App.gameRef (gameLoop now sin2t a)))).
  rewrite (proj1 (gameLoop_timeLeft now sin2t a)).
  pose proof (allFrom_spec clockShown 0 (Z.to_nat 61001) clockShown_session
                (now - App.startTime a) ltac:(lia)) as Hshown.
  unfold clockShown in Hshown. by rewrite Hreading in Hshown.
Qed.

(** The screens of the sample session: the HUD at the start (one
    minute, no points), after a perfect hit and a net click (58 seconds,
    90 points), and the summary at the end. *)
Theorem session_display :
  render Scenario.started
  = GameScreen (Hud.mk float 1920 1080 "EASY" "01:00" "00000")
  /\ render Scenario.played
     = GameScreen (Hud.mk float 1920 1080 "EASY" "00:58" "00090")
  /\ render Scenario.final
     = EndScreen (Summary.mk "Easy" "00090" "100%" "1 / 1 Perfect Hits"
                    "1.50s").
Proof. vm_compute. repeat split. Qed.

End ViewBinary64.

(** ** The theorems at the samples *)

Lemma ended_ok : appOk ViewSample.ended.
Proof.
  unfold appOk, gameOk, countersOk, statsOk. cbn.
  repeat split; try done; try lia; try constructor.
  eexists. repeat split; done.
Qed.

Lemma handled_is_offered_witness :
  (fromBrowser (Frame 61010 0.5%float) = true
   \/ offers (render Scenario.played) (Frame 61010 0.5%float) = true)
  /\ (offers (render Scenario.played) BackToMenu = true ->
      is_Some (handle Sample.random 10 BackToMenu Scenario.played))
  /\ (forall x y, offers (render Scenario.played) (MouseMove x y) = true ->
      is_Some (handle Sample.random 10 (MouseMove x y) Scenario.played)).
Proof.
  exact (handled_is_offered Sample.random 10 _ Scenario.played Scenario.final
           last_frame).
Defined.

Lemma end_screen_shown_witness :
  render Scenario.final <> Blank
  /\ (App.gameState Scenario.final = end' ->
      exists summary,
        render Scenario.final = EndScreen summary
        /\ Summary.mode summary = endMode (App.difficulty Scenario.final)
        /\ Summary.score summary
           = scoreText (Game.score (App.gameRef Scenario.final))
        /\ Summary.perfect summary
           = (string_of_Z (Game.perfectHits (App.gameRef Scenario.final))
              ++ " / "
              ++ string_of_Z (Game.totalHits (App.gameRef Scenario.final))
              ++ " Perfect Hits")).
Proof. exact (end_screen_shown Sample.random Scenario.final final_reachable). Defined.

Lemma score_reads_back_witness :
  let a := updateCanvasSize 1920%R 1080%R App.init in
  Z_of_string (Hud.score (renderGame a)) = Some (Game.score (App.gameRef a))
  /\ (5 <= String.length (Hud.score (renderGame a)))%nat
  /\ (forall summary,
        render a = EndScreen summary ->
        Z_of_string (Summary.score summary)
        = Some (Game.score (App.gameRef a))).
Proof. exact (score_reads_back Sample.half _ resized_reachable). Defined.

Lemma hud_clock_witness :
  let a := updateCanvasSize 1920%R 1080%R App.init in
  let timeLeft := Game.timeLeft (App.gameRef a) in
  Hud.time (renderGame a)
  = (if bool_decide (timeLeft < 60)%R
     then "00:" ++ twoDigits (Zfloor timeLeft) else "01:00")
  /\ String.length (Hud.time (renderGame a)) = 5%nat
  /\ (0 <= Zfloor timeLeft <= 60)%Z.
Proof. exact (hud_clock Sample.half 0 _ resized_reachableAt). Defined.

Lemma summary_average_witness :
  exists stats summary,
    App.gameStats ViewSample.ended = Some stats
    /\ render ViewSample.ended = EndScreen summary
    /\ Summary.reaction summary = reactionText stats
    /\ let average := GameStats.averageReactionTime stats in
       let times := Game.reactionTimes (App.gameRef ViewSample.ended) in
       (average * IZR (Game.totalHits (App.gameRef ViewSample.ended))
        = IZR (foldr Z.add 0%Z times))%R
       /\ (Game.totalHits (App.gameRef ViewSample.ended) = 0%Z ->
           average = 0%R)
       /\ forall lo hi,
            Forall (fun t => lo <= t <= hi)%Z times ->
            Game.totalHits (App.gameRef ViewSample.ended) <> 0%Z ->
            (IZR lo <= average <= IZR hi)%R.
Proof. exact (summary_average ViewSample.ended ended_ok eq_refl). Defined.

Lemma accuracy_percentage_witness :
  exists stats,
    App.gameStats ViewSample.ended = Some stats
    /\ accuracyPercent stats = percentOf 23 40
    /\ (0 <= accuracyPercent stats <= 100)%Z.
Proof. exact (accuracy_percentage ViewSample.ended ended_ok eq_refl). Defined.

Lemma hud_clock_binary64_witness :
  Hud.time (renderGame (gameLoop 32009 0.5%float Scenario.played))
  = clockText (32009 - App.startTime Scenario.played).
Proof.
  apply (hud_clock_binary64 32009 0.5%float Scenario.played);
    [vm_compute; split; discriminate | reflexivity].
Defined.

Lemma accuracy_binary64_witness :
  percent64 23 40 = (percentOf 23 40 - 1)%Z.
Proof. exact (accuracy_binary64 23 40 ltac:(lia) ltac:(lia)). Defined.

Lemma caption_on_summary_witness :
  match render Scenario.final with
  | GameScreen hud =>
      exists d, Button.onClick ViewSample.easyButton = SelectDifficulty d
                /\ Hud.mode hud = hudMode d
  | EndScreen summary =>
      Summary.mode summary = Button.caption ViewSample.easyButton
  | _ => False
  end.
Proof.
  apply (caption_on_summary Sample.random 10 ViewSample.easyButton 1000 1010
           (Scenario.play ++ [Frame 61010 0.5%float])
           (updateCanvasSize 1920%float 1080%float App.init)
           Scenario.started).
  - by apply (reachable_step _ 0 (Resize 1920%float 1080%float) App.init);
      [constructor|].
  - constructor.
  - by vm_compute.
  - reflexivity.
  - by vm_compute.
Defined.
