(* ===== verification/Canvas.v ===== *)
(** * Canvas: the calls on the 2D context, as data

    [draw] of [src/app/page.tsx] paints by calling methods and setting
    properties of a [CanvasRenderingContext2D].  A call is a value of
    [Ctx.Op] here, one constructor per method or property the source uses,
    with the source's name; a gradient object is the value of its
    construction ([createLinearGradient] or [createRadialGradient] with its
    colour stops), and the one colour the source computes (line 402) keeps
    its number.

    What a sequence of calls does to the context is [exec]: the drawing state
    ([Pen]: styles, line width, alpha, shadow, text settings and the
    transformation, as the list of the [translate] and [rotate] applied), the
    stack of saved states of [save] and [restore], and the log of what was
    painted, each entry with the drawing state it was painted in.  An
    assignment to [globalAlpha] of a value outside the range 0 to 1 is
    ignored ([validAlpha]), as the canvas does.  This is the part of the
    canvas the source relies on; pixels are not modelled.

    The lemmas are those the painting of [Paint] needs: executing a
    concatenation, and blocks of calls that leave the saved states and the
    transformation as they found them ([upright]) or end without a shadow
    ([shadowless]), and the calls that leave the alpha alone ([steady]). *)

From Stdlib Require Import ZArith String.
From stdpp Require Import base option list.
From S2P Require Import Prelude Number.

Local Open Scope string_scope.

(** A fill or stroke style. *)
Inductive Style {num : Type} :=
| Color (css : string)
(** [`rgba(${r}, ${g}, ${b}, ${alpha})`] with a computed [alpha] *)
| Rgba (r g b : Z) (alpha : num)
| LinearGradient (x0 y0 x1 y1 : num) (stops : list (num * string))
| RadialGradient (x0 y0 r0 x1 y1 r1 : num) (stops : list (num * string)).
Arguments Style : clear implicits.

Module Ctx.
Inductive Op {num : Type} :=
| fillStyle (style : Style num)
| strokeStyle (style : Style num)
| lineWidth (width : num)
| globalAlpha (alpha : num)
| shadowColor (css : string)
| shadowBlur (blur : num)
| textAlign (align : string)
| textBaseline (baseline : string)
| font (css : string)
| save
| restore
| translate (x y : num)
| rotate (angle : num)
| beginPath
| moveTo (x y : num)
| lineTo (x y : num)
| arc (x y radius startAngle endAngle : num)
| closePath
| fillRect (x y w h : num)
| fill
| stroke
| fillText (text : string) (x y : num).
Arguments Op : clear implicits.
End Ctx.

(** A step of the current transformation. *)
Inductive Transform {num : Type} :=
| Translate (x y : num)
| Rotate (angle : num).
Arguments Transform : clear implicits.

(** The drawing state of a context. *)
Module Pen.
Record t {num : Type} := mk {
  fillStyle : Style num;
  strokeStyle : Style num;
  lineWidth : num;
  globalAlpha : num;
  shadowColor : string;
  shadowBlur : num;
  textAlign : string;
  textBaseline : string;
  font : string;
  transform : list (Transform num);
}.
Arguments t : clear implicits.

Section Setters.
Context {num : Type}.

Definition set_fillStyle (v : Style num) (p : t num) : t num :=
  mk num v (strokeStyle p) (lineWidth p) (globalAlpha p) (shadowColor p)
    (shadowBlur p) (textAlign p) (textBaseline p) (font p) (transform p).

Definition set_strokeStyle (v : Style num) (p : t num) : t num :=
  mk num (fillStyle p) v (lineWidth p) (globalAlpha p) (shadowColor p)
    (shadowBlur p) (textAlign p) (textBaseline p) (font p) (transform p).

Definition set_lineWidth (v : num) (p : t num) : t num :=
  mk num (fillStyle p) (strokeStyle p) v (globalAlpha p) (shadowColor p)
    (shadowBlur p) (textAlign p) (textBaseline p) (font p) (transform p).

Definition set_globalAlpha (v : num) (p : t num) : t num :=
  mk num (fillStyle p) (strokeStyle p) (lineWidth p) v (shadowColor p)
    (shadowBlur p) (textAlign p) (textBaseline p) (font p) (transform p).

Definition set_shadowColor (v : string) (p : t num) : t num :=
  mk num (fillStyle p) (strokeStyle p) (lineWidth p) (globalAlpha p) v
    (shadowBlur p) (textAlign p) (textBaseline p) (font p) (transform p).

Definition set_shadowBlur (v : num) (p : t num) : t num :=
  mk num (fillStyle p) (strokeStyle p) (lineWidth p) (globalAlpha p)
    (shadowColor p) v (textAlign p) (textBaseline p) (font p) (transform p).

Definition set_textAlign (v : string) (p : t num) : t num :=
  mk num (fillStyle p) (strokeStyle p) (lineWidth p) (globalAlpha p)
    (shadowColor p) (shadowBlur p) v (textBaseline p) (font p) (transform p).

Definition set_textBaseline (v : string) (p : t num) : t num :=
  mk num (fillStyle p) (strokeStyle p) (lineWidth p) (globalAlpha p)
    (shadowColor p) (shadowBlur p) (textAlign p) v (font p) (transform p).

Definition set_font (v : string) (p : t num) : t num :=
  mk num (fillStyle p) (strokeStyle p) (lineWidth p) (globalAlpha p)
    (shadowColor p) (shadowBlur p) (textAlign p) (textBaseline p) v
    (transform p).

Definition set_transform (v : list (Transform num)) (p : t num) : t num :=
  mk num (fillStyle p) (strokeStyle p) (lineWidth p) (globalAlpha p)
    (shadowColor p) (shadowBlur p) (textAlign p) (textBaseline p) (font p) v.

End Setters.
End Pen.

(** A context: its drawing state, the states saved, and what it painted
    (most recent last). *)
Module Context.
Record t {num : Type} := mk {
  pen : Pen.t num;
  saved : list (Pen.t num);
  painted : list (Ctx.Op num * Pen.t num);
}.
Arguments t : clear implicits.
End Context.

Section Canvas.
Context {num : Type} `{!Number num}.
Local Open Scope list_scope.
Local Open Scope num_scope.

Abbreviation Op := (Ctx.Op num).
Abbreviation Pen := (Pen.t num).
Abbreviation Context := (Context.t num).

(** The drawing state of a fresh context. *)
Definition freshPen : Pen :=
  Pen.mk num (Color "#000000") (Color "#000000") #1 #1 "rgba(0, 0, 0, 0)" #0
    "start" "alphabetic" "10px sans-serif" [].

Definition freshContext : Context := Context.mk num freshPen [] [].

(** The calls that put something on the canvas. *)
Definition paints (op : Op) : bool :=
  match op with
  | Ctx.fillRect _ _ _ _ | Ctx.fill | Ctx.stroke | Ctx.fillText _ _ _ => true
  | _ => false
  end.

(** The alphas the canvas takes: an assignment to [globalAlpha] of a value
    that is not in the range 0 to 1, or of NaN, is ignored. *)
Definition validAlpha (alpha : num) : bool :=
  (#0 <=? alpha) && (alpha <=? #1).

(** The calls whose value the canvas takes. *)
Definition accepted (op : Op) : bool :=
  match op with
  | Ctx.globalAlpha alpha => validAlpha alpha
  | _ => true
  end.

(** A call on the drawing state: a property is assigned, [translate] and
    [rotate] extend the transformation. *)
Definition setPen (op : Op) (p : Pen) : Pen :=
  match op with
  | Ctx.fillStyle style => Pen.set_fillStyle style p
  | Ctx.strokeStyle style => Pen.set_strokeStyle style p
  | Ctx.lineWidth width => Pen.set_lineWidth width p
  | Ctx.globalAlpha alpha =>
      if validAlpha alpha then Pen.set_globalAlpha alpha p else p
  | Ctx.shadowColor css => Pen.set_shadowColor css p
  | Ctx.shadowBlur blur => Pen.set_shadowBlur blur p
  | Ctx.textAlign align => Pen.set_textAlign align p
  | Ctx.textBaseline baseline => Pen.set_textBaseline baseline p
  | Ctx.font css => Pen.set_font css p
  | Ctx.translate x y =>
      Pen.set_transform (Pen.transform p ++ [Translate x y]) p
  | Ctx.rotate angle =>
      Pen.set_transform (Pen.transform p ++ [Rotate angle]) p
  | _ => p
  end.

(** One call on a context.  [save] pushes the drawing state, [restore] pops
    it (and does nothing on an empty stack); a call that paints is logged
    with the drawing state of the moment. *)
Definition exec (c : Context) (op : Op) : Context :=
  match op with
  | Ctx.save =>
      Context.mk num (Context.pen c) (Context.pen c :: Context.saved c)
        (Context.painted c)
  | Ctx.restore =>
      match Context.saved c with
      | [] => c
      | p :: saved => Context.mk num p saved (Context.painted c)
      end
  | _ =>
      Context.mk num (setPen op (Context.pen c)) (Context.saved c)
        (if paints op then Context.painted c ++ [(op, Context.pen c)]
         else Context.painted c)
  end.

(** A sequence of calls, in order. *)
Definition execAll (ops : list Op) (c : Context) : Context :=
  fold_left exec ops c.

(** Two contexts with the same saved states and the same transformation. *)
Definition sameFrame (c c' : Context) : Prop :=
  Context.saved c' = Context.saved c
  /\ Pen.transform (Context.pen c') = Pen.transform (Context.pen c).

(** The calls that neither save, restore nor transform. *)
Definition plain (op : Op) : bool :=
  match op with
  | Ctx.save | Ctx.restore | Ctx.translate _ _ | Ctx.rotate _ => false
  | _ => true
  end.

(** The plain calls that leave the alpha alone. *)
Definition steady (op : Op) : bool :=
  plain op && match op with Ctx.globalAlpha _ => false | _ => true end.

(** Rectangles and text: what is laid out on the axes of the canvas. *)
Definition flat (op : Op) : bool :=
  match op with
  | Ctx.fillRect _ _ _ _ | Ctx.fillText _ _ _ => true
  | _ => false
  end.

(** What a block painted when executed from [c]. *)
Definition paintedBy (ops : list Op) (c : Context)
    : list (Ctx.Op num * Pen.t num) :=
  drop (length (Context.painted c)) (Context.painted (execAll ops c)).

(** A block of calls is upright when, executed from any context, it leaves
    the saved states and the transformation as they were and paints its
    rectangles and texts under the transformation it started with. *)
Definition upright (ops : list Op) : Prop :=
  forall c,
    sameFrame c (execAll ops c)
    /\ Forall (fun e => flat e.1 = true ->
                        Pen.transform e.2 = Pen.transform (Context.pen c))
         (paintedBy ops c).

(** A block of calls that ends without a shadow when it starts without. *)
Definition shadowless (ops : list Op) : Prop :=
  forall c,
    Pen.shadowColor (Context.pen c) = "transparent"%string ->
    Pen.shadowColor (Context.pen (execAll ops c)) = "transparent"%string.

(** ** Executing calls *)

Lemma execAll_app ops1 ops2 c :
  execAll (ops1 ++ ops2) c = execAll ops2 (execAll ops1 c).
Proof. apply fold_left_app. Qed.

Lemma execAll_cons op ops c : execAll (op :: ops) c = execAll ops (exec c op).
Proof. done. Qed.

(** The log only grows. *)
Lemma exec_painted c op :
  exists entries,
    Context.painted (exec c op) = Context.painted c ++ entries
    /\ (paints op = false -> entries = []).
Proof.
  destruct op; cbn; try (by exists []; rewrite app_nil_r);
    try (eexists; split; [done | done]).
  destruct (Context.saved c); exists []; by rewrite app_nil_r.
Qed.

Lemma execAll_painted ops c :
  exists entries,
    Context.painted (execAll ops c) = Context.painted c ++ entries.
Proof.
  revert c. induction ops as [|op ops IH]; intros c.
  - exists []. by rewrite app_nil_r.
  - rewrite execAll_cons. destruct (IH (exec c op)) as (e2 & ->).
    destruct (exec_painted c op) as (e1 & -> & _).
    exists (e1 ++ e2). by rewrite app_assoc.
Qed.

Lemma paintedBy_spec ops c :
  Context.painted (execAll ops c) = Context.painted c ++ paintedBy ops c.
Proof.
  unfold paintedBy. destruct (execAll_painted ops c) as (entries & ->).
  by rewrite drop_app_length.
Qed.

Lemma paintedBy_app ops1 ops2 c :
  paintedBy (ops1 ++ ops2) c
  = paintedBy ops1 c ++ paintedBy ops2 (execAll ops1 c).
Proof.
  unfold paintedBy at 1. rewrite execAll_app, !paintedBy_spec, <- app_assoc.
  by rewrite drop_app_length.
Qed.

Lemma paintedBy_nil c : paintedBy [] c = [].
Proof. unfold paintedBy. cbn. by rewrite drop_all. Qed.

Lemma paintedBy_cons op ops c :
  paintedBy (op :: ops) c
  = (if paints op then [(op, Context.pen c)] else [])
    ++ paintedBy ops (exec c op).
Proof.
  change (op :: ops) with ([op] ++ ops). rewrite paintedBy_app. f_equal.
  unfold paintedBy. destruct op; cbn; rewrite ?drop_app_length, ?drop_all;
    try done.
  destruct (Context.saved c); cbn; by rewrite drop_all.
Qed.

(** Steady calls are plain, and the canvas takes them. *)
Lemma steady_plain ops : forallb steady ops = true -> forallb plain ops = true.
Proof.
  apply forallb_impl. intros op. unfold steady. by intros [? _]%andb_true_iff.
Qed.

Lemma steady_accepted ops :
  forallb steady ops = true -> forallb accepted ops = true.
Proof. apply forallb_impl. intros op. by destruct op. Qed.

#[export] Instance sameFrame_equivalence : Equivalence sameFrame.
Proof.
  unfold sameFrame. split.
  - done.
  - by intros c c' [-> ->].
  - by intros c1 c2 c3 [H1 H2] [-> ->].
Qed.

(** A plain call keeps the frame. *)
Lemma exec_plain c op : plain op = true -> sameFrame c (exec c op).
Proof. destruct op; try done. intros _. cbn. by destruct (validAlpha _). Qed.

Lemma upright_nil : upright [].
Proof. intros c. split; [done|]. by rewrite paintedBy_nil. Qed.

Lemma upright_app ops1 ops2 :
  upright ops1 -> upright ops2 -> upright (ops1 ++ ops2).
Proof.
  intros H1 H2 c. destruct (H1 c) as [Hf1 Hp1].
  destruct (H2 (execAll ops1 c)) as [Hf2 Hp2].
  rewrite execAll_app, paintedBy_app. split; [by etransitivity|].
  apply Forall_app. split; [done|]. destruct Hf1 as [_ <-]. done.
Qed.

(** Plain calls are upright: everything they paint is painted under the
    transformation they start with. *)
Lemma upright_plain ops : forallb plain ops = true -> upright ops.
Proof.
  induction ops as [|op ops IH]; [intros; apply upright_nil|].
  cbn [forallb]. intros [Hop Hops]%andb_true_iff c.
  destruct (IH Hops (exec c op)) as [Hf Hp].
  pose proof (exec_plain c op Hop) as Hstep.
  rewrite execAll_cons, paintedBy_cons. split; [by etransitivity|].
  apply Forall_app. split; [by destruct (paints op); repeat constructor|].
  destruct Hstep as [_ <-]. done.
Qed.

Lemma shadowless_nil : shadowless [].
Proof. by intros c. Qed.

Lemma shadowless_alpha alpha : shadowless [Ctx.globalAlpha alpha].
Proof. intros c Hc. cbn. by destruct (validAlpha _). Qed.

Lemma shadowless_app ops1 ops2 :
  shadowless ops1 -> shadowless ops2 -> shadowless (ops1 ++ ops2).
Proof. intros H1 H2 c Hc. rewrite execAll_app. auto. Qed.

End Canvas.

#[export] Hint Resolve upright_nil upright_app shadowless_nil shadowless_app
  shadowless_alpha : game.
