(* ===== verification/Paint.v ===== *)
(** * Paint: what [draw] puts on the canvas

    [draw] (lines 280-513 of [src/app/page.tsx]) changes the game and paints
    it.  The state change is [Render.draw]; this file is the painting: the
    calls on the 2D context, in the order [draw] makes them, as a list of
    [Ctx.Op].

    - [paintBackground], [paintNet], [paintNetEdge]: the court (lines
      281-331), with the two [for] loops of the net grid on a fuel
      ([gridLoop]; [None] when the fuel runs out);
    - [paintTarget]: glow, three rings, centre and pulsing ring of a target
      (lines 346-406), at its position after [moveTarget];
    - [paintSparkle]: the rotated star of a sparkle (lines 420-461), for the
      sparkles the loop does not splice, after ageing and spinning;
    - [paintFeedback]: the text of a feedback (lines 477-509), for the
      feedback the loop keeps, after fading;
    - [paint]: all of [draw], and [paintFrame]: the [draw(ctx)] of a frame
      of [gameLoop], with the canvas size of the running effect.

    [Math.sin] and [Math.cos] are parameters ([Math_sin], [Math_cos]):
    ECMAScript leaves their values to the implementation.  [draw] reads the
    clock once for the targets (line 334, the argument [now]) and once for
    each sparkle it paints (line 429): [Date_now i] is the reading in the
    iteration at index [i].

    The theorems: the grid loops return on every canvas over the reals, with
    one line every 12 units, and in binary64 on every canvas of up to 8192
    pixels a side ([gridReturns] is the counter of a loop alone, [rounds]
    the same at binary64 for evaluation); the painting leaves the context as the next
    frame expects it (saved states and transformation as before, alpha 1,
    no shadow; by the laws of [Order], the canvas takes the alpha 1); texts
    and targets are painted upright and only sparkles are rotated; what is
    painted is what lives; the yellow style of lines 496-500 is never
    used. *)

From Stdlib Require Import ZArith String Ascii Floats Reals Lra Zfloor.
From stdpp Require Import base option list.
From S2P Require Import Prelude Number Float64 Exact Order Binary64 Types.
From S2P Require Import Spawner Scoring.
From S2P Require Import Render Session Canvas.

Local Open Scope string_scope.
Local Open Scope list_scope.

(** ['bold <px>px "Courier New", monospace'] *)
Definition courier (px : string) : string :=
  let quote := String (ascii_of_nat 34) "" in
  ("bold " ++ px ++ "px " ++ quote ++ "Courier New" ++ quote
   ++ ", monospace")%string.

Section Paint.
Context {num : Type} `{!Number num}.
Variables Math_sin Math_cos : num -> num.
Variables CANVAS_WIDTH CANVAS_HEIGHT : num.
Local Open Scope num_scope.

Abbreviation Target := (Target.t num).
Abbreviation Sparkle := (Sparkle.t num).
Abbreviation Feedback := (Feedback.t num).
Abbreviation Game := (Game.t num).
Abbreviation Op := (Ctx.Op num).
Abbreviation NET_Y := (NET_Y CANVAS_HEIGHT).

(** [for (let x = start; x < limit; x += 12) { body(x) }] *)
Fixpoint gridLoop (fuel : nat) (x limit : num) (body : num -> list Op)
    : option (list Op) :=
  match fuel with
  | O => None
  | S fuel =>
      if x <? limit
      then (body x ++.) <$> gridLoop fuel (x + #12) limit body
      else Some []
  end.

(** The counter of a grid loop alone: whether the loop is over within the
    fuel. *)
Fixpoint gridReturns (fuel : nat) (x limit : num) : bool :=
  match fuel with
  | O => false
  | S fuel => if x <? limit then gridReturns fuel (x + #12) limit else true
  end.

(** The background, the target area and the net area (lines 281-299). *)
Definition paintBackground : list Op :=
  [ Ctx.fillStyle (Color "#0a0f1f");
    Ctx.fillRect #0 #0 CANVAS_WIDTH CANVAS_HEIGHT;
    Ctx.fillStyle
      (LinearGradient #0 TARGET_AREA_TOP #0 NET_Y
         [(#0, "#0f1a2e"); (#1, "#0a0f1f")]);
    Ctx.fillRect #0 TARGET_AREA_TOP CANVAS_WIDTH (NET_Y - TARGET_AREA_TOP);
    Ctx.fillStyle
      (LinearGradient #0 NET_Y #0 CANVAS_HEIGHT
         [(#0, "#1a1a3e"); (dec 3 10, "#2a2a5e"); (dec 7 10, "#1a1a3e");
          (#1, "#0a0a1f")]);
    Ctx.fillRect #0 NET_Y CANVAS_WIDTH (NET_HEIGHT CANVAS_HEIGHT) ].

(** A vertical and a horizontal line of the net (lines 305-308, 312-315). *)
Definition verticalLine (x : num) : list Op :=
  [Ctx.beginPath; Ctx.moveTo x NET_Y; Ctx.lineTo x CANVAS_HEIGHT; Ctx.stroke].

Definition horizontalLine (y : num) : list Op :=
  [Ctx.beginPath; Ctx.moveTo #0 y; Ctx.lineTo CANVAS_WIDTH y; Ctx.stroke].

(** The grid of the net (lines 302-316). *)
Definition paintNet (fuel : nat) : option (list Op) :=
  vertical ← gridLoop fuel #0 CANVAS_WIDTH verticalLine;
  horizontal ← gridLoop fuel NET_Y CANVAS_HEIGHT horizontalLine;
  Some ([Ctx.strokeStyle (Color "rgba(100, 150, 255, 0.4)"); Ctx.lineWidth #1]
        ++ vertical ++ horizontal).

(** The top edge of the net and its glow (lines 319-331). *)
Definition paintNetEdge : list Op :=
  [ Ctx.strokeStyle (Color "rgba(150, 200, 255, 0.8)");
    Ctx.lineWidth #3;
    Ctx.beginPath; Ctx.moveTo #0 NET_Y; Ctx.lineTo CANVAS_WIDTH NET_Y;
    Ctx.stroke;
    Ctx.fillStyle
      (LinearGradient #0 NET_Y #0 (NET_Y + #100)
         [(#0, "rgba(100, 150, 255, 0.2)"); (#1, "rgba(100, 150, 255, 0)")]);
    Ctx.fillRect #0 NET_Y CANVAS_WIDTH #100 ].

(** A full circle: [ctx.beginPath(); ctx.arc(x, y, r, 0, Math.PI * 2)]. *)
Definition circle (x y radius : num) : list Op :=
  [Ctx.beginPath; Ctx.arc x y radius #0 (Math_PI * #2)].

(** One target (lines 346-406); [time] is [Date.now() / 1000]. *)
Definition paintTarget (time : num) (target : Target) : list Op :=
  let x := Target.x target in
  let y := Target.y target in
  let radius := Target.radius target in
  let pulse := dec 4 10 + Math_sin (time * #3) * dec 4 10 in
  [ Ctx.fillStyle
      (RadialGradient x y #0 x y (radius * dec 22 10)
         [(#0, "rgba(100, 220, 255, 0.4)");
          (dec 5 10, "rgba(100, 220, 255, 0.15)");
          (#1, "rgba(100, 220, 255, 0)")]) ]
  ++ circle x y (radius * dec 22 10) ++ [Ctx.fill]
  ++ [Ctx.strokeStyle (Color "rgba(100, 220, 255, 0.95)"); Ctx.lineWidth #4]
  ++ circle x y radius ++ [Ctx.stroke]
  ++ [Ctx.strokeStyle (Color "rgba(100, 220, 255, 0.6)"); Ctx.lineWidth #2]
  ++ circle x y (radius * dec 65 100) ++ [Ctx.stroke]
  ++ [Ctx.strokeStyle (Color "rgba(100, 220, 255, 0.7)"); Ctx.lineWidth #2]
  ++ circle x y (radius * dec 35 100) ++ [Ctx.stroke]
  ++ [ Ctx.fillStyle
         (RadialGradient x y #0 x y (radius * dec 28 100)
            [(#0, "#ffffff"); (#1, "rgba(150, 230, 255, 1)")]) ]
  ++ circle x y (radius * dec 28 100) ++ [Ctx.fill]
  ++ [Ctx.strokeStyle (Rgba 100 220 255 (pulse * dec 9 10)); Ctx.lineWidth #3]
  ++ circle x y (radius + #12) ++ [Ctx.stroke].

(** The target loop (lines 335-407): each target is moved, then painted. *)
Definition paintTargets (time : num) (targets : list Target) : list Op :=
  flat_map (fun target => paintTarget time (moveTarget CANVAS_WIDTH target))
    targets.

(** A corner of the star of a sparkle (lines 450-455). *)
Definition starPoint (size rotation : num) (j : Z) : Op :=
  let angle := #j / #4 * Math_PI * #2 + rotation in
  let px := Math_cos angle * size in
  let py := Math_sin angle * size in
  if (j =? 0)%Z then Ctx.moveTo px py else Ctx.lineTo px py.

(** One sparkle that lives (lines 420-461), aged and spun; [now] is the
    [Date.now()] of line 429. *)
Definition paintSparkle (now : Z) (sparkle : Sparkle) : list Op :=
  let life := Sparkle.life sparkle in
  let distance := Sparkle.speed sparkle * (#1 - life) in
  let x := Sparkle.x sparkle + Math_cos (Sparkle.angle sparkle) * distance in
  let y := Sparkle.y sparkle + Math_sin (Sparkle.angle sparkle) * distance in
  let sparkleSize := #8 + life * #8 in
  let scale :=
    #1 + Math_sin (#now / #1000 * #8 - Sparkle.angle sparkle) * dec 4 10 in
  let rotation := Sparkle.rotation sparkle in
  [ Ctx.globalAlpha (life * dec 8 10);
    Ctx.fillStyle (Color "#ffff00");
    Ctx.shadowColor "#ffff00";
    Ctx.shadowBlur #10;
    Ctx.save;
    Ctx.translate x y;
    Ctx.rotate rotation ]
  ++ circle #0 #0 (sparkleSize * scale) ++ [Ctx.fill]
  ++ [Ctx.strokeStyle (Color "#ffff00"); Ctx.lineWidth (dec 15 10);
      Ctx.beginPath]
  ++ List.map (starPoint (sparkleSize * dec 18 10 * scale) rotation)
       [0; 1; 2; 3]%Z
  ++ [Ctx.closePath; Ctx.stroke; Ctx.restore].

(** The sparkle loop (lines 410-462), and the reset after it (464-465). *)
Definition paintSparkles (Date_now : nat -> Z) (sparkles : list Sparkle)
    : list Op :=
  emitBackward ageSparkle deadSparkle spinSparkle
    (fun i sparkle => paintSparkle (Date_now i) sparkle)
    (length sparkles) sparkles
  ++ [Ctx.shadowColor "transparent"; Ctx.globalAlpha #1].

(** The style of a feedback text (lines 486-506). *)
Definition feedbackStyle (fb : Feedback) : list Op :=
  let style colour px blur :=
    [Ctx.fillStyle (Color colour); Ctx.font (courier px);
     Ctx.shadowColor colour; Ctx.shadowBlur blur] in
  if String.eqb (Feedback.text fb) "PERFECT" then style "#00ffff" "48" #20
  else if String.prefix "+" (Feedback.text fb) then style "#00ff88" "32" #15
  else if (String.eqb (Feedback.text fb) "MISS" && Feedback.isMiss fb)%bool
  then style "#ffff00" "36" #18
  else style "#ff4444" "32" #10.

(** One feedback that stays (lines 477-509), faded. *)
Definition paintFeedback (fb : Feedback) : list Op :=
  match feedbackText fb with
  | None => []
  | Some (text, x, y) =>
      [Ctx.globalAlpha (Feedback.opacity fb); Ctx.textAlign "center";
       Ctx.textBaseline "middle"]
      ++ feedbackStyle fb
      ++ [Ctx.fillText text x y; Ctx.shadowColor "transparent"]
  end.

(** The feedback loop (lines 468-510), and the reset after it (512). *)
Definition paintFeedbacks (feedback : list Feedback) : list Op :=
  emitBackward fadeFeedback deadFeedback (fun fb => fb)
    (fun _ fb => paintFeedback fb) (length feedback) feedback
  ++ [Ctx.globalAlpha #1].

(** What [draw] paints of the game it is called on. *)
Definition paint (fuel : nat) (now : Z) (Date_now : nat -> Z) (g : Game)
    : option (list Op) :=
  net ← paintNet fuel;
  Some (paintBackground ++ net ++ paintNetEdge
        ++ paintTargets (#now / #1000) (Game.targets g)
        ++ paintSparkles Date_now (Game.sparkles g)
        ++ paintFeedbacks (Game.feedback g)).

End Paint.

(** The [draw(ctx)] of a frame of [gameLoop] (line 543): on the game as the
    head of the loop leaves it, with the canvas size of the running effect;
    [now] is the clock reading of the loop, [drawNow] the one of [draw]. *)
Definition paintFrame {num : Type} `{!Number num}
    (Math_sin Math_cos : num -> num) (fuel : nat) (now drawNow : Z)
    (Date_now : nat -> Z) (sin2t : num) (a : App.t num)
    : option (list (Ctx.Op num)) :=
  paint Math_sin Math_cos (App.loopCanvasWidth a) (App.loopCanvasHeight a)
    fuel drawNow Date_now (beforeDraw now sin2t a).

(** The counter of a grid loop in binary64, with the literal 12 for the
    step: the loop of [gridReturns], for evaluation. *)
Fixpoint rounds (fuel : nat) (x limit : float) : bool :=
  match fuel with
  | O => false
  | S fuel =>
      if PrimFloat.ltb x limit then rounds fuel (x + 12)%float limit
      else true
  end.

(** The loop of the rows on a canvas [height] pixels high. *)
Definition rowsReturn (fuel : nat) (height : Z) : bool :=
  rounds fuel (NET_Y (#height)%num) (#height)%num.

(** Over the reals: the first [n] points of a grid loop started at [x]. *)
Fixpoint gridPoints (x : R) (n : nat) : list R :=
  match n with
  | O => []
  | S n => x :: gridPoints (x + 12)%R n
  end.

(** The number of points of a grid loop from [x] up to [limit]. *)
Definition gridCount (x limit : R) : nat :=
  Z.to_nat (Zceil ((limit - x) / 12)%R).

(** ** Sample inputs, for the concrete instances of the theorems *)

Module PaintSample.
Section Binary64.
Local Open Scope float_scope.

(** Stand-ins for the values of [Math.sin] and [Math.cos], and a clock that
    reads 3116 throughout the frame. *)
Definition sin (x : float) : float := 0.5.
Definition cos (x : float) : float := 0.5.
Definition clock (i : nat) : Z := 3116.

(** The sample session after one more click, on the empty court at
    (100, 100): a miss, with its eight sparkles. *)
Definition missed : App.t float :=
  Eval vm_compute in
    default Scenario.played
      (handle Sample.random 10 (Click 100 100 3100) Scenario.played).

(** The calls of the frame that follows, and the context after them. *)
Definition frame : list (Ctx.Op float) :=
  default [] (paintFrame sin cos 161 3116 3116 clock 0.5 missed).

Definition after : Context.t float := execAll frame freshContext.

(** The texts of a log of painted calls. *)
Definition texts (log : list (Ctx.Op float * Pen.t float)) : list string :=
  omap (fun e => match e.1 with
                 | Ctx.fillText text _ _ => Some text
                 | _ => None
                 end) log.

End Binary64.
End PaintSample.

(** ** What holds for every number system *)

Section PaintFacts.
Context {num : Type} `{!Number num} `{!NumberOrder num}.
Variables Math_sin Math_cos : num -> num.
Variables CANVAS_WIDTH CANVAS_HEIGHT : num.
Implicit Types (g : Game.t num) (c : Context.t num) (ops : list (Ctx.Op num)).

Abbreviation paint' := (paint Math_sin Math_cos CANVAS_WIDTH CANVAS_HEIGHT).
Abbreviation paintSparkle' := (paintSparkle Math_sin Math_cos).

(** The canvas takes the alpha 1 of lines 465 and 512. *)
Lemma validAlpha_1 : validAlpha (num := num) (#1)%num = true.
Proof.
  unfold validAlpha. by rewrite leb_0_1, leb_reflexive by apply of_Z_number.
Qed.

Lemma alpha_reset c :
  Pen.globalAlpha (Context.pen (exec c (Ctx.globalAlpha (#1)%num)))
  = (#1)%num.
Proof. cbn. by rewrite validAlpha_1. Qed.

Lemma gridLoop_steady fuel x limit body ops :
  (forall x, forallb steady (body x) = true) ->
  gridLoop fuel x limit body = Some ops -> forallb steady ops = true.
Proof.
  intros Hbody. revert x ops.
  induction fuel as [|fuel IH]; intros x ops; [done|]. cbn [gridLoop].
  split_if; [|by intros [= <-]].
  intros (rest & Hrest & ->)%fmap_Some. cbn beta.
  rewrite forallb_app, Hbody. eauto.
Qed.

(** A grid loop returns when its counter passes the limit within the
    fuel, whatever its body; more fuel does not change that. *)
Lemma gridLoop_returns fuel x limit body :
  is_Some (gridLoop fuel x limit body) <-> gridReturns fuel x limit = true.
Proof.
  revert x. induction fuel as [|fuel IH]; intros x; cbn.
  - split; [by intros [? ?] | done].
  - split_if; [|by split; [|eexists]]. rewrite fmap_is_Some. apply IH.
Qed.

Lemma gridReturns_mono fuel fuel' x limit :
  (fuel <= fuel')%nat ->
  gridReturns fuel x limit = true -> gridReturns fuel' x limit = true.
Proof.
  intros Hfuel. revert fuel' x Hfuel.
  induction fuel as [|fuel IH]; intros [|fuel'] x Hfuel; cbn; try done;
    [lia|]. split_if; [|done]. apply IH. lia.
Qed.

(** A loop that returns for a limit returns for every smaller one. *)
Lemma gridReturns_limit fuel x limit limit' :
  (limit' <=? limit)%num = true ->
  gridReturns fuel x limit = true -> gridReturns fuel x limit' = true.
Proof.
  intros Hle. revert x. induction fuel as [|fuel IH]; intros x; [done|].
  cbn. destruct (x <? limit')%num eqn:Hx; [|done].
  rewrite (ltb_leb_transitive x limit' limit Hx Hle). apply IH.
Qed.

(** The painting returns when both grid loops do. *)
Lemma paint_is_Some fuel now Date_now g :
  gridReturns fuel (#0)%num CANVAS_WIDTH = true ->
  gridReturns fuel (NET_Y CANVAS_HEIGHT) CANVAS_HEIGHT = true ->
  is_Some (paint' fuel now Date_now g).
Proof.
  intros Hcolumns Hrows.
  destruct (proj2 (gridLoop_returns fuel _ _
                     (verticalLine CANVAS_HEIGHT)) Hcolumns)
    as [v Hv].
  destruct (proj2 (gridLoop_returns fuel _ _
                     (horizontalLine CANVAS_WIDTH)) Hrows)
    as [h Hh].
  unfold paint, paintNet. rewrite Hv, Hh. cbn. by eexists.
Qed.

Lemma paintNet_steady fuel ops :
  paintNet CANVAS_WIDTH CANVAS_HEIGHT fuel = Some ops ->
  forallb steady ops = true.
Proof.
  unfold paintNet.
  intros (v & Hv & (h & Hh & [= <-])%bind_Some)%bind_Some.
  apply gridLoop_steady in Hv, Hh; try done.
  cbn. by rewrite forallb_app, Hv, Hh.
Qed.

Lemma paintTargets_steady time targets :
  forallb steady (paintTargets Math_sin CANVAS_WIDTH time targets) = true.
Proof.
  unfold paintTargets.
  induction targets as [|target targets IH]; [done|].
  cbn [flat_map]. by rewrite forallb_app, IH.
Qed.

(** A sparkle is painted between [save] and [restore]: its block is
    upright, and what it paints is a fill and a stroke. *)
Lemma paintSparkle_upright now sparkle : upright (paintSparkle' now sparkle).
Proof.
  unfold paintSparkle, circle. cbn [app List.map].
  apply (upright_app [_]); [by apply upright_plain|]. intros c.
  split; [split; cbn; reflexivity|].
  rewrite !paintedBy_cons, paintedBy_nil. cbn. by repeat constructor.
Qed.

Lemma paintFeedback_plain (fb : Feedback.t num) :
  forallb plain (paintFeedback fb) = true.
Proof.
  unfold paintFeedback, feedbackStyle.
  destruct (feedbackText fb) as [[[text x] y]|]; [|done].
  by repeat split_if.
Qed.

(** After the text of a feedback the shadow is off. *)
Lemma paintFeedback_shadowless (fb : Feedback.t num) :
  shadowless (paintFeedback fb).
Proof.
  intros c Hc. unfold paintFeedback, feedbackStyle.
  destruct (feedbackText fb) as [[[text x] y]|]; [|done].
  by repeat split_if.
Qed.

Lemma paintSparkles_upright Date_now sparkles :
  upright (paintSparkles Math_sin Math_cos Date_now sparkles).
Proof.
  unfold paintSparkles. rewrite emitBackward_emitted.
  apply upright_app; [|by apply upright_plain].
  apply emitted_Forall; auto using paintSparkle_upright with game.
Qed.

Lemma paintFeedbacks_upright feedback : upright (paintFeedbacks feedback).
Proof.
  unfold paintFeedbacks. rewrite emitBackward_emitted.
  apply upright_app; [|by apply upright_plain].
  apply emitted_Forall; auto using upright_plain, paintFeedback_plain with game.
Qed.

Lemma paintFeedbacks_shadowless feedback : shadowless (paintFeedbacks feedback).
Proof.
  unfold paintFeedbacks. rewrite emitBackward_emitted.
  apply shadowless_app; [|apply shadowless_alpha].
  apply emitted_Forall; auto using paintFeedback_shadowless with game.
Qed.

(** The painting without the two effect loops is plain, and leaves the
    alpha alone. *)
Lemma paint_court fuel now Date_now g ops :
  paint' fuel now Date_now g = Some ops ->
  exists court,
    forallb steady court = true
    /\ ops = court
             ++ paintSparkles Math_sin Math_cos Date_now (Game.sparkles g)
             ++ paintFeedbacks (Game.feedback g).
Proof.
  unfold paint. intros (net & Hnet%paintNet_steady & [= <-])%bind_Some.
  exists (paintBackground CANVAS_WIDTH CANVAS_HEIGHT ++ net
          ++ paintNetEdge CANVAS_WIDTH CANVAS_HEIGHT
          ++ paintTargets Math_sin CANVAS_WIDTH (#now / #1000)%num
               (Game.targets g)).
  split; [|by rewrite <- !app_assoc].
  by rewrite !forallb_app, Hnet, paintTargets_steady.
Qed.

(** C15. The painting of a frame leaves the context as the next frame
    expects it.  Whatever the context [draw] is called with, when it
    returns the saved states and the transformation are what they were, the
    alpha is 1 and the shadow is off; and every rectangle and every text of
    the frame was painted under the transformation the frame started with:
    only the stars of the sparkles are translated and rotated. *)
Theorem paint_keeps_context fuel now Date_now g ops c :
  paint Math_sin Math_cos CANVAS_WIDTH CANVAS_HEIGHT fuel now Date_now g
  = Some ops ->
  let c' := execAll ops c in
  Context.saved c' = Context.saved c
  /\ Pen.transform (Context.pen c') = Pen.transform (Context.pen c)
  /\ Pen.globalAlpha (Context.pen c') = (#1)%num
  /\ Pen.shadowColor (Context.pen c') = "transparent"%string
  /\ Forall (fun e => flat e.1 = true ->
                      Pen.transform e.2 = Pen.transform (Context.pen c))
       (paintedBy ops c).
Proof.
  intros (court & Hcourt%steady_plain%upright_plain & ->)%paint_court c'.
  assert (Hup : upright (court
                         ++ paintSparkles Math_sin Math_cos Date_now
                              (Game.sparkles g)
                         ++ paintFeedbacks (Game.feedback g)))
    by auto using paintSparkles_upright, paintFeedbacks_upright with game.
  destruct (Hup c) as [[Hsaved Htransform] Hpainted].
  repeat split; try done; subst c'; rewrite !execAll_app.
  - unfold paintFeedbacks. rewrite execAll_app. apply alpha_reset.
  - apply paintFeedbacks_shadowless. unfold paintSparkles.
    rewrite execAll_app. by apply (shadowless_alpha (#1)%num (exec _ _)).
Qed.

(** C33. What is painted is what lives.  The targets are painted where
    [draw] leaves them, the feedback that [draw] keeps is painted last
    pushed first, each with its faded opacity, and so are the sparkles when
    the clock does not advance during the frame; nothing is painted for an
    effect that [draw] removes. *)
Theorem paint_live time Date_now g :
  let g' := draw CANVAS_WIDTH g in
  paintTargets Math_sin CANVAS_WIDTH time (Game.targets g)
  = flat_map (paintTarget Math_sin time) (Game.targets g')
  /\ paintFeedbacks (Game.feedback g)
     = flat_map paintFeedback (reverse (Game.feedback g'))
       ++ [Ctx.globalAlpha (#1)%num]
  /\ (forall now, (forall i, Date_now i = now) ->
      paintSparkles Math_sin Math_cos Date_now (Game.sparkles g)
      = flat_map (paintSparkle' now) (reverse (Game.sparkles g'))
        ++ [Ctx.shadowColor "transparent"; Ctx.globalAlpha (#1)%num]).
Proof.
  intros g'. subst g'.
  unfold draw, paintTargets, paintFeedbacks, paintSparkles, drawFeedback,
    drawSparkles.
  cbn [Game.targets Game.sparkles Game.feedback Game.set_targets
       Game.set_sparkles Game.set_feedback].
  rewrite !emitBackward_emitted, !retainBackward_retain, emitted_retain.
  split; [by rewrite !flat_map_concat_map, List.map_map|].
  split; [done|]. intros now Hnow. rewrite <- emitted_retain. f_equal.
  unfold emitted. do 2 f_equal. apply imap_ext. intros i s _. cbn.
  by rewrite Hnow.
Qed.

(** No feedback is painted in yellow.  The style of lines 496-500 is
    for a MISS flagged [isMiss], and [draw] has skipped those at line 478:
    a feedback text is cyan (PERFECT), green (points) or red. *)
Theorem feedback_colours (fb : Feedback.t num) op :
  op ∈ paintFeedback fb ->
  op <> Ctx.fillStyle (Color "#ffff00")
  /\ (forall style, op = Ctx.fillStyle style ->
      style = Color "#00ffff" \/ style = Color "#00ff88"
      \/ style = Color "#ff4444").
Proof.
  unfold paintFeedback, feedbackText, feedbackStyle.
  destruct (String.eqb (Feedback.text fb) "MISS" && Feedback.isMiss fb)%bool;
    [by intros ?%elem_of_nil|].
  repeat split_if; cbn; rewrite !elem_of_cons, elem_of_nil;
    intros Hop; split; intros; destruct_or!; simplify_eq; auto.
Qed.

End PaintFacts.

(** ** Over the reals: the grid loops return *)

Section PaintExact.
Variables Math_sin Math_cos : R -> R.
Variables CANVAS_WIDTH CANVAS_HEIGHT : R.
Local Open Scope R_scope.

Lemma gridCount_done x limit : limit <= x -> gridCount x limit = 0%nat.
Proof.
  intros Hx. unfold gridCount.
  assert (Hle : (Zceil ((limit - x) / 12) <= Zceil 0)%Z)
    by (apply Zceil_le; lra).
  rewrite (Zceil_eq 0 0) in Hle by lra. lia.
Qed.

Lemma gridCount_step x limit :
  x < limit -> gridCount x limit = S (gridCount (x + 12) limit).
Proof.
  intros Hx. unfold gridCount.
  replace ((limit - x) / 12) with ((limit - (x + 12)) / 12 + IZR 1) by lra.
  rewrite Zceil_addz. pose proof (Zceil_bound ((limit - (x + 12)) / 12)) as Hq.
  assert (-1 < Zceil ((limit - (x + 12)) / 12))%Z; [|lia].
  apply lt_IZR. lra.
Qed.

(** With more fuel than it has points, a grid loop returns the body at
    each point. *)
Lemma gridLoop_exact fuel x limit (body : R -> list (Ctx.Op R)) :
  (gridCount x limit < fuel)%nat ->
  gridLoop fuel x limit body
  = Some (flat_map body (gridPoints x (gridCount x limit))).
Proof.
  revert x. induction fuel as [|fuel IH]; intros x Hfuel; [lia|].
  cbn [gridLoop]. split_if; to_R.
  - rewrite gridCount_step in * by done. rewrite IH by lia. done.
  - by rewrite gridCount_done.
Qed.

(** The points of a grid loop are 12 apart and below the limit. *)
Lemma gridPoints_spec x limit k y :
  gridPoints x (gridCount x limit) !! k = Some y ->
  y = x + 12 * INR k /\ y < limit.
Proof.
  remember (gridCount x limit) as n eqn:Hn. revert x k Hn.
  induction n as [|n IH]; intros x k Hn; [done|].
  destruct (Rlt_le_dec x limit) as [Hx|Hx];
    [|by rewrite gridCount_done in Hn].
  rewrite gridCount_step in Hn by done.
  destruct k as [|k]; cbn [gridPoints lookup list_lookup].
  - intros [= <-]. cbn. lra.
  - rewrite S_INR. intros [-> Hy]%IH; [|congruence]. lra.
Qed.

(** The painting returns on every canvas.  Over the reals the two
    loops of the net grid make one line every 12 units from the left edge
    and from the net line, all of them inside the canvas, and with more
    fuel than there are lines in either direction [paint] returns. *)
Theorem paint_returns fuel now Date_now (g : Game.t R) :
  let columns := gridCount 0 CANVAS_WIDTH in
  let rows := gridCount (NET_Y CANVAS_HEIGHT) CANVAS_HEIGHT in
  (columns < fuel)%nat -> (rows < fuel)%nat ->
  paintNet CANVAS_WIDTH CANVAS_HEIGHT fuel
  = Some ([Ctx.strokeStyle (Color "rgba(100, 150, 255, 0.4)");
           Ctx.lineWidth 1]
          ++ flat_map (verticalLine CANVAS_HEIGHT) (gridPoints 0 columns)
          ++ flat_map (horizontalLine CANVAS_WIDTH)
               (gridPoints (NET_Y CANVAS_HEIGHT) rows))
  /\ is_Some (paint Math_sin Math_cos CANVAS_WIDTH CANVAS_HEIGHT fuel now
                Date_now g)
  /\ Forall (fun x => 0 <= x < CANVAS_WIDTH) (gridPoints 0 columns)
  /\ Forall (fun y => NET_Y CANVAS_HEIGHT <= y < CANVAS_HEIGHT)
       (gridPoints (NET_Y CANVAS_HEIGHT) rows).
Proof.
  intros columns rows Hc Hr.
  assert (Hnet : paintNet CANVAS_WIDTH CANVAS_HEIGHT fuel = Some
            ([Ctx.strokeStyle (Color "rgba(100, 150, 255, 0.4)");
              Ctx.lineWidth 1]
             ++ flat_map (verticalLine CANVAS_HEIGHT) (gridPoints 0 columns)
             ++ flat_map (horizontalLine CANVAS_WIDTH)
                  (gridPoints (NET_Y CANVAS_HEIGHT) rows))).
  { unfold paintNet. change (#0)%num with 0.
    by rewrite !gridLoop_exact by done. }
  split; [done|]. split; [unfold paint; by rewrite Hnet|].
  split; apply Forall_lookup; intros k y [-> Hy]%gridPoints_spec;
    (split; [|done]); pose proof (pos_INR k); lra.
Qed.

End PaintExact.

(** ** In binary64 *)

Section PaintBinary64.
Local Open Scope float_scope.

(** Far from zero the counter of a grid loop stops growing: at 2^60 adding
    12 is absorbed by the rounding, and the loop makes no progress. *)
Lemma gridLoop_absorbed fuel (body : float -> list (Ctx.Op float)) :
  gridLoop fuel 0x1p60 0x1p61 body = None.
Proof.
  assert (Hadd : Number.add 0x1p60 (of_Z 12) = 0x1p60)
    by (vm_compute; reflexivity).
  assert (Hlt : Number.ltb 0x1p60 0x1p61 = true) by (vm_compute; reflexivity).
  induction fuel as [|fuel IH]; [done|]. cbn [gridLoop].
  by rewrite Hlt, Hadd, IH.
Qed.

(** A frame of the sample session on a 1920 x 1080 canvas, after a
    miss: the grid has 160 columns and 32 rows, so the painting returns
    from fuel 161 on and not before; it makes 1021 calls; the texts it
    paints are the MISS of the net click and the PERFECT of the hit, the
    last pushed first, and not the MISS of the miss; the only calls
    painted under a transformation are the fill and the stroke of each of
    the eight sparkles. *)
Theorem frame_sample :
  paintFrame PaintSample.sin PaintSample.cos 161 3116 3116 PaintSample.clock
    0.5 PaintSample.missed
  = Some PaintSample.frame
  /\ paintFrame PaintSample.sin PaintSample.cos 160 3116 3116
       PaintSample.clock 0.5 PaintSample.missed
     = None
  /\ length PaintSample.frame = 1021%nat
  /\ PaintSample.texts (Context.painted PaintSample.after)
     = ["MISS"; "PERFECT"]%string
  /\ length (filter (fun e => Pen.transform e.2 <> [])
               (Context.painted PaintSample.after)) = 16%nat.
Proof. vm_compute. repeat split. Qed.

Lemma gridReturns_rounds fuel x limit :
  gridReturns fuel x limit = rounds fuel x limit.
Proof.
  revert x. induction fuel as [|fuel IH]; intros x; [done|].
  cbn [gridReturns rounds]. by rewrite IH.
Qed.

(** On a canvas 8192 pixels wide the loop of the columns is over within
    700 rounds, and so is the loop of the rows on every canvas of up to
    8192 pixels in height. *)
Lemma columns_return : rounds 700 0 8192 = true.
Proof. vm_cast_no_check (eq_refl true). Qed.

Lemma rows_return : allFrom (rowsReturn 700) 0 (Z.to_nat 8193) = true.
Proof. vm_cast_no_check (eq_refl true). Qed.

(** On a canvas of any width up to 8192 and any integral height up to
    8192, both grid loops are over within 700 rounds. *)
Lemma grids_return (width : float) (height : Z) fuel :
  (width <=? 8192)%float = true -> (0 <= height <= 8192)%Z ->
  (700 <= fuel)%nat ->
  gridReturns fuel 0%float width = true
  /\ gridReturns (num := float) fuel (NET_Y (#height)%num) (#height)%num
     = true.
Proof.
  intros Hw Hh Hfuel. split.
  - apply (gridReturns_mono 700), (gridReturns_limit _ _ 8192%float);
      [done.. |]. rewrite gridReturns_rounds. apply columns_return.
  - apply (gridReturns_mono 700); [done|]. rewrite gridReturns_rounds.
    apply (allFrom_spec (rowsReturn 700) 0 (Z.to_nat 8193) rows_return).
    lia.
Qed.

(** C34. In binary64 the painting returns on every screen.  On a canvas of
    any width up to 8192 and any integral height up to 8192, the two loops
    of the net grid, whose counters are numbers, are over within 700
    rounds: with that fuel or more [paint] returns, on every game. *)
Theorem paint_returns_binary64 Math_sin Math_cos (width : float)
    (height : Z) fuel now Date_now (g : Game.t float) :
  (width <=? 8192)%float = true -> (0 <= height <= 8192)%Z ->
  (700 <= fuel)%nat ->
  gridReturns fuel 0%float width = true
  /\ gridReturns (num := float) fuel (NET_Y (#height)%num) (#height)%num
     = true
  /\ is_Some (paint Math_sin Math_cos width (#height)%num fuel now
                Date_now g).
Proof.
  intros Hw Hh Hfuel.
  destruct (grids_return width height fuel Hw Hh Hfuel) as [Hc Hr].
  split; [done|]. split; [done|]. by apply paint_is_Some.
Qed.

End PaintBinary64.

(** ** The theorems at the samples *)

Lemma frame_returns :
  paint PaintSample.sin PaintSample.cos 1920%float 1080%float 161 3116
    PaintSample.clock (beforeDraw 3116 0.5%float PaintSample.missed)
  = Some PaintSample.frame.
Proof. vm_compute. reflexivity. Qed.

Lemma gridCount_sample :
  gridCount 0 1920 = 160%nat /\ gridCount (NET_Y 1080%R) 1080 = 32%nat.
Proof.
  unfold gridCount, NET_Y. to_R.
  rewrite (Zceil_eq 160), (Zceil_eq 32); [done| |]; lra.
Qed.

Lemma paint_keeps_context_witness :
  let c' := execAll PaintSample.frame freshContext in
  Context.saved c' = []
  /\ Pen.transform (Context.pen c') = []
  /\ Pen.globalAlpha (Context.pen c') = 1%float
  /\ Pen.shadowColor (Context.pen c') = "transparent"%string
  /\ Forall (fun e => flat e.1 = true -> Pen.transform e.2 = [])
       (paintedBy PaintSample.frame freshContext).
Proof.
  exact (paint_keeps_context PaintSample.sin PaintSample.cos _ _ 161 3116
           PaintSample.clock _ PaintSample.frame freshContext frame_returns).
Defined.

Lemma paint_live_witness :
  let g : Game.t R := Game.set_feedback [RenderSample.plus50] Game.init in
  let g' := draw 1920%R g in
  paintTargets sin 1920%R 3%R (Game.targets g)
  = flat_map (paintTarget sin 3%R) (Game.targets g')
  /\ paintFeedbacks (Game.feedback g)
     = flat_map paintFeedback (reverse (Game.feedback g'))
       ++ [Ctx.globalAlpha 1%R]
  /\ (forall now, (forall i : nat, 3116%Z = now) ->
      paintSparkles sin cos (fun _ => 3116%Z) (Game.sparkles g)
      = flat_map (paintSparkle sin cos now) (reverse (Game.sparkles g'))
        ++ [Ctx.shadowColor "transparent"; Ctx.globalAlpha 1%R]).
Proof.
  exact (paint_live sin cos 1920%R 3%R (fun _ => 3116%Z)
           (Game.set_feedback [RenderSample.plus50] Game.init)).
Defined.

Lemma feedback_colours_witness :
  let op : Ctx.Op R := Ctx.fillStyle (Color "#00ff88") in
  op <> Ctx.fillStyle (Color "#ffff00")
  /\ (forall style, op = Ctx.fillStyle style ->
      style = Color "#00ffff" \/ style = Color "#00ff88"
      \/ style = Color "#ff4444").
Proof.
  apply (feedback_colours RenderSample.plus50).
  by apply (list_elem_of_lookup_2 _ 3).
Defined.

Lemma paint_returns_witness :
  paintNet 1920%R 1080%R 161
  = Some ([Ctx.strokeStyle (Color "rgba(100, 150, 255, 0.4)");
           Ctx.lineWidth 1%R]
          ++ flat_map (verticalLine 1080%R) (gridPoints 0 (gridCount 0 1920))
          ++ flat_map (horizontalLine 1920%R)
               (gridPoints (NET_Y 1080%R) (gridCount (NET_Y 1080%R) 1080)))
  /\ is_Some (paint sin cos 1920%R 1080%R 161 3116 (fun _ => 3116%Z)
                Game.init)
  /\ Forall (fun x => 0 <= x < 1920)%R (gridPoints 0 (gridCount 0 1920))
  /\ Forall (fun y => NET_Y 1080 <= y < 1080)%R
       (gridPoints (NET_Y 1080%R) (gridCount (NET_Y 1080%R) 1080)).
Proof.
  apply (paint_returns sin cos 1920%R 1080%R 161);
    destruct gridCount_sample as [Hc Hr]; rewrite ?Hc, ?Hr; lia.
Defined.

Lemma paint_returns_binary64_witness :
  gridReturns 700 0%float 1920%float = true
  /\ gridReturns 700 (NET_Y 1080%float) 1080%float = true
  /\ is_Some (paint PaintSample.sin PaintSample.cos 1920%float 1080%float
                700 3116 PaintSample.clock
                (beforeDraw 3116 0.5%float PaintSample.missed)).
Proof.
  apply (paint_returns_binary64 PaintSample.sin PaintSample.cos 1920%float
           1080 700 3116 PaintSample.clock); [reflexivity | lia | lia].
Defined.
