(* ===== verification/Effects.v ===== *)
(** * Effects: how bright a feedback and a sparkle are painted

    A feedback is pushed with [opacity: 1] (lines 197-204, 226-233 and
    243-250 of [src/app/page.tsx]) and a sparkle with [life: 1] (lines
    254-261); every frame takes 0.02 off (lines 412 and 470), removes the
    entry when nothing is left (lines 414 and 472), and paints the others
    with [ctx.globalAlpha = fb.opacity] (line 477) and
    [ctx.globalAlpha = sparkle.life * 0.8] (line 445).  The canvas ignores
    an alpha outside the range 0 to 1 ([Canvas.validAlpha]).

    The values an effect can have are the [level]s: 1 less 0.02, [n] times,
    in the arithmetic of the numbers.  [effectsOk N] says that every entry of
    the two arrays is at one of the first [N + 1] levels.  When level
    [N + 1] is removed ([fadesOut N]) this is an invariant of the component,
    and when the alphas of the first [N + 1] levels are valid
    ([alphasValid N]) the canvas takes every alpha a frame sets.  Both
    conditions are evaluated at binary64 for [N = 49], and proved over the
    reals: the theorems hold of every state the component reaches, in
    binary64 as over the reals.  When moreover the levels up to [N] survive
    their frame ([shinesTo N]), an effect lives exactly [N] frames
    ([effect_lifetime]). *)

From Stdlib Require Import ZArith String Floats Reals Lra Lia.
From stdpp Require Import base option list.
From S2P Require Import Prelude Number Float64 Exact Order Binary64 Types.
From S2P Require Import Spawner Scoring Render Session Canvas Paint.

Local Open Scope list_scope.

Section Levels.
Context {num : Type} `{!Number num}.
Local Open Scope num_scope.

(** The [opacity] or [life] of an effect [n] frames after it was pushed:
    1, and [-= 0.02] per frame. *)
Definition level (n : nat) : num := Nat.iter n (fun x => x - dec 2 100) #1.

(** An effect at level [N] does not survive the next frame. *)
Definition fadesOut (N : nat) : bool := level (S N) <=? #0.

(** The canvas takes the alphas of lines 445 and 477 at the levels up to
    [N]. *)
Definition alphasValid (N : nat) : bool :=
  forallb (fun n => validAlpha (level n) && validAlpha (level n * dec 8 10))
    (seq 0 (S N)).

(** The levels 1 to [N] survive their frame. *)
Definition shinesTo (N : nat) : bool :=
  forallb (fun n => negb (level n <=? #0)) (seq 1 N).

(** A sparkle after [n] frames that it survives: aged and spun in each. *)
Definition agedBy (n : nat) (s : Sparkle.t num) : Sparkle.t num :=
  Nat.iter n (fun s => spinSparkle (ageSparkle s)) s.

Definition atLevel (N : nat) (x : num) : Prop :=
  exists n, (n <= N)%nat /\ x = level n.

(** Every feedback and every sparkle is at one of the levels up to [N]. *)
Definition effectsOk (N : nat) (g : Game.t num) : Prop :=
  Forall (fun fb => atLevel N (Feedback.opacity fb)) (Game.feedback g)
  /\ Forall (fun s => atLevel N (Sparkle.life s)) (Game.sparkles g).

End Levels.

(** ** Sample inputs, for the concrete instances of the theorems *)

Module EffectSample.

(** The sample session followed by a click on the empty court: the state
    [PaintSample.missed], by its events. *)
Definition events : list (@Event float) :=
  (Scenario.opening ++ Scenario.play ++ [Click 100 100 3100])%float.

(** The feedback of a hit worth 50 points and a sparkle, as pushed. *)
Definition plus50 : Feedback.t float :=
  Feedback.mk float 575%float 432%float "+50"%string 50 1%float false.

Definition spark : Sparkle.t float :=
  (Sparkle.mk float 100 100 1 0 3 0.5)%float.

End EffectSample.

(** ** The invariant *)

Section EffectFacts.
Context {num : Type} `{!Number num}.
Variable Math_random : nat -> num.
Variable N : nat.
Hypothesis fades : fadesOut (num := num) N = true.
Local Open Scope num_scope.

Lemma atLevel_pushed : atLevel N (#1 : num).
Proof. exists 0%nat. split; [lia | done]. Qed.

(** A level that survives a frame is followed by a level. *)
Lemma atLevel_faded (x : num) :
  atLevel N x -> (x - dec 2 100 <=? #0) = false -> atLevel N (x - dec 2 100).
Proof using fades.
  intros (n & Hn & ->) Halive. exists (S n). split; [|done].
  destruct (decide (n = N)) as [->|]; [|lia].
  pose proof fades as Hout. unfold fadesOut in Hout.
  change (level (S N)) with (level N - dec 2 100) in Hout. congruence.
Qed.

Lemma effectsOk_init : effectsOk N (Game.init (num := num)).
Proof. split; constructor. Qed.

(** [draw] keeps the effects at their levels. *)
Lemma draw_effects W (g : Game.t num) : effectsOk N g -> effectsOk N (draw W g).
Proof using fades.
  intros [Hfb Hs]. unfold effectsOk, draw, drawSparkles, drawFeedback.
  cbn [Game.feedback Game.sparkles Game.set_targets Game.set_sparkles
       Game.set_feedback].
  rewrite !retainBackward_retain.
  split; [eapply retain_Forall, Hfb | eapply retain_Forall, Hs];
    intros e He Halive; by apply atLevel_faded.
Qed.

(** A spawn leaves the effects alone. *)
Lemma addNewTarget_effects W H0 d fuel diff now (g g' : Game.t num) k k' :
  addNewTarget Math_random W H0 d fuel diff now g k = Some (g', k') ->
  effectsOk N g -> effectsOk N g'.
Proof.
  by intros (? & ? & ? & ? & ? & ? & _ & _ & _ & ->)%addNewTarget_inv.
Qed.

(** A click pushes effects at level 0. *)
Lemma click_effects W H0 d gs fuel clickX clickY now (g g' : Game.t num) k k' :
  handleCanvasClick Math_random W H0 d gs fuel clickX clickY now g k
  = Some (g', k') ->
  effectsOk N g -> effectsOk N g'.
Proof.
  intros Hclick [Hfb Hs].
  assert (Hpush : forall fb : Feedback.t num,
            Feedback.opacity fb = #1 ->
            Forall (fun fb => atLevel N (Feedback.opacity fb))
              (Game.feedback g ++ [fb])).
  { intros fb Hfb1. apply Forall_app. split; [done|].
    repeat constructor. rewrite Hfb1. apply atLevel_pushed. }
  apply handleCanvasClick_clicked in Hclick
    as [| |i target g1 k1 _ _ _ _ _
            (fresh & _ & _ & _ & _ & _ & _ & _ & Hf & Hsp)%scoreHit_inv|];
    unfold effectsOk; rewrite ?Hf, ?Hsp;
    (split; [first [done | by apply Hpush] | try done]).
  apply Forall_app. split; [done|]. repeat constructor; apply atLevel_pushed.
Qed.

Lemma initializeGame_effects fuel d now a a' :
  initializeGame Math_random fuel d now a = Some a' ->
  effectsOk N (App.gameRef a').
Proof.
  intros (g1 & k1 & g2 & k2 & H1 & H2 & ->)%initializeGame_inv.
  eauto using addNewTarget_effects, effectsOk_init.
Qed.

Lemma beforeDraw_effects now sin2t a :
  effectsOk N (App.gameRef a) -> effectsOk N (beforeDraw now sin2t a).
Proof. unfold beforeDraw. by destruct (App.difficulty a). Qed.

Lemma gameLoop_effects now sin2t a :
  effectsOk N (App.gameRef a) ->
  effectsOk N (App.gameRef (gameLoop now sin2t a)).
Proof using fades.
  intros Hok%(beforeDraw_effects now sin2t).
  apply (draw_effects (App.loopCanvasWidth a)) in Hok.
  unfold gameLoop. split_if; by rewrite ?gameLoopEffect_gameRef.
Qed.

(** Every handler keeps the effects at their levels. *)
Lemma handled_effects fuel e a a' :
  handled Math_random fuel e a a' ->
  effectsOk N (App.gameRef a) -> effectsOk N (App.gameRef a').
Proof using fades.
  intros [w h a0|d now eff a0 a1 _ Hinit|stats now eff a0 a1 _ _ Hinit
          |a0 _ _|x y now a0 a1 _ Hclick|x y a0 _|now s a0 _] Hok;
    rewrite ?gameLoopEffect_gameRef;
    eauto using initializeGame_effects, gameLoop_effects.
  revert Hclick. unfold canvasClick.
  intros ([g k] & Hclick & [= <-])%bind_Some. by eapply click_effects.
Qed.

Lemma reachable_effects a :
  reachable Math_random a -> effectsOk N (App.gameRef a).
Proof using fades.
  induction 1 as [|fuel e a a' _ IH Hstep%handle_handled];
    [apply effectsOk_init | by eapply handled_effects].
Qed.

End EffectFacts.

(** ** How long an effect lives *)

Section Lifetime.
Context {num : Type} `{!Number num}.
Variable N : nat.
Hypothesis shines : shinesTo (num := num) N = true.
Hypothesis fades : fadesOut (num := num) N = true.
Local Open Scope num_scope.

Lemma drawFeedback_single (fb : Feedback.t num) :
  drawFeedback [fb]
  = if deadFeedback (fadeFeedback fb) then [] else [fadeFeedback fb].
Proof.
  unfold drawFeedback. rewrite retainBackward_retain. unfold retain. cbn.
  by destruct (deadFeedback _).
Qed.

Lemma drawSparkles_single (s : Sparkle.t num) :
  drawSparkles [s]
  = if deadSparkle (ageSparkle s) then []
    else [spinSparkle (ageSparkle s)].
Proof.
  unfold drawSparkles. rewrite retainBackward_retain. unfold retain. cbn.
  by destruct (deadSparkle _).
Qed.

Lemma agedBy_life n (s : Sparkle.t num) :
  Sparkle.life s = #1 -> Sparkle.life (agedBy n s) = level n.
Proof.
  intros Hs. induction n as [|n IH]; [done|].
  unfold agedBy, level. rewrite !Nat.iter_succ. cbn. f_equal. exact IH.
Qed.

(** The test of the loops at level [n + 1]: false up to [N], true at
    [N + 1]. *)
Lemma level_dead n :
  (n <= N)%nat -> (level (S n) <=? #0) = negb (S n <=? N)%nat.
Proof using shines fades.
  intros Hn. destruct (Nat.leb_spec (S n) N) as [Hle|Hgt]; cbn [negb].
  - apply negb_true_iff.
    apply (proj1 (forallb_forall _ _) shines (S n)), in_seq. lia.
  - assert (n = N) as -> by lia. exact fades.
Qed.

(** An effect pushed is in its array, at level [n], after each of the
    first [N] frames, and the next frame removes it. *)
Lemma effect_lifetime (fb : Feedback.t num) (s : Sparkle.t num) n :
  Feedback.opacity fb = #1 -> Sparkle.life s = #1 ->
  Nat.iter n drawFeedback [fb]
  = (if (n <=? N)%nat then [Feedback.set_opacity (level n) fb] else [])
  /\ Nat.iter n drawSparkles [s]
     = (if (n <=? N)%nat then [agedBy n s] else []).
Proof using shines fades.
  intros Hfb Hs. induction n as [|n [IHfb IHs]].
  { split; [|done]. cbn. destruct fb. cbn in Hfb. by subst. }
  rewrite !Nat.iter_succ, IHfb, IHs.
  destruct (Nat.leb_spec n N) as [Hn|Hn]; cycle 1.
  { destruct (Nat.leb_spec (S n) N); [lia | done]. }
  rewrite drawFeedback_single, drawSparkles_single.
  unfold deadFeedback, deadSparkle. cbn [fadeFeedback ageSparkle
    Feedback.opacity Feedback.set_opacity Sparkle.life Sparkle.set_life].
  rewrite (agedBy_life n s Hs).
  change (level n - dec 2 100) with (level (S n)).
  rewrite (level_dead n Hn). by destruct (S n <=? N)%nat.
Qed.

End Lifetime.

(** ** What a frame paints *)

Section FrameAlphas.
Context {num : Type} `{!Number num}.
Variable Math_random : nat -> num.
Variables Math_sin Math_cos : num -> num.
Variable N : nat.
Hypothesis fades : fadesOut (num := num) N = true.
Hypothesis valid : alphasValid (num := num) N = true.
Local Open Scope num_scope.

Lemma atLevel_alpha (x : num) :
  atLevel N x -> validAlpha x = true /\ validAlpha (x * dec 8 10) = true.
Proof using valid.
  intros (n & Hn & ->). apply andb_true_iff.
  apply (proj1 (forallb_forall _ _) valid). apply in_seq. lia.
Qed.

Lemma validAlpha_pushed : validAlpha (#1 : num) = true.
Proof using valid. apply atLevel_alpha, atLevel_pushed. Qed.

Lemma paintSparkle_accepted now (s : Sparkle.t num) :
  atLevel N (Sparkle.life s) ->
  forallb accepted (paintSparkle Math_sin Math_cos now s) = true.
Proof using valid.
  intros [_ Hs]%atLevel_alpha. unfold paintSparkle. cbn. by rewrite Hs.
Qed.

Lemma paintFeedback_accepted (fb : Feedback.t num) :
  atLevel N (Feedback.opacity fb) ->
  forallb accepted (paintFeedback fb) = true.
Proof using valid.
  intros [Hfb _]%atLevel_alpha. unfold paintFeedback, feedbackStyle.
  destruct (feedbackText fb) as [[[text x] y]|]; [|done].
  cbn. rewrite Hfb. by repeat split_if.
Qed.

(** The calls of the two effect loops, on effects at their levels. *)
Lemma paintEffects_accepted Date_now (g : Game.t num) :
  effectsOk N g ->
  forallb accepted (paintSparkles Math_sin Math_cos Date_now (Game.sparkles g)
                    ++ paintFeedbacks (Game.feedback g)) = true.
Proof using fades valid.
  intros [Hfb Hs].
  pose proof (proj1 (List.Forall_forall _ _) Hfb) as Hfb'.
  pose proof (proj1 (List.Forall_forall _ _) Hs) as Hs'.
  unfold paintSparkles, paintFeedbacks.
  rewrite !emitBackward_emitted, !forallb_app. cbn.
  rewrite validAlpha_pushed, !andb_true_r. apply andb_true_iff.
  split; apply emitted_Forall; try done;
    try (intros e1 e2 H1 H2; by rewrite forallb_app, H1, H2).
  - intros j s Hin Halive.
    apply paintSparkle_accepted, (atLevel_faded N fades); auto.
  - intros j fb Hin Halive.
    apply paintFeedback_accepted, (atLevel_faded N fades); auto.
Qed.

(** The canvas takes every call of a frame painted in a state whose
    effects are at their levels. *)
Lemma paint_accepted W H0 fuel now Date_now (g : Game.t num) ops :
  effectsOk N g ->
  paint Math_sin Math_cos W H0 fuel now Date_now g = Some ops ->
  forallb accepted ops = true.
Proof using fades valid.
  intros Hok (court & Hcourt%steady_accepted & ->)%paint_court.
  by rewrite forallb_app, Hcourt, paintEffects_accepted.
Qed.

Lemma frame_accepted fuel now drawNow Date_now sin2t (a : App.t num) ops :
  reachable Math_random a ->
  paintFrame Math_sin Math_cos fuel now drawNow Date_now sin2t a = Some ops ->
  effectsOk N (App.gameRef a) /\ forallb accepted ops = true.
Proof using fades valid.
  intros Hok%(reachable_effects Math_random N fades) Hpaint.
  split; [done|]. eapply paint_accepted, Hpaint.
  by apply beforeDraw_effects.
Qed.

End FrameAlphas.

(** ** Binary64 and the reals *)

(** In binary64 the 49th level is 0.019999999999999383 and the 50th is
    below 0. *)
Lemma fadesOut_binary64 : fadesOut (num := float) 49 = true.
Proof. vm_compute. reflexivity. Qed.

Lemma alphasValid_binary64 : alphasValid (num := float) 49 = true.
Proof. vm_compute. reflexivity. Qed.

Lemma level_exact (n : nat) : level n = (1 - INR n * (2 / 100))%R.
Proof.
  induction n as [|n IH]; [cbn; lra|].
  change (level (S n)) with (level n - dec 2 100)%num.
  rewrite IH, S_INR, dec_R. cbn. lra.
Qed.

Lemma fadesOut_exact : fadesOut (num := R) 49 = true.
Proof.
  unfold fadesOut. rewrite level_exact, INR_IZR_INZ. apply leb_true.
  change (Z.of_nat 50) with 50%Z. cbn. lra.
Qed.

Lemma alphasValid_exact : alphasValid (num := R) 49 = true.
Proof.
  apply forallb_forall. intros n [_ Hn%lt_INR]%in_seq.
  rewrite (INR_IZR_INZ (0 + 50)) in Hn.
  change (Z.of_nat (0 + 50)) with 50%Z in Hn.
  unfold validAlpha. rewrite level_exact, dec_R.
  pose proof (pos_INR n).
  rewrite !andb_true_iff, !leb_true. cbn. lra.
Qed.

Lemma shinesTo_binary64 : shinesTo (num := float) 49 = true.
Proof. vm_compute. reflexivity. Qed.

(** C32. An effect lives 49 frames in binary64, as over the reals.  A
    feedback pushed with opacity 1 is in the array after each of the first
    49 calls of [draw], with 0.02 taken off its opacity in each, and the
    50th call removes it; so is a sparkle pushed with life 1, aged and spun
    in each frame. *)
Theorem effect_lifetime_binary64 (fb : Feedback.t float)
    (s : Sparkle.t float) n :
  Feedback.opacity fb = 1%float -> Sparkle.life s = 1%float ->
  Nat.iter n drawFeedback [fb]
  = (if (n <=? 49)%nat then [Feedback.set_opacity (level n) fb] else [])
  /\ Nat.iter n drawSparkles [s]
     = (if (n <=? 49)%nat then [agedBy n s] else []).
Proof. apply (effect_lifetime 49 shinesTo_binary64 fadesOut_binary64). Qed.

(** C31. In binary64, in every state the component reaches, every feedback
    and every sparkle has one of the fifty values 1, 1 - 0.02,
    1 - 0.02 - 0.02, ... that are above 0, and every alpha that a frame
    assigns to the context (the faded opacity of a feedback, 0.8 times the
    aged life of a sparkle, the 1 after each loop) is in the range 0 to 1:
    the canvas ignores none of them.  The painting of the frame returns, on
    every canvas of a width up to 8192 and an integral height up to 8192. *)
Theorem frame_alphas_binary64 Math_random Math_sin Math_cos fuel now drawNow
    Date_now sin2t (a : App.t float) :
  reachable Math_random a ->
  effectsOk 49 (App.gameRef a)
  /\ (forall ops,
        paintFrame Math_sin Math_cos fuel now drawNow Date_now sin2t a
        = Some ops ->
        forallb accepted ops = true)
  /\ (forall height : Z,
        (App.loopCanvasWidth a <=? 8192)%float = true ->
        App.loopCanvasHeight a = (#height)%num ->
        (0 <= height <= 8192)%Z -> (700 <= fuel)%nat ->
        is_Some (paintFrame Math_sin Math_cos fuel now drawNow Date_now
                   sin2t a)).
Proof.
  intros Ha. split; [|split].
  - by apply (reachable_effects Math_random 49 fadesOut_binary64).
  - intros ops Hpaint.
    by destruct (frame_accepted Math_random _ _ 49 fadesOut_binary64
                   alphasValid_binary64 _ _ _ _ _ a ops Ha Hpaint).
  - intros height Hw Hheight Hh Hfuel. unfold paintFrame. rewrite Hheight.
    destruct (grids_return _ height fuel Hw Hh Hfuel).
    by apply paint_is_Some.
Qed.

(** The same over the reals. *)
Theorem frame_alphas_exact Math_random Math_sin Math_cos fuel now drawNow
    Date_now sin2t (a : App.t R) ops :
  reachable Math_random a ->
  paintFrame Math_sin Math_cos fuel now drawNow Date_now sin2t a = Some ops ->
  effectsOk 49 (App.gameRef a) /\ forallb accepted ops = true.
Proof. apply (frame_accepted _ _ _ 49 fadesOut_exact alphasValid_exact). Qed.

(** ** The theorems at the samples *)

Lemma missed_reachable : reachable Sample.random PaintSample.missed.
Proof.
  apply (run_reachable _ 10 EffectSample.events App.init); [constructor|].
  vm_compute. reflexivity.
Qed.

Lemma frame_alphas_binary64_witness :
  effectsOk 49 (App.gameRef PaintSample.missed)
  /\ forallb accepted PaintSample.frame = true
  /\ is_Some (paintFrame PaintSample.sin PaintSample.cos 700 3116 3116
                PaintSample.clock 0.5%float PaintSample.missed).
Proof.
  destruct (frame_alphas_binary64 Sample.random PaintSample.sin
              PaintSample.cos 700 3116 3116 PaintSample.clock 0.5%float
              PaintSample.missed missed_reachable)
    as (Hok & _ & Hreturns).
  destruct (frame_alphas_binary64 Sample.random PaintSample.sin
              PaintSample.cos 161 3116 3116 PaintSample.clock 0.5%float
              PaintSample.missed missed_reachable)
    as (_ & Haccepted & _).
  split; [exact Hok|]. split; [exact (Haccepted _ frame_returns)|].
  apply (Hreturns 1080%Z); [reflexivity | reflexivity | lia | lia].
Defined.

Lemma effect_lifetime_binary64_witness :
  Nat.iter 49 drawFeedback [EffectSample.plus50]
  = [Feedback.set_opacity (level 49) EffectSample.plus50]
  /\ Nat.iter 50 drawSparkles [EffectSample.spark] = [].
Proof.
  split.
  - exact (proj1 (effect_lifetime_binary64 EffectSample.plus50
                    EffectSample.spark 49 eq_refl eq_refl)).
  - exact (proj2 (effect_lifetime_binary64 EffectSample.plus50
                    EffectSample.spark 50 eq_refl eq_refl)).
Defined.
