(* ===== verification/Pointer.v ===== *)
(** * Pointer: the cursor position is presentation only

    [handleMouseMove] ([src/app/page.tsx], lines 267-277) stores the
    position of the pointer in [gameRef.current.mousePos] and nothing reads
    it: no handler, not the painting of [draw], not the screens.  This file
    makes that a theorem: two states that differ in [mousePos] only are
    equivalent ([sameGame]), every handler takes equivalent states to
    equivalent states ([handle_proper]), equivalent states are painted and
    displayed alike ([paintFrame_proper], [render_proper]), and so the moves
    of the pointer can be erased from a run without changing the game it
    ends in or what the player sees. *)

From Stdlib Require Import ZArith String Floats Morphisms.
From stdpp Require Import base option list.
From S2P Require Import Prelude Number Float64 Types Spawner Scoring Render.
From S2P Require Import Session View Canvas Paint.

(** A state with the pointer position forgotten. *)
Definition erase {num : Type} `{!Number num} (a : App.t num) : App.t num :=
  App.set_gameRef
    (Game.set_mousePos ((#0)%num, (#0)%num) (App.gameRef a)) a.

(** Two states of the same game: equal but for the pointer position. *)
Definition sameGame {num : Type} `{!Number num} (a b : App.t num) : Prop :=
  erase a = erase b.

(** The events that are not moves of the pointer. *)
Definition notMove {num : Type} (e : @Event num) : bool :=
  match e with MouseMove _ _ => false | _ => true end.

(** ** Sample input *)

Module PointerSample.
Section Binary64.
Local Open Scope float_scope.

(** The sample session with the pointer moving between the clicks. *)
Definition events : list (@Event float) :=
  Scenario.opening
  ++ [MouseMove 300 200; Click 575 432 2500; MouseMove 575 880;
      Frame 2516 0.5; Click 575 900 3000; MouseMove 10 10;
      Frame 61010 0.5].

Definition final : App.t float :=
  Eval vm_compute in
    default App.init (run Sample.random 10 events App.init).

End Binary64.
End PointerSample.

Section PointerFacts.
Context {num : Type} `{!Number num}.
Variable Math_random : nat -> num.
Implicit Types (g : Game.t num) (a b : App.t num).

#[export] Instance sameGame_equivalence : Equivalence (sameGame (num := num)).
Proof.
  unfold sameGame. split.
  - by intros a.
  - by intros a b.
  - intros a b c Hab Hbc. by rewrite Hab.
Qed.

(** [addNewTarget] does not read the pointer position. *)
Lemma addNewTarget_mousePos W H0 d fuel diff now p g k :
  addNewTarget Math_random W H0 d fuel diff now (Game.set_mousePos p g) k
  = prod_map (Game.set_mousePos p) id
      <$> addNewTarget Math_random W H0 d fuel diff now g k.
Proof.
  unfold addNewTarget. cbn [Game.targets Game.set_mousePos].
  destruct (placement _ _ _ _ _ _) as [[[[size radius] x] k1]|]; [|done].
  by destruct (drawVelocity _ _ _).
Qed.

(** Neither does [handleCanvasClick]. *)
Lemma click_mousePos W H0 d gs fuel clickX clickY now p g k :
  handleCanvasClick Math_random W H0 d gs fuel clickX clickY now
    (Game.set_mousePos p g) k
  = prod_map (Game.set_mousePos p) id
      <$> handleCanvasClick Math_random W H0 d gs fuel clickX clickY now g k.
Proof.
  unfold handleCanvasClick. destruct gs; try done.
  destruct (_ >? _)%num; [done|]. cbn [Game.targets Game.set_mousePos].
  destruct (scanBackward _ _ _) as [[i target]|].
  - unfold scoreHit. destruct (calculatePoints _ _) as [points label].
    destruct (String.eqb label "PERFECT");
      lazymatch goal with
      | |- _ = _ <$> addNewTarget _ _ _ _ _ _ _ ?g0 _ =>
          exact (addNewTarget_mousePos W H0 d fuel None now p g0 k)
      end.
  - unfold missEffects. by rewrite !sparkleBurst_spec.
Qed.

(** A frame commutes with forgetting the pointer. *)
Lemma gameLoop_erase now sin2t a :
  gameLoop now sin2t (erase a) = erase (gameLoop now sin2t a).
Proof.
  destruct a as [cs gs d st [sc tl tg fb sp nid ph th mp rt] t0 w h an rc].
  unfold gameLoop, beforeDraw, gameLoopEffect, erase. destruct d; cbn; split_if; done.
Qed.

(** Every handler, on a state with the pointer forgotten. *)
Lemma handle_erase fuel e a :
  erase <$> handle Math_random fuel e (erase a)
  = erase <$> handle Math_random fuel e a.
Proof.
  unfold handle. change (App.gameState (erase a)) with (App.gameState a).
  destruct e, (App.gameState a); try done.
  - change (App.gameStats (erase a)) with (App.gameStats a).
    by destruct (App.gameStats a).
  - unfold canvasClick. cbn [erase App.gameRef App.set_gameRef].
    change (handleCanvasClick _ (CANVAS_WIDTH (erase a)) (CANVAS_HEIGHT (erase a))
              (App.difficulty (erase a)) (App.gameState (erase a)))
      with (handleCanvasClick Math_random (CANVAS_WIDTH a) (CANVAS_HEIGHT a)
              (App.difficulty a) (App.gameState a)).
    rewrite click_mousePos.
    by destruct (handleCanvasClick _ _ _ _ _ _ _ _ _ _ _) as [[g k]|].
  - change (App.animationRef (erase a)) with (App.animationRef a).
    destruct (App.animationRef a); [|done]. cbn. by rewrite gameLoop_erase.
  - change (App.animationRef (erase a)) with (App.animationRef a).
    destruct (App.animationRef a); [|done]. cbn. by rewrite gameLoop_erase.
  - change (App.animationRef (erase a)) with (App.animationRef a).
    destruct (App.animationRef a); [|done]. cbn. by rewrite gameLoop_erase.
Qed.

(** Handlers take states of the same game to states of the same game. *)
#[export] Instance handle_proper fuel e :
  Proper (sameGame ==> option_Forall2 sameGame) (handle Math_random fuel e).
Proof.
  intros a b Hab. unfold sameGame in Hab.
  assert (Heq : erase <$> handle Math_random fuel e a
                = erase <$> handle Math_random fuel e b)
    by (rewrite <- (handle_erase fuel e a), <- (handle_erase fuel e b);
        by rewrite Hab).
  destruct (handle Math_random fuel e a), (handle Math_random fuel e b);
    cbn in Heq; try done; constructor. unfold sameGame. congruence.
Qed.

(** A move of the pointer stays in the same game. *)
Lemma move_sameGame fuel x y a a' :
  handle Math_random fuel (MouseMove x y) a = Some a' -> sameGame a' a.
Proof.
  unfold handle. destruct (App.gameState a); try done. by intros [= <-].
Qed.

(** A run from states of the same game. *)
Lemma run_sameGame fuel es a b a' :
  sameGame a b -> run Math_random fuel es a = Some a' ->
  exists b', run Math_random fuel es b = Some b' /\ sameGame a' b'.
Proof.
  revert a b. induction es as [|e es IH]; intros a b Hab; cbn.
  - intros [= <-]. eauto.
  - intros (a1 & Hstep & Hrun)%bind_Some.
    pose proof (handle_proper fuel e a b Hab) as Hp. rewrite Hstep in Hp.
    destruct (handle Math_random fuel e b) as [b1|];
      inversion Hp as [? ? Hab1|]; subst.
    destruct (IH a1 b1 Hab1 Hrun) as (b' & Hb' & Hsame). by exists b'.
Qed.

(** The moves of the pointer can be erased from a run. *)
Lemma run_without_moves fuel es a a' :
  run Math_random fuel es a = Some a' ->
  exists b', run Math_random fuel (List.filter notMove es) a = Some b'
             /\ sameGame a' b'.
Proof.
  revert a a'. induction es as [|e es IH]; intros a a'; cbn [run List.filter].
  - intros [= <-]. by exists a.
  - intros (a1 & Hstep & Hrun)%bind_Some.
    destruct (notMove e) eqn:He; cbn [run].
    + rewrite Hstep. cbn. by apply IH.
    + destruct e; try done. apply move_sameGame in Hstep.
      destruct (run_sameGame fuel es a1 a a' Hstep Hrun) as (b & Hb & Hab).
      destruct (IH a b Hb) as (b' & Hb' & Hbb').
      exists b'. split; [done|]. by etrans.
Qed.

(** The screens do not show the pointer position. *)
#[export] Instance render_proper :
  Proper (sameGame ==> eq) (render (num := num)).
Proof.
  assert (Herase : forall a, render (erase a) = render a)
    by (intros a; unfold render;
        change (App.gameState (erase a)) with (App.gameState a);
        by destruct (App.gameState a)).
  intros a b Hab. unfold sameGame in Hab.
  by rewrite <- (Herase a), <- (Herase b), Hab.
Qed.

(** Nor does the painting of a frame read it. *)
#[export] Instance paintFrame_proper Math_sin Math_cos fuel now drawNow
    Date_now sin2t :
  Proper (sameGame ==> eq)
    (paintFrame Math_sin Math_cos fuel now drawNow Date_now sin2t).
Proof.
  assert (Herase : forall a,
            paintFrame Math_sin Math_cos fuel now drawNow Date_now sin2t
              (erase a)
            = paintFrame Math_sin Math_cos fuel now drawNow Date_now sin2t a)
    by (intros a; unfold paintFrame, paint, beforeDraw;
        change (App.difficulty (erase a)) with (App.difficulty a);
        by destruct (App.difficulty a)).
  intros a b Hab. unfold sameGame in Hab.
  by rewrite <- (Herase a), <- (Herase b), Hab.
Qed.

(** C29. The pointer position has no effect on the game or on what the
    player sees.  The moves of the pointer can be erased from any run: the
    run without them returns too and ends in the same game (score,
    counters, targets, effects, clock and screen), the stored pointer
    position apart; the screen it displays and the calls a frame paints
    from there are the same. *)
Theorem pointer_noninterference fuel es a a' :
  run Math_random fuel es a = Some a' ->
  exists b',
    run Math_random fuel (List.filter notMove es) a = Some b'
    /\ sameGame a' b'
    /\ render a' = render b'
    /\ forall Math_sin Math_cos fuel' now drawNow Date_now sin2t,
         paintFrame Math_sin Math_cos fuel' now drawNow Date_now sin2t a'
         = paintFrame Math_sin Math_cos fuel' now drawNow Date_now sin2t b'.
Proof.
  intros (b' & Hrun & Hsame)%run_without_moves. exists b'.
  split; [done|]. split; [done|]. split; [by rewrite Hsame|].
  intros. by rewrite Hsame.
Qed.

End PointerFacts.

(** ** The theorem at the sample session *)

Section PointerWitnesses.

Lemma pointer_run :
  run Sample.random 10 PointerSample.events App.init
  = Some PointerSample.final.
Proof. vm_compute. reflexivity. Qed.

Lemma pointer_noninterference_witness :
  exists b',
    run Sample.random 10 Scenario.events App.init = Some b'
    /\ sameGame PointerSample.final b'
    /\ render PointerSample.final = render b'
    /\ forall Math_sin Math_cos fuel' now drawNow Date_now sin2t,
         paintFrame Math_sin Math_cos fuel' now drawNow Date_now sin2t
           PointerSample.final
         = paintFrame Math_sin Math_cos fuel' now drawNow Date_now sin2t b'.
Proof.
  exact (pointer_noninterference Sample.random 10 PointerSample.events
           App.init PointerSample.final pointer_run).
Defined.

End PointerWitnesses.
