(* ===== verification/Lifecycle.v ===== *)
(** * Lifecycle: mounting and unmounting the component

    [PaddleGame] has two effects.  The mount effect (lines 80-98 of
    [src/app/page.tsx], dependencies [[]]) calls [updateCanvasSize] once and
    registers it for [resize] on the window and for [fullscreenchange] on
    the document; its clean-up removes both listeners.  The game-loop effect
    (lines 518-576) was modelled in [Session] as far as the running
    component goes; its clean-up (lines 571-575) cancels the pending frame.

    A [Page.t] is the component with what the browser holds for it: whether
    it is mounted, and which of the two listeners are registered.
    [pageStep] is a step of the page: a mount (initial state, then the
    effects), an unmount (the clean-ups), or an event of [Session] delivered
    to the component, a resize only through a listener, a frame only while
    one is pending, the others only through an element of a mounted
    component.  Mounting, unmounting and delivery are React's and the
    browser's; the effects and the clean-ups are the code's.

    The theorems: after an unmount the browser holds nothing of the
    component (no event is delivered any more, and a new mount starts from
    the initial state); a mounted page is in a reachable state of [Session],
    so every invariant of the component holds on it; and on a screen whose
    size does not change, the canvas size the running loop holds is the
    canvas size of the current render, so the stale size of
    [Session.frame_ignores_resize] needs a change of the screen. *)

From Stdlib Require Import ZArith Floats.
From stdpp Require Import base option list.
From S2P Require Import Prelude Number Float64 Types Spawner Scoring Render.
From S2P Require Import Session.

Module Page.
Record t {num : Type} := mk {
  app : App.t num;
  (** the component is in the tree *)
  mounted : bool;
  (** [updateCanvasSize] is registered for [resize] on [window] *)
  resize : bool;
  (** ... and for [fullscreenchange] on [document] *)
  fullscreenchange : bool;
}.
Arguments t : clear implicits.

Definition set_app {num : Type} (v : App.t num) (p : t num) : t num :=
  mk num v (mounted p) (resize p) (fullscreenchange p).

Definition set_mounted {num : Type} (v : bool) (p : t num) : t num :=
  mk num (app p) v (resize p) (fullscreenchange p).
End Page.

Section Lifecycle.
Context {num : Type} `{!Number num}.
Variable Math_random : nat -> num.

Abbreviation Page := (Page.t num).

(** What happens to the page: the component is mounted on a screen of the
    given size, it is unmounted, or the browser delivers an event. *)
Inductive PageEvent :=
| Mount (width height : num)
| Unmount
| Deliver (e : @Event num).

(** No component. *)
Definition unmounted : Page := Page.mk num App.init false false false.

(** The mount effect: [updateCanvasSize()], then the two
    [addEventListener]. *)
Definition mountEffect (width height : num) (p : Page) : Page :=
  Page.mk num (updateCanvasSize width height (Page.app p)) (Page.mounted p)
    true true.

(** Its clean-up: the two [removeEventListener]. *)
Definition mountCleanup (p : Page) : Page :=
  Page.mk num (Page.app p) (Page.mounted p) false false.

(** The clean-up of the game-loop effect:
    [if (animationRef.current) cancelAnimationFrame(animationRef.current)] *)
Definition loopCleanup (a : App.t num) : App.t num :=
  if App.animationRef a then App.stopLoop a else a.

(** Mounting: the first render has the initial state; then the effects run
    in the order of the source, the mount effect and the game-loop effect
    (which returns at once on the menu). *)
Definition mount (width height : num) : Page :=
  let p := mountEffect width height (Page.mk num App.init true false false) in
  Page.set_app (gameLoopEffect 0 (Page.app p)) p.

(** Unmounting: the clean-ups of both effects. *)
Definition unmount (p : Page) : Page :=
  Page.set_mounted false
    (mountCleanup (Page.set_app (loopCleanup (Page.app p)) p)).

(** Whether the browser has a way to deliver the event: a resize needs a
    listener, a click or a move an element of the mounted component; a frame
    is delivered to whoever requested it, and [handle] looks whether one is
    pending. *)
Definition delivered (p : Page) (e : @Event num) : bool :=
  match e with
  | Resize _ _ => Page.resize p || Page.fullscreenchange p
  | Frame _ _ => true
  | _ => Page.mounted p
  end.

Definition pageStep (fuel : nat) (pe : PageEvent) (p : Page) : option Page :=
  match pe with
  | Mount width height =>
      if Page.mounted p then None else Some (mount width height)
  | Unmount => if Page.mounted p then Some (unmount p) else None
  | Deliver e =>
      if delivered p e
      then a ← handle Math_random fuel e (Page.app p); Some (Page.set_app a p)
      else None
  end.

Fixpoint pageRun (fuel : nat) (pes : list PageEvent) (p : Page)
    : option Page :=
  match pes with
  | [] => Some p
  | pe :: pes => p ← pageStep fuel pe p; pageRun fuel pes p
  end.

(** ** Invariants of the page *)

(** A mounted component has both listeners and is in a state [Session]
    reaches; when it is not mounted the browser holds nothing of it. *)
Definition pageOk (p : Page) : Prop :=
  if Page.mounted p
  then Page.resize p = true /\ Page.fullscreenchange p = true
       /\ reachable Math_random (Page.app p)
  else Page.resize p = false /\ Page.fullscreenchange p = false
       /\ App.animationRef (Page.app p) = false.

(** The screen has the size [width] x [height] throughout: whenever the
    code reads [window.screen], this is what it finds. *)
Definition onScreen (width height : num) (pe : PageEvent) : Prop :=
  match pe with
  | Mount w h | Deliver (Resize w h) => w = width /\ h = height
  | _ => True
  end.

(** The component holds the size of the screen, in its state and in the
    closure of its running loop. *)
Definition sized (width height : num) (a : App.t num) : Prop :=
  App.canvasSize a = (width, height)
  /\ (App.animationRef a = true ->
      App.loopCanvasWidth a = width /\ App.loopCanvasHeight a = height).

End Lifecycle.

Module PageSample.
Section Binary64.
Local Open Scope float_scope.

(** A page on a 1920 x 1080 screen: mounted, an easy game started, one
    frame; then the page is left in the middle of the game. *)
Definition visit : list (@PageEvent float) :=
  [Mount 1920 1080; Deliver (SelectDifficulty easy 1000 1010);
   Deliver (Frame 2516 0.5)].

Definition playing : Page.t float :=
  Eval vm_compute in default unmounted (pageRun Sample.random 10 visit unmounted).

Definition left : Page.t float :=
  Eval vm_compute in default unmounted (pageStep Sample.random 10 Unmount playing).

End Binary64.
End PageSample.

(** ** Facts *)

Section LifecycleFacts.
Context {num : Type} `{!Number num}.
Variable Math_random : nat -> num.
Implicit Types (p : Page.t num) (a : App.t num) (pe : @PageEvent num).

Lemma pageStep_ok fuel pe p p' :
  pageOk Math_random p -> pageStep Math_random fuel pe p = Some p' ->
  pageOk Math_random p'.
Proof.
  unfold pageOk, pageStep. destruct pe as [w h| |e].
  - destruct (Page.mounted p); [done|]. intros _ [= <-]. cbn.
    repeat split.
    by apply (reachable_step _ 0 (Resize w h) App.init); [constructor|].
  - destruct (Page.mounted p); [|done]. intros _ [= <-]. cbn.
    repeat split. unfold loopCleanup.
    by destruct (App.animationRef (Page.app p)) eqn:Hpending.
  - destruct (delivered p e) eqn:He; [|done].
    intros Hp (a' & Hstep & [= <-])%bind_Some. cbn.
    destruct (Page.mounted p) eqn:Hm;
      [by intuition eauto using reachable_step|].
    destruct Hp as (Hr & Hf & Ha). apply handle_handled in Hstep.
    destruct Hstep; cbn in He; rewrite ?Hr, ?Hf, ?Hm in He; try done.
    congruence.
Qed.

Lemma pageRun_ok fuel pes p p' :
  pageOk Math_random p -> pageRun Math_random fuel pes p = Some p' ->
  pageOk Math_random p'.
Proof.
  revert p. induction pes as [|pe pes IH]; intros p Hp; cbn.
  - by intros [= <-].
  - intros (p1 & Hstep & Hrun)%bind_Some. eauto using pageStep_ok.
Qed.

(** Every handler keeps the size of the screen, when a resize finds that
    size: the canvas size is only written by [updateCanvasSize], and the
    loop takes the canvas size of the render it starts in. *)
Lemma handle_sized width height fuel e a a' :
  onScreen width height (Deliver e) -> sized width height a ->
  handle Math_random fuel e a = Some a' -> sized width height a'.
Proof.
  unfold sized. intros He [Hsize Hloop] Hstep%handle_handled.
  destruct Hstep
    as [|? ? ? ? a1 _ (_ & _ & Hgame & _ & _ & Hc)%initializeGame_ok
        |? ? ? ? a1 _ _ (_ & _ & Hgame & _ & _ & Hc)%initializeGame_ok
        | |? ? ? ? ? _ Hclick| |]; cbn in He; try done.
  - by destruct He as [-> ->].
  - unfold gameLoopEffect. rewrite Hgame. cbn. by rewrite Hc, Hsize.
  - unfold gameLoopEffect. rewrite Hgame. cbn. by rewrite Hc, Hsize.
  - apply bind_Some in Hclick as ([g k] & _ & [= <-]). by cbn.
  - unfold gameLoop, gameLoopEffect.
    destruct (_ >? _)%num; cbn; [auto | done].
Qed.

Lemma pageStep_sized width height fuel pe p p' :
  onScreen width height pe ->
  (Page.mounted p = true -> sized width height (Page.app p)) ->
  pageStep Math_random fuel pe p = Some p' ->
  Page.mounted p' = true -> sized width height (Page.app p').
Proof.
  unfold pageStep. destruct pe as [w h| |e]; intros He Hp.
  - destruct (Page.mounted p); [done|]. intros [= <-] _.
    destruct He as [-> ->]. by split.
  - destruct (Page.mounted p); [|done]. by intros [= <-].
  - destruct (delivered p e); [|done].
    intros (a' & Hstep & [= <-])%bind_Some. cbn. intros Hm.
    eauto using handle_sized.
Qed.

(** C30. After an unmount the browser holds nothing of the component.
    Whatever the state of the page, once it is unmounted no event is
    delivered to the component any more (no resize, no click, no animation
    frame), the page cannot be unmounted again, and a mount starts from the
    initial state on the size of the screen. *)
Theorem unmount_is_final fuel p p' :
  pageStep Math_random fuel Unmount p = Some p' ->
  (forall fuel' e, pageStep Math_random fuel' (Deliver e) p' = None)
  /\ pageStep Math_random fuel Unmount p' = None
  /\ forall width height,
      pageStep Math_random fuel (Mount width height) p'
      = Some (mount width height).
Proof.
  unfold pageStep at 1. destruct (Page.mounted p); [|done]. intros [= <-].
  repeat split. intros fuel' e. unfold pageStep, handle, unmount, loopCleanup.
  destruct e; cbn; try done.
  by destruct (App.animationRef (Page.app p)) eqn:Hpending; cbn;
    rewrite ?Hpending.
Qed.

(** On a mounted page the invariants of the component hold.  After any
    run of the page from no component, a mounted component has both
    listeners registered and is in a state the handlers of [Session] reach
    from the initial state: the invariant [appOk] holds of it. *)
Theorem mounted_page_ok fuel pes p :
  pageRun Math_random fuel pes unmounted = Some p ->
  Page.mounted p = true ->
  Page.resize p = true /\ Page.fullscreenchange p = true
  /\ reachable Math_random (Page.app p) /\ appOk (Page.app p).
Proof.
  intros Hrun%pageRun_ok; [|by cbn]. unfold pageOk in Hrun.
  intros Hm. rewrite Hm in Hrun. destruct Hrun as (Hr & Hf & Ha).
  eauto using reachable_ok.
Qed.

(** On a screen of one size the loop never holds a stale size.  When
    every reading of [window.screen] gives [width] x [height], then after
    any run of the page the mounted component has that canvas size, and the
    loop of a running game holds the same: frames and clicks work on one
    canvas. *)
Theorem fixed_screen_sizes width height fuel pes p :
  Forall (onScreen width height) pes ->
  pageRun Math_random fuel pes unmounted = Some p ->
  Page.mounted p = true -> sized width height (Page.app p).
Proof.
  assert (Hstart : Page.mounted (@unmounted num _) = true ->
    sized width height (Page.app unmounted)) by done.
  revert Hstart. generalize (@unmounted num _).
  intros p0 Hp0 Hall. revert p0 Hp0.
  induction Hall as [|pe pes Hpe _ IH]; intros p0 Hp0; cbn.
  - by intros [= <-].
  - intros (p1 & Hstep & Hrun)%bind_Some.
    eauto using pageStep_sized.
Qed.

End LifecycleFacts.

(** ** The theorems at the sample *)

Lemma playing_run :
  pageRun Sample.random 10 PageSample.visit unmounted
  = Some PageSample.playing.
Proof. by vm_compute. Qed.

Lemma unmount_is_final_witness :
  (forall fuel' e,
      pageStep Sample.random fuel' (Deliver e) PageSample.left = None)
  /\ pageStep Sample.random 10 Unmount PageSample.left = None
  /\ forall width height,
      pageStep Sample.random 10 (Mount width height) PageSample.left
      = Some (mount width height).
Proof.
  apply (unmount_is_final Sample.random 10 PageSample.playing). by vm_compute.
Defined.

Lemma mounted_page_ok_witness :
  Page.resize PageSample.playing = true
  /\ Page.fullscreenchange PageSample.playing = true
  /\ reachable Sample.random (Page.app PageSample.playing)
  /\ appOk (Page.app PageSample.playing).
Proof.
  apply (mounted_page_ok Sample.random 10 PageSample.visit);
    [exact playing_run | reflexivity].
Defined.

Lemma fixed_screen_sizes_witness :
  sized 1920%float 1080%float (Page.app PageSample.playing).
Proof.
  apply (fixed_screen_sizes Sample.random 1920%float 1080%float 10
           PageSample.visit);
    [by repeat constructor | exact playing_run | reflexivity].
Defined.
