(* ===== verification/Trees.v ===== *)
(** * Trees: the handlers that draw random numbers, without fuel

    [addNewTarget] (lines 129-165 of [src/app/page.tsx]),
    [handleCanvasClick] (lines 183-264) and the two spawns of
    [initializeGame] (lines 101-126) once more, as interaction trees: a
    call of [Math.random()] or of [Date.now()] is an event the browser
    answers, and the [while (!validPosition)] loop is [ITree.iter], with no
    bound on its rounds.  A tree is run against the oracle of the other
    files ([Math_random k] answers the [k]-th draw, every reading of the
    clock within one handler is [now]); [returns] says that the run ends
    with a value, [hangs] that it never does.

    [describes] ties the two models together: a function on fuel describes
    a tree when each of its results is the value the tree returns and, when
    no fuel gives it a result, the tree returns nothing.  Every handler
    above is described by its function on fuel, so [None] for every fuel
    means a call that does not return, and nothing else.  Telling "some
    fuel gives a result" from "no fuel does" takes excluded middle
    ([fuel_cases]); the trees are those of the ITree library, and no
    coinductive definition or proof is made here: that a loop hangs is
    proved from the library's invariant rule for the leaves of [iter].

    The last part is the width a session needs to start, over the reals:
    on a screen no wider than [startWidth] the two spawns of
    [initializeGame] hang whatever the draws, and above it [farDraws] are
    draws with which they return. *)

From Stdlib Require Import ZArith String Floats Reals Lra Lia Classical_Prop.
From stdpp Require Import base option list.
From ITree Require Import ITree ITreeFacts Events.State Events.StateFacts Props.Leaf.
From S2P Require Import Prelude Number Float64 Exact Types Spawner Scoring Session.

(** What the handlers ask of the browser: [Math.random()] and
    [Date.now()]. *)
Variant browserE {num : Type} : Type -> Type :=
| Math_randomE : browserE num
| Date_nowE : browserE Z.
Arguments browserE : clear implicits.

(** Sequencing of trees, in the notation of the other files. *)
#[export] Instance itree_ret {E} : MRet (itree E) := fun A x => Ret x.
#[export] Instance itree_bind {E} : MBind (itree E) :=
  fun A B k t => ITree.bind t k.

Section Trees.
Context {num : Type} `{!Number num}.
Variables CANVAS_WIDTH CANVAS_HEIGHT : num.
Variable difficulty : Difficulty.
Variable gameState : GameState.
Local Open Scope num_scope.

Abbreviation Target := (Target.t num).
Abbreviation Sparkle := (Sparkle.t num).
Abbreviation Game := (Game.t num).
Abbreviation tree := (itree (browserE num)).

(** The body of the [while] loop before its [for]. *)
Definition candidateT (currentDifficulty : Difficulty)
    : tree (Size * num * num) :=
  size ← match currentDifficulty with
         | easy => Ret large
         | _ => r ← trigger Math_randomE; Ret (coin r large small)
         end;
  let radius := radius_of size in
  r ← trigger Math_randomE;
  Ret (size, radius, r * (CANVAS_WIDTH - radius * #2) + radius).

(** The [while (!validPosition)] loop: a round ends the loop with its
    candidate, or asks for another round. *)
Definition placementT (currentDifficulty : Difficulty)
    (targets : list Target) : tree (Size * num * num) :=
  ITree.iter (fun _ : unit =>
    '(size, radius, x) ← candidateT currentDifficulty;
    if validPosition x radius targets then Ret (inr (size, radius, x))
    else Ret (inl tt)) tt.

(** [const velocity = currentDifficulty === 'hard' ? Math.random() * 1.5 + 0.5 : 0] *)
Definition drawVelocityT (currentDifficulty : Difficulty) : tree num :=
  match currentDifficulty with
  | hard => r ← trigger Math_randomE; Ret (r * dec 15 10 + dec 5 10)
  | _ => Ret #0
  end.

Definition addNewTargetT (diff : option Difficulty) (g : Game) : tree Game :=
  let currentDifficulty := default difficulty diff in
  '(size, radius, x) ← placementT currentDifficulty (Game.targets g);
  velocity ← drawVelocityT currentDifficulty;
  r ← trigger Math_randomE;
  let direction := coin r #1 #(-1) in
  now ← trigger Date_nowE;
  let target :=
    Target.mk num (Game.nextTargetId g) x (TARGET_SPAWN_Y CANVAS_HEIGHT)
      radius size velocity direction now in
  Ret (Game.set_targets (Game.targets g ++ [target])
         (Game.set_nextTargetId (Game.nextTargetId g + 1) g)).

(** [target.createdAt ? Date.now() - target.createdAt : 0]: the clock is
    read only for a target that has a creation time. *)
Definition reactionTimeOfT (target : Target) : tree Z :=
  if (Target.createdAt target =? 0)%Z then Ret 0%Z
  else now ← trigger Date_nowE; Ret (now - Target.createdAt target)%Z.

(** The body of the scan's [if]. *)
Definition scoreHitT (i : nat) (target : Target) (clickX clickY : num)
    (g : Game) : tree Game :=
  let distance := distanceTo clickX clickY target in
  let '(points, feedback) := calculatePoints distance (Target.radius target) in
  reactionTime ← reactionTimeOfT target;
  let g := Game.set_reactionTimes (Game.reactionTimes g ++ [reactionTime]) g in
  let g := Game.set_score (Game.score g + points) g in
  let g := Game.set_totalHits (Game.totalHits g + 1) g in
  let g :=
    if String.eqb feedback "PERFECT"
    then Game.set_perfectHits (Game.perfectHits g + 1) g else g in
  let g :=
    Game.set_feedback
      (Game.feedback g ++
         [Feedback.mk num (Target.x target) (Target.y target) feedback
            points #1 false])
      g in
  let g := Game.set_targets (delete i (Game.targets g)) g in
  addNewTargetT None g.

(** [for (let i = 0; i < 8; i++) sparkles.push({...})], with [n] rounds to
    go from index [i]: the speed is drawn before the rotation. *)
Fixpoint sparkleBurstT (n : nat) (i : Z) (clickX clickY : num)
    (sparkles : list Sparkle) : tree (list Sparkle) :=
  match n with
  | O => Ret sparkles
  | S n =>
      speed ← trigger Math_randomE;
      rotation ← trigger Math_randomE;
      let sparkle :=
        Sparkle.mk num clickX clickY #1 (#i / #8 * Math_PI * #2)
          (#2 + speed * #2) (rotation * Math_PI * #2) in
      sparkleBurstT n (i + 1) clickX clickY (sparkles ++ [sparkle])
  end.

(** The miss branch. *)
Definition missEffectsT (clickX clickY : num) (g : Game) : tree Game :=
  let g :=
    Game.set_feedback
      (Game.feedback g ++ [Feedback.mk num clickX clickY "MISS" 0 #1 true])
      g in
  sparkles ← sparkleBurstT 8 0 clickX clickY (Game.sparkles g);
  Ret (Game.set_sparkles sparkles g).

Definition handleCanvasClickT (clickX clickY : num) (g : Game) : tree Game :=
  match gameState with
  | game =>
      if clickY >? NET_Y CANVAS_HEIGHT
      then Ret (netPenalty clickX clickY g)
      else
        match scanBackward (isHit clickX clickY)
                (length (Game.targets g)) (Game.targets g) with
        | Some (i, target) => scoreHitT i target clickX clickY g
        | None => missEffectsT clickX clickY g
        end
  | _ => Ret g
  end.

(** The game object [initializeGame] leaves behind: a fresh one, and two
    spawns with the selected difficulty passed along. *)
Definition initializeGameT (selectedDifficulty : Difficulty) : tree Game :=
  g ← addNewTargetT (Some selectedDifficulty) Game.init;
  addNewTargetT (Some selectedDifficulty) g.

(** ** Running a tree *)

Variable Math_random : nat -> num.
Variable now : Z.

(** The browser of the other files: the state is the count of draws made,
    [Math_random k] answers draw [k], the clock reads [now]. *)
Definition browser : browserE num ~> Monads.stateT nat (itree void1) :=
  fun _ e k =>
    match e with
    | Math_randomE => Ret (S k, Math_random k)
    | Date_nowE => Ret (k, now)
    end.

(** The run of [t] from draw [k]: a tree without events, which returns the
    count of draws with the value, or goes on forever. *)
Definition runTree {A : Type} (t : tree A) (k : nat)
    : itree void1 (nat * A) :=
  interp_state browser t k.

(** The call returns [x], after draw [k' - 1]. *)
Definition returns {A : Type} (t : tree A) (k k' : nat) (x : A) : Prop :=
  Leaf (k', x) (runTree t k).

(** The call does not return. *)
Definition hangs {A : Type} (t : tree A) (k : nat) : Prop :=
  forall kx, ~ Leaf kx (runTree t k).

(** A function on fuel describes a tree when more fuel keeps its results,
    each of its results is what the tree returns, and the tree returns
    nothing when no fuel gives a result. *)
Definition describes {A : Type} (f : nat -> option (A * nat)) (t : tree A)
    (k : nat) : Prop :=
  (forall fuel fuel' r, f fuel = Some r -> fuel <= fuel' -> f fuel' = Some r)
  /\ (forall fuel x k', f fuel = Some (x, k') -> runTree t k ≈ Ret (k', x))
  /\ ((forall fuel, f fuel = None) -> hangs t k).

End Trees.

(** Draws that let a session start on a canvas wider than [startWidth]: the
    first target at the left end of its range, the second of the same size
    at the least distance the overlap test accepts ([k0] draws were made
    before; the draw of the second position is the third of an easy start,
    the fifth in intermediate and the sixth in hard mode). *)
Definition farDraws (d : Difficulty) (CANVAS_WIDTH : R) (k0 k : nat) : R :=
  match d with
  | easy => if (2 + k0 <=? k)%nat then 460 / (CANVAS_WIDTH - 380) else 0
  | intermediate =>
      if (4 + k0 <=? k)%nat then 340 / (CANVAS_WIDTH - 260) else 0
  | hard => if (5 + k0 <=? k)%nat then 340 / (CANVAS_WIDTH - 260) else 0
  end%R.

(** ** Running a tree, step by step *)

Section RunFacts.
Context {num : Type} `{!Number num}.
Variable Math_random : nat -> num.
Variable now : Z.

Abbreviation tree := (itree (browserE num)).
Abbreviation runTree' := (runTree Math_random now).

Lemma run_ret {A} (x : A) k : runTree' (Ret x) k ≈ Ret (k, x).
Proof. unfold runTree. by rewrite interp_state_ret. Qed.

Lemma run_bind {A B} (t : tree A) (f : A -> tree B) k :
  runTree' (t ≫= f) k
  ≈ ITree.bind (runTree' t k) (fun kx => runTree' (f (snd kx)) (fst kx)).
Proof. unfold runTree, mbind, itree_bind. by rewrite interp_state_bind. Qed.

Lemma run_random k :
  runTree' (trigger Math_randomE) k ≈ Ret (S k, Math_random k).
Proof. unfold runTree. by rewrite interp_state_trigger. Qed.

Lemma run_now k : runTree' (trigger Date_nowE) k ≈ Ret (k, now).
Proof. unfold runTree. by rewrite interp_state_trigger. Qed.

End RunFacts.

(** Runs the events at the head of a tree. *)
Ltac run_steps :=
  repeat first
    [ rewrite run_bind | rewrite run_random | rewrite run_now
    | rewrite run_ret | rewrite bind_ret_l | progress cbn [fst snd] ].

(** ** Returning and hanging *)

Section TreeFacts.
Context {num : Type} `{!Number num}.
Variables CANVAS_WIDTH CANVAS_HEIGHT : num.
Variable difficulty : Difficulty.
Variable Math_random : nat -> num.
Variable now : Z.

Abbreviation tree := (itree (browserE num)).
Abbreviation runTree' := (runTree Math_random now).
Abbreviation returns' := (returns Math_random now).
Abbreviation hangs' := (hangs Math_random now).
Abbreviation describes' := (describes Math_random now).
Abbreviation placement' := (placement Math_random CANVAS_WIDTH).
Abbreviation candidate' := (candidate Math_random CANVAS_WIDTH).
Abbreviation addNewTarget' :=
  (addNewTarget Math_random CANVAS_WIDTH CANVAS_HEIGHT difficulty).
Abbreviation addNewTargetT' := (addNewTargetT CANVAS_WIDTH CANVAS_HEIGHT difficulty).

(** A first part that returns hands over to the rest. *)
Lemma run_returns {A B} (t : tree A) (f : A -> tree B) k k' x :
  runTree' t k ≈ Ret (k', x) -> runTree' (t ≫= f) k ≈ runTree' (f x) k'.
Proof. intros Ht. by rewrite run_bind, Ht, bind_ret_l. Qed.

Lemma returns_eutt {A} (t : tree A) k k' x :
  runTree' t k ≈ Ret (k', x) ->
  forall j y, returns' t k j y <-> (j, y) = (k', x).
Proof.
  intros Ht j y. unfold returns. rewrite Ht. split.
  - apply Leaf_Ret_inv.
  - intros ->. apply Leaf_Ret.
Qed.

Lemma hangs_bind {A B} (t : tree A) (f : A -> tree B) k :
  hangs' t k -> hangs' (t ≫= f) k.
Proof.
  intros Ht kx. rewrite run_bind. intros (kx' & Hleaf & _)%Leaf_bind_inv.
  by apply (Ht kx').
Qed.

Lemma hangs_after {A B} (t : tree A) (f : A -> tree B) k k' x :
  runTree' t k ≈ Ret (k', x) -> hangs' (f x) k' -> hangs' (t ≫= f) k.
Proof. intros Ht Hf kx. rewrite run_returns by done. apply Hf. Qed.

(** What returns does not hang. *)
Lemma returns_not_hangs {A} (t : tree A) k k' x :
  returns' t k k' x -> ~ hangs' t k.
Proof. intros Hret Hhang. by apply (Hhang (k', x)). Qed.

(** ** Functions on fuel and trees *)

(** Some fuel gives a result, or none does. *)
Lemma fuel_cases {A} (f : nat -> option A) :
  (exists fuel r, f fuel = Some r) \/ (forall fuel, f fuel = None).
Proof.
  destruct (classic (exists fuel, is_Some (f fuel)))
    as [(fuel & r & Hf)|Hnone]; [left; by exists fuel, r | right].
  intros fuel. apply eq_None_not_Some. intros Hsome. apply Hnone.
  by exists fuel.
Qed.

(** What the tree returns is what the function computes with enough
    fuel. *)
Lemma describes_returns {A} (f : nat -> option (A * nat)) (t : tree A) k :
  describes' f t k ->
  forall k' x, returns' t k k' x <-> exists fuel, f fuel = Some (x, k').
Proof.
  intros (_ & Hret & Hhang) k' x. split.
  - intros Hleaf. destruct (fuel_cases f) as [(fuel & [y j] & Hf)|Hnone].
    + apply Hret in Hf as Ht. apply (returns_eutt _ _ _ _ Ht) in Hleaf.
      injection Hleaf as -> ->. by exists fuel.
    + destruct (Hhang Hnone _ Hleaf).
  - intros [fuel Ht%Hret]. by apply (returns_eutt _ _ _ _ Ht).
Qed.

(** The tree hangs exactly when no fuel is enough. *)
Lemma describes_hangs {A} (f : nat -> option (A * nat)) (t : tree A) k :
  describes' f t k -> hangs' t k <-> forall fuel, f fuel = None.
Proof.
  intros Hd. split; [|apply Hd]. intros Hhang fuel.
  apply eq_None_not_Some. intros [[x k'] Hf].
  apply (Hhang (k', x)), (describes_returns _ _ _ Hd). by exists fuel.
Qed.

Lemma describes_pure {A} (t : tree A) k k' x :
  runTree' t k ≈ Ret (k', x) -> describes' (fun _ => Some (x, k')) t k.
Proof.
  intros Ht. split; [done|]. split; [by intros _ ?? [= <- <-]|].
  intros Hnone. by specialize (Hnone 0).
Qed.

Lemma describes_ext {A} (f f' : nat -> option (A * nat)) (t : tree A) k :
  (forall fuel, f fuel = f' fuel) -> describes' f t k -> describes' f' t k.
Proof.
  intros Heq (Hmono & Hret & Hhang). split; [|split].
  - intros fuel fuel' r. rewrite <- !Heq. apply Hmono.
  - intros fuel x k'. rewrite <- Heq. apply Hret.
  - intros Hnone. apply Hhang. intros fuel. by rewrite Heq.
Qed.

(** Sequencing: the rest runs on the fuel of the first part. *)
Lemma describes_bind {A B} (f : nat -> option (A * nat))
    (g : A -> nat -> nat -> option (B * nat)) (t : tree A)
    (F : A -> tree B) k :
  describes' f t k -> (forall x k', describes' (g x k') (F x) k') ->
  describes' (fun fuel => '(x, k') ← f fuel; g x k' fuel) (t ≫= F) k.
Proof.
  intros (Hmono & Hret & Hhang) HF. split; [|split].
  - intros fuel fuel' r Hr Hle.
    destruct (f fuel) as [[x k']|] eqn:Hf; [|done].
    rewrite (Hmono _ _ _ Hf Hle). cbn in *.
    by apply (proj1 (HF x k') fuel).
  - intros fuel y j Hr. destruct (f fuel) as [[x k']|] eqn:Hf; [|done].
    rewrite (run_returns _ _ _ _ _ (Hret _ _ _ Hf)).
    by apply (proj1 (proj2 (HF x k')) fuel).
  - intros Hnone. destruct (fuel_cases f) as [(fuel & [x k'] & Hf)|Hf];
      [|by apply hangs_bind, Hhang].
    apply (hangs_after _ _ _ _ _ (Hret _ _ _ Hf)), (HF x k').
    intros fuel'. apply eq_None_not_Some. intros [r Hr].
    specialize (Hnone (fuel `max` fuel')).
    rewrite (Hmono _ _ _ Hf (Nat.le_max_l _ _)) in Hnone. cbn in Hnone.
    by rewrite (proj1 (HF x k') _ _ _ Hr (Nat.le_max_r _ _)) in Hnone.
Qed.

(** ** The spawner *)

Lemma candidateT_run d k :
  runTree' (candidateT CANVAS_WIDTH d) k
  ≈ Ret (let '(size, radius, x, k') := candidate' d k in
         (k', (size, radius, x))).
Proof.
  unfold candidateT, candidate. destruct d; by run_steps.
Qed.

(** One round of the loop. *)
Lemma placementT_unfold d targets k :
  runTree' (placementT CANVAS_WIDTH d targets) k
  ≈ (let '(size, radius, x, k') := candidate' d k in
     if validPosition x radius targets then Ret (k', (size, radius, x))
     else runTree' (placementT CANVAS_WIDTH d targets) k').
Proof.
  unfold placementT at 1. rewrite unfold_iter.
  fold (placementT CANVAS_WIDTH d targets).
  change (ITree.bind ?t ?f) with (t ≫= f).
  rewrite run_bind, run_bind, candidateT_run, bind_ret_l.
  destruct (candidate' _ _) as [[[size radius] x] k']. cbn [fst snd].
  destruct (validPosition _ _ _); rewrite run_ret, bind_ret_l; cbn [fst snd].
  - apply run_ret.
  - unfold runTree. by rewrite interp_state_tau, tau_eutt.
Qed.

(** A result of the loop on fuel is what the loop returns. *)
Lemma placementT_run fuel d targets k size radius x k' :
  placement' fuel d targets k = Some (size, radius, x, k') ->
  runTree' (placementT CANVAS_WIDTH d targets) k ≈ Ret (k', (size, radius, x)).
Proof.
  revert k. induction fuel as [|fuel IH]; intros k; [done|].
  cbn [placement]. rewrite placementT_unfold.
  destruct (candidate' _ _) as [[[s r] y] k1].
  destruct (validPosition _ _ _); [by intros [= -> -> -> ->] | apply IH].
Qed.

(** When no fuel is enough, the candidate of this round is rejected and no
    fuel is enough from the next. *)
Lemma placement_None_step fuel d targets k :
  (forall fuel, placement' fuel d targets k = None) ->
  let '(_, r, y, k') := candidate' d k in
  validPosition y r targets = false
  /\ placement' fuel d targets k' = None.
Proof.
  intros Hnone. pose proof (Hnone 1) as H1. pose proof (Hnone (S fuel)) as HS.
  cbn [placement] in H1, HS.
  destruct (candidate' _ _) as [[[s r] y] k1].
  by destruct (validPosition _ _ _).
Qed.

(** The loop without an accepted candidate does not return: "no fuel is
    enough" is an invariant of its rounds, and a round that keeps it asks
    for the next. *)
Lemma placementT_hangs d targets k :
  (forall fuel, placement' fuel d targets k = None) ->
  hangs' (placementT CANVAS_WIDTH d targets) k.
Proof.
  intros Hnone kx Hleaf.
  apply (Leaf_interp_state_iter_inv (browser Math_random now) _
           (fun k => forall fuel, placement' fuel d targets k = None)
           (fun _ => True) (fun _ => False) k tt) in Hleaf;
    [destruct kx; by destruct Hleaf | | done..].
  clear. intros k [] Hnone _ kx.
  change (interp_state _ ?t ?k) with (runTree' t k).
  rewrite run_bind, candidateT_run, bind_ret_l.
  pose proof (fun fuel => placement_None_step fuel d targets k Hnone) as Hstep.
  destruct (candidate' _ _) as [[[s r] y] k1]. cbn [fst snd].
  rewrite (proj1 (Hstep 0)), run_ret. intros ->%Leaf_Ret_inv.
  split; [intros fuel; apply Hstep | done].
Qed.

Lemma addNewTarget_describes diff g k :
  describes' (fun fuel => addNewTarget' fuel diff now g k)
    (addNewTargetT' diff g) k.
Proof.
  unfold addNewTarget, addNewTargetT. split; [|split].
  - intros fuel fuel' r Hr Hle.
    destruct (placement' fuel _ _ _) as [res|] eqn:Hp; [|done].
    by rewrite (placement_fuel_mono _ _ _ _ _ _ _ _ Hp Hle).
  - intros fuel g' k' Hr.
    destruct (placement' _ _ _ _) as [[[[s r] x] k1]|] eqn:Hp; [|done].
    rewrite (run_returns _ _ _ _ _ (placementT_run _ _ _ _ _ _ _ _ Hp)).
    revert Hr. unfold drawVelocityT.
    destruct (default difficulty diff); cbn [drawVelocity];
      intros [= <- <-]; by run_steps.
  - intros Hnone. apply hangs_bind, placementT_hangs. intros fuel.
    specialize (Hnone fuel).
    destruct (placement' _ _ _ _) as [[[[s r] x] k1]|]; [|done].
    by destruct (drawVelocity _ _ _).
Qed.

(** A first part that returns leaves the rest to be described. *)
Lemma describes_after {A B} (f : nat -> option (B * nat)) (t : tree A)
    (F : A -> tree B) k k' x :
  runTree' t k ≈ Ret (k', x) -> describes' f (F x) k' ->
  describes' f (t ≫= F) k.
Proof.
  intros Ht (Hmono & Hret & Hhang). split; [done|]. split.
  - intros fuel y j Hf. rewrite (run_returns _ _ _ _ _ Ht). by eapply Hret.
  - intros Hnone. by apply (hangs_after _ _ _ _ _ Ht), Hhang.
Qed.

(** The two spawns of [initializeGame]: the second runs on the game and
    the count of draws the first leaves. *)
Lemma initializeGame_describes d k :
  describes'
    (fun fuel =>
       '(g1, k1) ← addNewTarget' fuel (Some d) now Game.init k;
       addNewTarget' fuel (Some d) now g1 k1)
    (initializeGameT CANVAS_WIDTH CANVAS_HEIGHT difficulty d) k.
Proof.
  apply (describes_bind _
           (fun g1 k1 fuel => addNewTarget' fuel (Some d) now g1 k1));
    [apply addNewTarget_describes|].
  intros g1 k1. apply addNewTarget_describes.
Qed.

(** ** The click *)

Lemma reactionTimeOfT_run target k :
  runTree' (reactionTimeOfT target) k ≈ Ret (k, reactionTimeOf now target).
Proof.
  unfold reactionTimeOfT, reactionTimeOf.
  destruct (_ =? _)%Z; by run_steps.
Qed.

Lemma scoreHit_describes i target clickX clickY g k :
  describes'
    (fun fuel =>
       scoreHit Math_random CANVAS_WIDTH CANVAS_HEIGHT difficulty fuel i
         target clickX clickY now g k)
    (scoreHitT CANVAS_WIDTH CANVAS_HEIGHT difficulty i target clickX clickY g)
    k.
Proof.
  unfold scoreHit, scoreHitT.
  destruct (calculatePoints _ _) as [points feedback].
  eapply describes_after; [apply reactionTimeOfT_run|].
  apply addNewTarget_describes.
Qed.

Lemma sparkleBurstT_run n i clickX clickY sparkles k :
  runTree' (sparkleBurstT n i clickX clickY sparkles) k
  ≈ Ret (let '(sparkles, k') :=
           sparkleBurst Math_random n i clickX clickY sparkles k in
         (k', sparkles)).
Proof.
  revert i sparkles k. induction n as [|n IH]; intros i sparkles k;
    cbn [sparkleBurstT sparkleBurst]; [apply run_ret|].
  run_steps. apply IH.
Qed.

Lemma missEffectsT_run clickX clickY g k :
  runTree' (missEffectsT clickX clickY g) k
  ≈ Ret (let '(g', k') := missEffects Math_random clickX clickY g k in
         (k', g')).
Proof.
  unfold missEffectsT, missEffects.
  rewrite run_bind, sparkleBurstT_run, bind_ret_l.
  destruct (sparkleBurst _ _ _ _ _ _ _) as [sparkles k']. by run_steps.
Qed.

Lemma handleCanvasClick_describes gameState clickX clickY g k :
  describes'
    (fun fuel =>
       handleCanvasClick Math_random CANVAS_WIDTH CANVAS_HEIGHT difficulty
         gameState fuel clickX clickY now g k)
    (handleCanvasClickT CANVAS_WIDTH CANVAS_HEIGHT difficulty gameState
       clickX clickY g) k.
Proof.
  unfold handleCanvasClick, handleCanvasClickT.
  destruct gameState; try (apply describes_pure, run_ret).
  destruct (_ >? _)%num; [apply describes_pure, run_ret|].
  destruct (scanBackward _ _ _) as [[i target]|];
    [apply scoreHit_describes|].
  pose proof (missEffectsT_run clickX clickY g k) as Hrun.
  destruct (missEffects _ _ _ _ _) as [g' k']. by apply describes_pure.
Qed.

End TreeFacts.

(** ** What the trees return *)

Section TreeClaims.
Context {num : Type} `{!Number num}.
Variables CANVAS_WIDTH CANVAS_HEIGHT : num.
Variable difficulty : Difficulty.
Variable Math_random : nat -> num.
Variable now : Z.

(** C4. The loop on fuel and the unbounded loop agree.  [addNewTarget] as
    a tree, whose [while] loop has no bound, returns a game and a count of
    draws exactly when, for some fuel, [addNewTarget] on fuel returns them;
    and it returns nothing exactly when no fuel is enough. *)
Theorem spawn_tree_refines diff (g : Game.t num) k :
  (forall k' g',
     returns Math_random now
       (addNewTargetT CANVAS_WIDTH CANVAS_HEIGHT difficulty diff g) k k' g'
     <-> exists fuel,
           addNewTarget Math_random CANVAS_WIDTH CANVAS_HEIGHT difficulty
             fuel diff now g k = Some (g', k'))
  /\ (hangs Math_random now
        (addNewTargetT CANVAS_WIDTH CANVAS_HEIGHT difficulty diff g) k
      <-> forall fuel,
            addNewTarget Math_random CANVAS_WIDTH CANVAS_HEIGHT difficulty
              fuel diff now g k = None).
Proof.
  pose proof (addNewTarget_describes CANVAS_WIDTH CANVAS_HEIGHT difficulty
                Math_random now diff g k) as Hd.
  split; [apply (describes_returns _ _ _ _ _ Hd)
         | apply (describes_hangs _ _ _ _ _ Hd)].
Qed.

(** C16. A click as a tree.  [handleCanvasClick] with its events (the
    reading of the clock for the reaction time, the sixteen draws of a miss,
    the unbounded spawn after a hit) returns a game and a count of draws
    exactly when [handleCanvasClick] on fuel returns them for some fuel, and
    nothing exactly when no fuel is enough. *)
Theorem click_tree_refines gameState clickX clickY (g : Game.t num) k :
  (forall k' g',
     returns Math_random now
       (handleCanvasClickT CANVAS_WIDTH CANVAS_HEIGHT difficulty gameState
          clickX clickY g) k k' g'
     <-> exists fuel,
           handleCanvasClick Math_random CANVAS_WIDTH CANVAS_HEIGHT
             difficulty gameState fuel clickX clickY now g k
           = Some (g', k'))
  /\ (hangs Math_random now
        (handleCanvasClickT CANVAS_WIDTH CANVAS_HEIGHT difficulty gameState
           clickX clickY g) k
      <-> forall fuel,
            handleCanvasClick Math_random CANVAS_WIDTH CANVAS_HEIGHT
              difficulty gameState fuel clickX clickY now g k = None).
Proof.
  pose proof (handleCanvasClick_describes CANVAS_WIDTH CANVAS_HEIGHT
                difficulty Math_random now gameState clickX clickY g k) as Hd.
  split; [apply (describes_returns _ _ _ _ _ Hd)
         | apply (describes_hangs _ _ _ _ _ Hd)].
Qed.

End TreeClaims.

(** ** The width a session needs *)

Section TreesExact.
Local Open Scope R_scope.

Lemma farDraws_range d W k0 k :
  startWidth d < W -> 0 <= farDraws d W k0 k < 1.
Proof.
  intros HW. unfold farDraws.
  destruct d; cbn in HW; destruct (_ <=? _)%nat; try lra;
    apply ratio_range_lt; lra.
Qed.

(** With the draws of [farDraws] both spawns of a start accept their first
    candidate. *)
Lemma farDraws_start d now (a : App.t R) :
  startWidth d < CANVAS_WIDTH a ->
  is_Some (initializeGame
             (farDraws d (CANVAS_WIDTH a) (App.randomCalls a)) 1 d now a).
Proof.
  intros HW. set (M := farDraws _ _ _). set (k0 := App.randomCalls a).
  destruct (candidate M (CANVAS_WIDTH a) d k0) as [[[s1 r1] x1] k1] eqn:Hc1.
  destruct (drawVelocity M d k1) as [v1 k2] eqn:Hv1.
  destruct (candidate M (CANVAS_WIDTH a) d (S k2)) as [[[s2 r2] x2] k3] eqn:Hc2.
  destruct (drawVelocity M d k3) as [v2 k4] eqn:Hv2.
  eexists. eapply initializeGame_spawns;
    [by apply (addNewTarget_accepts _ _ _ _ 0 (Some d) now Game.init
                 _ _ _ _ _ _ _ Hc1 eq_refl Hv1)|].
  eapply (addNewTarget_accepts _ _ _ _ 0 (Some d)); [exact Hc2| |exact Hv2].
  cbn [Game.targets Game.set_targets Game.init app validPosition].
  rewrite (proj2 (tooClose_R_false _ _ _)); [done|].
  cbn [Target.x Target.radius]. revert Hc1 Hv1 Hc2. clear Hv2.
  destruct d; cbn [candidate drawVelocity];
    intros [= <- <- <- <-] [= <- <-] [= <- <- <- <-].
  all: unfold M, farDraws, coin; fold k0;
    repeat match goal with |- context [(?x <=? ?y)%nat] =>
      destruct (Nat.leb_spec x y); try lia end.
  all: rewrite ?(proj2 (ltb_false (dec 5 10) 0)) by (rewrite dec_R; lra);
    cbn [radius_of]; cbn in HW.
  all: match goal with |- _ <= Rabs ?e =>
         first [replace e with 460 by (cbn; field; lra)
               | replace e with 340 by (cbn; field; lra)] end.
  all: rewrite Rabs_pos_eq; cbn; lra.
Qed.

Variable Math_random : nat -> R.
Hypothesis random_range : forall k, 0 <= Math_random k < 1.

(** On a canvas no wider than [startWidth] no fuel is enough for the two
    spawns of a start. *)
Lemma narrow_start_blocked d now W H0 diff k :
  0 <= W <= startWidth d ->
  forall fuel,
    ('(g1, k1) ← addNewTarget Math_random W H0 diff fuel (Some d) now
                   Game.init k;
     addNewTarget Math_random W H0 diff fuel (Some d) now g1 k1) = None.
Proof.
  intros HW fuel.
  destruct (addNewTarget _ _ _ _ _ _ _ _ _) as [[g1 k1]|] eqn:H1; [|done].
  apply (second_spawn_blocked _ random_range _ _ _ _ _ _ _ _ _ HW H1).
Qed.

(** C8. Starting a session on a narrow screen does not return.  On a
    screen at most 600 wide, and in easy mode at most 840 wide, whatever
    the draws, the first target of [initializeGame] is within reach of
    every candidate of the second spawn: the tree of the two spawns returns
    nothing, and no fuel makes [initializeGame] return. *)
Theorem narrow_start_hangs d now (a : App.t R) :
  0 <= CANVAS_WIDTH a <= startWidth d ->
  hangs Math_random now
    (initializeGameT (CANVAS_WIDTH a) (CANVAS_HEIGHT a) (App.difficulty a) d)
    (App.randomCalls a)
  /\ forall fuel, initializeGame Math_random fuel d now a = None.
Proof.
  intros HW. split.
  - by apply (initializeGame_describes (CANVAS_WIDTH a) (CANVAS_HEIGHT a)),
      narrow_start_blocked.
  - intros fuel. apply eq_None_not_Some.
    intros [a' (g1 & k1 & g2 & k2 & H1 & H2 & _)%initializeGame_inv].
    pose proof (narrow_start_blocked d now _ (CANVAS_HEIGHT a)
                  (App.difficulty a) (App.randomCalls a) HW fuel) as Hnone.
    by rewrite H1 in Hnone; cbn in Hnone; rewrite H2 in Hnone.
Qed.

End TreesExact.

Section TreesLive.
Local Open Scope R_scope.

(** C23. Above that width a session can start.  On a screen wider than 600,
    and in easy mode wider than 840, there are draws in [0, 1) with which
    both spawns of [initializeGame] accept their first candidate: the tree
    of the two spawns returns a game of two targets after the draws of one
    round each.  With the theorem before, a start can return exactly on a
    screen wider than [startWidth]. *)
Theorem wide_start_returns d now (a : App.t R) :
  startWidth d < CANVAS_WIDTH a ->
  exists Math_random,
    (forall k, 0 <= Math_random k < 1)
    /\ is_Some (initializeGame Math_random 1 d now a)
    /\ exists k' g',
         returns Math_random now
           (initializeGameT (CANVAS_WIDTH a) (CANVAS_HEIGHT a)
              (App.difficulty a) d) (App.randomCalls a) k' g'
         /\ length (Game.targets g') = 2%nat.
Proof.
  intros HW. exists (farDraws d (CANVAS_WIDTH a) (App.randomCalls a)).
  split; [intros k; by apply farDraws_range|].
  pose proof (farDraws_start d now a HW) as [a' Ha]. split; [by exists a'|].
  apply initializeGame_inv in Ha as Hs.
  destruct Hs as (g1 & k1 & g2 & k2 & H1 & H2 & _). exists k2, g2. split.
  - apply (describes_returns _ _ _ _ _
             (initializeGame_describes _ _ _ _ _ _ _)).
    exists 1%nat. by rewrite H1.
  - apply addNewTarget_inv in H1 as (?&?&?&?&?&?&_&_&_&->).
    by apply addNewTarget_inv in H2 as (?&?&?&?&?&?&_&_&_&->).
Qed.

End TreesLive.

(** ** Concrete instances *)

Section TreesWitnesses.

(** The second spawn of the recorded easy session, as a tree: it returns
    the game the loop on fuel computes, after the fourth draw. *)
Lemma spawn_tree_refines_witness :
  returns Sample.random 1000
    (addNewTargetT 1920%float 1080%float easy None Sample.g1) 2 4 Sample.g2.
Proof.
  apply (spawn_tree_refines 1920%float 1080%float easy Sample.random 1000
           None Sample.g1 2).
  exists 10. vm_compute. reflexivity.
Defined.

(** A click on the centre of the first target of the recorded session: the
    spawn after the hit rejects its first candidate, and returns after
    three draws. *)
Lemma click_tree_refines_witness :
  exists g',
    returns Sample.random 2500
      (handleCanvasClickT 1920%float 1080%float easy game 575%float
         432%float (App.gameRef Scenario.started)) 4 7 g'.
Proof.
  eexists.
  apply (click_tree_refines 1920%float 1080%float easy Sample.random 2500
           game 575%float 432%float (App.gameRef Scenario.started) 4).
  exists 10. vm_compute. reflexivity.
Defined.

(** A phone held upright, 390 wide: choosing a difficulty does not
    return. *)
Lemma narrow_start_hangs_witness :
  hangs Sample.half 1000
    (initializeGameT 390%R 844%R easy hard) 0
  /\ forall fuel,
       initializeGame Sample.half fuel hard 1000
         (App.set_canvasSize (390%R, 844%R) App.init) = None.
Proof.
  apply (narrow_start_hangs Sample.half half_range hard 1000
           (App.set_canvasSize (390%R, 844%R) App.init)). cbn. lra.
Defined.

(** A full HD screen: an easy session can start. *)
Lemma wide_start_returns_witness :
  exists Math_random,
    (forall k, (0 <= Math_random k < 1)%R)
    /\ is_Some (initializeGame Math_random 1 easy 1000
                  (App.set_canvasSize (1920%R, 1080%R) App.init))
    /\ exists k' g',
         returns Math_random 1000
           (initializeGameT 1920%R 1080%R easy easy) 0 k' g'
         /\ length (Game.targets g') = 2%nat.
Proof.
  apply (wide_start_returns easy 1000
           (App.set_canvasSize (1920%R, 1080%R) App.init)).
  cbn. lra.
Defined.

End TreesWitnesses.
