(* ===== verification/Separation.v ===== *)
(** * Separation: the targets of a session without motion

    [addNewTarget] accepts a position at distance at least
    [radius + u.radius + 80] from every live target [u] (line 145 of
    [src/app/page.tsx]).  In an easy or intermediate session nothing moves
    a target afterwards (the drift of [draw] needs a velocity, the
    oscillation of [gameLoop] hard mode), so the live targets of the
    component are [apart] at all times: [separated] is an invariant of the
    reachable states of such a session, over the reals.

    It is what keeps the [while] loop of a respawn able to end: the place
    of the target that was hit is free again, and [placeDraws] are draws
    that put the new target there.  In hard mode the targets move and
    the place may be taken; on a canvas of [roomWidth] there is room
    beside the target that stays ([placeBeside]), wherever it is.  Between
    [Spawner.startWidth] and [roomWidth] a hard session can start, and a
    respawn in it can meet a blocked row ([Spawner.narrow_spawn_diverges]). *)

From Stdlib Require Import ZArith String Reals Lra Lia.
From stdpp Require Import base option list.
From S2P Require Import Prelude Number Exact Types Spawner Scoring Render Session Trees.

Local Open Scope R_scope.

(** The centres are as far apart on the row as the overlap test asks. *)
Definition apart (u v : Target.t R) : Prop :=
  Target.radius u + Target.radius v + 80 <= Rabs (Target.x u - Target.x v).

Definition separated (g : Game.t R) : Prop :=
  pairwise apart (Game.targets g).

(** The invariant: separation, in a session without motion. *)
Definition staticOk (a : App.t R) : Prop :=
  App.difficulty a <> hard -> separated (App.gameRef a).

(** A target is at a place the sampling of a canvas of this width can
    give. *)
Definition inRange (CANVAS_WIDTH : R) (v : Target.t R) : Prop :=
  Target.radius v <= Target.x v < CANVAS_WIDTH - Target.radius v.

(** Draws that put a new target where [v] is: outside easy mode the draw
    [k0] chooses the size of [v], and the draw of the position, like every
    other, is the place of [v] in the sampling range. *)
Definition placeDraws (d : Difficulty) (CANVAS_WIDTH : R) (v : Target.t R)
    (k0 k : nat) : R :=
  if (k =? k0)%nat && negb (bool_decide (d = easy))
  then match Target.size v with large => 3 / 4 | small => 1 / 4 end
  else (Target.x v - Target.radius v) / (CANVAS_WIDTH - 2 * Target.radius v).

(** The width from which one live target always leaves room for another:
    [radius * 2] for the sampling range and twice [radius + u.radius + 80],
    for the smallest candidate of the mode and the largest [u]. *)
Definition roomWidth (d : Difficulty) : R :=
  match d with easy => 1300 | _ => 1060 end.

(** A place beside the live target [u] for a target of the smallest size
    of the mode: the left end of the sampling range when [u] is far from
    it, else the least distance to the right of [u]. *)
Definition placeBeside (d : Difficulty) (u : Target.t R) : Target.t R :=
  let size := match d with easy => large | _ => small end in
  let radius := radius_of size in
  let margin := radius + Target.radius u + 80 in
  let x :=
    if decide (margin <= Rabs (radius - Target.x u)) then radius
    else Target.x u + margin in
  Target.mk R 0 x 0 radius size 0 1 0.

(** ** Spawns keep the targets apart *)

Section SeparationFacts.
Variable Math_random : nat -> R.

Lemma apart_sym u v : apart u v -> apart v u.
Proof. unfold apart. rewrite (Rabs_minus_sym (Target.x u)). lra. Qed.

(** The overlap test of the loop is [apart]. *)
Lemma tooClose_apart (v u : Target.t R) :
  tooClose (Target.x v) (Target.radius v) u = false <-> apart v u.
Proof. apply tooClose_R_false. Qed.

Lemma validPosition_apart (v : Target.t R) targets :
  validPosition (Target.x v) (Target.radius v) targets = true
  <-> Forall (fun u => apart u v) targets.
Proof.
  rewrite validPosition_Forall, !Forall_forall.
  split; intros Hall u Hu; [apply apart_sym|]; apply tooClose_apart;
    [|apply apart_sym]; by apply Hall.
Qed.

Lemma addNewTarget_separated W H0 d fuel diff now (g g' : Game.t R) k k' :
  addNewTarget Math_random W H0 d fuel diff now g k = Some (g', k') ->
  separated g -> separated g'.
Proof.
  intros (target & Ht & Hfar)%addNewTarget_valid Hsep. unfold separated.
  rewrite Ht. apply pairwise_snoc. split; [done|].
  apply (proj1 (validPosition_apart target _)).
  by apply (proj2 (validPosition_Forall _ _ _)).
Qed.

Lemma scoreHit_separated W H0 d fuel i target clickX clickY now
    (g g' : Game.t R) k k' :
  scoreHit Math_random W H0 d fuel i target clickX clickY now g k
  = Some (g', k') ->
  separated g -> separated g'.
Proof.
  unfold scoreHit. destruct (calculatePoints _ _) as [points label].
  intros Hspawn Hsep. eapply addNewTarget_separated; [exact Hspawn|].
  destruct (String.eqb label "PERFECT"); by apply pairwise_delete.
Qed.

Lemma click_separated W H0 d gs fuel clickX clickY now (g g' : Game.t R)
    k k' :
  handleCanvasClick Math_random W H0 d gs fuel clickX clickY now g k
  = Some (g', k') ->
  separated g -> separated g'.
Proof.
  intros [| |i target g1 k1 _ _ _ _ _ Hhit|]%handleCanvasClick_clicked;
    try done.
  by apply (scoreHit_separated _ _ _ _ _ _ _ _ _ _ _ _ _ Hhit).
Qed.

(** A start leaves two targets apart, in every mode. *)
Lemma initializeGame_separated fuel d now a a' :
  initializeGame Math_random fuel d now a = Some a' ->
  separated (App.gameRef a').
Proof.
  intros (g1 & k1 & g2 & k2 & H1 & H2 & ->)%initializeGame_inv.
  eapply addNewTarget_separated; [exact H2|].
  by eapply addNewTarget_separated; [exact H1|].
Qed.

(** A target without velocity is not moved. *)
Lemma moveTarget_still W (target : Target.t R) :
  Target.velocity target = 0 -> moveTarget W target = target.
Proof.
  intros Hv. unfold moveTarget. rewrite Hv.
  by rewrite (proj2 (ltb_false _ _)) by (cbn; lra).
Qed.

(** A frame of a session without motion leaves the targets where they
    are. *)
Lemma gameLoop_still now sin2t (a : App.t R) :
  appOk a -> App.difficulty a <> hard ->
  Game.targets (App.gameRef (gameLoop now sin2t a))
  = Game.targets (App.gameRef a).
Proof.
  intros ((_ & _ & Hall & _) & _) Hd. rewrite gameLoop_targets.
  transitivity (List.map (fun t => t) (Game.targets (App.gameRef a)));
    [|apply List.map_id].
  destruct (App.difficulty a); try done; apply List.map_ext_Forall;
    (eapply Forall_impl; [exact Hall|]);
    intros target (_ & _ & _ & _ & Hv); by apply moveTarget_still, Hv.
Qed.

(** Every handler keeps the invariant. *)
Lemma handled_static fuel e a a' :
  handled Math_random fuel e a a' -> appOk a -> staticOk a -> staticOk a'.
Proof.
  intros [w h a0|d now eff a0 a1 _ Hinit|stats now eff a0 a1 _ _ Hinit
          |a0 _ _|x y now a0 a1 _ Hclick|x y a0 _|now s a0 _] Hok Hst;
    unfold staticOk;
    rewrite ?gameLoopEffect_gameRef, ?gameLoopEffect_difficulty;
    eauto using initializeGame_separated.
  - revert Hclick. unfold canvasClick.
    intros ([g k] & Hclick & [= <-])%bind_Some. cbn. intros Hd.
    eapply click_separated; [exact Hclick | by apply Hst].
  - rewrite gameLoop_difficulty. intros Hd. unfold separated.
    rewrite gameLoop_still; [by apply Hst|done..].
Qed.

Lemma reachable_static a : reachable Math_random a -> staticOk a.
Proof.
  induction 1 as [|fuel e a a' Hreach IH Hstep%handle_handled];
    [by intros _ | eapply handled_static; eauto using reachable_ok].
Qed.

End SeparationFacts.

(** ** A respawn where the hit target was *)

Section Respawn.
Variables CANVAS_WIDTH CANVAS_HEIGHT : R.
Variable difficulty : Difficulty.

Lemma placeDraws_range d (v : Target.t R) k0 k :
  inRange CANVAS_WIDTH v -> 0 <= placeDraws d CANVAS_WIDTH v k0 k < 1.
Proof.
  intros [Hlo Hhi]. unfold placeDraws.
  destruct (_ && _); [destruct (Target.size v); lra|].
  apply ratio_range_lt. lra.
Qed.

(** The first candidate of a spawn with these draws is the place of [v]. *)
Lemma placeDraws_candidate d (v : Target.t R) k :
  inRange CANVAS_WIDTH v ->
  Target.radius v = radius_of (Target.size v) ->
  (d = easy -> Target.size v = large) ->
  exists k',
    candidate (placeDraws d CANVAS_WIDTH v k) CANVAS_WIDTH d k
    = (Target.size v, Target.radius v, Target.x v, k').
Proof.
  intros [Hlo Hhi] Hr Heasy. unfold candidate, placeDraws, coin.
  destruct d; rewrite ?Nat.eqb_refl, ?(proj2 (Nat.eqb_neq (S k) k)) by lia;
    cbn [andb]; case_bool_decide; try done; cbn [negb]; eexists.
  1: rewrite (Heasy eq_refl) in *.
  2,3: destruct (Target.size v);
    [rewrite (proj2 (ltb_false _ _)) by (rewrite dec_R; lra)
    |rewrite (proj2 (ltb_true _ _)) by (rewrite dec_R; lra)].
  all: rewrite <- Hr; repeat f_equal; cbn; field; lra.
Qed.

(** With these draws a spawn into a game where the place of [v] is free
    returns at its first round. *)
Lemma placeDraws_spawn (v : Target.t R) now (g : Game.t R) k :
  inRange CANVAS_WIDTH v ->
  Target.radius v = radius_of (Target.size v) ->
  (difficulty = easy -> Target.size v = large) ->
  Forall (fun u => apart u v) (Game.targets g) ->
  is_Some (addNewTarget (placeDraws difficulty CANVAS_WIDTH v k)
             CANVAS_WIDTH CANVAS_HEIGHT difficulty 1 None now g k).
Proof.
  intros Hin Hr Heasy Hfree.
  destruct (placeDraws_candidate difficulty v k Hin Hr Heasy) as [k1 Hc].
  destruct (drawVelocity (placeDraws difficulty CANVAS_WIDTH v k)
              difficulty k1) as [velocity k2] eqn:Hv.
  eexists. eapply (addNewTarget_accepts _ _ _ _ 0 None);
    [exact Hc | by apply validPosition_apart | exact Hv].
Qed.

(** [placeBeside] is a place of the sampling range, apart from [u], on a
    canvas of [roomWidth]. *)
Lemma placeBeside_room d (u : Target.t R) :
  roomWidth d <= CANVAS_WIDTH ->
  Target.radius u = radius_of (Target.size u) ->
  (d = easy -> Target.size u = large) ->
  inRange CANVAS_WIDTH (placeBeside d u)
  /\ Target.radius (placeBeside d u) = radius_of (Target.size (placeBeside d u))
  /\ (d = easy -> Target.size (placeBeside d u) = large)
  /\ apart u (placeBeside d u).
Proof.
  intros HW Hr Heasy. unfold placeBeside, inRange, apart.
  cbn [Target.x Target.radius Target.size]. rewrite Hr.
  destruct d; [rewrite (Heasy eq_refl)|destruct (Target.size u)..];
    cbn in *; case_decide as Hfar; revert Hfar;
    unfold Rabs; repeat destruct (Rcase_abs _); intros; repeat split;
    try done; lra.
Qed.

End Respawn.

(** ** A session that has started *)

(** On a canvas wider than [startWidth], the state after the choice of a
    difficulty with the draws of [farDraws]: a running game of two targets,
    the second on the spawn row at a place of the sampling range. *)
Lemma started_state d (now effectNow : Z) W H0 :
  startWidth d < W ->
  exists a u v,
    reachable (farDraws d W 0) a
    /\ App.gameState a = game /\ App.difficulty a = d
    /\ App.canvasSize a = (W, H0)
    /\ Game.targets (App.gameRef a) = [u; v]
    /\ Target.y v = TARGET_SPAWN_Y H0 /\ inRange W v.
Proof.
  intros HW. set (a0 := App.set_canvasSize (W, H0) App.init).
  assert (380 < W) as HW' by (destruct d; cbn in HW; lra).
  destruct (farDraws_start d now a0 HW) as [a1 Ha1].
  change (farDraws d _ _) with (farDraws d W 0) in Ha1.
  apply initializeGame_inv in Ha1 as Hs.
  destruct Hs as (g1 & k1 & g2 & k2 & H1 & H2 & Ha).
  apply addNewTarget_inv in H1 as (?&?&?&?&?&?&_&_&_&->).
  eapply spawn_in_range in H2 as (v & Hv & Hy & Hin);
    [|intros k; by apply farDraws_range|done].
  exists (gameLoopEffect effectNow a1). eexists _, v. split.
  - apply (reachable_step _ 1 (SelectDifficulty d now effectNow) a0);
      [apply (reachable_step _ 0 (Resize W H0) App.init), eq_refl;
       constructor|].
    cbn [handle App.gameState a0 App.set_canvasSize App.init].
    by rewrite Ha1.
  - rewrite gameLoopEffect_gameRef, Ha. unfold gameLoopEffect. cbn.
    by rewrite Hv.
Qed.

Section SeparationClaims.
Variable Math_random : nat -> R.

(** C6. The targets of an easy or intermediate session never overlap.  In
    every reachable state of a session that is not hard, the centres of any
    two live targets are at least the sum of their radii and 80 apart on
    the row: the margin of the spawn is kept for as long as the targets
    live. *)
Theorem static_targets_apart a i j u v :
  reachable Math_random a -> App.difficulty a <> hard -> i <> j ->
  Game.targets (App.gameRef a) !! i = Some u ->
  Game.targets (App.gameRef a) !! j = Some v ->
  apart u v.
Proof.
  intros Hsep%reachable_static Hd Hij Hu Hv.
  by apply (pairwise_lookup apart _ j i v u apart_sym (Hsep Hd)).
Qed.

(** In a session without motion the place of the hit target is free. *)
Lemma free_place_static a i v :
  reachable Math_random a -> App.difficulty a <> hard ->
  Game.targets (App.gameRef a) !! i = Some v ->
  Forall (fun u => apart u v) (delete i (Game.targets (App.gameRef a))).
Proof.
  intros Ha Hd Hi.
  by apply (pairwise_lookup_delete apart i _ v apart_sym
              (reachable_static _ _ Ha Hd)).
Qed.

(** On a canvas of [roomWidth] there is a free place beside the target
    that stays. *)
Lemma free_place_room a i v :
  reachable Math_random a -> App.gameState a = game ->
  Game.targets (App.gameRef a) !! i = Some v ->
  roomWidth (App.difficulty a) <= CANVAS_WIDTH a ->
  exists p,
    inRange (CANVAS_WIDTH a) p
    /\ Target.radius p = radius_of (Target.size p)
    /\ (App.difficulty a = easy -> Target.size p = large)
    /\ Forall (fun u => apart u p) (delete i (Game.targets (App.gameRef a))).
Proof.
  intros Ha Hgame Hi HW.
  pose proof (reachable_ok _ _ Ha) as ((_ & _ & Hall & _) & Hlen & _).
  specialize (Hlen Hgame).
  destruct (Game.targets (App.gameRef a)) as [|t0 [|t1 [|]]]; try done.
  apply Forall_cons in Hall as [H0 [H1 _]%Forall_cons].
  destruct i as [|[|i]]; [exists (placeBeside (App.difficulty a) t1)
                         |exists (placeBeside (App.difficulty a) t0)|done];
    [destruct H1 as (Hr & _ & _ & Heasy & _)
    |destruct H0 as (Hr & _ & _ & Heasy & _)];
    (destruct (placeBeside_room _ _ _ HW Hr Heasy) as (?&?&?&?);
     repeat (split; [done|]); by apply Forall_singleton).
Qed.

(** A hit whose respawn has a free place is handled, with the draws that
    lead there. *)
Lemma click_at_place a clickX clickY now i v p :
  (clickY >? NET_Y (CANVAS_HEIGHT a))%num = false ->
  scanBackward (isHit clickX clickY)
    (length (Game.targets (App.gameRef a))) (Game.targets (App.gameRef a))
  = Some (i, v) ->
  inRange (CANVAS_WIDTH a) p ->
  Target.radius p = radius_of (Target.size p) ->
  (App.difficulty a = easy -> Target.size p = large) ->
  Forall (fun u => apart u p) (delete i (Game.targets (App.gameRef a))) ->
  exists draws,
    (forall k, 0 <= draws k < 1)
    /\ is_Some (handleCanvasClick draws (CANVAS_WIDTH a) (CANVAS_HEIGHT a)
                  (App.difficulty a) game 1 clickX clickY now
                  (App.gameRef a) (App.randomCalls a)).
Proof.
  intros Hnet Hscan Hin Hr Heasy Hfree.
  exists (placeDraws (App.difficulty a) (CANVAS_WIDTH a) p (App.randomCalls a)).
  split; [intros k; by apply placeDraws_range|].
  unfold handleCanvasClick. rewrite Hnet, Hscan. unfold scoreHit.
  destruct (calculatePoints _ _) as [points label].
  apply placeDraws_spawn; try done.
  by destruct (String.eqb label "PERFECT").
Qed.

(** C24. After a hit the respawn can return.  In a reachable state of a
    running game, a click that hits a target is handled for some draws in
    [0, 1), already with fuel 1, in two cases: in an easy or intermediate
    session when the hit target is at a place the sampling can give (the
    canvas was not resized since), for its place is free again; and in
    every mode on a canvas at least 1060 wide (1300 in easy mode), where
    there is room beside the target that stays, wherever it is. *)
Theorem respawn_possible a clickX clickY now i v :
  reachable Math_random a -> App.gameState a = game ->
  (clickY >? NET_Y (CANVAS_HEIGHT a))%num = false ->
  scanBackward (isHit clickX clickY)
    (length (Game.targets (App.gameRef a))) (Game.targets (App.gameRef a))
  = Some (i, v) ->
  App.difficulty a <> hard /\ inRange (CANVAS_WIDTH a) v
  \/ roomWidth (App.difficulty a) <= CANVAS_WIDTH a ->
  exists draws,
    (forall k, 0 <= draws k < 1)
    /\ is_Some (handleCanvasClick draws (CANVAS_WIDTH a) (CANVAS_HEIGHT a)
                  (App.difficulty a) game 1 clickX clickY now
                  (App.gameRef a) (App.randomCalls a)).
Proof.
  intros Ha Hgame Hnet Hscan Hroom.
  apply scanBackward_Some in Hscan as Hi. destruct Hi as (_ & Hi & _).
  destruct Hroom as [[Hd Hin]|HW].
  - pose proof (reachable_ok _ _ Ha) as ((_ & _ & Hall & _) & _).
    eapply Forall_lookup_1 in Hall as (Hr & _ & _ & Heasy & _); [|exact Hi].
    eapply click_at_place; eauto using free_place_static.
  - destruct (free_place_room a i v Ha Hgame Hi HW) as (p & ? & ? & ? & ?).
    by eapply click_at_place.
Qed.

End SeparationClaims.

(** ** Concrete instances *)

Section SeparationWitnesses.

(** An easy session started on a full HD screen: its two targets are
    apart. *)
Lemma static_targets_apart_witness :
  exists a u v,
    reachable (farDraws easy 1920 0) a
    /\ Game.targets (App.gameRef a) = [u; v] /\ apart u v.
Proof.
  destruct (started_state easy 1000 1010 1920 1080)
    as (a & u & v & Ha & _ & Hd & _ & Ht & _); [cbn; lra|].
  exists a, u, v. split; [done|]. split; [done|].
  apply (static_targets_apart (farDraws easy 1920 0) a 0 1 u v Ha);
    [by rewrite Hd | done | by rewrite Ht..].
Defined.

(** An intermediate session started on a full HD screen, and a click on
    the centre of its second target: there are draws with which the click
    is handled. *)
Lemma respawn_possible_witness :
  exists a v draws,
    reachable (farDraws intermediate 1920 0) a
    /\ (forall k, 0 <= draws k < 1)
    /\ is_Some (handleCanvasClick draws (CANVAS_WIDTH a) (CANVAS_HEIGHT a)
                  (App.difficulty a) game 1 (Target.x v) (Target.y v) 2000
                  (App.gameRef a) (App.randomCalls a)).
Proof.
  destruct (started_state intermediate 1000 1010 1920 1080)
    as (a & u & v & Ha & Hgs & Hd & Hsize & Ht & Hy & Hin); [cbn; lra|].
  pose proof (reachable_ok _ _ Ha) as ((_ & _ & Hall & _) & _).
  rewrite Ht in Hall. apply Forall_cons in Hall as [_ [(Hr & _) _]%Forall_cons].
  destruct (respawn_possible (farDraws intermediate 1920 0) a
              (Target.x v) (Target.y v) 2000 1 v Ha Hgs)
    as (draws & Hrange & Hclick); [| | |by exists a, v, draws].
  - unfold CANVAS_HEIGHT. rewrite Hsize, Hy. apply ltb_false.
    unfold NET_Y, TARGET_SPAWN_Y. rewrite !dec_R. cbn. lra.
  - rewrite Ht. cbn [length scanBackward lookup list_lookup].
    assert (0 <= Target.radius v) as Hpos
      by (rewrite Hr; destruct (Target.size v); cbn; lra).
    rewrite (proj2 (isHit_disc _ _ v Hpos)); [done|nra].
  - left. rewrite Hd. unfold CANVAS_WIDTH. by rewrite Hsize.
Defined.

End SeparationWitnesses.
