(* ===== verification/Freeze.v ===== *)
(** * Freeze: hard sessions that stop at their first hit

    On every screen wide enough for a session to start
    ([Spawner.startWidth]) and narrower than [Separation.roomWidth], a run
    of the component over the reals: the start of a hard session whose
    first target is spawned as far from the left end of the sampling range
    as the margin asks, and whose second target is spawned at that end; one
    animation frame, in which the oscillation and the drift move the first
    target a little to the left ([FreezeSample.slip]); and a click on the
    second target.  The first target is then within reach of both ends of
    the sampling range for both sizes, and the [while] loop of the respawn
    rejects every candidate, whatever [Math.random()] returns from then on:
    the click handler does not return ([Trees.hangs]), and the run is not
    handled for any fuel.

    The states are not computed (the reals do not evaluate): each handler
    is followed by the facts the next one needs ([onSample], [moving],
    [placed]). *)

From Stdlib Require Import ZArith String Reals Lra Lia.
From stdpp Require Import base option list.
From S2P Require Import Prelude Number Exact Types Spawner Scoring Render Session.
From S2P Require Import Trees.

Local Open Scope R_scope.

Module FreezeSample.

(** The size of the first target: small on the narrower screens, large
    from 940 on, where a small target leaves room beside it. *)
Definition first (W : R) : Size := if (W <? 940)%num then small else large.

(** The first eight draws: the size of the first target, its position at
    340 from the left end of its sampling range, the least velocity and
    the direction +1; a second target that is small, at the left end of
    its range, with the least velocity and the direction -1. *)
Definition draws (W : R) (k : nat) : R :=
  match k with
  | 0%nat => match first W with large => 3 / 4 | small => 0 end
  | 1%nat => 340 / (W - radius_of (first W) * 2)
  | 3%nat => 3 / 4
  | _ => 0
  end.

(** How far the first frame moves the first target to the left, and the
    [Math.sin(time * 2)] of that frame: the oscillation takes the target
    half a unit and [slip] to the left, the drift half a unit back. *)
Definition slip (W : R) : R := (680 + radius_of (first W) * 2 - W) / 1000.

Definition swing (W : R) : R := - (1 / 2 + slip W) / 2.

(** The choice of hard mode at clock reading 1000 and the first frame,
    16 ms after the loop started; then a click on the centre of the second
    target. *)
Definition opening (W H0 : R) : list (@Event R) :=
  [Resize W H0; SelectDifficulty hard 1000 1010; Frame 1026 (swing W)].

Definition session (W H0 : R) : list (@Event R) :=
  opening W H0 ++ [Click (259 / 2) (TARGET_SPAWN_Y H0) 2000].

End FreezeSample.

(** The first eight draws are those of the sample. *)
Definition agrees (W : R) (Math_random : nat -> R) : Prop :=
  forall k, (k < 8)%nat -> Math_random k = FreezeSample.draws W k.

(** A target of radius [r] on the spawn row at [x], and one that moves
    with the least velocity. *)
Definition placed (H0 x r : R) (target : Target.t R) : Prop :=
  Target.x target = x /\ Target.y target = TARGET_SPAWN_Y H0
  /\ Target.radius target = r.

Definition moving (H0 x r direction : R) (target : Target.t R) : Prop :=
  placed H0 x r target
  /\ Target.velocity target = 1 / 2 /\ Target.direction target = direction.

(** A running hard game on the screen of the sample. *)
Definition onSample (W H0 : R) (a : App.t R) : Prop :=
  App.gameState a = game /\ App.difficulty a = hard
  /\ App.canvasSize a = (W, H0) /\ App.loopCanvasWidth a = W
  /\ App.animationRef a = true /\ App.startTime a = 1010%Z.

Section FreezeFacts.
Variables W H0 : R.
Hypothesis width : 600 < W < 1060.
Hypothesis height : 0 <= H0.
Variable Math_random : nat -> R.
Hypothesis random_range : forall k, 0 <= Math_random k < 1.
Hypothesis sample_draws : agrees W Math_random.

Abbreviation first := (FreezeSample.first W).
Abbreviation r1 := (radius_of (FreezeSample.first W) : R).
Abbreviation slip := (FreezeSample.slip W).

(** The first target fits beside the second at the start, and not after
    the slip. *)
Lemma sample_fits :
  (r1 = 130 \/ r1 = 190) /\ 340 + r1 * 2 < W < 680 + r1 * 2
  /\ 0 < slip < 1 / 2 /\ slip * 1000 = 680 + r1 * 2 - W.
Proof using width.
  unfold FreezeSample.slip, FreezeSample.first.
  destruct (W <? 940)%num eqn:E; [apply ltb_true in E|apply ltb_false in E];
    cbn; lra.
Qed.

(** The place of the first target. *)
Lemma first_place : 340 / (W - r1 * 2) * (W - r1 * 2) + r1 = 340 + r1.
Proof using width. destruct sample_fits as (_ & ? & _). field. lra. Qed.

(** The two candidates of the start. *)
Lemma sample_candidates :
  candidate Math_random W hard 0
  = (first, r1, 340 / (W - r1 * 2) * (W - r1 * 2) + r1, 2%nat)
  /\ candidate Math_random W hard 4
     = (small, 130, 0 * (W - 130 * 2) + 130, 6%nat).
Proof using sample_draws.
  unfold candidate, coin.
  rewrite (sample_draws 0%nat), (sample_draws 1%nat), (sample_draws 4%nat),
    (sample_draws 5%nat) by lia.
  unfold FreezeSample.draws.
  destruct (FreezeSample.first W);
    rewrite ?(proj2 (ltb_false _ 0)), ?(proj2 (ltb_true _ (3 / 4)))
      by (rewrite dec_R; lra); done.
Qed.

(** The start: both spawns accept their first candidate. *)
Lemma freeze_start fuel :
  exists a t1 t2,
    handle Math_random (S fuel) (SelectDifficulty hard 1000 1010)
      (updateCanvasSize W H0 App.init) = Some a
    /\ onSample W H0 a /\ Game.targets (App.gameRef a) = [t1; t2]
    /\ moving H0 (340 + r1) r1 1 t1 /\ moving H0 130 130 (-1) t2.
Proof using sample_draws width.
  destruct sample_candidates as [Hc1 Hc2].
  pose proof (addNewTarget_accepts Math_random W H0 easy fuel (Some hard)
                1000 Game.init 0 _ _ _ _ _ _ Hc1 eq_refl eq_refl) as H1.
  match type of H1 with _ = Some (?g, _) => set (g1 := g) in * end.
  assert (validPosition (0 * (W - 130 * 2) + 130) 130 (Game.targets g1)
          = true) as Hfree.
  { subst g1. cbn [Game.targets Game.set_targets Game.init app validPosition].
    rewrite (proj2 (tooClose_R_false _ _ _)); [done|].
    cbn [Target.x Target.radius]. rewrite first_place.
    destruct sample_fits as (? & _). rewrite Rabs_left; lra. }
  pose proof (addNewTarget_accepts Math_random W H0 easy fuel (Some hard)
                1000 g1 4 _ _ _ _ _ _ Hc2 Hfree eq_refl) as H2.
  eexists _, _, _. split; [|split; [|split]].
  - cbn [handle updateCanvasSize App.gameState App.set_canvasSize App.init].
    by erewrite initializeGame_spawns; [|exact H1|exact H2].
  - done.
  - reflexivity.
  - unfold moving, placed.
    cbn [Target.x Target.y Target.radius Target.velocity Target.direction].
    rewrite first_place, (sample_draws 2%nat), (sample_draws 3%nat),
      (sample_draws 6%nat), (sample_draws 7%nat) by lia.
    unfold FreezeSample.draws, coin.
    rewrite (proj2 (ltb_false _ 0)), (proj2 (ltb_true _ (3 / 4)))
      by (rewrite dec_R; lra).
    rewrite ?dec_R. cbn. repeat split; lra.
Qed.

(** One frame of a hard game on a target of the least velocity: the
    oscillation with its clamp, then the drift. *)
Lemma frame_step x r direction s (target : Target.t R) :
  moving H0 x r direction target ->
  placed H0 (Rmax r (Rmin (W - r) (x + s * 2)) + direction * (1 / 2)) r
    (moveTarget W (oscillate W s target)).
Proof.
  intros ((Hx & Hy & Hr) & Hv & Hd). unfold moveTarget, oscillate, placed.
  cbn [Target.x Target.y Target.radius Target.velocity Target.direction
       Target.set_x Math_max Math_min Number_R].
  rewrite Hx, Hr, Hv, Hd, (proj2 (ltb_true _ _)) by (cbn; lra).
  by repeat destruct (ltb _ _).
Qed.

(** The first target ends the frame [slip] to the left of its place. *)
Lemma first_slips (t1 : Target.t R) :
  moving H0 (340 + r1) r1 1 t1 ->
  placed H0 (340 + r1 - slip) r1
    (moveTarget W (oscillate W (FreezeSample.swing W) t1)).
Proof using width.
  destruct sample_fits as (Hr & HW & He & _).
  intros (Hx & H)%(frame_step _ _ _ (FreezeSample.swing W)).
  split; [|done]. rewrite Hx. unfold FreezeSample.swing.
  rewrite Rmin_right, Rmax_right; lra.
Qed.

(** The second target is held at the left end by the clamp, and drifts
    half a unit past it. *)
Lemma second_stays (t2 : Target.t R) :
  moving H0 130 130 (-1) t2 ->
  placed H0 (259 / 2) 130
    (moveTarget W (oscillate W (FreezeSample.swing W) t2)).
Proof using width.
  destruct sample_fits as (Hr & HW & He & _).
  intros (Hx & H)%(frame_step _ _ _ (FreezeSample.swing W)).
  split; [|done]. rewrite Hx. unfold FreezeSample.swing.
  rewrite Rmin_right, Rmax_left; lra.
Qed.

(** After the first frame the game runs on, with the targets at their new
    places. *)
Lemma freeze_frame a t1 t2 :
  onSample W H0 a -> Game.targets (App.gameRef a) = [t1; t2] ->
  moving H0 (340 + r1) r1 1 t1 -> moving H0 130 130 (-1) t2 ->
  let a' := gameLoop 1026 (FreezeSample.swing W) a in
  exists t1' t2',
    App.gameState a' = game /\ App.canvasSize a' = (W, H0)
    /\ Game.targets (App.gameRef a') = [t1'; t2']
    /\ placed H0 (340 + r1 - slip) r1 t1' /\ placed H0 (259 / 2) 130 t2'.
Proof using width.
  intros (Hgs & Hd & Hsize & HW & _ & Hstart) Ht H1 H2 a'.
  destruct (gameLoop_timeLeft 1026 (FreezeSample.swing W) a)
    as (_ & Hgame & _).
  rewrite Hstart, (proj2 (ltb_true _ _)), Hgs in Hgame;
    [|change (1026 - 1010)%Z with 16%Z; cbn; unfold Rmax;
      destruct (Rle_dec _ _); lra].
  eexists _, _. split; [exact Hgame|]. split.
  - rewrite <- Hsize. unfold a', gameLoop. split_if; [done|].
    unfold gameLoopEffect. by destruct (App.gameState _).
  - unfold a'. rewrite gameLoop_targets, Hd, HW, Ht.
    split; [reflexivity|].
    split; [by apply first_slips|by apply second_stays].
Qed.

(** Where the first target is after the frame, it is in the way of the
    candidates of both sizes. *)
Lemma first_blocks (t1 : Target.t R) :
  placed H0 (340 + r1 - slip) r1 t1 ->
  blocksSize W 190 t1 /\ blocksSize W 130 t1.
Proof using width.
  destruct sample_fits as (Hr & HW & He & Hslip).
  intros (Hx & _ & Hrad). unfold blocksSize. rewrite Hx, Hrad.
  unfold Rabs. repeat destruct (Rcase_abs _); lra.
Qed.

(** The click on the second target: the first is in the way of every
    candidate of the respawn. *)
Lemma freeze_respawn fuel a t1 t2 :
  App.gameState a = game -> App.canvasSize a = (W, H0) ->
  Game.targets (App.gameRef a) = [t1; t2] ->
  placed H0 (340 + r1 - slip) r1 t1 -> placed H0 (259 / 2) 130 t2 ->
  handleCanvasClick Math_random (CANVAS_WIDTH a) (CANVAS_HEIGHT a)
    (App.difficulty a) (App.gameState a) fuel (259 / 2) (TARGET_SPAWN_Y H0)
    2000 (App.gameRef a) (App.randomCalls a) = None.
Proof using random_range width height.
  intros Hgs Hsize Ht [H190 H130]%first_blocks (Hx2 & Hy2 & Hr2).
  unfold handleCanvasClick, CANVAS_WIDTH, CANVAS_HEIGHT.
  rewrite Hgs, Hsize, Ht. cbn [fst snd length scanBackward lookup list_lookup].
  rewrite (proj2 (ltb_false _ _))
    by (unfold NET_Y, TARGET_SPAWN_Y; rewrite !dec_R; cbn; lra).
  rewrite (proj2 (isHit_disc _ _ t2 ltac:(lra)))
    by (rewrite Hx2, Hy2, Hr2; lra).
  unfold scoreHit. destruct (calculatePoints _ _) as [points label].
  unfold addNewTarget. rewrite placement_all_rejected; [done|].
  intros k. apply (blocked_size _ random_range W t1); [done..|].
  destruct (String.eqb label "PERFECT"); cbn; rewrite Ht; by left.
Qed.

(** The run up to the click. *)
Lemma freeze_opening fuel :
  exists a t1 t2,
    run Math_random (S fuel) (FreezeSample.opening W H0) App.init = Some a
    /\ App.gameState a = game /\ App.canvasSize a = (W, H0)
    /\ Game.targets (App.gameRef a) = [t1; t2]
    /\ placed H0 (340 + r1 - slip) r1 t1 /\ placed H0 (259 / 2) 130 t2.
Proof using sample_draws width.
  destruct (freeze_start fuel) as (a & t1 & t2 & Ha & Hon & Ht & H1 & H2).
  destruct (freeze_frame a t1 t2 Hon Ht H1 H2)
    as (t1' & t2' & Hgs & Hsize & Ht' & H1' & H2').
  eexists _, t1', t2'. split; [|done].
  destruct Hon as (_ & _ & _ & _ & Hanim & _).
  unfold FreezeSample.opening. cbn [run].
  change (handle Math_random (S fuel) (Resize W H0) App.init)
    with (Some (updateCanvasSize W H0 App.init)). cbn [mbind option_bind].
  rewrite Ha. cbn [mbind option_bind]. unfold handle. by rewrite Hanim.
Qed.

(** C21. A hard session can freeze at its first hit, on every screen wider
    than 600 and narrower than 1060.  With eight draws that put the first
    target 340 from the left end of its range and the second at the left
    end, the start of a hard session and one frame, whose [Math.sin] is
    between -1 and 1, are handled and leave a running game in which the
    click on the second target does not return, whatever [Math.random()]
    gives after the start: the target that stays has moved to where no
    candidate of the respawn is accepted.  So the run with the click ends
    for no fuel. *)
Theorem hard_session_freezes :
  -1 <= FreezeSample.swing W <= 1
  /\ (exists a,
        run Math_random 1 (FreezeSample.opening W H0) App.init = Some a
        /\ App.gameState a = game
        /\ hangs Math_random 2000
             (handleCanvasClickT (CANVAS_WIDTH a) (CANVAS_HEIGHT a)
                (App.difficulty a) (App.gameState a) (259 / 2)
                (TARGET_SPAWN_Y H0) (App.gameRef a))
             (App.randomCalls a))
  /\ forall fuel,
       run Math_random fuel (FreezeSample.session W H0) App.init = None.
Proof using random_range sample_draws width height.
  split; [|split].
  - destruct sample_fits as (_ & _ & He & _). unfold FreezeSample.swing. lra.
  - destruct (freeze_opening 0) as (a & t1 & t2 & Ha & Hgs & Hsize & H).
    destruct H as (Ht & H1 & H2). exists a. split; [done|]. split; [done|].
    eapply describes_hangs; [apply handleCanvasClick_describes|].
    intros fuel. by eapply freeze_respawn.
  - intros [|fuel]; [done|].
    destruct (freeze_opening fuel) as (a & t1 & t2 & Ha & Hgs & Hsize & H).
    destruct H as (Ht & H1 & H2).
    pose proof (freeze_respawn (S fuel) a t1 t2 Hgs Hsize Ht H1 H2) as Hc.
    unfold FreezeSample.session.
    rewrite (run_app _ _ _ _ _ _ Ha). cbn [run]. unfold handle, canvasClick.
    by rewrite Hc, Hgs.
Qed.

End FreezeFacts.

(** ** A concrete instance *)

Section FreezeWitnesses.

(** The draws of the sample are in the range of [Math.random()]. *)
Lemma sample_draws_range W k :
  600 < W < 1060 -> 0 <= FreezeSample.draws W k < 1.
Proof.
  intros HW. destruct (sample_fits W HW) as (Hr & Hfit & _).
  assert (0 <= 340 / (W - radius_of (FreezeSample.first W) * 2) < 1).
  { split; [apply Rlt_le, Rdiv_lt_0_compat; lra|].
    apply Rmult_lt_reg_r with (W - radius_of (FreezeSample.first W) * 2);
      [lra|].
    unfold Rdiv. rewrite Rmult_assoc, Rinv_l; lra. }
  unfold FreezeSample.draws.
  destruct k as [|[|[|[|k]]]]; try destruct (FreezeSample.first W); lra.
Qed.

(** On a screen of 1024 x 768, with the draws of the sample for ever: the
    run does not end with fuel 1000. *)
Lemma hard_session_freezes_witness :
  run (FreezeSample.draws 1024) 1000 (FreezeSample.session 1024 768)
    App.init = None.
Proof.
  assert (600 < 1024 < 1060) as HW by lra.
  apply (hard_session_freezes 1024 768 HW ltac:(lra) (FreezeSample.draws 1024)
           (fun k => sample_draws_range 1024 k HW) (fun k _ => eq_refl)).
Defined.

End FreezeWitnesses.
